(* ===== verification/_CoqProject ===== *)
-Q . S2P
Prelude.v
JsString.v
JsDate.v
Validation.v
TextField.v
DateField.v
FileSelection.v
CounterTimer.v
Backend.v
ApiClient.v
Interfaces.v
ApiContract.v
BuildScript.v
Onboarding.v
Form.v
FormSubmit.v
