(* ===== verification/Prelude.v ===== *)
(** * Onboarding Platform: a verification development

    The repository is a React Native onboarding form, the HTTP client it
    posts with, the Cloudflare worker it posts to, and two build scripts.
    Its parts, and how they talk to each other:

    - the rule-based validation engine of [CustomTextInput] ([validate] in
      src/types/onboarding.ts, where the TextInput component is shipped
      after the type declarations), which the text field runs on every
      change and blur;
    - the text-field controller of the same component (touched and focused
      flags, controlled or uncontrolled value, [handleChangeText],
      [handleFocus], [handleBlur], [hasError], [isSuccess], the rendered
      border, icons, messages and character count), which reports to the
      form through [onChangeText] and [onValidate];
    - the date field [CalendarPicker] (src/components/onboarding/
      CalendarPicker.tsx: [formatDate], [parseDate], [validateDate],
      [handleTextChange], [handleBlur], [handleDateSelect], [handleClear],
      the calendar modal and the render), which reports through [onChange];
    - the multi-file picker [FilePicker] (src/unnamed/part_001:
      [formatFileSize], [getFileExtension], [isFileTypeAllowed],
      [validateFiles], the asynchronous [handlePickFiles],
      [handleRemoveFile], [handleClearAll], the render), which reports
      through [onChange];
    - the animated counter [CounterTimer] (src/unnamed/part_002: a
      four-state timer whose progress is a reanimated shared value driven
      by [withTiming], whose completion is posted back with [runOnJS], and
      its render with [getStateColor]);
    - the form [OnboardingScreen] and [OnboardingService]
      (src/services/onboarding.service.ts): the form keeps the fields'
      values, renders the four components with its props, enables its
      button with [isFormValid], checks the request with
      [validateOnboardingData] and posts it with [submitOnboarding] (or
      reads one back with [getOnboardingById]) through
    - the HTTP client [ApiClient] of src/utils/api.ts (axios with a session
      header and [handleError]) to
    - the worker (src/backend/worker.js), which answers CORS preflights,
      validates the body again, stores a record and an e-mail index entry
      in a KV namespace, and serves records back by id;
    - the TypeScript interfaces of src/types/onboarding.ts, which say what
      the client expects of these JSON values;
    - the build scripts src/unnamed/part_003 (PowerShell) and
      src/scripts/build-apk.sh (bash);
    - the README (src/unnamed/part_000), whose API contract and data model
      say what the worker answers and what a request must satisfy.

    ** Files, in dependency order

    - [Prelude] (this file): the [js_scope] notations ([===], [!!s], the
      [x <- m ;; k] bind of [js_result]), the [js_result] type of code that
      may throw, the [Outcome] of an event handler (new state, callbacks
      made in order, escaping exception), the [onboarding] hint databases,
      the tactics [js_bool] and [case_ifs], and the generic lemmas on sums,
      sublists and [find].
    - [JsString]: the string built-ins the code calls ([trim], [split] on
      one character, [parseInt] base 10, [String(n)], [padStart],
      [toLowerCase], [toUpperCase], [lastIndexOf], [slice], [substring],
      [startsWith], [endsWith], [includes], [join], [x >>> 0]).  A string
      is a Rocq [string] of Latin-1 code units.
    - [JsDate]: the ECMAScript day arithmetic of [Date] ([Day],
      [DayFromYear], [YearFromTime], [MonthFromTime], [DateFromTime],
      [MakeDay], [MakeDate], [TimeClip]) with a fixed local offset, and the
      lemmas that the getters invert [MakeDay] on valid calendar dates.
    - [Validation], Module [ValidationEngine]: [ValidationRule], the
      cumulative [validate], the e-mail regular expression as an executable
      matcher equal to its language, and the [RuleEngine] class, the
      interface the text field is proved against.
    - [TextField], Module [TextInput], Section [Controller]:
      [CustomTextInput] as state passing over [TextInputState], the
      parent's echo of [onChangeText] in the controlled mode, reachability,
      and after the section [render_input] over the engine's rules.
    - [DateField], Section [CalendarPicker] (variable [tz], the local
      offset): the date field's functions, handlers and [render_date].
    - [FileSelection], Module [FilePicker], Section [Picker] (variable
      [formatFileSize], the component's formatter): [handlePickFiles]
      split at its [await] into [pick_request] and [pick_resume], the other
      handlers, [render_picker], and the [FileMachine] step relation with
      at most one picker request outstanding; after the section the
      concrete [formatFileSize].
    - [CounterTimer], Module [AnimatedCounter], Section [Counter] (the two
      bezier easings, with the laws of the [Easing] class): the [Timer]
      state (React state, shared value, running animation, clock, the
      JavaScript thread's [runOnJS] queue), [counter_step], one event of
      the user, the clock, the JavaScript thread or the 16 ms sampler, and
      [render].
    - [Backend]: JSON values, [validateOnboardingData], [generateId], the
      handlers and [fetch] over the KV namespace as a stdpp [gmap], the
      CORS headers and the JSON bodies the worker sends.
    - [ApiClient], Module [Api]: the client's constructor, interceptors,
      [handleError] and [get]/[post]/[put]/[delete] over the [Transport]
      class, whose instance [worker_transport] is the worker.
    - [Interfaces]: the TypeScript interfaces as types of a small
      structural type language, decided on JSON values by [conforms].
    - [ApiContract], Module [ApiContract]: the README's example requests
      as JSON values, its example answers as the types of what they show,
      and the constraints of its data model as [readme_payload_ok].
    - [BuildScript]: both build scripts as the steps they perform on a
      [Machine].
    - [Onboarding], Modules [OnboardingService] and [OnboardingScreen]: the
      client's check, the payload, [submitOnboarding] both as a summary
      over [Backend.fetch] and through the HTTP client, [getOnboardingById],
      [mockSubmitOnboarding], the form's [isFormValid], [handleSubmit]
      split at its [await] into [handleSubmit_begin] and
      [handleSubmit_settle] (the handler run to its end is their
      composition), [handleReset] and [render_screen], and the form
      composed with the [FilePicker] state.
    - [Form], Module [Form]: the whole screen as one machine.  A [Form]
      holds the screen's cells, the state of each child (both text inputs,
      the calendar, the picker with its outstanding request) and the
      worker's store; [form_step] runs one user event through the child
      that receives it, with the props of the current render, and applies
      the child's callbacks ([setName], [setIsEmailValid],
      [setStartDate], [setDocuments], ...) to the cells; the submit and
      reset buttons run [press_submit] and [handleReset].  While the
      calendar's modal or the document picker is open only their events
      arrive.  The submit button only starts [handleSubmit], which the
      form holds suspended at its [await] ([submission]) until the
      answer arrives as an event of its own; [form_reachable] is the
      closure over events.
    - [FormSubmit], Module [Submission]: what holds of the suspended
      submission, with any events between the press and the answer.

    ** What is proved

    - Functional behaviour of every operation on every branch, errors
      included: [validate] against the reference [satisfies], the
      aggregate checks [validateDate], [validateFiles] and the worker's
      validation as exact characterisations, the filter and commit stages
      of [handlePickFiles], the routing and answers of the worker, and the
      client's [handleError] on every worker error.
    - Invariants of every stateful component over its reachable states,
      by rule induction: the touched/errors invariant of the text field
      and what its render shows, the limits of the file list, the timer's
      progress bounds and state discipline, the KV store's record/index
      discipline.
    - Bounds: [formatFileSize] prints between 1 and 1024 of a unit among
      Bytes, KB, MB and GB; the timer's progress bar stays within 0-100%.
    - Round trips: [parseDate] of [formatDate]; a record posted through
      the client is served back by [getOnboardingById].
    - Refinement: the client's check implies the worker's; the summary
      [submitOnboarding] is implemented by the call through the HTTP
      client; end to end, a valid form is stored and served back.
    - Types: the payload is a well-typed [OnboardingSubmitRequest]; the
      worker's answer is not a well-typed [OnboardingResponse].
    - Equivalence: pausing and resuming a linear animation is the
      uninterrupted run; the two build scripts act alike on answers
      without surrounding blanks.  Liveness: every animation completes.
    - Termination: under the schedule [display_frame] (not code of the
      component, an assumption on Reanimated and React Native: each 16 ms
      period of the display interval runs the UI clock, then the
      JavaScript thread's posted messages, then the sampler), a running
      animation with [d] ms left reads completed within [ceil(d/16) + 1]
      periods; [frames_until_completed] returns with that fuel.
    - The composed form: its validity cells always agree with the inputs'
      rules and touched flags, and its start date is one the calendar
      printed; so an enabled submit button never leads to the
      "Validation Error" alert, and a delivered press stores the record
      and shows the success card.  Its documents are empty or the
      picker's list, so every request it can send keeps the picker's
      limits (3 files, 5 MB each, 15 MB in all).  Until the first reset
      each text input's errors are those of the screen's current value,
      under any interleaving of events.  While a submission is out
      [isSubmitting] is set, the button is disabled with its spinner, and
      the answer lands with the record of the press whatever was typed
      meanwhile; without a network the press ends in one error alert.
    - The README: the worker keeps the documented answers for every
      request meeting the documented constraints, stores every body with
      a non-blank name, an e-mail of the right shape, a non-empty start
      date and non-empty documents whatever their lengths, format, number
      and sizes, and refuses the bodies meeting the constraints whose
      name is blank.
    - Composition: the client's headers pass the worker's CORS preflight;
      the rendered picker's buttons drive its handlers consistently.
    - The places where the code and its specification part ways (the findings
      of PROJECT.json): the ReferenceError of [handleTextChange] (typing
      never reaches the screen), the years 0..99, the lenient [parseInt]
      (any digits followed by anything that does not continue them),
      today's date under [minDate = new
      Date()], the UTC reading of the calendar's date string, the silent
      truncation of the file list, the unchecked name length (a
      one-letter name is stored from every reachable form that has one),
      the reset that does not reach the pickers, the stale completion after restart,
      the readable e-mail index entries, the missing [uri] of stored
      documents, "1024 KB", the answer " 1" of the build scripts, the
      children left stale by "Start New Submission" (the name input keeps
      the errors of the value before it), the data-model
      constraints the worker does not check, the fields left editable
      during a submission, and the offline mode and retries the README
      promises and the screen does not have.

    ** Bounds and fuel

    - [digits_rev] runs on fuel [log2 n + 1], enough because
      [n < 2 ^ (log2 n + 1) <= 10 ^ (log2 n + 1)]; [decimal_digits_spec]
      proves the printed digits are those of [n].
    - Time values are integers of milliseconds; the round trip of dates
      needs [|t| <= 8.64e15] (TimeClip) and a year of 100 or more; the
      years 0..99 are the counterexample.
    - [getFileExtension] needs the name shorter than [2 ^ 32], the range
      of [>>> 0] (JavaScript strings are far shorter).
    - File sizes and limits are integers ([Z]); JavaScript numbers hold
      such integers exactly below [2 ^ 53].  [formatFileSize] is written
      with the exact [floor(log_1024 n)] and exact rounding; the
      floating-point code computes the same below [2 ^ 46] bytes (the
      quotient by a power of two and its product by 100 are exact there,
      and [Math.log(n) / Math.log(1024)] has the right floor), far above
      the picker's limits.  The timer's progress and times are rationals
      ([Q]), exact where the code uses doubles.
    - [frames_until_completed] takes its fuel as a number of 16 ms
      periods; [ceil(d/16) + 1] is enough because each period that ends
      before the animation advances the clock by 16 ms, and the period in
      which it ends posts [setState('completed')], which the same period's
      JavaScript turn runs.

    ** Not modelled

    Styles, and the parts of the rendered trees that are fixed text; the
    [Alert] dialogs beyond their text (kept as outputs in order); the
    bezier easings (only their laws); the file system behind
    [fileToBase64] (a read function); the locale of [toLocaleString] on
    the success card and the footer's year; how axios joins the base URL
    and the network beyond the [Transport] interface; the worker's
    logging and the expiry of its index entries; what [eas] and [npm] do
    for the build scripts, and bash's backslash escapes in [read]; other
    clients of the worker, and the time between the worker running a
    request and its answer reaching the screen (one event); the [catch]
    of [handleSubmit], which the service never reaches because it
    returns every error as a failed response; the parts of the README
    other than its API contract and data model, ARCHITECTURE.md and the
    checklist, which describe no behaviour.

    Narrowed: the [value?: any] of a [ValidationRule] is a number or a
    RegExp ([RuleValue]).  Comparing a length with a string value goes
    through [ToNumber] and double rounding, and an object value may carry
    a [test] or [valueOf] of its own; the model has the numbers and
    RegExps the screen uses and the [TypeError] of a numeric [regex]
    value, but not the [TypeError] a non-empty string, [true] or an
    object without [test] raises at line 121.  [GET /api/onboard/] with
    an empty id reads the empty key and answers 404; Cloudflare KV may
    refuse an empty key name, which the worker's [catch] would answer
    with 500.  No theorem depends on that case. *)

From stdpp Require Export base list strings.
From Stdlib Require Export ZArith Lia Ascii String.

Declare Scope js_scope.
Delimit Scope js_scope with js.

(** JavaScript's strict string equality [===] on strings. *)
Notation "s === t" := (String.eqb s t) (at level 70, no associativity) : js_scope.

(** JavaScript truthiness of a string: non-empty. *)
Definition truthy_str (s : string) : bool :=
  match s with EmptyString => false | _ => true end.

Notation "'!!s' s" := (negb (truthy_str s)) (at level 35, right associativity) : js_scope.

(** Exceptions a handler can throw, and the result of code that may
    throw: [Ok v] is a normal return, [Throws e] an exception that escapes. *)
Inductive js_error : Type :=
| TypeError (msg : string)
| ReferenceError (msg : string)
| PlainError (msg : string).

Inductive js_result (A : Type) : Type :=
| Ok (a : A)
| Throws (e : js_error).
Arguments Ok {A} a.
Arguments Throws {A} e.

Definition js_bind {A B} (m : js_result A) (k : A -> js_result B) : js_result B :=
  match m with Ok a => k a | Throws e => Throws e end.

Notation "x <- m ;; k" := (js_bind m (fun x => k))
  (at level 100, m at next level, right associativity) : js_scope.

Lemma js_bind_ok {A B} (a : A) (k : A -> js_result B) : js_bind (Ok a) k = k a.
Proof. reflexivity. Qed.

(** What an event handler does: the state it leaves, the callbacks it
    invoked in order, and the exception that escaped it, if any. *)
Record Outcome (S C : Type) : Type := {
  out_state : S;
  out_calls : list C;
  out_exn : option js_error
}.
Arguments out_state {S C}. Arguments out_calls {S C}. Arguments out_exn {S C}.

Create HintDb onboarding discriminated.
Create Rewrite HintDb onboarding_rw.

(** ** Generic lemmas *)

Lemma string_eqb_refl_true (s : string) : String.eqb s s = true.
Proof. apply String.eqb_refl. Qed.

Lemma string_eqb_true_iff (s t : string) : String.eqb s t = true <-> s = t.
Proof. apply String.eqb_eq. Qed.

Lemma truthy_str_false_iff (s : string) : truthy_str s = false <-> s = "".
Proof. destruct s; simpl; split; congruence. Qed.

Lemma filter_length_le {A} (P : A -> bool) (l : list A) :
  List.length (List.filter P l) <= List.length l.
Proof.
  induction l as [|x l IH]; simpl; [lia|].
  destruct (P x); simpl; lia.
Qed.

(** Sum of a list of integers, as [reduce((sum, x) => sum + x, 0)]. *)
Definition sumZ {A} (f : A -> Z) (l : list A) : Z :=
  fold_left (fun acc x => (acc + f x)%Z) l 0%Z.

Lemma fold_sumZ_acc {A} (f : A -> Z) (l : list A) (a : Z) :
  fold_left (fun acc x => (acc + f x)%Z) l a = (a + sumZ f l)%Z.
Proof.
  unfold sumZ. revert a.
  induction l as [|x l IH]; intros a; simpl; [lia|].
  rewrite (IH (a + f x)%Z), (IH (0 + f x)%Z). lia.
Qed.

Lemma sumZ_cons {A} (f : A -> Z) x (l : list A) :
  sumZ f (x :: l) = (f x + sumZ f l)%Z.
Proof. unfold sumZ at 1. simpl. rewrite fold_sumZ_acc. lia. Qed.

Lemma sumZ_nil {A} (f : A -> Z) : sumZ f [] = 0%Z.
Proof. reflexivity. Qed.

Lemma sumZ_app {A} (f : A -> Z) (l1 l2 : list A) :
  sumZ f (l1 ++ l2) = (sumZ f l1 + sumZ f l2)%Z.
Proof.
  induction l1 as [|x l1 IH]; simpl; [rewrite sumZ_nil; lia|].
  rewrite !sumZ_cons, IH. lia.
Qed.

Lemma sumZ_nonneg {A} (f : A -> Z) (l : list A) :
  Forall (fun x => 0 <= f x)%Z l -> (0 <= sumZ f l)%Z.
Proof.
  induction 1 as [|x l Hx _ IH]; [rewrite sumZ_nil; lia|].
  rewrite sumZ_cons. lia.
Qed.

#[export] Hint Rewrite @sumZ_cons @sumZ_nil @sumZ_app @js_bind_ok : onboarding_rw.
#[export] Hint Resolve string_eqb_refl_true filter_length_le sumZ_nonneg : onboarding.

(** ** Shared tactics *)

(** Turn the boolean tests the code makes into propositions. *)
Ltac js_bool :=
  repeat match goal with
  | H : (_ =? _)%Z = true |- _ => apply Z.eqb_eq in H
  | H : (_ =? _)%Z = false |- _ => apply Z.eqb_neq in H
  | H : (_ <? _)%Z = true |- _ => apply Z.ltb_lt in H
  | H : (_ <? _)%Z = false |- _ => apply Z.ltb_ge in H
  | H : (_ <=? _)%Z = true |- _ => apply Z.leb_le in H
  | H : (_ <=? _)%Z = false |- _ => apply Z.leb_gt in H
  | H : (_ =? _)%nat = true |- _ => apply Nat.eqb_eq in H
  | H : (_ =? _)%nat = false |- _ => apply Nat.eqb_neq in H
  | H : (_ <=? _)%nat = true |- _ => apply Nat.leb_le in H
  | H : (_ <=? _)%nat = false |- _ => apply Nat.leb_gt in H
  | H : (_ <? _)%nat = true |- _ => apply Nat.ltb_lt in H
  | H : (_ <? _)%nat = false |- _ => apply Nat.ltb_ge in H
  | H : String.eqb _ _ = true |- _ => apply String.eqb_eq in H
  | H : String.eqb _ _ = false |- _ => apply String.eqb_neq in H
  | H : (_ && _)%bool = true |- _ => apply andb_prop in H; destruct H
  | H : (_ || _)%bool = false |- _ => apply orb_false_elim in H; destruct H
  | H : negb _ = true |- _ => apply negb_true_iff in H
  | H : negb _ = false |- _ => apply negb_false_iff in H
  end.

(** Case on every [if] of the goal, remembering the test. *)
Ltac case_ifs :=
  repeat match goal with
  | |- context [if ?b then _ else _] =>
      let E := fresh "E" in destruct b eqn:E
  end.

(** A sublist of a list of non-negative terms has a smaller sum. *)
Lemma sumZ_sublist {A} (f : A -> Z) (l1 l2 : list A) :
  sublist l1 l2 -> Forall (fun x => 0 <= f x)%Z l2 -> (sumZ f l1 <= sumZ f l2)%Z.
Proof.
  induction 1 as [|x l1 l2 _ IH|x l1 l2 _ IH]; intros Hf;
    rewrite ?sumZ_cons; inversion Hf; subst; [lia| |]; specialize (IH ltac:(assumption)); lia.
Qed.

Lemma Forall_sublist {A} (P : A -> Prop) (l1 l2 : list A) :
  sublist l1 l2 -> Forall P l2 -> Forall P l1.
Proof. induction 1; intros Hf; inversion Hf; subst; auto. Qed.

(** [List.find] returns [None] exactly when no element passes. *)
Lemma find_none_iff {A} (P : A -> bool) (l : list A) :
  List.find P l = None <-> Forall (fun x => P x = false) l.
Proof.
  induction l as [|x l IH]; simpl; [split; auto|].
  rewrite Forall_cons. destruct (P x); [split; [discriminate|intros [? _]; discriminate]|].
  rewrite IH. tauto.
Qed.
