(* ===== verification/JsString.v ===== *)
(** * JavaScript string built-ins

    The ECMAScript string operations the controls call, on strings of
    UTF-16 code units 0..255 (Rocq's 8-bit [ascii]): [trim], [split] on a
    one-character separator, [parseInt(s, 10)], [String(n)] on integers,
    [padStart], [toLowerCase], [lastIndexOf], [slice], [substring],
    [startsWith], [endsWith] and the unsigned shift [x >>> 0].  The lemmas
    are the facts the components share: when [trim] yields the empty
    string, how [split] cuts a string that contains the separator, and
    that [parseInt] reads back what [String(n)] and [padStart] print. *)

From S2P Require Import Prelude.
Local Open Scope string_scope.

(** ** Whitespace and [trim] *)

(** ECMAScript WhiteSpace and LineTerminator among the code units 0..255:
    TAB, LF, VT, FF, CR, SPACE and NO-BREAK SPACE. *)
Definition js_is_space (c : ascii) : bool :=
  let n := nat_of_ascii c in
  (n =? 9)%nat || (n =? 10)%nat || (n =? 11)%nat || (n =? 12)%nat
  || (n =? 13)%nat || (n =? 32)%nat || (n =? 160)%nat.

Fixpoint trim_start (s : string) : string :=
  match s with
  | EmptyString => EmptyString
  | String c r => if js_is_space c then trim_start r else s
  end.

Fixpoint trim_end (s : string) : string :=
  match s with
  | EmptyString => EmptyString
  | String c r =>
      let r' := trim_end r in
      if js_is_space c && String.eqb r' "" then EmptyString else String c r'
  end.

(** [String.prototype.trim]. *)
Definition js_trim (s : string) : string := trim_end (trim_start s).

(** A string all of whose code units are whitespace. *)
Fixpoint js_blank (s : string) : bool :=
  match s with
  | EmptyString => true
  | String c r => js_is_space c && js_blank r
  end.

Lemma trim_start_empty_iff (s : string) : trim_start s = "" <-> js_blank s = true.
Proof.
  induction s as [|c r IH]; simpl; [tauto|].
  destruct (js_is_space c); simpl; [exact IH|split; discriminate].
Qed.

Lemma trim_end_empty_iff (s : string) : trim_end s = "" <-> js_blank s = true.
Proof.
  induction s as [|c r IH]; simpl; [tauto|].
  destruct (js_is_space c) eqn:Hc; simpl.
  - destruct (String.eqb (trim_end r) "") eqn:E; js_bool.
    + split; [intros _; apply IH; exact E|reflexivity].
    + split; [discriminate|intros H; apply IH in H; contradiction].
  - destruct (trim_end r =? ""); split; discriminate.
Qed.

Lemma js_trim_empty_iff (s : string) : js_trim s = "" <-> js_blank s = true.
Proof.
  unfold js_trim. rewrite trim_end_empty_iff, <- trim_start_empty_iff.
  induction s as [|c r IH]; simpl; [tauto|].
  destruct (js_is_space c) eqn:Hc; simpl; [exact IH|].
  rewrite Hc. simpl. split; discriminate.
Qed.

(** [!s.trim()] is [js_blank s]. *)
Lemma truthy_trim (s : string) : truthy_str (js_trim s) = negb (js_blank s).
Proof.
  destruct (js_trim s) eqn:E.
  - apply js_trim_empty_iff in E. now rewrite E.
  - destruct (js_blank s) eqn:B; [|reflexivity].
    apply js_trim_empty_iff in B. congruence.
Qed.

(** ** [split] on one character *)

Fixpoint js_split (sep : ascii) (s : string) : list string :=
  match s with
  | EmptyString => [EmptyString]
  | String c r =>
      let parts := js_split sep r in
      if Ascii.eqb c sep then EmptyString :: parts
      else match parts with
           | p :: ps => String c p :: ps
           | [] => [String c EmptyString]
           end
  end.

(** The string contains the character. *)
Fixpoint str_has (c : ascii) (s : string) : bool :=
  match s with
  | EmptyString => false
  | String x r => Ascii.eqb x c || str_has c r
  end.

Lemma js_split_nonempty sep s : js_split sep s <> [].
Proof.
  destruct s as [|c r]; simpl; [discriminate|].
  destruct (Ascii.eqb c sep); [discriminate|].
  destruct (js_split sep r); discriminate.
Qed.

Lemma js_split_no_sep sep s : str_has sep s = false -> js_split sep s = [s].
Proof.
  induction s as [|c r IH]; simpl; [reflexivity|].
  intros H. apply orb_false_elim in H as [H1 H2]. rewrite H1, (IH H2). reflexivity.
Qed.

Lemma js_split_app sep a b :
  str_has sep a = false -> js_split sep (a ++ String sep b) = a :: js_split sep b.
Proof.
  induction a as [|c r IH]; simpl; intros H.
  - rewrite Ascii.eqb_refl. reflexivity.
  - apply orb_false_elim in H as [H1 H2]. rewrite H1, (IH H2). reflexivity.
Qed.

(** ** Decimal digits, [parseInt] and [String(n)] *)

Definition digit_of (c : ascii) : option Z :=
  let n := nat_of_ascii c in
  if ((48 <=? n) && (n <=? 57))%nat then Some (Z.of_nat n - 48)%Z else None.

Fixpoint leading_digits (s : string) : list Z :=
  match s with
  | EmptyString => []
  | String c r => match digit_of c with Some d => d :: leading_digits r | None => [] end
  end.

Definition digits_value (ds : list Z) : Z :=
  fold_left (fun acc d => acc * 10 + d)%Z ds 0%Z.

(** [parseInt(s, 10)]: skip leading whitespace, read an optional sign
    and the longest run of decimal digits; [None] is [NaN].  The result is
    the exact integer (the code only parses day, month and year fields,
    far below 2^53). *)
Definition js_sign_split (s1 : string) : Z * string :=
  match s1 with
  | String "-"%char r => ((-1)%Z, r)
  | String "+"%char r => (1%Z, r)
  | _ => (1%Z, s1)
  end.

Definition js_parseInt10 (s : string) : option Z :=
  let '(sign, s2) := js_sign_split (trim_start s) in
  match leading_digits s2 with
  | [] => None
  | ds => Some (sign * digits_value ds)%Z
  end.

Fixpoint digits_rev (fuel : nat) (n : Z) : list Z :=
  match fuel with
  | O => []
  | S f => if (n <? 10)%Z then [n] else (n mod 10)%Z :: digits_rev f (n / 10)%Z
  end.

(** Decimal digits of a non-negative integer, most significant first;
    [log2 n + 1] divisions by ten are always enough. *)
Definition decimal_digits (n : Z) : list Z :=
  rev (digits_rev (Z.to_nat (Z.log2 n) + 1) n).

Definition char_of_digit (d : Z) : ascii := ascii_of_nat (Z.to_nat d + 48).

Fixpoint string_of_digits (ds : list Z) : string :=
  match ds with
  | [] => EmptyString
  | d :: r => String (char_of_digit d) (string_of_digits r)
  end.

(** [String(n)] for an integer [n] (no exponent notation below 10^21). *)
Definition js_int_to_string (z : Z) : string :=
  if (z <? 0)%Z then String "-" (string_of_digits (decimal_digits (- z)))
  else string_of_digits (decimal_digits z).

(** [s.padStart(n, c)] with a one-character pad string. *)
Definition js_padStart (n : nat) (c : ascii) (s : string) : string :=
  let len := String.length s in
  if (len <? n)%nat then String.append (String.concat "" (List.repeat (String c "") (n - len))) s
  else s.

Lemma digits_value_app ds d :
  digits_value (ds ++ [d]) = (digits_value ds * 10 + d)%Z.
Proof. unfold digits_value. now rewrite fold_left_app. Qed.

Lemma digits_value_zero_cons ds : digits_value (0%Z :: ds) = digits_value ds.
Proof. reflexivity. Qed.

Lemma digits_rev_spec fuel n :
  (0 <= n < 10 ^ Z.of_nat fuel)%Z -> fuel <> O ->
  digits_value (rev (digits_rev fuel n)) = n /\
  Forall (fun d => 0 <= d < 10)%Z (digits_rev fuel n) /\ digits_rev fuel n <> [].
Proof.
  revert n. induction fuel as [|f IH]; intros n Hn Hf; [congruence|].
  simpl. destruct (n <? 10)%Z eqn:E; js_bool.
  - split; [reflexivity|split; [repeat constructor; lia|discriminate]].
  - assert (f <> O).
    { intros ->. simpl in Hn. lia. }
    assert (Hd : (0 <= n / 10 < 10 ^ Z.of_nat f)%Z).
    { rewrite Nat2Z.inj_succ, Z.pow_succ_r in Hn by lia.
      split; [apply Z.div_pos; lia|]. apply Z.div_lt_upper_bound; lia. }
    destruct (IH _ Hd H) as (Hv & Hall & _).
    simpl. rewrite digits_value_app, Hv.
    split; [|split; [constructor; [apply Z.mod_pos_bound; lia|exact Hall]|discriminate]].
    pose proof (Z.div_mod n 10). lia.
Qed.

Lemma decimal_digits_spec n :
  (0 <= n)%Z ->
  digits_value (decimal_digits n) = n /\
  Forall (fun d => 0 <= d < 10)%Z (decimal_digits n) /\ decimal_digits n <> [].
Proof.
  intros Hn. unfold decimal_digits.
  set (k := Z.to_nat (Z.log2 n) + 1).
  assert (Hk : (n < 10 ^ Z.of_nat k)%Z).
  { subst k. rewrite Nat2Z.inj_add, Z2Nat.id by apply Z.log2_nonneg.
    assert (n < 2 ^ (Z.log2 n + 1))%Z.
    { destruct (Z.eq_dec n 0) as [->|]; [reflexivity|].
      pose proof (Z.log2_spec n ltac:(lia)) as [_ H]. unfold Z.succ in H. exact H. }
    eapply Z.lt_le_trans; [eassumption|].
    apply Z.pow_le_mono_l. lia. }
  destruct (digits_rev_spec k n ltac:(lia) ltac:(lia)) as (Hv & Hall & Hne).
  split; [exact Hv|split; [apply Forall_rev; exact Hall|]].
  intros Hr. apply Hne. now apply (f_equal (@rev Z)) in Hr; rewrite rev_involutive in Hr.
Qed.

Lemma digit_of_char_of_digit d : (0 <= d < 10)%Z -> digit_of (char_of_digit d) = Some d.
Proof.
  intros Hd. unfold digit_of, char_of_digit.
  rewrite nat_ascii_embedding by lia.
  replace ((48 <=? Z.to_nat d + 48) && (Z.to_nat d + 48 <=? 57))%nat with true
    by (symmetry; apply andb_true_intro; split; apply Nat.leb_le; lia).
  f_equal. lia.
Qed.

Lemma leading_digits_app ds rest :
  Forall (fun d => 0 <= d < 10)%Z ds ->
  leading_digits (string_of_digits ds ++ rest) = (ds ++ leading_digits rest)%list.
Proof.
  induction 1 as [|d ds Hd _ IH]; simpl; [reflexivity|].
  rewrite digit_of_char_of_digit by exact Hd. now rewrite IH.
Qed.

(** A character that is neither a digit nor whitespace nor a sign. *)
Definition stops_number (c : ascii) : bool :=
  match digit_of c with Some _ => false | None => negb (js_is_space c) end.

Definition starts_clean (rest : string) : Prop :=
  match rest with EmptyString => True | String c _ => digit_of c = None end.

Lemma leading_digits_clean rest : starts_clean rest -> leading_digits rest = [].
Proof. destruct rest as [|c r]; simpl; [reflexivity|]. now intros ->. Qed.

Lemma char_of_digit_not_space d : (0 <= d < 10)%Z -> js_is_space (char_of_digit d) = false.
Proof.
  intros Hd. unfold js_is_space, char_of_digit. rewrite nat_ascii_embedding by lia.
  repeat (apply orb_false_intro); apply Nat.eqb_neq; lia.
Qed.

Lemma char_of_digit_not_sign d :
  (0 <= d < 10)%Z -> char_of_digit d <> "-"%char /\ char_of_digit d <> "+"%char.
Proof.
  intros Hd. split; intros E; apply (f_equal nat_of_ascii) in E;
    unfold char_of_digit in E; rewrite nat_ascii_embedding in E by lia;
    [change (nat_of_ascii "-"%char) with 45 in E|change (nat_of_ascii "+"%char) with 43 in E];
    lia.
Qed.

Lemma sign_split_other c r :
  c <> "-"%char -> c <> "+"%char -> js_sign_split (String c r) = (1%Z, String c r).
Proof.
  intros H1 H2. destruct c as [[] [] [] [] [] [] [] []]; try reflexivity;
    exfalso; first [exact (H1 eq_refl) | exact (H2 eq_refl)].
Qed.

(** [parseInt] reads back a run of digits followed by a clean rest. *)
Lemma parseInt_digits ds rest :
  Forall (fun d => 0 <= d < 10)%Z ds -> ds <> [] -> starts_clean rest ->
  js_parseInt10 (string_of_digits ds ++ rest) = Some (digits_value ds).
Proof.
  intros Hall Hne Hc. unfold js_parseInt10.
  destruct ds as [|d ds']; [congruence|].
  inversion Hall as [|? ? Hd Hall']; subst.
  simpl. rewrite char_of_digit_not_space by exact Hd.
  destruct (char_of_digit_not_sign d Hd) as [Hm Hp].
  rewrite sign_split_other by assumption.
  change (String (char_of_digit d) (string_of_digits ds' ++ rest))
    with (string_of_digits (d :: ds') ++ rest).
  rewrite leading_digits_app by exact Hall. rewrite leading_digits_clean by exact Hc.
  rewrite app_nil_r. f_equal. lia.
Qed.

(** [parseInt(String(n))] is [n]. *)
Lemma parseInt_int_to_string z rest :
  starts_clean rest -> js_parseInt10 (js_int_to_string z ++ rest) = Some z.
Proof.
  intros Hc. unfold js_int_to_string.
  destruct (z <? 0)%Z eqn:E; js_bool.
  - destruct (decimal_digits_spec (- z) ltac:(lia)) as (Hv & Hall & Hne).
    remember (decimal_digits (- z)) as D eqn:HD. clear HD.
    unfold js_parseInt10. simpl.
    rewrite leading_digits_app by exact Hall. rewrite leading_digits_clean by exact Hc.
    rewrite app_nil_r. destruct D as [|d D]; [congruence|].
    unfold digits_value in *. rewrite Hv. f_equal. lia.
  - destruct (decimal_digits_spec z ltac:(lia)) as (Hv & Hall & Hne).
    rewrite parseInt_digits by assumption. now rewrite Hv.
Qed.

(** ** Case conversion, search, slicing *)

(** [toLowerCase] on Latin-1: A..Z and U+00C0..U+00DE except U+00D7. *)
Definition js_lower_char (c : ascii) : ascii :=
  let n := nat_of_ascii c in
  if (((65 <=? n) && (n <=? 90)) || ((192 <=? n) && (n <=? 222) && negb (n =? 215)))%nat
  then ascii_of_nat (n + 32) else c.

Fixpoint js_toLowerCase (s : string) : string :=
  match s with
  | EmptyString => EmptyString
  | String c r => String (js_lower_char c) (js_toLowerCase r)
  end.

Fixpoint last_index (c : ascii) (s : string) : option nat :=
  match s with
  | EmptyString => None
  | String x r =>
      match last_index c r with
      | Some i => Some (S i)
      | None => if Ascii.eqb x c then Some O else None
      end
  end.

(** [s.lastIndexOf(c)] for a one-character [c]: -1 when absent. *)
Definition js_lastIndexOf (s : string) (c : ascii) : Z :=
  match last_index c s with Some i => Z.of_nat i | None => (-1)%Z end.

(** [s.slice(start)] for an integer [start]. *)
Definition js_slice_from (s : string) (start : Z) : string :=
  let len := Z.of_nat (String.length s) in
  let from := if (start <? 0)%Z then Z.max 0 (len + start) else start in
  if (len <=? from)%Z then EmptyString
  else String.substring (Z.to_nat from) (Z.to_nat (len - from)) s.

(** [s.substring(start, end)] for integer arguments: both are clamped to
    [0, length] and swapped when [start > end]. *)
Definition js_substring (s : string) (start end_ : Z) : string :=
  let len := Z.of_nat (String.length s) in
  let a := Z.min (Z.max start 0) len in
  let b := Z.min (Z.max end_ 0) len in
  String.substring (Z.to_nat (Z.min a b)) (Z.to_nat (Z.max a b - Z.min a b)) s.

(** [toUpperCase] on ASCII letters. *)
Definition js_upper_char (c : ascii) : ascii :=
  let n := nat_of_ascii c in
  if ((97 <=? n) && (n <=? 122))%nat then ascii_of_nat (n - 32) else c.

Fixpoint js_toUpperCase (s : string) : string :=
  match s with
  | EmptyString => EmptyString
  | String c r => String (js_upper_char c) (js_toUpperCase r)
  end.

(** [s.substring(1)]. *)
Definition js_substring1 (s : string) : string :=
  match s with EmptyString => EmptyString | String _ r => r end.

(** [x >>> 0] (ToUint32) on an integer. *)
Definition js_ushr0 (x : Z) : Z := (x mod 2 ^ 32)%Z.

(** [s.startsWith(p)]. *)
Definition js_startsWith (s p : string) : bool := String.prefix p s.

(** [s.endsWith(p)]. *)
Definition js_endsWith (s p : string) : bool :=
  let ls := String.length s in
  let lp := String.length p in
  (lp <=? ls)%nat && String.eqb (String.substring (ls - lp) lp s) p.

(** [arr.join(sep)] on an array of strings. *)
Fixpoint js_join (sep : string) (l : list string) : string :=
  match l with
  | [] => ""
  | [x] => x
  | x :: r => x ++ sep ++ js_join sep r
  end.

(** [arr.includes(x)] on an array of strings. *)
Definition js_includes (arr : list string) (x : string) : bool :=
  existsb (String.eqb x) arr.

Lemma js_ushr0_range x : (0 <= js_ushr0 x < 2 ^ 32)%Z.
Proof. unfold js_ushr0. apply Z.mod_pos_bound. lia. Qed.

Lemma js_ushr0_small x : (0 <= x < 2 ^ 32)%Z -> js_ushr0 x = x.
Proof. unfold js_ushr0. apply Z.mod_small. Qed.

Lemma js_ushr0_neg x : (- 2 ^ 32 <= x < 0)%Z -> js_ushr0 x = (x + 2 ^ 32)%Z.
Proof.
  intros H. unfold js_ushr0.
  rewrite <- (Z.mod_add x 1 (2 ^ 32)) by lia. apply Z.mod_small. lia.
Qed.

Lemma js_includes_true arr x : js_includes arr x = true <-> In x arr.
Proof.
  unfold js_includes. rewrite existsb_exists. split.
  - intros (y & Hy & E). apply String.eqb_eq in E. now subst.
  - intros H. exists x. split; [exact H|apply String.eqb_refl].
Qed.

#[export] Hint Resolve js_split_nonempty js_ushr0_range : onboarding.

(** ** Printed numbers as digit strings *)

(** stdpp makes [String.append] [simpl never]; this is its cons step. *)
Lemma str_app_cons c (r s : string) : String c r ++ s = String c (r ++ s).
Proof. reflexivity. Qed.

Lemma str_app_empty (s : string) : s ++ "" = s.
Proof. induction s as [|c r IH]; [reflexivity|]. rewrite str_app_cons, IH. reflexivity. Qed.

Lemma string_of_digits_length ds : String.length (string_of_digits ds) = List.length ds.
Proof. induction ds; simpl; congruence. Qed.

Lemma string_of_digits_app ds1 ds2 :
  string_of_digits (ds1 ++ ds2)%list = string_of_digits ds1 ++ string_of_digits ds2.
Proof. induction ds1 as [|d ds1 IH]; simpl; [reflexivity|now rewrite IH]. Qed.

Lemma str_has_digits sep ds :
  digit_of sep = None -> Forall (fun d => 0 <= d < 10)%Z ds -> str_has sep (string_of_digits ds) = false.
Proof.
  intros Hs. induction 1 as [|d ds Hd _ IH]; [reflexivity|]. simpl. rewrite IH, orb_false_r.
  destruct (Ascii.eqb_spec (char_of_digit d) sep) as [E|E]; [|reflexivity].
  rewrite <- E, digit_of_char_of_digit in Hs by exact Hd. discriminate.
Qed.

Lemma str_has_app sep a b : str_has sep (a ++ b) = str_has sep a || str_has sep b.
Proof. induction a as [|c r IH]; simpl; [reflexivity|]. rewrite IH. apply orb_assoc. Qed.

Lemma js_blank_digits d ds rest :
  (0 <= d < 10)%Z -> js_blank (string_of_digits (d :: ds) ++ rest) = false.
Proof. intros Hd. simpl. rewrite char_of_digit_not_space by exact Hd. reflexivity. Qed.

(** A non-negative integer printed by [String(n)] is its digit string. *)
Lemma int_to_string_digits n :
  (0 <= n)%Z -> js_int_to_string n = string_of_digits (decimal_digits n).
Proof. intros Hn. unfold js_int_to_string. destruct (Z.ltb_spec n 0); [lia|reflexivity]. Qed.

(** [String(n).padStart(2, '0')] for [n >= 0] is a digit string of [n]. *)
Lemma pad_digits n :
  (0 <= n)%Z ->
  exists ds, js_padStart 2 "0" (js_int_to_string n) = string_of_digits ds /\
             Forall (fun d => 0 <= d < 10)%Z ds /\ ds <> [] /\ digits_value ds = n.
Proof.
  intros Hn. destruct (decimal_digits_spec n Hn) as (Hv & Hall & Hne).
  rewrite int_to_string_digits by exact Hn. unfold js_padStart.
  rewrite string_of_digits_length.
  destruct (Nat.ltb_spec (List.length (decimal_digits n)) 2) as [Hl|Hl].
  - destruct (decimal_digits n) as [|d [|d' r]] eqn:E; [congruence| |simpl in Hl; lia].
    exists [0%Z; d]. simpl. split; [reflexivity|]. split; [repeat constructor; try lia; inversion Hall; lia|].
    split; [discriminate|]. rewrite <- Hv. reflexivity.
  - exists (decimal_digits n). repeat split; assumption.
Qed.

(** [parseInt] reads back a padded number. *)
Lemma parseInt_pad n :
  (0 <= n)%Z -> js_parseInt10 (js_padStart 2 "0" (js_int_to_string n)) = Some n.
Proof.
  intros Hn. destruct (pad_digits n Hn) as (ds & -> & Hall & Hne & Hv).
  replace (string_of_digits ds) with (string_of_digits ds ++ "") by apply str_app_empty.
  rewrite parseInt_digits by (exact Hall || exact Hne || exact I). now rewrite Hv.
Qed.

Lemma parseInt_int n : js_parseInt10 (js_int_to_string n) = Some n.
Proof.
  replace (js_int_to_string n) with (js_int_to_string n ++ "") by apply str_app_empty.
  apply parseInt_int_to_string. exact I.
Qed.

Lemma str_app_eq_empty (a b : string) : a ++ b = "" <-> a = "" /\ b = "".
Proof. destruct a; [simpl; tauto|]. rewrite str_app_cons. split; [discriminate|intros [? _]; discriminate]. Qed.

Lemma last_index_none c s : str_has c s = false -> last_index c s = None.
Proof.
  induction s as [|x r IH]; simpl; [reflexivity|].
  intros H. apply orb_false_elim in H as [H1 H2]. rewrite IH, H1 by exact H2. reflexivity.
Qed.

Lemma last_index_app_sep c base ext :
  str_has c ext = false -> last_index c (base ++ String c ext) = Some (String.length base).
Proof.
  intros H. induction base as [|x r IH]; simpl.
  - rewrite last_index_none, Ascii.eqb_refl by exact H. reflexivity.
  - rewrite IH. reflexivity.
Qed.

Lemma substring_full s : String.substring 0 (String.length s) s = s.
Proof. induction s as [|x r IH]; simpl; [reflexivity|]. rewrite IH. reflexivity. Qed.

Lemma substring_app n m a b :
  String.substring (String.length a + n) m (a ++ b) = String.substring n m b.
Proof. induction a as [|x r IH]; simpl; [reflexivity|]. exact IH. Qed.

Lemma length_app_str a b : String.length (a ++ b) = (String.length a + String.length b)%nat.
Proof. induction a as [|x r IH]; simpl; [reflexivity|]. rewrite IH. reflexivity. Qed.

(** [s.slice(i)] from the end of a prefix is the rest of the string. *)
Lemma js_slice_from_app a b :
  js_slice_from (a ++ b) (Z.of_nat (String.length a)) = b.
Proof.
  unfold js_slice_from. rewrite length_app_str.
  replace (Z.of_nat (String.length a) <? 0)%Z with false by (symmetry; apply Z.ltb_ge; lia).
  destruct (Z.leb_spec (Z.of_nat (String.length a + String.length b)) (Z.of_nat (String.length a))) as [H|H].
  - destruct b; [reflexivity|simpl in H; lia].
  - rewrite Nat2Z.id. replace (Z.to_nat _) with (String.length b) by lia.
    rewrite <- (Nat.add_0_r (String.length a)) at 1. rewrite substring_app. apply substring_full.
Qed.

(** [s.slice(i)] from at or past the end is empty. *)
Lemma js_slice_from_past s i :
  (Z.of_nat (String.length s) <= i)%Z -> js_slice_from s i = "".
Proof.
  intros H. unfold js_slice_from.
  replace (i <? 0)%Z with false by (symmetry; apply Z.ltb_ge; lia). rewrite (proj2 (Z.leb_le _ _) H). reflexivity.
Qed.

Lemma str_app_assoc (a b c : string) : (a ++ b) ++ c = a ++ (b ++ c).
Proof. induction a as [|x r IH]; [reflexivity|]. rewrite !str_app_cons, IH. reflexivity. Qed.

(** [String(n)] contains no character other than digits and [-]. *)
Lemma str_has_int_to_string sep z :
  digit_of sep = None -> sep <> "-"%char -> str_has sep (js_int_to_string z) = false.
Proof.
  intros Hd Hm. unfold js_int_to_string.
  destruct (z <? 0)%Z eqn:E.
  - cbn [str_has]. destruct (Ascii.eqb _ sep) eqn:Ex; [apply Ascii.eqb_eq in Ex; subst; contradiction|]. simpl orb.
    apply str_has_digits; [exact Hd|]. apply decimal_digits_spec. apply Z.ltb_lt in E. lia.
  - apply str_has_digits; [exact Hd|]. apply decimal_digits_spec. apply Z.ltb_ge in E. lia.
Qed.
