(* ===== verification/JsDate.v ===== *)
(** * ECMAScript [Date] arithmetic

    The day arithmetic of ECMA-262 (section "Date Objects") that
    [new Date(y, m, d)], [getFullYear], [getMonth] and [getDate] perform:
    [Day], [DaysInYear], [DayFromYear], [YearFromTime], [MonthFromTime],
    [DateFromTime], [MakeDay], [MakeDate] and [TimeClip].  Time values are
    integers (milliseconds since the epoch); [NaN] is [None].  The local
    time zone is a fixed offset [tz] in milliseconds (no daylight-saving
    changes): [LocalTime t = t + tz] and [UTC t = t - tz].

    [YearFromTime] is "the largest year whose first day is not after the
    day of [t]"; it is computed from the 400-year average and corrected by
    one year, and [YearFromDay_spec] proves it meets that definition.  The
    main theorems: the getters invert [MakeDay] on valid calendar dates
    ([getters_MakeDay]), and the getters always produce a valid date from
    which [MakeDay] rebuilds the day ([MakeDay_getters]). *)

From S2P Require Import Prelude.
Local Open Scope Z_scope.

(** ** Days and years *)

Definition msPerDay : Z := 86400000.

Definition Day (t : Z) : Z := t / msPerDay.

Definition InLeapYear (y : Z) : bool :=
  (y mod 4 =? 0) && (negb (y mod 100 =? 0) || (y mod 400 =? 0)).

Definition leap_days (y : Z) : Z := if InLeapYear y then 1 else 0.

Definition DaysInYear (y : Z) : Z := 365 + leap_days y.

Definition DayFromYear (y : Z) : Z :=
  365 * (y - 1970) + (y - 1969) / 4 - (y - 1901) / 100 + (y - 1601) / 400.

(** The year of a day number: the average-length estimate is never more
    than one year off. *)
Definition YearFromDay (d : Z) : Z :=
  let y0 := 1970 + d * 400 / 146097 in
  if d <? DayFromYear y0 then y0 - 1
  else if DayFromYear (y0 + 1) <=? d then y0 + 1
  else y0.

(** First day of month [m] (0-based; 12 is the end of the year) within a
    year with [l] leap days. *)
Definition month_start (m l : Z) : Z :=
  nth (Z.to_nat m) [0; 31; 59; 90; 120; 151; 181; 212; 243; 273; 304; 334; 365] 0
  + (if 2 <=? m then l else 0).

(** [MonthFromTime] as the specification's table on [DayWithinYear]. *)
Definition month_from_dwy (dwy l : Z) : Z :=
  if dwy <? 31 then 0
  else if dwy <? 59 + l then 1
  else if dwy <? 90 + l then 2
  else if dwy <? 120 + l then 3
  else if dwy <? 151 + l then 4
  else if dwy <? 181 + l then 5
  else if dwy <? 212 + l then 6
  else if dwy <? 243 + l then 7
  else if dwy <? 273 + l then 8
  else if dwy <? 304 + l then 9
  else if dwy <? 334 + l then 10
  else 11.

Definition DayWithinYear (d : Z) : Z := d - DayFromYear (YearFromDay d).

Definition MonthFromDay (d : Z) : Z :=
  month_from_dwy (DayWithinYear d) (leap_days (YearFromDay d)).

Definition DateFromDay (d : Z) : Z :=
  DayWithinYear d - month_start (MonthFromDay d) (leap_days (YearFromDay d)) + 1.

Definition YearFromTime (t : Z) : Z := YearFromDay (Day t).
Definition MonthFromTime (t : Z) : Z := MonthFromDay (Day t).
Definition DateFromTime (t : Z) : Z := DateFromDay (Day t).

(** [MakeDay(year, month, date)]: months beyond 0..11 roll the year. *)
Definition MakeDay (year month date : Z) : Z :=
  let ym := year + month / 12 in
  let mn := month mod 12 in
  DayFromYear ym + month_start mn (leap_days ym) + date - 1.

Definition MakeDate (day time : Z) : Z := day * msPerDay + time.

(** [TimeClip]: time values beyond 8.64e15 ms are [NaN]. *)
Definition maxTime : Z := 8640000000000000.

Definition TimeClip (t : Z) : option Z :=
  if Z.abs t <=? maxTime then Some t else None.

(** ** The [Date] operations the code calls, under the local offset [tz] *)

(** [new Date(year, monthIndex, day)] (local midnight); years 0..99
    mean 1900..1999. *)
Definition new_Date_local (tz year month day : Z) : option Z :=
  let yr := if (0 <=? year) && (year <=? 99) then 1900 + year else year in
  TimeClip (MakeDate (MakeDay yr month day) 0 - tz).

Definition getFullYear (tz t : Z) : Z := YearFromTime (t + tz).
Definition getMonth (tz t : Z) : Z := MonthFromTime (t + tz).
Definition getDate (tz t : Z) : Z := DateFromTime (t + tz).

(** ** Valid calendar dates *)

Definition days_in_month (y m : Z) : Z :=
  month_start (m + 1) (leap_days y) - month_start m (leap_days y).

Definition valid_ymd (y m d : Z) : Prop :=
  0 <= m <= 11 /\ 1 <= d <= days_in_month y m.

Definition valid_ymdb (y m d : Z) : bool :=
  (0 <=? m) && (m <=? 11) && (1 <=? d) && (d <=? days_in_month y m).

(** ** Lemmas *)

Lemma leap_days_range y : 0 <= leap_days y <= 1.
Proof. unfold leap_days. destruct (InLeapYear y); lia. Qed.

Lemma div_succ a n : 0 < n -> (a + 1) / n = a / n + (if (a + 1) mod n =? 0 then 1 else 0).
Proof.
  intros Hn. pose proof (Z.div_mod (a + 1) n ltac:(lia)) as D.
  pose proof (Z.mod_pos_bound (a + 1) n Hn) as B.
  destruct (Z.eqb_spec ((a + 1) mod n) 0) as [E|E].
  - assert (a / n = (a + 1) / n - 1) as ->; [|lia].
    symmetry. apply Z.div_unique_pos with (r := n - 1); lia.
  - assert (a / n = (a + 1) / n) as ->; [|lia].
    symmetry. apply Z.div_unique_pos with (r := (a + 1) mod n - 1); lia.
Qed.

Lemma mod_shift y k n : 0 < n -> (y - k * n) mod n = y mod n.
Proof. intros. replace (y - k * n) with (y + (- k) * n) by lia. apply Z.mod_add. lia. Qed.

(** Consecutive years are [DaysInYear] apart. *)
Lemma DayFromYear_succ y : DayFromYear (y + 1) = DayFromYear y + DaysInYear y.
Proof.
  unfold DayFromYear, DaysInYear, leap_days, InLeapYear.
  replace (y + 1 - 1969) with ((y - 1969) + 1) by lia.
  replace (y + 1 - 1901) with ((y - 1901) + 1) by lia.
  replace (y + 1 - 1601) with ((y - 1601) + 1) by lia.
  rewrite !div_succ by lia.
  replace (y - 1969 + 1) with (y - 492 * 4) by lia.
  replace (y - 1901 + 1) with (y - 19 * 100) by lia.
  replace (y - 1601 + 1) with (y - 4 * 400) by lia.
  rewrite !mod_shift by lia.
  destruct (y mod 4 =? 0) eqn:E1, (y mod 100 =? 0) eqn:E2, (y mod 400 =? 0) eqn:E3;
    cbn [andb orb negb]; js_bool; try lia;
    exfalso; Z.div_mod_to_equations; lia.
Qed.

Lemma DayFromYear_lt a b : a < b -> DayFromYear a + 365 <= DayFromYear b.
Proof.
  intros H. replace b with (a + 1 + Z.of_nat (Z.to_nat (b - a - 1))) by lia.
  induction (Z.to_nat (b - a - 1)) as [|n IH].
  - rewrite Z.add_0_r, DayFromYear_succ. unfold DaysInYear. pose proof (leap_days_range a). lia.
  - rewrite Nat2Z.inj_succ, Z.add_succ_r, <- Z.add_1_r, DayFromYear_succ.
    unfold DaysInYear. pose proof (leap_days_range (a + 1 + Z.of_nat n)). lia.
Qed.

(** The year of a day is unique. *)
Lemma year_unique a b x :
  DayFromYear a <= x < DayFromYear (a + 1) ->
  DayFromYear b <= x < DayFromYear (b + 1) -> a = b.
Proof.
  intros Ha Hb. destruct (Z.lt_trichotomy a b) as [H|[H|H]]; [|exact H|].
  - assert (a + 1 <= b) as H' by lia.
    destruct (Z.eq_dec (a + 1) b) as [<-|]; [lia|].
    pose proof (DayFromYear_lt (a + 1) b ltac:(lia)). lia.
  - destruct (Z.eq_dec (b + 1) a) as [<-|]; [lia|].
    pose proof (DayFromYear_lt (b + 1) a ltac:(lia)). lia.
Qed.

Lemma YearFromDay_estimate d :
  DayFromYear (1970 + d * 400 / 146097 - 1) <= d < DayFromYear (1970 + d * 400 / 146097 + 2).
Proof. unfold DayFromYear. split; Z.div_mod_to_equations; lia. Qed.

(** [YearFromTime] meets its definition: the day lies in that year. *)
Lemma YearFromDay_spec d :
  DayFromYear (YearFromDay d) <= d < DayFromYear (YearFromDay d + 1).
Proof.
  unfold YearFromDay. set (y0 := 1970 + d * 400 / 146097).
  pose proof (YearFromDay_estimate d) as [Hlo Hhi]. fold y0 in Hlo, Hhi.
  destruct (d <? DayFromYear y0) eqn:E1; js_bool.
  - replace (y0 - 1 + 1) with y0 by lia. lia.
  - destruct (DayFromYear (y0 + 1) <=? d) eqn:E2; js_bool; [|lia].
    replace (y0 + 1 + 1) with (y0 + 2) by lia. lia.
Qed.

Lemma YearFromDay_unique y d :
  DayFromYear y <= d < DayFromYear (y + 1) -> YearFromDay d = y.
Proof. intros H. exact (year_unique _ _ d (YearFromDay_spec d) H). Qed.

Lemma month_start_bounds m l :
  0 <= m <= 11 -> 0 <= l <= 1 ->
  0 <= month_start m l /\ month_start m l + 28 <= month_start (m + 1) l
  /\ month_start (m + 1) l <= 365 + l.
Proof.
  intros Hm Hl. unfold month_start.
  assert (m = 0 \/ m = 1 \/ m = 2 \/ m = 3 \/ m = 4 \/ m = 5 \/ m = 6 \/ m = 7 \/
          m = 8 \/ m = 9 \/ m = 10 \/ m = 11) as Hc by lia.
  repeat destruct Hc as [->|Hc]; subst; simpl; lia.
Qed.

(** The month table inverts [month_start]. *)
Lemma month_from_dwy_spec dwy l m :
  0 <= m <= 11 -> 0 <= l <= 1 ->
  month_start m l <= dwy < month_start (m + 1) l -> month_from_dwy dwy l = m.
Proof.
  intros Hm Hl. unfold month_start, month_from_dwy.
  assert (m = 0 \/ m = 1 \/ m = 2 \/ m = 3 \/ m = 4 \/ m = 5 \/ m = 6 \/ m = 7 \/
          m = 8 \/ m = 9 \/ m = 10 \/ m = 11) as Hc by lia.
  repeat destruct Hc as [->|Hc]; subst; simpl; intros H; case_ifs; js_bool; lia.
Qed.

Lemma month_from_dwy_range dwy l :
  0 <= dwy < 365 + l -> 0 <= l <= 1 ->
  let m := month_from_dwy dwy l in
  0 <= m <= 11 /\ month_start m l <= dwy < month_start (m + 1) l.
Proof.
  intros Hd Hl. cbv zeta. unfold month_from_dwy, month_start. case_ifs; js_bool; simpl; lia.
Qed.

(** The getters invert [MakeDay] on valid calendar dates. *)
Lemma getters_MakeDay y m d :
  valid_ymd y m d ->
  YearFromDay (MakeDay y m d) = y /\ MonthFromDay (MakeDay y m d) = m /\
  DateFromDay (MakeDay y m d) = d.
Proof.
  intros [Hm Hd]. unfold days_in_month in Hd.
  pose proof (leap_days_range y) as Hl.
  pose proof (month_start_bounds m (leap_days y) Hm Hl) as (H0 & H1 & H2).
  unfold MakeDay. rewrite Z.div_small, Z.mod_small by lia. rewrite Z.add_0_r.
  assert (Hy : YearFromDay (DayFromYear y + month_start m (leap_days y) + d - 1) = y).
  { apply YearFromDay_unique. rewrite DayFromYear_succ. unfold DaysInYear. lia. }
  unfold DateFromDay, MonthFromDay, DayWithinYear. rewrite Hy.
  replace (DayFromYear y + month_start m (leap_days y) + d - 1 - DayFromYear y)
    with (month_start m (leap_days y) + d - 1) by lia.
  rewrite (month_from_dwy_spec _ _ m Hm Hl) by lia.
  split; [reflexivity|]. split; [reflexivity|lia].
Qed.

(** The getters always produce a valid date, and [MakeDay] rebuilds the
    day from it. *)
Lemma MakeDay_getters x :
  valid_ymd (YearFromDay x) (MonthFromDay x) (DateFromDay x) /\
  MakeDay (YearFromDay x) (MonthFromDay x) (DateFromDay x) = x.
Proof.
  pose proof (YearFromDay_spec x) as Hs. set (y := YearFromDay x) in *.
  rewrite DayFromYear_succ in Hs. unfold DaysInYear in Hs.
  pose proof (leap_days_range y) as Hl.
  destruct (month_from_dwy_range (x - DayFromYear y) (leap_days y) ltac:(lia) Hl) as [Hm Hb].
  unfold DateFromDay, MonthFromDay, DayWithinYear. fold y.
  set (m := month_from_dwy (x - DayFromYear y) (leap_days y)) in *.
  split.
  - split; [exact Hm|]. unfold days_in_month. lia.
  - unfold MakeDay. rewrite Z.div_small, Z.mod_small by lia. rewrite Z.add_0_r. lia.
Qed.

Lemma Day_MakeDate d : Day (MakeDate d 0) = d.
Proof. unfold Day, MakeDate, msPerDay. rewrite Z.add_0_r. apply Z.div_mul. lia. Qed.

Lemma month_start_le m l :
  0 <= m <= 11 -> 0 <= l <= 1 -> month_start m l <= 334 + l /\ 0 <= month_start m l.
Proof.
  intros Hm Hl. unfold month_start.
  assert (m = 0 \/ m = 1 \/ m = 2 \/ m = 3 \/ m = 4 \/ m = 5 \/ m = 6 \/ m = 7 \/
          m = 8 \/ m = 9 \/ m = 10 \/ m = 11) as Hc by lia.
  repeat destruct Hc as [->|Hc]; subst; simpl; lia.
Qed.

(** Within a year's months, [MakeDay] determines the year. *)
Lemma MakeDay_year_inj y1 y2 m d :
  0 <= m <= 11 -> MakeDay y1 m d = MakeDay y2 m d -> y1 = y2.
Proof.
  intros Hm E. unfold MakeDay in E. rewrite !Z.div_small, !Z.mod_small in E by lia.
  rewrite !Z.add_0_r in E.
  pose proof (leap_days_range y1). pose proof (leap_days_range y2).
  pose proof (month_start_le m (leap_days y1) Hm ltac:(lia)).
  pose proof (month_start_le m (leap_days y2) Hm ltac:(lia)).
  destruct (Z.lt_trichotomy y1 y2) as [Hlt|[Heq|Hlt]]; [|exact Heq|];
    pose proof (DayFromYear_lt _ _ Hlt); lia.
Qed.
