(* ===== verification/Validation.v ===== *)
(** * The validation engine of [CustomTextInput]

    [validate] of src/types/onboarding.ts (lines 90-135, the TextInput
    component concatenated after the type declarations) runs an ordered
    list of declarative rules over a string and collects the message of
    every failing rule, in declaration order, without short-circuiting.

    The rule's [value?: any] is modelled by [RuleValue]: a number (for
    [minLength]/[maxLength]) or a compiled regular expression, given by
    its [test] function (for [regex]).  JavaScript comparisons of a
    length with [undefined] or with a RegExp are [false], so such rules
    never fail; a [regex] rule whose value is a non-zero number calls
    [.test] on a number and throws a [TypeError], which escapes
    [validate]: the model returns [Throws] there.

    The e-mail test [/^[^\s@]+@[^\s@]+\.[^\s@]+$/] is an executable
    backtracking matcher, [emailRegex_test], proved equal to the regular
    language it denotes ([email_shape]).

    [RuleEngine] is the interface the text-field controller is proved
    against: the engine returns the messages of the failing rules, in
    order, and never throws on well-formed rules. *)

From S2P Require Import Prelude JsString.
Local Open Scope string_scope.
Local Open Scope js_scope.

(** ** The interface a field controller relies on *)

Class RuleEngine (Rule : Type) := {
  engine_validate : string -> list Rule -> js_result (list string);
  engine_message : Rule -> string;
  engine_holds : string -> Rule -> Prop;
  engine_holds_dec :: forall text r, Decision (engine_holds text r);
  engine_wf : Rule -> Prop;
  engine_validate_spec : forall text rules,
    Forall engine_wf rules ->
    engine_validate text rules =
      Ok (map engine_message (filter (fun r => ~ engine_holds text r) rules))
}.

Module ValidationEngine.

(** ** Data: [ValidationRule] *)

Inductive RuleType : Type :=
| Required | MinLength | MaxLength | Regex | Email | Custom.

#[global] Instance RuleType_eq_dec : EqDecision RuleType.
Proof. solve_decision. Defined.

Inductive RuleValue : Type :=
| VNumber (n : Z)
| VRegExp (test : string -> bool).

Record ValidationRule : Type := {
  type : RuleType;
  value : option RuleValue;
  message : string;
  validator : option (string -> bool)
}.

(** ** The e-mail regular expression *)

(** A character of the class [[^\s@]]. *)
Definition plain_char (c : ascii) : bool :=
  negb (js_is_space c) && negb (Ascii.eqb c "@").

Fixpoint all_plain (s : string) : bool :=
  match s with
  | EmptyString => true
  | String c r => plain_char c && all_plain r
  end.

(** [[^\s@]+\.[^\s@]+$] from the current position; [ne] records that
    the first [[^\s@]+] has already consumed a character. *)
Fixpoint domain_match (ne : bool) (s : string) : bool :=
  match s with
  | EmptyString => false
  | String c r =>
      (Ascii.eqb c "." && ne && truthy_str r && all_plain r)
      || (plain_char c && domain_match true r)
  end.

(** [^[^\s@]+@] followed by [domain_match]. *)
Fixpoint local_match (ne : bool) (s : string) : bool :=
  match s with
  | EmptyString => false
  | String c r =>
      (Ascii.eqb c "@" && ne && domain_match false r)
      || (plain_char c && local_match true r)
  end.

(** [emailRegex.test(text)] for [/^[^\s@]+@[^\s@]+\.[^\s@]+$/]. *)
Definition emailRegex_test (s : string) : bool := local_match false s.

(** The language of the regular expression. *)
Definition plain (s : string) : Prop := s <> "" /\ all_plain s = true.

Definition email_shape (s : string) : Prop :=
  exists a b c, s = a ++ String "@" (b ++ String "." c) /\ plain a /\ plain b /\ plain c.

(** ** One rule *)

(** Does the rule push its message? [Throws] when the check itself
    throws (a non-zero number used as a RegExp on a non-empty text). *)
Definition rule_fails (text : string) (rule : ValidationRule) : js_result bool :=
  match type rule with
  | Required => Ok (!!s (js_trim text))
  | MinLength =>
      Ok (match value rule with
          | Some (VNumber n) => (Z.of_nat (String.length text) <? n)%Z
          | _ => false
          end)
  | MaxLength =>
      Ok (match value rule with
          | Some (VNumber n) => (n <? Z.of_nat (String.length text))%Z
          | _ => false
          end)
  | Email => Ok (truthy_str text && negb (emailRegex_test text))
  | Regex =>
      match value rule with
      | None => Ok false
      | Some (VNumber n) =>
          if (n =? 0)%Z || negb (truthy_str text) then Ok false
          else Throws (TypeError "rule.value.test is not a function")
      | Some (VRegExp test) => Ok (truthy_str text && negb (test text))
      end
  | Custom =>
      Ok (match validator rule with Some f => negb (f text) | None => false end)
  end.

(** ** [validate]: every rule, in order, collecting messages *)

Fixpoint validate (text : string) (rules : list ValidationRule) : js_result (list string) :=
  match rules with
  | [] => Ok []
  | rule :: rest =>
      fails <- rule_fails text rule ;;
      msgs <- validate text rest ;;
      Ok (if fails then message rule :: msgs else msgs)
  end.

(** ** Reference semantics of a rule *)

Definition satisfies (text : string) (rule : ValidationRule) : Prop :=
  match type rule with
  | Required => js_trim text <> ""
  | MinLength =>
      forall n, value rule = Some (VNumber n) -> (n <= Z.of_nat (String.length text))%Z
  | MaxLength =>
      forall n, value rule = Some (VNumber n) -> (Z.of_nat (String.length text) <= n)%Z
  | Email => text = "" \/ email_shape text
  | Regex => forall test, value rule = Some (VRegExp test) -> text = "" \/ test text = true
  | Custom => forall f, validator rule = Some f -> f text = true
  end.

(** A rule the engine can run without throwing: a [regex] rule carries a
    RegExp, nothing, or the number 0. *)
Definition rule_wf (rule : ValidationRule) : Prop :=
  type rule = Regex -> forall n, value rule = Some (VNumber n) -> n = 0%Z.

(** ** The matcher and its language *)

Lemma all_plain_app a b : all_plain (a ++ b) = all_plain a && all_plain b.
Proof. induction a as [|c r IH]; simpl; [reflexivity|]. rewrite IH. apply andb_assoc. Qed.

Lemma plain_char_at : plain_char "@" = false.
Proof. reflexivity. Qed.

Lemma plain_char_dot : plain_char "." = true.
Proof. reflexivity. Qed.

Lemma domain_match_spec ne s :
  domain_match ne s = true <->
  exists b c, s = b ++ String "." c /\ all_plain b = true /\ (ne = true \/ b <> "") /\ plain c.
Proof.
  revert ne. induction s as [|x r IH]; intros ne; simpl.
  - split; [discriminate|]. intros (b & c & E & _). destruct b; discriminate.
  - rewrite orb_true_iff, !andb_true_iff. split.
    + intros [[[[Hx Hne] Hr] Hp]|[Hx Hd]].
      * apply Ascii.eqb_eq in Hx. subst x. exists "", r.
        split; [reflexivity|]. split; [reflexivity|]. split; [left; exact Hne|].
        split; [intros ->; discriminate|exact Hp].
      * apply IH in Hd as (b & c & -> & Hb & _ & Hc).
        exists (String x b), c. split; [reflexivity|]. simpl. rewrite Hx, Hb.
        split; [reflexivity|]. split; [right; discriminate|exact Hc].
    + intros ([|y b] & c & E & Hb & Hne & [Hc1 Hc2]); simpl in E; injection E as <- ->.
      * left. split; [split; [split; [apply Ascii.eqb_refl|]|]|exact Hc2].
        -- destruct Hne as [->|]; [reflexivity|congruence].
        -- destruct c; [congruence|reflexivity].
      * simpl in Hb. apply andb_true_iff in Hb as [Hy Hb]. right. split; [exact Hy|].
        apply IH. exists b, c. repeat split; auto.
Qed.

Lemma local_match_spec ne s :
  local_match ne s = true <->
  exists a rest, s = a ++ String "@" rest /\ all_plain a = true /\ (ne = true \/ a <> "")
                 /\ domain_match false rest = true.
Proof.
  revert ne. induction s as [|x r IH]; intros ne; simpl.
  - split; [discriminate|]. intros (a & rest & E & _). destruct a; discriminate.
  - rewrite orb_true_iff, !andb_true_iff. split.
    + intros [[[Hx Hne] Hd]|[Hx Hl]].
      * apply Ascii.eqb_eq in Hx. subst x. exists "", r.
        repeat split; auto.
      * apply IH in Hl as (a & rest & -> & Ha & _ & Hd).
        exists (String x a), rest. split; [reflexivity|]. simpl. rewrite Hx, Ha.
        split; [reflexivity|]. split; [right; discriminate|exact Hd].
    + intros ([|y a] & rest & E & Ha & Hne & Hd); simpl in E; injection E as <- ->.
      * left. split; [split; [apply Ascii.eqb_refl|]|exact Hd].
        destruct Hne as [->|]; [reflexivity|congruence].
      * simpl in Ha. apply andb_true_iff in Ha as [Hy Ha]. right. split; [exact Hy|].
        apply IH. exists a, rest. repeat split; auto.
Qed.

(** ** The matcher decides the language of the regular expression *)

(** The executable test of the e-mail rule accepts exactly the strings of
    the shape [local@domain.tld], each part a non-empty run of characters
    that are neither whitespace nor [@]. *)
Lemma emailRegex_test_spec s : emailRegex_test s = true <-> email_shape s.
Proof.
  unfold emailRegex_test. rewrite local_match_spec. split.
  - intros (a & rest & -> & Ha & Hne & Hd).
    apply domain_match_spec in Hd as (b & c & -> & Hb & [?|Hbne] & Hc); [discriminate|].
    exists a, b, c. split; [reflexivity|]. split; [|split; [split; assumption|exact Hc]].
    split; [destruct Hne; [discriminate|assumption]|exact Ha].
  - intros (a & b & c & -> & [Ha1 Ha2] & [Hb1 Hb2] & Hc).
    exists a, (b ++ String "." c). split; [reflexivity|].
    split; [exact Ha2|]. split; [right; exact Ha1|].
    apply domain_match_spec. exists b, c.
    split; [reflexivity|]. split; [exact Hb2|]. split; [right; exact Hb1|exact Hc].
Qed.

Definition email_shape_dec s : {email_shape s} + {~ email_shape s} :=
  match emailRegex_test s as b return emailRegex_test s = b -> _ with
  | true => fun E => left (proj1 (emailRegex_test_spec s) E)
  | false => fun E => right (fun H => Bool.diff_false_true
                              (eq_trans (eq_sym E) (proj2 (emailRegex_test_spec s) H)))
  end eq_refl.

(** ** Deciding the reference semantics *)

#[export] Instance satisfies_dec text rule : Decision (satisfies text rule).
Proof.
  unfold satisfies. destruct (type rule).
  - apply _.
  - destruct (value rule) as [[n|t]|].
    + destruct (Z_le_dec n (Z.of_nat (String.length text))) as [H|H];
        [left; intros m E; injection E as <-; exact H|right; intros Hf; apply H, Hf, eq_refl].
    + left. discriminate.
    + left. discriminate.
  - destruct (value rule) as [[n|t]|].
    + destruct (Z_le_dec (Z.of_nat (String.length text)) n) as [H|H];
        [left; intros m E; injection E as <-; exact H|right; intros Hf; apply H, Hf, eq_refl].
    + left. discriminate.
    + left. discriminate.
  - destruct (value rule) as [[n|t]|].
    + left. discriminate.
    + destruct (String.string_dec text "") as [H|H]; [left; intros; left; exact H|].
      destruct (t text) eqn:Et; [left; intros t' E; injection E as <-; right; exact Et|].
      right. intros Hf. destruct (Hf t eq_refl); congruence.
    + left. discriminate.
  - destruct (String.string_dec text "") as [H|H]; [left; left; exact H|].
    destruct (email_shape_dec text) as [H'|H']; [left; right; exact H'|].
    right. intros [?|?]; contradiction.
  - destruct (validator rule) as [f|].
    + destruct (f text) eqn:Ef; [left; intros g E; injection E as <-; exact Ef|].
      right. intros Hf. specialize (Hf f eq_refl). congruence.
    + left. discriminate.
Defined.

(** ** The engine on one rule *)

(** A rule whose value does not apply to its check never fails. *)
Local Ltac vacuous :=
  split; [discriminate|intros Hs; exfalso; apply Hs; intros ? E; discriminate E].

Lemma rule_fails_ok text rule :
  rule_wf rule ->
  exists b, rule_fails text rule = Ok b /\ (b = true <-> ~ satisfies text rule).
Proof.
  intros Hwf. unfold rule_fails, rule_wf, satisfies in *.
  destruct (type rule); try (eexists; split; [reflexivity|]).
  - destruct (js_trim text) as [|c r]; simpl.
    + split; [intros _ H; apply H; reflexivity|reflexivity].
    + split; [discriminate|intros H; exfalso; apply H; discriminate].
  - destruct (value rule) as [[n|t]|]; [|vacuous|vacuous].
    rewrite Z.ltb_lt. split; [intros Hlt Hs; specialize (Hs n eq_refl); lia|].
    intros Hs. destruct (Z_lt_le_dec (Z.of_nat (String.length text)) n) as [H|H]; [exact H|].
    exfalso. apply Hs. intros m E. injection E as <-. exact H.
  - destruct (value rule) as [[n|t]|]; [|vacuous|vacuous].
    rewrite Z.ltb_lt. split; [intros Hlt Hs; specialize (Hs n eq_refl); lia|].
    intros Hs. destruct (Z_lt_le_dec n (Z.of_nat (String.length text))) as [H|H]; [exact H|].
    exfalso. apply Hs. intros m E. injection E as <-. exact H.
  - destruct (value rule) as [[n|t]|].
    + rewrite (Hwf eq_refl n eq_refl). eexists; split; [reflexivity|vacuous].
    + eexists; split; [reflexivity|]. destruct text as [|x r]; simpl.
      * split; [discriminate|intros Hs; exfalso; apply Hs; intros; left; reflexivity].
      * destruct (t (String x r)) eqn:Et; simpl.
        -- split; [discriminate|intros Hs; exfalso; apply Hs; intros t' E].
           injection E as <-. right. exact Et.
        -- split; [intros _ Hs; destruct (Hs t eq_refl); congruence|reflexivity].
    + eexists; split; [reflexivity|vacuous].
  - destruct text as [|x r]; simpl.
    + split; [discriminate|intros Hs; exfalso; apply Hs; left; reflexivity].
    + destruct (emailRegex_test (String x r)) eqn:E; simpl.
      * split; [discriminate|intros Hs; exfalso; apply Hs; right].
        apply emailRegex_test_spec. exact E.
      * split; [intros _ [Hs|Hs]; [discriminate|]|reflexivity].
        apply emailRegex_test_spec in Hs. congruence.
  - destruct (validator rule) as [f|]; [|vacuous].
    destruct (f text) eqn:Ef; simpl.
    + split; [discriminate|intros Hs; exfalso; apply Hs; intros g E].
      injection E as <-. exact Ef.
    + split; [intros _ Hs; specialize (Hs f eq_refl); congruence|reflexivity].
Qed.

Lemma rule_fails_spec text rule :
  rule_wf rule ->
  rule_fails text rule = Ok (bool_decide (~ satisfies text rule)).
Proof.
  intros Hwf. destruct (rule_fails_ok text rule Hwf) as (b & -> & Hb).
  f_equal. case_bool_decide as H; destruct b; tauto.
Qed.

(** ** Properties of [validate] *)

Lemma validate_filter_messages text rules :
  Forall rule_wf rules ->
  validate text rules = Ok (map message (filter (fun r => ~ satisfies text r) rules)).
Proof.
  induction 1 as [|r rules Hr _ IH]; [reflexivity|].
  simpl. rewrite (rule_fails_spec text r Hr). simpl. rewrite IH. simpl.
  rewrite filter_cons. case_decide as H;
    [rewrite bool_decide_true by exact H|rewrite bool_decide_false by tauto]; reflexivity.
Qed.

(** C1. On well-formed rules [validate] returns, in declaration order,
    exactly the messages of the rules the text does not satisfy: every
    rule is evaluated, none short-circuits the others. *)
Theorem validate_spec text rules :
  Forall rule_wf rules ->
  validate text rules = Ok (map message (filter (fun r => ~ satisfies text r) rules)).
Proof. exact (validate_filter_messages text rules). Qed.

(** The result of [validate] is empty exactly when the text
    satisfies every rule. *)
Corollary validate_nil_iff text rules :
  Forall rule_wf rules ->
  validate text rules = Ok [] <-> Forall (satisfies text) rules.
Proof.
  intros Hwf. rewrite (validate_filter_messages text rules Hwf). split.
  - intros E. injection E as E. apply map_eq_nil in E.
    apply Forall_forall. intros r Hin.
    destruct (decide (satisfies text r)) as [H|H]; [exact H|].
    assert (Hf : r ∈ filter (fun r => ~ satisfies text r) rules)
      by (apply list_elem_of_filter; split; [exact H|exact Hin]).
    rewrite E in Hf. apply not_elem_of_nil in Hf. contradiction.
  - intros Hall. f_equal. clear Hwf.
    induction Hall as [|r rules Hr _ IH]; [reflexivity|].
    rewrite filter_cons_False by tauto. exact IH.
Qed.

(** A [regex] rule whose value is a non-zero number. *)
Definition bad_regex_rule (rule : ValidationRule) : Prop :=
  type rule = Regex /\ exists n, value rule = Some (VNumber n) /\ n <> 0%Z.

Lemma rule_fails_throws text rule :
  (exists e, rule_fails text rule = Throws e) <->
  truthy_str text = true /\ bad_regex_rule rule.
Proof.
  unfold rule_fails, bad_regex_rule.
  destruct (type rule);
    try (split; [intros (e & E); discriminate|intros (_ & E & _); discriminate]).
  destruct (value rule) as [[n|t]|];
    try (split; [intros (e & E); discriminate|intros (_ & _ & m & E & _); discriminate]).
  destruct (Z.eqb_spec n 0) as [->|Hn]; destruct (truthy_str text); simpl.
  - split; [intros (e & E); discriminate|intros (_ & _ & m & E & Hm); congruence].
  - split; [intros (e & E); discriminate|intros [H _]; discriminate].
  - split; [intros _; split; [reflexivity|split; [reflexivity|eauto]]|eauto].
  - split; [intros (e & E); discriminate|intros [H _]; discriminate].
Qed.

Lemma validate_cons_throws text rule rules :
  (exists e, validate text (rule :: rules) = Throws e) <->
  (exists e, rule_fails text rule = Throws e) \/ (exists e, validate text rules = Throws e).
Proof.
  simpl. destruct (rule_fails text rule) as [b|e]; simpl; [|split; eauto].
  destruct (validate text rules) as [ms|e]; simpl.
  - split; [intros (e & E); discriminate|intros [(e & E)|(e & E)]; discriminate].
  - split; eauto.
Qed.

(** Among the rule values of [RuleValue] (numbers and RegExps),
    [validate] throws exactly when the text is non-empty and some [regex]
    rule carries a non-zero number instead of a RegExp.  The code's
    [value?: any] admits more that throws at line 121 (a non-empty
    string, [true], an object without [test]). *)
Theorem validate_throws_iff text rules :
  (exists e, validate text rules = Throws e) <->
  truthy_str text = true /\ Exists bad_regex_rule rules.
Proof.
  induction rules as [|r rules IH].
  - split; [intros (e & E); discriminate|intros [_ H]; inversion H].
  - rewrite validate_cons_throws, rule_fails_throws, IH, Exists_cons. tauto.
Qed.

(** The rules OnboardingScreen passes to the name and e-mail inputs. *)
Definition rule (t : RuleType) (v : option RuleValue) (msg : string) : ValidationRule :=
  {| type := t; value := v; message := msg; validator := None |}.

Definition name_validators : list ValidationRule :=
  [rule Required None "Name is required";
   rule MinLength (Some (VNumber 2)) "Name must be at least 2 characters";
   rule MaxLength (Some (VNumber 100)) "Name must not exceed 100 characters"].

Definition email_validators : list ValidationRule :=
  [rule Required None "Email is required";
   rule Email None "Invalid email format"].

Lemma screen_rules_wf : Forall rule_wf name_validators /\ Forall rule_wf email_validators.
Proof. split; repeat constructor; intros E; discriminate. Qed.

(** Witness: a one-letter name fails only the length rule. *)
Lemma validate_spec_witness :
  validate "A" name_validators = Ok ["Name must be at least 2 characters"].
Proof.
  rewrite (validate_spec "A" name_validators (proj1 screen_rules_wf)).
  vm_compute. reflexivity.
Defined.

(** Witness: a well-formed address passes both e-mail rules. *)
Lemma validate_nil_iff_witness :
  Forall (satisfies "ada@example.org") email_validators.
Proof.
  apply (validate_nil_iff "ada@example.org" email_validators (proj2 screen_rules_wf)).
  vm_compute. reflexivity.
Defined.

(** The engine of the text input implements the interface. *)
#[export] Instance validation_engine : RuleEngine ValidationRule := {
  engine_validate := validate;
  engine_message := message;
  engine_holds := satisfies;
  engine_wf := rule_wf;
  engine_validate_spec := validate_filter_messages
}.

End ValidationEngine.
