(* ===== verification/TextField.v ===== *)
(** * The text-field controller of [CustomTextInput]

    src/types/onboarding.ts, lines 69-166: the React state of the input
    ([internalValue], [isFocused], [isTouched], [errors]), the displayed
    [value] (the [value] prop when it is defined, the internal value
    otherwise), the three handlers and the derived flags [hasError] and
    [isSuccess]; and, over the engine of [Validation], what the input
    renders (lines 167-240): [getBorderColor], the required mark, the
    status icons, the messages or helper text and the character count.

    A handler is a function from the props of the current render and the
    state to an [Outcome]: the new state, the callbacks it invoked in
    order, and the exception that escaped it, if any (state updates made
    before a throw are kept, as React keeps updates already enqueued).
    The controller is written against the [RuleEngine] interface of
    [Validation]: its invariants hold for any engine meeting that
    contract.  The enclosing form is a parent that echoes [onChangeText]
    into the [value] prop, as OnboardingScreen does with [setName]; the
    reachable configurations are an inductive closure over user events. *)

From S2P Require Import Prelude JsString Validation.
Local Open Scope string_scope.

Module TextInput.

(** ** Data *)

Record TextInputState : Type := {
  internalValue : string;
  isFocused : bool;
  isTouched : bool;
  errors : list string
}.

Definition initial_state : TextInputState :=
  {| internalValue := ""; isFocused := false; isTouched := false; errors := [] |}.

(** The callbacks the component invokes ([externalOnChangeText] and
    [onValidate]). *)
Inductive Callback : Type :=
| OnChangeText (text : string)
| OnValidate (isValid : bool).


(** User events the input receives. *)
Inductive Event : Type :=
| ChangeText (text : string)
| Focus
| Blur.

Section Controller.
Context {Rule : Type} `{E : RuleEngine Rule}.

(** The props the handlers read.  [externalValue = None] is the
    uncontrolled mode; [has_onChangeText]/[has_onValidate] say whether
    the optional callbacks were passed. *)
Record Props : Type := {
  validators : list Rule;
  externalValue : option string;
  has_onChangeText : bool;
  has_onValidate : bool
}.

Definition isControlled (p : Props) : bool :=
  match externalValue p with Some _ => true | None => false end.

Definition value (p : Props) (st : TextInputState) : string :=
  match externalValue p with Some v => v | None => internalValue st end.

Definition set_internalValue (st : TextInputState) (v : string) : TextInputState :=
  {| internalValue := v; isFocused := isFocused st; isTouched := isTouched st;
     errors := errors st |}.

Definition set_errors (st : TextInputState) (es : list string) : TextInputState :=
  {| internalValue := internalValue st; isFocused := isFocused st;
     isTouched := isTouched st; errors := es |}.

Definition opt_call (present : bool) (c : Callback) : list Callback :=
  if present then [c] else [].

Definition is_empty_list {A} (l : list A) : bool :=
  match l with [] => true | _ => false end.

(** [handleChangeText] *)
Definition handleChangeText (p : Props) (st : TextInputState) (text : string)
  : Outcome TextInputState Callback :=
  let st1 := if isControlled p then st else set_internalValue st text in
  let calls1 := opt_call (has_onChangeText p) (OnChangeText text) in
  if isTouched st then
    match engine_validate text (validators p) with
    | Ok errs =>
        {| out_state := set_errors st1 errs;
           out_calls := calls1 ++ opt_call (has_onValidate p) (OnValidate (is_empty_list errs));
           out_exn := None |}
    | Throws e => {| out_state := st1; out_calls := calls1; out_exn := Some e |}
    end
  else {| out_state := st1; out_calls := calls1; out_exn := None |}.

(** [handleFocus] *)
Definition handleFocus (st : TextInputState) : Outcome TextInputState Callback :=
  {| out_state := {| internalValue := internalValue st; isFocused := true;
                     isTouched := isTouched st; errors := errors st |};
     out_calls := []; out_exn := None |}.

(** [handleBlur]: blur, touch, validate the displayed value. *)
Definition handleBlur (p : Props) (st : TextInputState) : Outcome TextInputState Callback :=
  let st1 := {| internalValue := internalValue st; isFocused := false;
                isTouched := true; errors := errors st |} in
  match engine_validate (value p st) (validators p) with
  | Ok errs =>
      {| out_state := set_errors st1 errs;
         out_calls := opt_call (has_onValidate p) (OnValidate (is_empty_list errs));
         out_exn := None |}
  | Throws e => {| out_state := st1; out_calls := []; out_exn := Some e |}
  end.

Definition hasError (st : TextInputState) : bool :=
  isTouched st && negb (is_empty_list (errors st)).

Definition isSuccess (p : Props) (st : TextInputState) : bool :=
  isTouched st && is_empty_list (errors st) && truthy_str (js_trim (value p st)).

Definition dispatch (p : Props) (st : TextInputState) (ev : Event) : Outcome TextInputState Callback :=
  match ev with
  | ChangeText t => handleChangeText p st t
  | Focus => handleFocus st
  | Blur => handleBlur p st
  end.

(** The enclosing form: in controlled mode it stores the last text
    reported by [onChangeText] and passes it back as [value]. *)
Fixpoint last_change (calls : list Callback) : option string :=
  match calls with
  | [] => None
  | OnChangeText t :: rest =>
      match last_change rest with Some t' => Some t' | None => Some t end
  | _ :: rest => last_change rest
  end.

Definition parent_update (p : Props) (calls : list Callback) : Props :=
  match externalValue p, last_change calls with
  | Some _, Some t =>
      {| validators := validators p; externalValue := Some t;
         has_onChangeText := has_onChangeText p; has_onValidate := has_onValidate p |}
  | _, _ => p
  end.

(** Configurations reachable from the mounted component. *)
Inductive reachable (p0 : Props) : Props -> TextInputState -> Prop :=
| reach_init : reachable p0 p0 initial_state
| reach_step p st ev :
    reachable p0 p st ->
    reachable p0 (parent_update p (out_calls (dispatch p st ev)))
                 (out_state (dispatch p st ev)).

(** ** Invariant of the controller *)

(** A controlled input whose parent receives [onChangeText]. *)
Definition parent_echoes (p : Props) : Prop :=
  isControlled p = true -> has_onChangeText p = true.

(** The messages the engine reports for a text. *)
Definition failing_messages (text : string) (rules : list Rule) : list string :=
  map engine_message (filter (fun r => ~ engine_holds text r) rules).

Definition field_inv (p0 p : Props) (st : TextInputState) : Prop :=
  validators p = validators p0 /\ has_onChangeText p = has_onChangeText p0 /\
  isControlled p = isControlled p0 /\
  (isTouched st = false -> errors st = []) /\
  (isTouched st = true -> errors st = failing_messages (value p st) (validators p)).

Lemma last_change_change p t :
  has_onChangeText p = true -> last_change (opt_call (has_onChangeText p) (OnChangeText t)) = Some t.
Proof. intros ->. reflexivity. Qed.

Lemma last_change_validate p b :
  last_change (opt_call (has_onValidate p) (OnValidate b)) = None.
Proof. unfold opt_call. destruct (has_onValidate p); reflexivity. Qed.

(** The props after a change event: same rules, callbacks and mode;
    in controlled mode the [value] prop becomes the new text. *)
Lemma parent_update_change p calls t :
  last_change calls = Some t ->
  validators (parent_update p calls) = validators p /\
  has_onChangeText (parent_update p calls) = has_onChangeText p /\
  isControlled (parent_update p calls) = isControlled p /\
  (isControlled p = true -> externalValue (parent_update p calls) = Some t).
Proof.
  unfold parent_update, isControlled. intros ->.
  destruct (externalValue p) eqn:Ev; simpl; rewrite ?Ev.
  - repeat split.
  - repeat split. discriminate.
Qed.

Lemma parent_update_silent p calls :
  last_change calls = None -> parent_update p calls = p.
Proof. unfold parent_update. intros ->. destruct (externalValue p); reflexivity. Qed.

Lemma last_change_app calls1 calls2 :
  last_change calls2 = None -> last_change (calls1 ++ calls2) = last_change calls1.
Proof.
  intros H. induction calls1 as [|[t|b] calls1 IH]; simpl; [exact H| |exact IH].
  rewrite IH. reflexivity.
Qed.

Lemma reachable_field_inv p0 p st :
  Forall engine_wf (validators p0) -> parent_echoes p0 ->
  reachable p0 p st -> field_inv p0 p st.
Proof.
  intros Hwf Hecho. induction 1 as [|p st ev Hr IH].
  - repeat split; discriminate.
  - destruct IH as (Hv & Hh & Hc & Hun & Ht).
    assert (Hwf' : Forall engine_wf (validators p)) by (rewrite Hv; exact Hwf).
    destruct ev as [t| |]; simpl.
    + unfold handleChangeText.
      set (calls1 := opt_call (has_onChangeText p) (OnChangeText t)).
      assert (Hlc : isControlled p = true -> last_change calls1 = Some t).
      { intros Hcp. apply last_change_change. rewrite Hh. apply Hecho. congruence. }
      destruct (isTouched st) eqn:Htouch.
      * rewrite (engine_validate_spec t _ Hwf'). simpl.
        destruct (isControlled p) eqn:Hcp.
        -- match goal with |- field_inv _ (parent_update p ?c) _ =>
             assert (Hl : last_change c = Some t)
               by (rewrite last_change_app by apply last_change_validate; apply Hlc; reflexivity)
           end.
           destruct (parent_update_change p _ t Hl) as (Hv' & Hh' & Hc' & Hx).
           split; [congruence|]. split; [congruence|]. split; [congruence|].
           split; [simpl; rewrite Htouch; discriminate|].
           intros _. unfold value. rewrite (Hx Hcp), Hv'. reflexivity.
        -- assert (Hnone : externalValue p = None)
             by (unfold isControlled in Hcp; destruct (externalValue p); congruence).
           assert (Hpu : parent_update p (calls1 ++ opt_call (has_onValidate p)
                           (OnValidate (is_empty_list (failing_messages t (validators p))))) = p)
             by (unfold parent_update; rewrite Hnone; reflexivity).
           unfold failing_messages in Hpu. rewrite Hpu.
           split; [assumption|]. split; [assumption|]. split; [congruence|].
           split; [simpl; rewrite Htouch; discriminate|].
           intros _. unfold value. rewrite Hnone. reflexivity.
      * cbn [out_state out_calls]. destruct (isControlled p) eqn:Hcp.
        -- destruct (parent_update_change p _ t (Hlc eq_refl)) as (Hv' & Hh' & Hc' & Hx).
           split; [congruence|]. split; [congruence|]. split; [congruence|].
           split; [intros _; apply Hun; reflexivity|]. simpl. rewrite Htouch. discriminate.
        -- assert (Hnone : externalValue p = None)
             by (unfold isControlled in Hcp; destruct (externalValue p); congruence).
           assert (Hpu : parent_update p calls1 = p)
             by (unfold parent_update; rewrite Hnone; reflexivity).
           rewrite Hpu. split; [assumption|]. split; [assumption|]. split; [congruence|].
           split; [intros _; apply Hun; reflexivity|].
           simpl. rewrite Htouch. discriminate.
    + rewrite parent_update_silent by reflexivity. simpl. repeat split; assumption.
    + unfold handleBlur. rewrite (engine_validate_spec _ _ Hwf'). simpl.
      rewrite parent_update_silent by apply last_change_validate.
      repeat split; try assumption; discriminate.
Qed.

(** C2. From the mounted component, under any sequence of changes,
    focus and blur events (rules the engine runs without throwing, a
    parent that echoes [onChangeText]): before the first blur no error
    is ever computed, and once touched the errors are exactly the
    messages of the rules the displayed value fails, in order. *)
Theorem field_invariant p0 p st :
  Forall engine_wf (validators p0) -> parent_echoes p0 ->
  reachable p0 p st -> field_inv p0 p st.
Proof. exact (reachable_field_inv p0 p st). Qed.

(** No handler of a reachable input throws when the rules are
    well formed. *)
Theorem dispatch_no_exception p0 p st ev :
  Forall engine_wf (validators p0) -> parent_echoes p0 ->
  reachable p0 p st -> out_exn (dispatch p st ev) = None.
Proof.
  intros Hwf Hecho Hr.
  destruct (reachable_field_inv p0 p st Hwf Hecho Hr) as (Hv & _).
  assert (Hwf' : Forall engine_wf (validators p)) by (rewrite Hv; exact Hwf).
  destruct ev as [t| |]; simpl; [unfold handleChangeText|reflexivity|unfold handleBlur].
  - destruct (isTouched st); [|reflexivity]. rewrite (engine_validate_spec t _ Hwf'). reflexivity.
  - rewrite (engine_validate_spec _ _ Hwf'). reflexivity.
Qed.

End Controller.

Arguments Props Rule : clear implicits.

(** ** The controller over the engine of the text input *)

Abbreviation field_value := value (only parsing).
Import ValidationEngine.

(** ** What the input renders (lines 167-244) *)

(** [getBorderColor] (lines 168-174). *)
Definition getBorderColor (disabled : bool) (p : Props ValidationRule) (st : TextInputState) : string :=
  if disabled then "#E0E0E0"
  else if hasError st then "#F44336"
  else if isSuccess p st then "#4CAF50"
  else if isFocused st then "#2196F3"
  else "#BDBDBD".

Definition has_type (t : RuleType) (r : ValidationRule) : bool := bool_decide (ValidationEngine.type r = t).

(** The observable part of the rendered tree: the label with its
    required mark, the border colour, whether the input is editable, the
    two status icons, the error messages or else the helper text, and the
    character count [value.length / maxLength.value] as its two parts
    (the rule's value is rendered as React renders it). *)
Record TextInputView : Type := {
  label_text : string;
  required_mark : bool;
  border_color : string;
  editable : bool;
  success_icon : bool;
  error_icon : bool;
  messages : list string;
  helper : option string;
  char_count : option (nat * option RuleValue)
}.

Definition render_input (label : string) (helperText : option string) (disabled : bool)
    (p : Props ValidationRule) (st : TextInputState) : TextInputView :=
  {| label_text := label;
     required_mark := existsb (has_type Required) (validators p);
     border_color := getBorderColor disabled p st;
     editable := negb disabled;
     success_icon := isSuccess p st;
     error_icon := hasError st;
     messages := if hasError st then errors st else [];
     helper := if hasError st then None
               else match helperText with Some h => if truthy_str h then Some h else None | None => None end;
     char_count :=
       if existsb (has_type MaxLength) (validators p)
       then Some (String.length (field_value p st),
                  match List.find (has_type MaxLength) (validators p) with
                  | Some r => ValidationEngine.value r
                  | None => None
                  end)
       else None |}.

(** Blurring an input whose displayed value is blank, with a
    [required] rule among well-formed rules, touches the field, makes
    [hasError] true and shows that rule's message; before the blur the
    mounted field shows no error. *)
Theorem blur_blank_required (p : Props ValidationRule) st r :
  Forall rule_wf (validators p) -> In r (validators p) -> type r = Required ->
  js_blank (field_value p st) = true ->
  isTouched (out_state (handleBlur p st)) = true /\
  hasError (out_state (handleBlur p st)) = true /\
  In (message r) (errors (out_state (handleBlur p st))).
Proof.
  intros Hwf Hin Hreq Hblank. unfold handleBlur. simpl.
  rewrite (validate_filter_messages _ _ Hwf). simpl.
  assert (Hm : In (message r) (map message (filter (fun r => ~ satisfies (field_value p st) r) (validators p)))).
  { apply in_map. apply list_elem_of_In, list_elem_of_filter. split; [|apply list_elem_of_In; exact Hin].
    unfold satisfies. rewrite Hreq. intros H. apply H. apply js_trim_empty_iff. exact Hblank. }
  split; [reflexivity|]. split; [|exact Hm].
  unfold hasError. simpl. destruct (map message _); [contradiction|reflexivity].
Qed.

Lemma is_empty_list_false {A} (l : list A) : is_empty_list l = false <-> l <> [].
Proof. destruct l; cbn; split; congruence. Qed.

(** C29. The rendered input shows its state: in every configuration the
    text input reaches (well-formed rules, a parent that echoes the text),
    an enabled field lists, as error messages, nothing before its first
    blur and afterwards exactly the messages of the rules its displayed
    value fails, in rule order; its border is red exactly when it lists
    some; and the success and error icons never show together. *)
Theorem input_view_reflects_state lbl helperText p0 p st :
  Forall rule_wf (validators p0) -> parent_echoes p0 -> reachable p0 p st ->
  let v := render_input lbl helperText false p st in
  messages v = (if isTouched st then failing_messages (field_value p st) (validators p) else [])
  /\ (border_color v = "#F44336" <-> messages v <> [])
  /\ success_icon v && error_icon v = false.
Proof.
  intros Hwf Hecho Hr v.
  destruct (@reachable_field_inv _ validation_engine p0 p st Hwf Hecho Hr) as (_ & _ & _ & Hun & Ht).
  subst v. cbn [render_input messages border_color success_icon error_icon getBorderColor].
  unfold hasError, isSuccess.
  destruct (isTouched st) eqn:Htouch; cbn [andb negb].
  - rewrite <- (Ht eq_refl). destruct (errors st) as [|e es]; cbn [is_empty_list negb andb].
    + split; [reflexivity|]. split; [|apply andb_false_r].
      split; [destruct (truthy_str _), (isFocused st); discriminate|congruence].
    + split; [reflexivity|]. split; [split; [discriminate|reflexivity]|reflexivity].
  - split; [reflexivity|]. split; [|reflexivity].
    split; [destruct (isFocused st); discriminate|congruence].
Qed.

Definition required_props : Props ValidationRule :=
  {| validators := [rule Required None "Name is required"]; externalValue := None;
     has_onChangeText := true; has_onValidate := true |}.

(** Witness: the empty uncontrolled field of the specification. *)
Lemma blur_blank_required_witness :
  hasError initial_state = false /\
  hasError (out_state (handleBlur required_props initial_state)) = true /\
  In "Name is required" (errors (out_state (handleBlur required_props initial_state))).
Proof.
  split; [reflexivity|].
  destruct (blur_blank_required required_props initial_state (rule Required None "Name is required"))
    as (_ & H1 & H2).
  - repeat constructor. intros E; discriminate.
  - left. reflexivity.
  - reflexivity.
  - reflexivity.
  - split; [exact H1|exact H2].
Defined.

(** Witness: a field that was typed into and blurred. *)
Definition name_props : Props ValidationRule :=
  {| validators := name_validators; externalValue := Some "";
     has_onChangeText := true; has_onValidate := true |}.

Lemma field_invariant_witness :
  let o1 := dispatch name_props initial_state (ChangeText "A") in
  let p1 := parent_update name_props (out_calls o1) in
  let o2 := dispatch p1 (out_state o1) Blur in
  let p2 := parent_update p1 (out_calls o2) in
  field_inv name_props p2 (out_state o2).
Proof.
  assert (Hwf : Forall rule_wf (validators name_props)) by exact (proj1 screen_rules_wf).
  assert (He : parent_echoes name_props) by (intros _; reflexivity).
  assert (R : reachable name_props
               (parent_update (parent_update name_props
                  (out_calls (dispatch name_props initial_state (ChangeText "A"))))
                  (out_calls (dispatch (parent_update name_props
                     (out_calls (dispatch name_props initial_state (ChangeText "A"))))
                     (out_state (dispatch name_props initial_state (ChangeText "A"))) Blur)))
               (out_state (dispatch (parent_update name_props
                     (out_calls (dispatch name_props initial_state (ChangeText "A"))))
                     (out_state (dispatch name_props initial_state (ChangeText "A"))) Blur)))
    by (apply reach_step, reach_step, reach_init).
  exact (field_invariant name_props _ _ Hwf He R).
Defined.

(** Witness: editing the blurred field does not throw. *)
Lemma dispatch_no_exception_witness :
  let o1 := dispatch name_props initial_state (ChangeText "A") in
  let p1 := parent_update name_props (out_calls o1) in
  let o2 := dispatch p1 (out_state o1) Blur in
  let p2 := parent_update p1 (out_calls o2) in
  out_exn (dispatch p2 (out_state o2) (ChangeText "Al")) = None.
Proof.
  apply (dispatch_no_exception name_props).
  - exact (proj1 screen_rules_wf).
  - intros _. reflexivity.
  - apply reach_step, reach_step, reach_init.
Defined.

(** Witness: the name field after typing "A" and leaving it. *)
Lemma input_view_reflects_state_witness :
  let o1 := dispatch name_props initial_state (ChangeText "A") in
  let p1 := parent_update name_props (out_calls o1) in
  let o2 := dispatch p1 (out_state o1) Blur in
  let p2 := parent_update p1 (out_calls o2) in
  let v := render_input "Full Name" None false p2 (out_state o2) in
  messages v = (if isTouched (out_state o2)
                then failing_messages (field_value p2 (out_state o2)) (validators p2) else [])
  /\ (border_color v = "#F44336" <-> messages v <> [])
  /\ success_icon v && error_icon v = false.
Proof.
  assert (Hwf : Forall rule_wf (validators name_props)) by exact (proj1 screen_rules_wf).
  assert (He : parent_echoes name_props) by (intros _; reflexivity).
  apply (input_view_reflects_state "Full Name" None name_props); [exact Hwf|exact He|].
  apply reach_step, reach_step, reach_init.
Defined.

End TextInput.
