(* ===== verification/DateField.v ===== *)
(** * The date field [CalendarPicker]

    src/components/onboarding/CalendarPicker.tsx: [formatDate] (lines
    45-60), [parseDate] (63-107), [toCalendarFormat] (110-115),
    [validateDate] (118-139), the handlers [handleTextChange] (142-154),
    [handleBlur] (157-161), [handleDateSelect] (164-173), [handleClear]
    (176-180), the derived [markedDates] (183-196) and [hasError] (202),
    the calendar modal's open and close, and what the field renders
    (198-303).

    Dates are ECMAScript time values ([JsDate]); the whole component is a
    Section over the local time-zone offset [tz].  The free-text date goes
    through [split], [parseInt], [new Date(y, m, d)] and the roll-over
    check; the calendar's [day.dateString] through the ISO date-only form
    of [Date.parse], which ECMAScript reads as UTC midnight.

    Each handler maps the props and the state to an [Outcome] as in
    [TextField].  [handleTextChange] reads [validationError] outside the
    block that declares it: the model returns the [ReferenceError] that
    the code throws there.  The lenient reading of [parseInt] is proved
    for any digits followed by anything that does not continue them. *)

From S2P Require Import Prelude JsString JsDate.
Local Open Scope string_scope.

Inductive DateFormat : Type :=
| DD_MM_YYYY
| MM_DD_YYYY
| YYYY_MM_DD.

Definition format_name (fmt : DateFormat) : string :=
  match fmt with
  | DD_MM_YYYY => "DD/MM/YYYY"
  | MM_DD_YYYY => "MM/DD/YYYY"
  | YYYY_MM_DD => "YYYY-MM-DD"
  end.

Definition pad2 (n : Z) : string := js_padStart 2 "0" (js_int_to_string n).

(** The props of the date field that the logic reads ([minDate] and
    [maxDate] as time values). *)
Record DateProps : Type := {
  format : DateFormat;
  minDate : option Z;
  maxDate : option Z;
  required : bool;
  has_onChange : bool
}.

Record DateState : Type := {
  isModalVisible : bool;
  textValue : string;
  error : string;
  isTouched_d : bool
}.

(** The callback [onChange(date)]. *)
Inductive DateCallback : Type :=
| OnChange (date : string).

Section CalendarPicker.
Variable tz : Z.

(** [formatDate] *)
Definition formatDate (fmt : DateFormat) (t : Z) : string :=
  let day := pad2 (getDate tz t) in
  let month := pad2 (getMonth tz t + 1) in
  let year := js_int_to_string (getFullYear tz t) in
  match fmt with
  | DD_MM_YYYY => day ++ String "/" (month ++ String "/" year)
  | MM_DD_YYYY => month ++ String "/" (day ++ String "/" year)
  | YYYY_MM_DD => year ++ String "-" (month ++ String "-" day)
  end.

(** Lines 91-103 of [parseDate]: build the local date and reject it
    unless its getters give back the parsed fields. *)
Definition construct_checked (day month year : option Z) : option Z :=
  match day, month, year with
  | Some d, Some m, Some y =>
      match new_Date_local tz y m d with
      | None => None
      | Some t =>
          if negb (getDate tz t =? d)%Z || negb (getMonth tz t =? m)%Z
             || negb (getFullYear tz t =? y)%Z
          then None else Some t
      end
  | _, _, _ => None
  end.

Definition minus1 (o : option Z) : option Z := option_map (fun m => (m - 1)%Z) o.

(** [parseDate] *)
Definition parseDate (fmt : DateFormat) (s : string) : option Z :=
  if negb (truthy_str (js_trim s)) then None
  else
    match fmt with
    | DD_MM_YYYY =>
        match js_split "/" s with
        | [p0; p1; p2] => construct_checked (js_parseInt10 p0) (minus1 (js_parseInt10 p1)) (js_parseInt10 p2)
        | _ => None
        end
    | MM_DD_YYYY =>
        match js_split "/" s with
        | [p0; p1; p2] => construct_checked (js_parseInt10 p1) (minus1 (js_parseInt10 p0)) (js_parseInt10 p2)
        | _ => None
        end
    | YYYY_MM_DD =>
        match js_split "-" s with
        | [p0; p1; p2] => construct_checked (js_parseInt10 p2) (minus1 (js_parseInt10 p1)) (js_parseInt10 p0)
        | _ => None
        end
    end.

(** [toCalendarFormat] *)
Definition toCalendarFormat (t : Z) : string :=
  js_int_to_string (getFullYear tz t) ++ String "-" (pad2 (getMonth tz t + 1) ++ String "-" (pad2 (getDate tz t))).

(** [validateDate]: the first failing check wins; [""] is valid. *)
Definition validateDate (p : DateProps) (s : string) : string :=
  if required p && negb (truthy_str (js_trim s)) then "Date is required"
  else if negb (truthy_str (js_trim s)) then ""
  else
    match parseDate (format p) s with
    | None => "Invalid date format. Use " ++ format_name (format p)
    | Some t =>
        match minDate p with
        | Some mn => if (t <? mn)%Z then "Date must be after " ++ formatDate (format p) mn
                     else match maxDate p with
                          | Some mx => if (mx <? t)%Z then "Date must be before " ++ formatDate (format p) mx else ""
                          | None => ""
                          end
        | None => match maxDate p with
                  | Some mx => if (mx <? t)%Z then "Date must be before " ++ formatDate (format p) mx else ""
                  | None => ""
                  end
        end
    end.

Definition set_text (st : DateState) (s : string) : DateState :=
  {| isModalVisible := isModalVisible st; textValue := s; error := error st;
     isTouched_d := isTouched_d st |}.

Definition set_error (st : DateState) (e : string) : DateState :=
  {| isModalVisible := isModalVisible st; textValue := textValue st; error := e;
     isTouched_d := isTouched_d st |}.

Definition call_onChange (p : DateProps) (s : string) : list DateCallback :=
  if has_onChange p then [OnChange s] else [].

(** [handleTextChange]: the text is stored and, once touched, validated;
    then [if (!validationError)] reads a name that is not in scope. *)
Definition handleTextChange (p : DateProps) (st : DateState) (text : string) : Outcome DateState DateCallback :=
  let st1 := set_text st text in
  let st2 := if isTouched_d st then set_error st1 (validateDate p text) else st1 in
  {| out_state := st2; out_calls := [];
     out_exn := Some (ReferenceError "validationError is not defined") |}.

(** [handleBlur] *)
Definition handleBlur_d (p : DateProps) (st : DateState) : DateState :=
  {| isModalVisible := isModalVisible st; textValue := textValue st;
     error := validateDate p (textValue st); isTouched_d := true |}.

(** [new Date("YYYY-MM-DD")]: the ISO date-only form is UTC midnight.
    The calendar only passes real dates; any other string is [NaN]. *)
Definition two_digit (c1 c2 : ascii) : option Z :=
  match digit_of c1, digit_of c2 with Some a, Some b => Some (a * 10 + b)%Z | _, _ => None end.

Definition parse_iso_date (s : string) : option Z :=
  match s with
  | String y1 (String y2 (String y3 (String y4 (String "-" (String m1 (String m2
      (String "-" (String d1 (String d2 EmptyString))))))))) =>
      match two_digit y1 y2, two_digit y3 y4, two_digit m1 m2, two_digit d1 d2 with
      | Some ya, Some yb, Some m, Some d =>
          let y := (ya * 100 + yb)%Z in
          if valid_ymdb y (m - 1) d then TimeClip (MakeDate (MakeDay y (m - 1) d) 0) else None
      | _, _, _, _ => None
      end
  | _ => None
  end.

(** [formatDate] of an invalid date: every getter is [NaN]. *)
Definition formatDate_nan (fmt : DateFormat) : string :=
  match fmt with
  | YYYY_MM_DD => "NaN-NaN-NaN"
  | _ => "NaN/NaN/NaN"
  end.

(** [handleDateSelect] *)
Definition handleDateSelect (p : DateProps) (st : DateState) (dateString : string) : Outcome DateState DateCallback :=
  let formatted := match parse_iso_date dateString with
                   | Some t => formatDate (format p) t
                   | None => formatDate_nan (format p)
                   end in
  {| out_state := {| isModalVisible := false; textValue := formatted; error := "";
                     isTouched_d := true |};
     out_calls := call_onChange p formatted; out_exn := None |}.

(** [handleClear] *)
Definition handleClear (p : DateProps) (st : DateState) : Outcome DateState DateCallback :=
  {| out_state := {| isModalVisible := isModalVisible st; textValue := ""; error := "";
                     isTouched_d := isTouched_d st |};
     out_calls := call_onChange p ""; out_exn := None |}.

(** [markedDates]: the calendar key the picker highlights. *)
Definition markedDate (p : DateProps) (st : DateState) : option string :=
  if negb (truthy_str (textValue st)) then None
  else option_map toCalendarFormat (parseDate (format p) (textValue st)).

Definition hasError_d (st : DateState) : bool :=
  isTouched_d st && truthy_str (error st).

(** ** What the field renders (lines 198-300) *)

Definition set_modal (st : DateState) (b : bool) : DateState :=
  {| isModalVisible := b; textValue := textValue st; error := error st; isTouched_d := isTouched_d st |}.

(** The calendar button (lines 239-247): [!disabled && setIsModalVisible(true)]. *)
Definition openCalendar (disabled : bool) (st : DateState) : DateState :=
  if disabled then st else set_modal st true.

(** The modal's [onRequestClose], its close button and Cancel (lines 263,
    270 and 293). *)
Definition closeCalendar (st : DateState) : DateState := set_modal st false.

(** [minDateString] and [maxDateString] (lines 199-200). *)
Definition minDateString (p : DateProps) : option string := option_map toCalendarFormat (minDate p).
Definition maxDateString (p : DateProps) : option string := option_map toCalendarFormat (maxDate p).

(** [borderColor] (line 203): an error shows even on a disabled field. *)
Definition borderColor (disabled : bool) (st : DateState) : string :=
  if hasError_d st then "#F44336" else if disabled then "#E0E0E0" else "#BDBDBD".

(** The observable part of the rendered tree: the label and its required
    mark, the input (value, border, editable, invalid), the clear button,
    the calendar button's [disabled] prop, the error text, the format hint
    and the modal with the calendar's marked day and bounds. *)
Record DateView : Type := {
  label_text : string;
  required_mark : bool;
  input_value : string;
  border_color : string;
  editable : bool;
  invalid : bool;
  clear_button : bool;
  calendar_disabled : bool;
  error_text : option string;
  format_hint : string;
  modal_visible : bool;
  marked : option string;
  calendar_min : option string;
  calendar_max : option string
}.

Definition render_date (label : string) (disabled : bool) (p : DateProps) (st : DateState) : DateView :=
  {| label_text := label;
     required_mark := required p;
     input_value := textValue st;
     border_color := borderColor disabled st;
     editable := negb disabled;
     invalid := hasError_d st;
     clear_button := truthy_str (textValue st) && negb disabled;
     calendar_disabled := disabled;
     error_text := if hasError_d st then Some (error st) else None;
     format_hint := "Format: " ++ format_name (format p);
     modal_visible := isModalVisible st;
     marked := markedDate p st;
     calendar_min := minDateString p;
     calendar_max := maxDateString p |}.

(** ** The calendar arithmetic behind [parseDate] and [formatDate] *)

(** What the parser needs of a printed field: no separator, a first
    character that is not whitespace, and [parseInt] reads it back. *)
Definition field_ok (s : string) (n : Z) : Prop :=
  str_has "/" s = false /\ str_has "-" s = false /\ js_parseInt10 s = Some n /\
  forall rest, js_blank (s ++ rest) = false.

Lemma digits_field_ok ds n :
  Forall (fun d => 0 <= d < 10)%Z ds -> ds <> [] -> digits_value ds = n ->
  js_parseInt10 (string_of_digits ds) = Some n -> field_ok (string_of_digits ds) n.
Proof.
  intros Hall Hne Hv Hp. split; [apply str_has_digits; [reflexivity|exact Hall]|].
  split; [apply str_has_digits; [reflexivity|exact Hall]|]. split; [exact Hp|].
  intros rest. destruct ds as [|d ds]; [congruence|]. inversion Hall; subst.
  apply js_blank_digits. assumption.
Qed.

Lemma pad2_ok n : (0 <= n)%Z -> field_ok (pad2 n) n.
Proof.
  intros Hn. pose proof (parseInt_pad n Hn) as Hp. unfold pad2 in *.
  destruct (pad_digits n Hn) as (ds & E & Hall & Hne & Hv). rewrite E in *.
  apply digits_field_ok; assumption.
Qed.

Lemma year_ok y : (0 <= y)%Z -> field_ok (js_int_to_string y) y.
Proof.
  intros Hy. pose proof (parseInt_int y) as Hp. rewrite int_to_string_digits in * by exact Hy.
  destruct (decimal_digits_spec y Hy) as (Hv & Hall & Hne).
  apply digits_field_ok; assumption.
Qed.

Lemma split_three sep a b c :
  str_has sep a = false -> str_has sep b = false -> str_has sep c = false ->
  js_split sep (a ++ String sep (b ++ String sep c)) = [a; b; c].
Proof.
  intros Ha Hb Hc. rewrite js_split_app by exact Ha. rewrite js_split_app by exact Hb.
  rewrite js_split_no_sep by exact Hc. reflexivity.
Qed.

Definition year_field (y : Z) : Z := if (0 <=? y)%Z && (y <=? 99)%Z then (1900 + y)%Z else y.

Lemma year_field_out y : ~ (0 <= y <= 99)%Z -> year_field y = y.
Proof.
  intros H. unfold year_field.
  destruct (Z.leb_spec 0 y), (Z.leb_spec y 99); simpl; lia || reflexivity.
Qed.

Lemma new_Date_local_some y m d t :
  new_Date_local tz y m d = Some t -> (t + tz = MakeDate (MakeDay (year_field y) m d) 0)%Z.
Proof.
  unfold new_Date_local, TimeClip, year_field.
  destruct (_ <=? maxTime)%Z; intros H; [injection H as <-; lia|discriminate].
Qed.

Lemma getters_local t X :
  (t + tz = MakeDate X 0)%Z ->
  getFullYear tz t = YearFromDay X /\ getMonth tz t = MonthFromDay X /\ getDate tz t = DateFromDay X.
Proof.
  intros H. unfold getFullYear, getMonth, getDate, YearFromTime, MonthFromTime, DateFromTime.
  rewrite H, Day_MakeDate. auto.
Qed.

(** The roll-over check of [parseDate] accepts exactly the valid calendar
    dates whose year is not in 0..99 (that [new Date] reads as 1900..1999)
    and whose time value is in range. *)
Theorem construct_checked_spec d m y t :
  construct_checked (Some d) (Some m) (Some y) = Some t <->
  valid_ymd y m d /\ ~ (0 <= y <= 99)%Z /\ new_Date_local tz y m d = Some t.
Proof.
  unfold construct_checked. split.
  - destruct (new_Date_local tz y m d) as [t'|] eqn:E; [|discriminate].
    pose proof (getters_local _ _ (new_Date_local_some _ _ _ _ E)) as (Hy & Hm & Hd).
    destruct (getDate tz t' =? d)%Z eqn:E1, (getMonth tz t' =? m)%Z eqn:E2,
             (getFullYear tz t' =? y)%Z eqn:E3; simpl; try discriminate.
    intros H. injection H as <-. js_bool.
    destruct (MakeDay_getters (MakeDay (year_field y) m d)) as [Hv Hmk].
    rewrite <- Hy, <- Hm, <- Hd, E1, E2, E3 in Hv, Hmk.
    assert (Hyr : y = year_field y) by (eapply MakeDay_year_inj; [apply Hv|exact Hmk]).
    split; [exact Hv|]. split; [|reflexivity].
    intros Hr. unfold year_field in Hyr.
    destruct (Z.leb_spec 0 y), (Z.leb_spec y 99); simpl in Hyr; lia.
  - intros (Hv & Hr & E). rewrite E.
    pose proof (new_Date_local_some _ _ _ _ E) as Ht. rewrite year_field_out in Ht by exact Hr.
    destruct (getters_local _ _ Ht) as (Hy & Hm & Hd).
    destruct (getters_MakeDay y m d Hv) as (Gy & Gm & Gd).
    rewrite Hy, Hm, Hd, Gy, Gm, Gd, !Z.eqb_refl. reflexivity.
Qed.

(** [parseDate] of a formatted date reaches the roll-over check with the
    date's own fields, in every format, for years from 0 on. *)
Lemma parse_formatted fmt t :
  (0 <= getFullYear tz t)%Z ->
  parseDate fmt (formatDate fmt t) =
  construct_checked (Some (getDate tz t)) (Some (getMonth tz t)) (Some (getFullYear tz t)).
Proof.
  intros Hy.
  destruct (MakeDay_getters (Day (t + tz))) as [[Hm Hd] _].
  fold (YearFromTime (t + tz)) (MonthFromTime (t + tz)) (DateFromTime (t + tz)) in Hm, Hd.
  fold (getFullYear tz t) (getMonth tz t) (getDate tz t) in Hm, Hd.
  destruct (pad2_ok (getDate tz t) ltac:(lia)) as (D1 & D2 & D3 & D4).
  destruct (pad2_ok (getMonth tz t + 1) ltac:(lia)) as (M1 & M2 & M3 & M4).
  destruct (year_ok (getFullYear tz t) Hy) as (Y1 & Y2 & Y3 & Y4).
  unfold parseDate, formatDate. rewrite truthy_trim.
  destruct fmt.
  - rewrite D4. simpl negb. cbv iota. rewrite split_three by assumption.
    rewrite D3, M3, Y3. cbn [minus1 option_map].
    replace (getMonth tz t + 1 - 1)%Z with (getMonth tz t) by lia. reflexivity.
  - rewrite M4. simpl negb. cbv iota. rewrite split_three by assumption.
    rewrite D3, M3, Y3. cbn [minus1 option_map].
    replace (getMonth tz t + 1 - 1)%Z with (getMonth tz t) by lia. reflexivity.
  - rewrite Y4. simpl negb. cbv iota. rewrite split_three by assumption.
    rewrite D3, M3, Y3. cbn [minus1 option_map].
    replace (getMonth tz t + 1 - 1)%Z with (getMonth tz t) by lia. reflexivity.
Qed.

(** A local midnight inside the time range is a [new Date] of its own
    fields. *)
Lemma new_Date_of_midnight t :
  ((t + tz) mod msPerDay = 0)%Z -> (Z.abs t <= maxTime)%Z ->
  ~ (0 <= getFullYear tz t <= 99)%Z ->
  new_Date_local tz (getFullYear tz t) (getMonth tz t) (getDate tz t) = Some t.
Proof.
  intros Hmid Hr Hy. unfold new_Date_local. fold (year_field (getFullYear tz t)).
  rewrite year_field_out by exact Hy.
  destruct (MakeDay_getters (Day (t + tz))) as [_ Hmk].
  unfold getFullYear, getMonth, getDate, YearFromTime, MonthFromTime, DateFromTime.
  rewrite Hmk. unfold MakeDate, Day, TimeClip.
  pose proof (Z.div_mod (t + tz) msPerDay ltac:(unfold msPerDay; lia)) as E.
  rewrite Hmk in E || idtac.
  replace ((t + tz) / msPerDay * msPerDay + 0 - tz)%Z with t by lia.
  destruct (Z.leb_spec (Z.abs t) maxTime); [reflexivity|lia].
Qed.

Lemma parse_formatted_date fmt t :
  ((t + tz) mod msPerDay = 0)%Z -> (Z.abs t <= maxTime)%Z ->
  (100 <= getFullYear tz t)%Z ->
  parseDate fmt (formatDate fmt t) = Some t.
Proof.
  intros Hmid Hr Hy. rewrite parse_formatted by lia.
  apply construct_checked_spec. split; [|split; [lia|]].
  - destruct (MakeDay_getters (Day (t + tz))) as [Hv _]. exact Hv.
  - apply new_Date_of_midnight; [exact Hmid|exact Hr|lia].
Qed.

(** C3. Round trip: a date the field formats is parsed back to the same
    time value, in each of the three formats, for every local midnight in
    the time range whose year is at least 100. *)
Theorem parse_format_roundtrip fmt t :
  ((t + tz) mod msPerDay = 0)%Z -> (Z.abs t <= maxTime)%Z ->
  (100 <= getFullYear tz t)%Z ->
  parseDate fmt (formatDate fmt t) = Some t.
Proof. exact (parse_formatted_date fmt t). Qed.

(** C36. The round trip fails for every date of the years 0..99: the field
    prints such a date but its own parser rejects the text, because
    [new Date] reads those years as 1900..1999. *)
Theorem two_digit_year_not_parsed fmt t :
  (0 <= getFullYear tz t <= 99)%Z ->
  parseDate fmt (formatDate fmt t) = None.
Proof.
  intros Hy. rewrite parse_formatted by lia.
  destruct (construct_checked _ _ _) as [t'|] eqn:E; [|reflexivity].
  apply construct_checked_spec in E as (_ & Hn & _). contradiction.
Qed.

(** ** [validateDate] *)

Lemma msg_nonempty (prefix : string) (x : string) : prefix <> "" -> prefix ++ x <> "".
Proof. destruct prefix; [congruence|]. intros _. rewrite str_app_cons. discriminate. Qed.

(** The bounds check of [validateDate] on a parsed date. *)
Definition within_bounds (p : DateProps) (t : Z) : Prop :=
  (forall mn, minDate p = Some mn -> (mn <= t)%Z) /\ (forall mx, maxDate p = Some mx -> (t <= mx)%Z).

(** [validateDate] accepts a text exactly when it is blank and not
    required, or it parses to a date within [minDate]..[maxDate]. *)
Theorem validateDate_ok_iff p s :
  validateDate p s = "" <->
  (js_blank s = true /\ required p = false) \/
  (js_blank s = false /\ exists t, parseDate (format p) s = Some t /\ within_bounds p t).
Proof.
  unfold validateDate, within_bounds. rewrite truthy_trim.
  destruct (js_blank s) eqn:B; simpl.
  - destruct (required p); simpl.
    + split; [discriminate|intros [[_ H]|[H _]]; discriminate].
    + split; [intros _; left; split; reflexivity|reflexivity].
  - rewrite andb_false_r. simpl.
    split; [intros H; right; split; [reflexivity|]|intros [[H _]|[_ (t & Ht & Hmin & Hmax)]]; [discriminate|]].
    + destruct (parseDate (format p) s) as [t|]; [|discriminate].
      exists t. split; [reflexivity|].
      destruct (minDate p) as [mn|], (maxDate p) as [mx|];
        repeat match goal with
        | H : context [if ?b then _ else _] |- _ => destruct b eqn:?; js_bool; [discriminate|]
        end;
        split; intros ? E; first [discriminate E|injection E as <-; lia].
    + rewrite Ht. destruct (minDate p) as [mn|], (maxDate p) as [mx|];
        repeat match goal with
        | |- context [if (?a <? ?b)%Z then _ else _] => destruct (Z.ltb_spec a b)
        end; try reflexivity;
        exfalso; try specialize (Hmin _ eq_refl); try specialize (Hmax _ eq_refl); lia.
Qed.

(** ** Dates compared with a [minDate] that carries a time of day *)

Definition local_midnight (t : Z) : Z := (Day (t + tz) * msPerDay - tz)%Z.

Lemma local_midnight_spec now :
  ((local_midnight now + tz) mod msPerDay = 0)%Z /\
  Day (local_midnight now + tz) = Day (now + tz) /\
  (now - msPerDay < local_midnight now <= now)%Z /\
  (((now + tz) mod msPerDay <> 0)%Z -> (local_midnight now < now)%Z).
Proof.
  unfold local_midnight.
  replace (Day (now + tz) * msPerDay - tz + tz)%Z with (Day (now + tz) * msPerDay)%Z by lia.
  assert (Hms : (msPerDay > 0)%Z) by (unfold msPerDay; lia).
  pose proof (Z.div_mod (now + tz) msPerDay ltac:(lia)).
  pose proof (Z.mod_pos_bound (now + tz) msPerDay ltac:(lia)).
  unfold Day in *. rewrite Z.mod_mul, Z.div_mul by lia.
  split; [reflexivity|]. split; [reflexivity|]. split; lia.
Qed.

Lemma formatDate_same_day fmt t1 t2 :
  Day (t1 + tz) = Day (t2 + tz) -> formatDate fmt t1 = formatDate fmt t2.
Proof.
  intros E. unfold formatDate, getFullYear, getMonth, getDate, YearFromTime, MonthFromTime,
    DateFromTime. rewrite E. reflexivity.
Qed.

Lemma getFullYear_same_day t1 t2 :
  Day (t1 + tz) = Day (t2 + tz) -> getFullYear tz t1 = getFullYear tz t2.
Proof. intros E. unfold getFullYear, YearFromTime. rewrite E. reflexivity. Qed.

Lemma formatDate_not_blank fmt t :
  (0 <= getFullYear tz t)%Z -> js_blank (formatDate fmt t) = false.
Proof.
  intros Hy. destruct (MakeDay_getters (Day (t + tz))) as [[Hm Hd] _].
  fold (YearFromTime (t + tz)) (MonthFromTime (t + tz)) (DateFromTime (t + tz)) in Hm, Hd.
  fold (getFullYear tz t) (getMonth tz t) (getDate tz t) in Hm, Hd.
  destruct (pad2_ok (getDate tz t) ltac:(lia)) as (_ & _ & _ & D4).
  destruct (pad2_ok (getMonth tz t + 1) ltac:(lia)) as (_ & _ & _ & M4).
  destruct (year_ok (getFullYear tz t) Hy) as (_ & _ & _ & Y4).
  unfold formatDate. destruct fmt; auto.
Qed.

(** C32. With [minDate] set to the current time, as OnboardingScreen sets
    it ([new Date()]), today's date typed in the field's own format is
    rejected with "Date must be after <today>": the parsed date is local
    midnight and precedes [minDate] whenever the current time is not
    exactly midnight. *)
Theorem today_rejected p now :
  minDate p = Some now -> ((now + tz) mod msPerDay <> 0)%Z ->
  (Z.abs now + msPerDay <= maxTime)%Z -> (100 <= getFullYear tz now)%Z ->
  validateDate p (formatDate (format p) now) =
    "Date must be after " ++ formatDate (format p) now.
Proof.
  intros Hmin Hmid Hr Hy.
  destruct (local_midnight_spec now) as (M1 & M2 & M3 & M4).
  rewrite (formatDate_same_day (format p) now (local_midnight now)) at 1 by congruence.
  assert (Hy' : (100 <= getFullYear tz (local_midnight now))%Z)
    by (rewrite (getFullYear_same_day _ now) by exact M2; exact Hy).
  unfold validateDate. rewrite truthy_trim, formatDate_not_blank by lia. simpl.
  rewrite andb_false_r. cbv iota.
  rewrite parse_formatted_date by (assumption || (unfold msPerDay in *; lia)).
  rewrite Hmin. destruct (Z.ltb_spec (local_midnight now) now); [reflexivity|].
  specialize (M4 Hmid). lia.
Qed.

(** ** Selecting a day in the calendar *)

(** The text [formatDate] prints for the local calendar day [X]. *)
Definition format_day (fmt : DateFormat) (X : Z) : string :=
  let day := pad2 (DateFromDay X) in
  let month := pad2 (MonthFromDay X + 1) in
  let year := js_int_to_string (YearFromDay X) in
  match fmt with
  | DD_MM_YYYY => day ++ String "/" (month ++ String "/" year)
  | MM_DD_YYYY => month ++ String "/" (day ++ String "/" year)
  | YYYY_MM_DD => year ++ String "-" (month ++ String "-" day)
  end.

Lemma formatDate_day fmt t : formatDate fmt t = format_day fmt (Day (t + tz)).
Proof. reflexivity. Qed.

Lemma parse_iso_date_midnight s u : parse_iso_date s = Some u -> (u mod msPerDay = 0)%Z.
Proof.
  unfold parse_iso_date.
  repeat match goal with |- context [match ?x with _ => _ end] => destruct x; try discriminate end.
  unfold TimeClip, MakeDate. destruct (_ <=? maxTime)%Z; [|discriminate].
  intros H. injection H as <-. rewrite Z.add_0_r. apply Z.mod_mul. unfold msPerDay. lia.
Qed.

Lemma Day_offset u :
  (u mod msPerDay = 0)%Z -> (- msPerDay < tz < msPerDay)%Z ->
  Day (u + tz) = (Day u - (if (tz <? 0)%Z then 1 else 0))%Z.
Proof.
  intros Hu Htz. unfold Day.
  assert (Hk : u = (u / msPerDay * msPerDay)%Z)
    by (pose proof (Z.div_mod u msPerDay ltac:(unfold msPerDay; lia)); lia).
  rewrite Hk at 1. rewrite Z.div_add_l by (unfold msPerDay; lia).
  destruct (Z.ltb_spec tz 0).
  - rewrite <- (Z.div_unique_pos tz msPerDay (-1) (tz + msPerDay)) by lia. lia.
  - rewrite (Z.div_small tz msPerDay) by lia. lia.
Qed.

(** C33. Selecting a day in the calendar shows the day before it whenever
    the local time zone is west of UTC: [new Date("YYYY-MM-DD")] is UTC
    midnight, and [formatDate] reads it with the local getters. *)
Theorem handleDateSelect_text p st s u :
  parse_iso_date s = Some u -> (- msPerDay < tz < msPerDay)%Z ->
  textValue (out_state (handleDateSelect p st s)) =
    format_day (format p) (Day u - (if (tz <? 0)%Z then 1 else 0)).
Proof.
  intros Hs Htz. unfold handleDateSelect. rewrite Hs. simpl.
  rewrite formatDate_day, Day_offset by (exact (parse_iso_date_midnight s u Hs) || exact Htz).
  reflexivity.
Qed.

(** ** Lenient fields *)

(** A field of decimal digits, possibly with leading zeros. *)
Definition digit_field (ds : list Z) : Prop := Forall (fun d => 0 <= d < 10)%Z ds /\ ds <> [].

Lemma digit_field_not_blank ds rest : digit_field ds -> js_blank (string_of_digits ds ++ rest) = false.
Proof.
  intros [Hall Hne]. destruct ds as [|d ds]; [congruence|]. inversion Hall; subst.
  apply js_blank_digits. assumption.
Qed.

Lemma digit_field_no_slash ds rest :
  digit_field ds -> str_has "/" rest = false -> str_has "/" (string_of_digits ds ++ rest) = false.
Proof.
  intros [Hall _] H. rewrite str_has_app, H, orb_false_r. apply str_has_digits; [reflexivity|exact Hall].
Qed.

(** [parseDate] of three [DD/MM/YYYY] fields, each a run of digits
    followed by anything that does not continue it: [parseInt] stops at
    the first non-digit, so the roll-over check sees the three numbers. *)
Lemma parseDate_fields da dm dy ja jb jc :
  digit_field da -> digit_field dm -> digit_field dy ->
  starts_clean ja -> starts_clean jb -> starts_clean jc ->
  str_has "/" ja = false -> str_has "/" jb = false -> str_has "/" jc = false ->
  parseDate DD_MM_YYYY ((string_of_digits da ++ ja) ++ String "/" ((string_of_digits dm ++ jb)
                         ++ String "/" (string_of_digits dy ++ jc)))
  = construct_checked (Some (digits_value da)) (Some (digits_value dm - 1)%Z) (Some (digits_value dy)).
Proof.
  intros Fa Fm Fy Ca Cb Cc Sa Sb Sc. unfold parseDate.
  rewrite truthy_trim, str_app_assoc, digit_field_not_blank by exact Fa. cbn [negb].
  rewrite <- str_app_assoc, split_three by (apply digit_field_no_slash; assumption).
  destruct Fa, Fm, Fy. rewrite !parseInt_digits by assumption. reflexivity.
Qed.

End CalendarPicker.

(** ** Witnesses at concrete dates (UTC unless stated) *)

Definition jan1_2025 : Z := MakeDate (MakeDay 2025 0 1) 0.
Definition dec31_2025 : Z := MakeDate (MakeDay 2025 11 31) 0.

Lemma parse_format_roundtrip_witness :
  parseDate 0 DD_MM_YYYY (formatDate 0 DD_MM_YYYY jan1_2025) = Some jan1_2025.
Proof.
  apply parse_format_roundtrip.
  - vm_compute. reflexivity.
  - apply Z.leb_le. vm_compute. reflexivity.
  - apply Z.leb_le. vm_compute. reflexivity.
Defined.

Definition jun15_0025 : Z := MakeDate (MakeDay 25 5 15) 0.

Lemma two_digit_year_not_parsed_witness :
  formatDate 0 DD_MM_YYYY jun15_0025 = "15/06/25" /\
  parseDate 0 DD_MM_YYYY (formatDate 0 DD_MM_YYYY jun15_0025) = None.
Proof.
  split; [vm_compute; reflexivity|].
  apply two_digit_year_not_parsed. split; apply Z.leb_le; vm_compute; reflexivity.
Defined.

(** The bounds of the specification's example. *)
Definition spec_props : DateProps :=
  {| format := DD_MM_YYYY; minDate := Some jan1_2025; maxDate := Some dec31_2025;
     required := true; has_onChange := true |}.

(** The specification's example: with bounds 2025-01-01..2025-12-31,
    "15/13/2025" is a format error (month 13) and "01/01/2024" a
    minimum-date error, not a format error. *)
Theorem validateDate_spec_example :
  validateDate 0 spec_props "15/13/2025" = "Invalid date format. Use DD/MM/YYYY" /\
  validateDate 0 spec_props "01/01/2024" = "Date must be after 01/01/2025" /\
  validateDate 0 spec_props "" = "Date is required" /\
  validateDate 0 spec_props "15/06/2025" = "".
Proof. vm_compute. repeat split. Qed.

Definition mar15_2025_1030 : Z := MakeDate (MakeDay 2025 2 15) 37800000.

Lemma today_rejected_witness :
  validateDate 0 {| format := DD_MM_YYYY; minDate := Some mar15_2025_1030; maxDate := None;
                    required := true; has_onChange := true |} "15/03/2025"
  = "Date must be after 15/03/2025".
Proof.
  change "15/03/2025" with (formatDate 0 DD_MM_YYYY mar15_2025_1030).
  change "Date must be after 15/03/2025"
    with ("Date must be after " ++ formatDate 0 DD_MM_YYYY mar15_2025_1030).
  apply (today_rejected 0).
  - reflexivity.
  - vm_compute. discriminate.
  - apply Z.leb_le. vm_compute. reflexivity.
  - apply Z.leb_le. vm_compute. reflexivity.
Defined.

(** New York in winter: UTC-5. *)
Definition utc_minus_5 : Z := (-18000000)%Z.

Lemma handleDateSelect_text_witness :
  textValue (out_state (handleDateSelect utc_minus_5
    {| format := DD_MM_YYYY; minDate := None; maxDate := None; required := true;
       has_onChange := true |}
    {| isModalVisible := true; textValue := ""; error := ""; isTouched_d := false |}
    "2025-03-15")) = "14/03/2025".
Proof.
  rewrite (handleDateSelect_text utc_minus_5 _ _ _ (MakeDate (MakeDay 2025 2 15) 0)).
  - vm_compute. reflexivity.
  - vm_compute. reflexivity.
  - split; apply Z.ltb_lt; vm_compute; reflexivity.
Defined.

(** C40. [parseInt] reads a leading run of digits and ignores the rest,
    so in every time zone a [DD/MM/YYYY] text whose three fields are runs
    of digits each followed by any characters that do not continue the
    number (["01x/02/2024"]) parses as the text of the digits alone; and
    it parses exactly when the three numbers form a valid calendar date
    outside the years 0..99 whose time value is in range, so a day past
    the end of its month (["31/02/2024"]) is rejected: the built [Date]
    rolls over. *)
Theorem parseDate_lenient_components z da dm dy ja jb jc t :
  digit_field da -> digit_field dm -> digit_field dy ->
  starts_clean ja -> starts_clean jb -> starts_clean jc ->
  str_has "/" ja = false -> str_has "/" jb = false -> str_has "/" jc = false ->
  let s := (string_of_digits da ++ ja) ++ String "/" ((string_of_digits dm ++ jb)
             ++ String "/" (string_of_digits dy ++ jc)) in
  parseDate z DD_MM_YYYY s
  = parseDate z DD_MM_YYYY (string_of_digits da ++ String "/" (string_of_digits dm ++ String "/" (string_of_digits dy)))
  /\ (parseDate z DD_MM_YYYY s = Some t <->
      valid_ymd (digits_value dy) (digits_value dm - 1)%Z (digits_value da) /\ ~ (0 <= digits_value dy <= 99)%Z
      /\ new_Date_local z (digits_value dy) (digits_value dm - 1)%Z (digits_value da) = Some t).
Proof.
  intros Fa Fm Fy Ca Cb Cc Sa Sb Sc s. subst s.
  rewrite (parseDate_fields z da dm dy ja jb jc) by assumption.
  rewrite <- (str_app_empty (string_of_digits da)), <- (str_app_empty (string_of_digits dm)),
    <- (str_app_empty (string_of_digits dy)).
  rewrite (parseDate_fields z da dm dy "" "" "") by (assumption || exact I || reflexivity).
  split; [reflexivity|apply construct_checked_spec].
Qed.

(** Witness: ["01x/02/2024"] reads as ["01/02/2024"], and ["31/02/2024"]
    does not parse, in UTC. *)
Lemma parseDate_lenient_components_witness :
  parseDate 0 DD_MM_YYYY "01x/02/2024" = parseDate 0 DD_MM_YYYY "01/02/2024"
  /\ parseDate 0 DD_MM_YYYY "31/02/2024" = None.
Proof.
  split.
  - exact (proj1 (parseDate_lenient_components 0%Z [0; 1]%Z [0; 2]%Z [2; 0; 2; 4]%Z "x" "" "" 0
                    ltac:(split; [repeat constructor; lia|discriminate])
                    ltac:(split; [repeat constructor; lia|discriminate])
                    ltac:(split; [repeat constructor; lia|discriminate])
                    eq_refl I I eq_refl eq_refl eq_refl)).
  - destruct (parseDate 0 DD_MM_YYYY "31/02/2024") as [t|] eqn:E; [|reflexivity].
    destruct (proj1 (proj2 (parseDate_lenient_components 0%Z [3; 1]%Z [0; 2]%Z [2; 0; 2; 4]%Z "" "" "" t
             ltac:(split; [repeat constructor; lia|discriminate])
             ltac:(split; [repeat constructor; lia|discriminate])
             ltac:(split; [repeat constructor; lia|discriminate])
             I I I eq_refl eq_refl eq_refl)) E) as [[_ Hd] _].
    revert Hd. vm_compute. intros [_ Hd]. destruct (Hd eq_refl).
Defined.
