(* ===== verification/FileSelection.v ===== *)
(** * FileSelection: the multi-file picker [FilePicker]

    Models src/unnamed/part_001 (the [FilePicker] component): its
    [SelectedFile] descriptors, the type test [isFileTypeAllowed] with the
    extension extraction [getFileExtension], the aggregate check
    [validateFiles], and the handlers [handlePickFiles], [handleRemoveFile]
    and [handleClearAll] over the React state [files]/[error]/[isTouched].

    [handlePickFiles] is [async]: it runs up to the [await] of the document
    picker, and resumes when the picker settles.  It is modelled as two
    functions, [pick_request] (the part before the [await], which may
    return early or issue a picker request) and [pick_resume] (the part
    after it, run on the picker's result with the [files] list the closure
    captured).  [FileMachine] composes them with the other handlers as a
    step relation, with at most one picker request outstanding as the code
    allows.  Effects visible outside the component (the [onChange] callback
    and the [Alert] dialogs) are kept in order in the outcome's call list.

    [render_picker] is what the component renders (lines 220-329): the
    buttons with their [disabled] props, the rows of the file list, the
    error and the constraint texts.

    The handlers are a section over the size formatter, which only appears
    inside messages: their theorems hold for any formatting function.  The
    component's own [formatFileSize] (lines 50-56) follows the section, in
    exact integer arithmetic: [Math.floor(Math.log(n) / Math.log(1024))] is
    [floor(log2 n / 10)] and the rounding to hundredths is exact, as the
    floating-point code is below [2 ^ 46] bytes. *)

From S2P Require Import Prelude JsString.

Local Open Scope string_scope.
Local Open Scope Z_scope.

Module FilePicker.

(** [SelectedFile] (lines 13-18). *)
Record SelectedFile : Type := {
  uri : string;
  name : string;
  size : Z;
  mimeType : option string
}.

(** An asset returned by the document picker: its size may be absent. *)
Record Asset : Type := {
  asset_uri : string;
  asset_name : string;
  asset_size : option Z;
  asset_mimeType : option string
}.

(** The props of [FilePicker] that its logic reads (lines 20-44). *)
Record FileProps : Type := {
  value : list SelectedFile;
  has_onChange : bool;
  maxFiles : Z;
  maxSizePerFile : Z;
  maxTotalSize : Z;
  allowedTypes : list string;
  required : bool
}.

(** The defaults of lines 35-42. *)
Definition default_props : FileProps :=
  {| value := []; has_onChange := false; maxFiles := 3;
     maxSizePerFile := 5 * 1024 * 1024; maxTotalSize := 15 * 1024 * 1024;
     allowedTypes := ["*/*"]; required := false |}.

(** The React state (lines 45-47). *)
Record FileState : Type := {
  files : list SelectedFile;
  error : string;
  isTouched : bool
}.

Definition initial_file_state (p : FileProps) : FileState :=
  {| files := value p; error := ""; isTouched := false |}.

(** What the component makes visible: [onChange] calls and alerts. *)
Inductive FileEffect : Type :=
| OnChangeFiles (fs : list SelectedFile)
| ShowAlert (title message : string).

(** The request passed to [DocumentPicker.getDocumentAsync]. *)
Record PickerRequest : Type := {
  req_type : list string;
  req_multiple : bool
}.

(** How the [await] of the picker settles. *)
Inductive PickerResult : Type :=
| Canceled
| Picked (assets : option (list Asset))
| PickerFailed.

(** [arr.slice(0, e)] for an integer [e]. *)
Definition js_slice0 {A} (l : list A) (e : Z) : list A :=
  let len := Z.of_nat (List.length l) in
  take (Z.to_nat (if e <? 0 then len + e else e)) l.

(** JavaScript truthiness of an optional number: absent, 0 are falsy. *)
Definition truthy_num (o : option Z) : bool :=
  match o with Some n => negb (n =? 0) | None => false end.

Section Picker.
Context (formatFileSize : Z -> string).

(** [getFileExtension] (lines 59-61). *)
Definition getFileExtension (filename : string) : string :=
  js_toLowerCase
    (js_slice_from filename (js_ushr0 (js_lastIndexOf filename "." - 1) + 2)).

(** The MIME loop of [isFileTypeAllowed] (lines 70-79). *)
Fixpoint mime_allowed (allowed : list string) (mt : string) : bool :=
  match allowed with
  | [] => false
  | a :: r =>
      (a === mt)%js
      || (js_endsWith a "/*"
          && js_startsWith mt (List.hd "" (js_split "/" a) ++ "/"))
      || mime_allowed r mt
  end.

(** The extension loop of [isFileTypeAllowed] (lines 85-89). *)
Fixpoint ext_allowed (allowed : list string) (ext : string) : bool :=
  match allowed with
  | [] => false
  | a :: r => (js_startsWith a "." && (js_substring1 a === ext)%js) || ext_allowed r ext
  end.

(** [isFileTypeAllowed] (lines 64-93). *)
Definition isFileTypeAllowed (allowed : list string) (mt : option string) (filename : string) : bool :=
  if js_includes allowed "*/*" then true
  else (match mt with
        | Some m => truthy_str m && mime_allowed allowed m
        | None => false
        end)
       || (truthy_str filename && ext_allowed allowed (getFileExtension filename)).

(** [validateFiles] (lines 96-119): the first failing check wins. *)
Definition validateFiles (p : FileProps) (sel : list SelectedFile) : string :=
  if required p && (List.length sel =? 0)%nat then "At least one file is required"
  else if maxFiles p <? Z.of_nat (List.length sel) then
    "Maximum " ++ js_int_to_string (maxFiles p) ++ " file(s) allowed"
  else match List.find (fun f => maxSizePerFile p <? size f) sel with
  | Some f => name f ++ " exceeds maximum size of " ++ formatFileSize (maxSizePerFile p)
  | None =>
      let totalSize := sumZ size sel in
      if maxTotalSize p <? totalSize then
        "Total size " ++ formatFileSize totalSize ++ " exceeds maximum of "
        ++ formatFileSize (maxTotalSize p)
      else ""
  end.

Definition set_files (st : FileState) (fs : list SelectedFile) : FileState :=
  {| files := fs; error := error st; isTouched := isTouched st |}.
Definition set_error (st : FileState) (e : string) : FileState :=
  {| files := files st; error := e; isTouched := isTouched st |}.
Definition set_touched (st : FileState) : FileState :=
  {| files := files st; error := error st; isTouched := true |}.

Definition call_onChange (p : FileProps) (fs : list SelectedFile) : list FileEffect :=
  if has_onChange p then [OnChangeFiles fs] else [].

(** [handlePickFiles] up to its [await] (lines 123-137): marks the field
    touched, then either stops at the limit with an error and an alert, or
    requests the picker. *)
Definition pick_request (p : FileProps) (st : FileState)
  : Outcome FileState FileEffect * option PickerRequest :=
  let st1 := set_touched st in
  if maxFiles p <=? Z.of_nat (List.length (files st1)) then
    ({| out_state := set_error st1 ("Maximum " ++ js_int_to_string (maxFiles p) ++ " file(s) allowed");
        out_calls := [ShowAlert "Limit Reached"
                        ("You can only select up to " ++ js_int_to_string (maxFiles p) ++ " file(s)")];
        out_exn := None |}, None)
  else
    ({| out_state := st1; out_calls := []; out_exn := None |},
     Some {| req_type := allowedTypes p;
             req_multiple := Z.of_nat (List.length (files st1)) + 1 <? maxFiles p |}).

Definition newline : string := String (Ascii.ascii_of_nat 10) "".

(** The size test of line 158: [asset.size && asset.size > maxSizePerFile]. *)
Definition asset_too_large (p : FileProps) (a : Asset) : bool :=
  truthy_num (asset_size a) && (maxSizePerFile p <? default 0 (asset_size a)).

(** The descriptor pushed at lines 166-171, with [size: asset.size || 0]. *)
Definition to_selected (a : Asset) : SelectedFile :=
  {| uri := asset_uri a; name := asset_name a;
     size := if truthy_num (asset_size a) then default 0 (asset_size a) else 0;
     mimeType := asset_mimeType a |}.

(** The per-asset filter of lines 147-172: the survivors in order and the
    alerts of the dropped assets in order. *)
Fixpoint filter_assets (p : FileProps) (assets : list Asset) : list SelectedFile * list FileEffect :=
  match assets with
  | [] => ([], [])
  | a :: r =>
      let '(fs, eff) := filter_assets p r in
      if negb (isFileTypeAllowed (allowedTypes p) (asset_mimeType a) (asset_name a)) then
        (fs, ShowAlert "Invalid File Type"
               (asset_name a ++ " is not an allowed file type." ++ newline ++ "Allowed: "
                ++ js_join ", " (allowedTypes p)) :: eff)
      else if asset_too_large p a then
        (fs, ShowAlert "File Too Large"
               (asset_name a ++ " (" ++ formatFileSize (default 0 (asset_size a))
                ++ ") exceeds maximum size of " ++ formatFileSize (maxSizePerFile p)) :: eff)
      else (to_selected a :: fs, eff)
  end.

(** The commit stage of lines 175-189, on the list [captured] that the
    handler's closure holds. *)
Definition commit (p : FileProps) (captured : list SelectedFile) (st : FileState)
    (newFiles : list SelectedFile) : Outcome FileState FileEffect :=
  if (List.length newFiles =? 0)%nat then {| out_state := st; out_calls := []; out_exn := None |}
  else
    let updatedFiles := js_slice0 (captured ++ newFiles)%list (maxFiles p) in
    let validationError := validateFiles p updatedFiles in
    let st1 := set_error st validationError in
    if negb (truthy_str validationError) then
      {| out_state := set_files st1 updatedFiles;
         out_calls := call_onChange p updatedFiles; out_exn := None |}
    else {| out_state := st1; out_calls := []; out_exn := None |}.

(** [handlePickFiles] after its [await] (lines 139-193). *)
Definition pick_resume (p : FileProps) (captured : list SelectedFile) (st : FileState)
    (result : PickerResult) : Outcome FileState FileEffect :=
  match result with
  | Canceled => {| out_state := st; out_calls := []; out_exn := None |}
  | PickerFailed =>
      {| out_state := st;
         out_calls := [ShowAlert "Error" "Failed to pick files. Please try again."];
         out_exn := None |}
  | Picked assets =>
      let '(newFiles, alerts) := filter_assets p (default [] assets) in
      let o := commit p captured st newFiles in
      {| out_state := out_state o; out_calls := (alerts ++ out_calls o)%list; out_exn := None |}
  end.

(** [files.filter((_, i) => i !== index)]. *)
Fixpoint remove_index {A} (l : list A) (index : Z) : list A :=
  match l with
  | [] => []
  | x :: r => if index =? 0 then remove_index r (index - 1) else x :: remove_index r (index - 1)
  end.

(** [handleRemoveFile] (lines 197-205). *)
Definition handleRemoveFile (p : FileProps) (st : FileState) (index : Z) : Outcome FileState FileEffect :=
  let updatedFiles := remove_index (files st) index in
  {| out_state := set_error (set_files st updatedFiles) (validateFiles p updatedFiles);
     out_calls := call_onChange p updatedFiles; out_exn := None |}.

(** [handleClearAll] (lines 208-212). *)
Definition handleClearAll (p : FileProps) (st : FileState) : Outcome FileState FileEffect :=
  {| out_state := set_error (set_files st []) ""; out_calls := call_onChange p []; out_exn := None |}.

(** [getTotalSize] (lines 214-216) and [hasError] (line 218). *)
Definition getTotalSize (st : FileState) : Z := sumZ size (files st).
Definition hasError (st : FileState) : bool := isTouched st && (0 <? Z.of_nat (String.length (error st))).

(** ** What the component renders *)

(** The display props of lines 21-30 that [FileProps] leaves out. *)
Record DisplayProps : Type := {
  label : string;
  disabled : bool;
  helperText : option string
}.

(** One entry of the file list (lines 277-300): the name, the size with
    the MIME subtype, and the remove button with its [disabled] prop. *)
Record FileRow : Type := {
  row_name : string;
  row_detail : string;
  remove_label : string;
  remove_disabled : bool
}.

(** The observable part of the rendered tree (lines 220-329); an absent
    element is [None]. *)
Record FilePickerView : Type := {
  label_text : string;
  required_mark : bool;
  clear_all : option bool;
  helper : option string;
  pick_disabled : bool;
  pick_error_style : bool;
  pick_hint : string;
  pick_label : string;
  file_list : option (string * list FileRow * string);
  error_text : option string;
  constraint_text : string;
  allowed_text : option string
}.

(** [file.mimeType.split('/')[1]?.toUpperCase()] inside a template
    literal: [undefined] prints as such. *)
Definition mime_subtype (m : string) : string :=
  match js_split "/" m with
  | _ :: sub :: _ => js_toUpperCase sub
  | _ => "undefined"
  end.

Definition file_row (d : DisplayProps) (f : SelectedFile) : FileRow :=
  {| row_name := name f;
     row_detail := formatFileSize (size f)
                   ++ match mimeType f with
                      | Some m => if truthy_str m then " • " ++ mime_subtype m else ""
                      | None => ""
                      end;
     remove_label := "Remove " ++ name f;
     remove_disabled := disabled d |}.

Definition render_picker (d : DisplayProps) (p : FileProps) (st : FileState) : FilePickerView :=
  let n := Z.of_nat (List.length (files st)) in
  {| label_text := label d;
     required_mark := required p;
     clear_all := if 0 <? n then Some (disabled d) else None;
     helper := match helperText d with Some h => if truthy_str h then Some h else None | None => None end;
     pick_disabled := disabled d || (maxFiles p <=? n);
     pick_error_style := hasError st;
     pick_hint := "Select up to " ++ js_int_to_string (maxFiles p) ++ " files";
     pick_label := if n =? 0 then "Select Files"
                   else if maxFiles p <=? n then "Maximum Files Reached" else "Add More Files";
     file_list :=
       if 0 <? n then
         Some ("Selected Files (" ++ js_int_to_string n ++ "/" ++ js_int_to_string (maxFiles p) ++ ")",
               map (file_row d) (files st),
               "Total: " ++ formatFileSize (getTotalSize st) ++ " / " ++ formatFileSize (maxTotalSize p))
       else None;
     error_text := if hasError st then Some (error st) else None;
     constraint_text := "• Max " ++ js_int_to_string (maxFiles p) ++ " file(s) • Up to "
                        ++ formatFileSize (maxSizePerFile p) ++ " each";
     allowed_text :=
       if (0 <? List.length (allowedTypes p))%nat && negb (js_includes (allowedTypes p) "*/*")
       then Some ("• Allowed: " ++ js_join ", " (allowedTypes p)) else None |}.

(** The rows the view lists, none when the list is not shown. *)
Definition rows (v : FilePickerView) : list FileRow :=
  match file_list v with Some (_, rs, _) => rs | None => [] end.

(** ** The aggregate check *)

(** The invariant of [FileSetState]: count, per-file and total limits, on
    files of non-negative size. *)
Definition file_inv (p : FileProps) (fs : list SelectedFile) : Prop :=
  Z.of_nat (List.length fs) <= maxFiles p
  /\ Forall (fun f => 0 <= size f <= maxSizePerFile p) fs
  /\ sumZ size fs <= maxTotalSize p.

Lemma msg_app_nonempty (a b : string) : b <> "" -> a ++ b <> "".
Proof. intros Hb H. apply str_app_eq_empty in H. tauto. Qed.

Lemma msg_lit_nonempty c (a b : string) : String c a ++ b <> "".
Proof. rewrite str_app_cons. discriminate. Qed.

Lemma validateFiles_empty_iff p sel :
  validateFiles p sel = "" <->
  (required p = true -> sel <> [])
  /\ Z.of_nat (List.length sel) <= maxFiles p
  /\ Forall (fun f => size f <= maxSizePerFile p) sel
  /\ sumZ size sel <= maxTotalSize p.
Proof.
  unfold validateFiles.
  destruct (required p && (List.length sel =? 0)%nat) eqn:E1.
  { split; [discriminate|]. js_bool. intros [Hr _]. destruct sel; [|discriminate]. tauto. }
  destruct (maxFiles p <? Z.of_nat (List.length sel)) eqn:E2.
  { split; [intros H; exfalso; exact (msg_lit_nonempty _ _ _ H)|]. js_bool. lia. }
  destruct (List.find _ sel) as [f|] eqn:E3.
  { split; [intros H; exfalso; exact (msg_app_nonempty _ _ (msg_lit_nonempty _ _ _) H)|].
    apply find_some in E3 as [Hin Hf]. js_bool. intros (_ & _ & Hall & _).
    rewrite Forall_forall in Hall. specialize (Hall f (proj2 (list_elem_of_In _ _) Hin)). lia. }
  apply find_none_iff in E3. js_bool.
  assert (Forall (fun f => size f <= maxSizePerFile p) sel)
    by (eapply Forall_impl; [exact E3|]; intros f Hf; simpl in Hf; js_bool; lia).
  destruct (maxTotalSize p <? sumZ size sel) eqn:E4; js_bool.
  - split; [intros Hm; exfalso; exact (msg_lit_nonempty _ _ _ Hm)|lia].
  - split; [|intros _; reflexivity]. intros _. split; [|split; [lia|split; [assumption|lia]]].
    intros Hr. destruct sel; [|discriminate]. rewrite Hr in E1. simpl in E1. discriminate.
Qed.

(** [validateFiles] returns no message exactly when every aggregate
    limit holds: a required list is non-empty, the count is within
    [maxFiles], every file within [maxSizePerFile] and the total within
    [maxTotalSize]. *)
Theorem validateFiles_ok_iff p sel :
  validateFiles p sel = "" <->
  (required p = true -> sel <> [])
  /\ Z.of_nat (List.length sel) <= maxFiles p
  /\ Forall (fun f => size f <= maxSizePerFile p) sel
  /\ sumZ size sel <= maxTotalSize p.
Proof. exact (validateFiles_empty_iff p sel). Qed.

Lemma validate_ok_inv p sel :
  validateFiles p sel = "" -> Forall (fun f => 0 <= size f) sel -> file_inv p sel.
Proof.
  intros H Hn. apply validateFiles_empty_iff in H as (_ & H1 & H2 & H3).
  split; [exact H1|split; [|exact H3]].
  apply Forall_and; split; assumption.
Qed.

Lemma file_inv_sublist p l1 l2 : sublist l1 l2 -> file_inv p l2 -> file_inv p l1.
Proof.
  intros Hs (H1 & H2 & H3). split; [|split].
  - apply sublist_length in Hs. lia.
  - eapply Forall_sublist; eassumption.
  - etrans; [apply sumZ_sublist; [exact Hs|]|exact H3].
    eapply Forall_impl; [exact H2|]; simpl; lia.
Qed.

Lemma remove_index_sublist {A} (l : list A) i : sublist (remove_index l i) l.
Proof.
  revert i. induction l as [|x l IH]; intros i; simpl; [constructor|].
  destruct (i =? 0); [apply sublist_cons|apply sublist_skip]; apply IH.
Qed.

#[local] Hint Resolve remove_index_sublist sublist_nil_l : onboarding.

(** ** The two-phase add *)

(** An asset as the picker reports it: its size, when present, is not
    negative. *)
Definition asset_wf (a : Asset) : Prop := forall n, asset_size a = Some n -> 0 <= n.

(** The survivors of the filter are the assets that pass the type test and
    the size test, in picking order; each dropped asset raises one alert. *)
Definition keep_asset (p : FileProps) (a : Asset) : bool :=
  isFileTypeAllowed (allowedTypes p) (asset_mimeType a) (asset_name a) && negb (asset_too_large p a).

(** The filter stage of [handlePickFiles] keeps exactly the assets
    that pass both per-file tests, in order, converted to descriptors, and
    raises one alert for each asset it drops. *)
Theorem filter_assets_spec p assets :
  fst (filter_assets p assets) = map to_selected (List.filter (keep_asset p) assets)
  /\ List.length (snd (filter_assets p assets))
     = List.length (List.filter (fun a => negb (keep_asset p a)) assets).
Proof.
  induction assets as [|a r [IH1 IH2]]; [split; reflexivity|]. simpl.
  destruct (filter_assets p r) as [fs eff]. simpl in IH1, IH2. unfold keep_asset.
  destruct (isFileTypeAllowed _ _ _), (asset_too_large p a); simpl; rewrite ?IH1, ?IH2; auto.
Qed.

Lemma filter_assets_nonneg p assets :
  Forall asset_wf assets -> Forall (fun f => 0 <= size f) (fst (filter_assets p assets)).
Proof.
  induction 1 as [|a r Ha _ IH]; simpl; [constructor|].
  destruct (filter_assets p r) as [fs eff]. simpl in IH.
  destruct (negb _); [exact IH|]. destruct (asset_too_large p a); [exact IH|].
  constructor; [|exact IH]. simpl. destruct (truthy_num (asset_size a)); [|lia].
  destruct (asset_size a) as [n|] eqn:S; simpl; [exact (Ha n S)|lia].
Qed.

Lemma filter_assets_small p assets :
  0 <= maxSizePerFile p ->
  Forall (fun f => size f <= maxSizePerFile p) (fst (filter_assets p assets)).
Proof.
  intros Hmax. induction assets as [|a r IH]; simpl; [constructor|].
  destruct (filter_assets p r) as [fs eff]. simpl in IH.
  destruct (negb _); [exact IH|]. unfold asset_too_large.
  destruct (truthy_num (asset_size a)) eqn:T; simpl; [|constructor; [simpl; rewrite T; lia|exact IH]].
  destruct (maxSizePerFile p <? default 0 (asset_size a)) eqn:E; [exact IH|].
  constructor; [|exact IH]. simpl. rewrite T. js_bool. exact E.
Qed.

Definition is_alert (e : FileEffect) : bool :=
  match e with ShowAlert _ _ => true | OnChangeFiles _ => false end.

Lemma filter_assets_alerts p assets : Forall (fun e => is_alert e = true) (snd (filter_assets p assets)).
Proof.
  induction assets as [|a r IH]; simpl; [constructor|].
  destruct (filter_assets p r) as [fs eff]. simpl in IH.
  destruct (negb _); [constructor; auto|]. destruct (asset_too_large p a); [constructor; auto|exact IH].
Qed.

Lemma pick_resume_cases p captured st r :
  let o := pick_resume p captured st r in
  (files (out_state o) = files st /\ Forall (fun e => is_alert e = true) (out_calls o))
  \/ (exists assets newFiles alerts,
        r = Picked assets
        /\ filter_assets p (default [] assets) = (newFiles, alerts)
        /\ files (out_state o) = js_slice0 (captured ++ newFiles)%list (maxFiles p)
        /\ validateFiles p (files (out_state o)) = ""
        /\ error (out_state o) = ""
        /\ out_calls o = (alerts ++ call_onChange p (files (out_state o)))%list).
Proof.
  destruct r as [|assets|]; simpl; [left; split; auto| |left; split; auto].
  pose proof (filter_assets_alerts p (default [] assets)) as Ha.
  destruct (filter_assets p (default [] assets)) as [nf al] eqn:F. simpl in Ha |- *.
  unfold commit. destruct (List.length nf =? 0)%nat.
  { left. simpl. split; [reflexivity|]. rewrite app_nil_r. exact Ha. }
  destruct (negb (truthy_str (validateFiles p _))) eqn:V; simpl.
  - right. exists assets, nf, al. apply negb_true_iff, truthy_str_false_iff in V.
    repeat split; auto.
  - left. split; [reflexivity|]. rewrite app_nil_r. exact Ha.
Qed.

(** C14. The commit of [handlePickFiles] is all or nothing: once the
    picker settles, either the list is the one the handler started from
    and only alerts are shown, or the list becomes the whole tentative list
    (the files the handler captured, then the survivors of the filter,
    truncated to [maxFiles]), which passes [validateFiles], the error is
    cleared, and [onChange] receives that list after the alerts. *)
Theorem pick_resume_all_or_nothing p captured st r :
  let o := pick_resume p captured st r in
  (files (out_state o) = files st /\ Forall (fun e => is_alert e = true) (out_calls o))
  \/ (exists assets newFiles alerts,
        r = Picked assets
        /\ filter_assets p (default [] assets) = (newFiles, alerts)
        /\ files (out_state o) = js_slice0 (captured ++ newFiles)%list (maxFiles p)
        /\ validateFiles p (files (out_state o)) = ""
        /\ error (out_state o) = ""
        /\ out_calls o = (alerts ++ call_onChange p (files (out_state o)))%list).
Proof. exact (pick_resume_cases p captured st r). Qed.

(** ** The picker as a state machine *)

(** The component's state together with the outstanding picker request:
    [fm_pending] is the [files] list the suspended [handlePickFiles]
    closure holds. *)
Record FileMachine : Type := {
  fm_state : FileState;
  fm_pending : option (list SelectedFile)
}.

Inductive FileEvent : Type :=
| Press
| Resolve (r : PickerResult)
| Remove (index : Z)
| Clear.

(** One event: the button, the picker settling, a removal or a clear.
    While a request is outstanding only its resolution is accepted (the
    picker's modal screen covers the component); without one, a resolution
    is not possible. *)
Definition file_dispatch (p : FileProps) (m : FileMachine) (ev : FileEvent)
  : option (FileMachine * list FileEffect) :=
  let st := fm_state m in
  match fm_pending m, ev with
  | None, Press =>
      let '(o, req) := pick_request p st in
      Some ({| fm_state := out_state o;
               fm_pending := option_map (fun _ => files st) req |}, out_calls o)
  | Some captured, Resolve r =>
      let o := pick_resume p captured st r in
      Some ({| fm_state := out_state o; fm_pending := None |}, out_calls o)
  | None, Remove i =>
      let o := handleRemoveFile p st i in
      Some ({| fm_state := out_state o; fm_pending := None |}, out_calls o)
  | None, Clear =>
      let o := handleClearAll p st in
      Some ({| fm_state := out_state o; fm_pending := None |}, out_calls o)
  | _, _ => None
  end.

Definition event_wf (ev : FileEvent) : Prop :=
  match ev with Resolve (Picked (Some assets)) => Forall asset_wf assets | _ => True end.

Inductive file_reachable (p : FileProps) : FileMachine -> Prop :=
| file_reach_init :
    file_reachable p {| fm_state := initial_file_state p; fm_pending := None |}
| file_reach_step m ev m' eff :
    file_reachable p m -> event_wf ev -> file_dispatch p m ev = Some (m', eff) ->
    file_reachable p m'.

Definition machine_inv (p : FileProps) (m : FileMachine) : Prop :=
  file_inv p (files (fm_state m))
  /\ forall captured, fm_pending m = Some captured -> captured = files (fm_state m).

Lemma pick_request_files p st :
  files (out_state (fst (pick_request p st))) = files st.
Proof. unfold pick_request. destruct (_ <=? _); reflexivity. Qed.

Lemma pick_resume_inv p captured st r :
  event_wf (Resolve r) -> Forall (fun f => 0 <= size f) captured -> file_inv p (files st) ->
  file_inv p (files (out_state (pick_resume p captured st r))).
Proof.
  intros Hwf Hc Hs.
  destruct (pick_resume_cases p captured st r)
    as [[-> _]|(assets & nf & al & -> & F & Hf & Hv & _)]; [exact Hs|].
  apply validate_ok_inv; [exact Hv|]. rewrite Hf. unfold js_slice0.
  apply Forall_take, Forall_app. split; [exact Hc|].
  change nf with (fst (nf, al)). rewrite <- F.
  apply filter_assets_nonneg. destruct assets as [assets|]; [exact Hwf|constructor].
Qed.

Lemma file_inv_nonneg p fs : file_inv p fs -> Forall (fun f => 0 <= size f) fs.
Proof. intros (_ & H & _). eapply Forall_impl; [exact H|]; simpl; lia. Qed.

(** One event keeps [machine_inv]. *)
Lemma machine_inv_step p m ev m' eff :
  machine_inv p m -> event_wf ev -> file_dispatch p m ev = Some (m', eff) -> machine_inv p m'.
Proof.
  intros [Hinv Hpend] Hwf Hd. unfold file_dispatch in Hd.
  destruct (fm_pending m) as [c|] eqn:P, ev as [|r|i|]; try discriminate.
  - (* Resolve *)
    injection Hd as <-. rewrite (Hpend c eq_refl). split; [|discriminate].
    apply pick_resume_inv; [exact Hwf|exact (file_inv_nonneg p _ Hinv)|exact Hinv].
  - (* Press *)
    pose proof (pick_request_files p (fm_state m)) as Ho.
    destruct (pick_request p (fm_state m)) as [o req]. injection Hd as <-. simpl in Ho |- *.
    split; [simpl; rewrite Ho; exact Hinv|]. intros c Hc. destruct req; simpl in Hc; [|discriminate]. injection Hc as <-. simpl. congruence.
  - (* Remove *)
    injection Hd as <-. split; [|discriminate]. simpl.
    eapply file_inv_sublist; [apply remove_index_sublist|exact Hinv].
  - (* Clear *)
    injection Hd as <-. split; [|discriminate]. simpl.
    eapply file_inv_sublist; [apply sublist_nil_l|exact Hinv].
Qed.

(** C4. Every state the picker reaches keeps the [FileSetState]
    invariant (count, per-file and total limits) provided the initial
    [value] does, and a suspended [handlePickFiles] always holds the
    current list. *)
Theorem file_set_invariant p m :
  file_inv p (value p) -> file_reachable p m -> machine_inv p m.
Proof.
  intros H0. induction 1 as [|m ev m' eff _ IH Hwf Hd]; [split; [exact H0|discriminate]|].
  exact (machine_inv_step p m ev m' eff IH Hwf Hd).
Qed.

(** ** Capacity, removal and extensions *)

Lemma js_slice0_nonneg {A} (l : list A) e : 0 <= e -> js_slice0 l e = take (Z.to_nat e) l.
Proof. intros He. unfold js_slice0. replace (e <? 0) with false by (symmetry; apply Z.ltb_ge; lia). reflexivity. Qed.

(** C30. Adding more files than [maxFiles] allows is not rejected: the
    tentative list is cut to its first [maxFiles] entries before the count
    check, so the surplus is dropped without any message and the prefix is
    committed (the specification asks for a capacity error and an
    unchanged list). *)
Theorem pick_resume_truncates p captured st assets :
  0 < maxFiles p -> 0 <= maxSizePerFile p ->
  Forall (fun f => size f <= maxSizePerFile p) captured ->
  fst (filter_assets p assets) <> [] ->
  sumZ size (take (Z.to_nat (maxFiles p)) (captured ++ fst (filter_assets p assets))%list)
    <= maxTotalSize p ->
  files (out_state (pick_resume p captured st (Picked (Some assets))))
    = take (Z.to_nat (maxFiles p)) (captured ++ fst (filter_assets p assets))%list
  /\ error (out_state (pick_resume p captured st (Picked (Some assets)))) = "".
Proof.
  intros Hmf Hms Hc Hne Hsum.
  pose proof (filter_assets_small p assets Hms) as Hsm.
  simpl. destruct (filter_assets p assets) as [nf al]. simpl in *.
  unfold commit. destruct nf as [|f nf]; [contradiction|]. simpl.
  rewrite js_slice0_nonneg by lia.
  assert (validateFiles p (take (Z.to_nat (maxFiles p)) (captured ++ f :: nf)) = "") as ->.
  { apply validateFiles_empty_iff. split; [|split; [|split]].
    - intros _. destruct (Z.to_nat (maxFiles p)) eqn:E; [lia|].
      destruct captured; discriminate.
    - rewrite length_take. lia.
    - apply Forall_take, Forall_app. split; assumption.
    - exact Hsum. }
  split; reflexivity.
Qed.

Lemma remove_index_spec {A} (l : list A) i :
  remove_index l i
  = if (0 <=? i) && (i <? Z.of_nat (List.length l)) then (take (Z.to_nat i) l ++ drop (S (Z.to_nat i)) l)%list
    else l.
Proof.
  revert i. induction l as [|x l IH]; intros i; simpl.
  - destruct (_ && _); [destruct (Z.to_nat i)|]; reflexivity.
  - rewrite IH. destruct (Z.eqb_spec i 0) as [->|Hi]; simpl.
    + reflexivity.
    + destruct (Z.leb_spec 0 i), (Z.ltb_spec i (Z.of_nat (S (List.length l))));
        destruct (Z.leb_spec 0 (i - 1)), (Z.ltb_spec (i - 1) (Z.of_nat (List.length l)));
        simpl; try lia; try reflexivity.
      replace (Z.to_nat i) with (S (Z.to_nat (i - 1))) by lia. reflexivity.
Qed.

(** C39. [handleRemoveFile] removes the file at the index when it is in
    range and keeps the list otherwise, always notifies [onChange] and
    re-validates; [handleClearAll] empties the list without validating, so
    on a required field removing the last file shows "At least one file is
    required" while clearing shows no error. *)
Theorem remove_and_clear p st i :
  files (out_state (handleRemoveFile p st i))
    = (if (0 <=? i) && (i <? Z.of_nat (List.length (files st)))
       then take (Z.to_nat i) (files st) ++ drop (S (Z.to_nat i)) (files st)
       else files st)%list
  /\ out_calls (handleRemoveFile p st i) = call_onChange p (files (out_state (handleRemoveFile p st i)))
  /\ (required p = true -> List.length (files st) = 1%nat ->
      error (out_state (handleRemoveFile p st 0)) = "At least one file is required"
      /\ error (out_state (handleClearAll p st)) = ""
      /\ files (out_state (handleClearAll p st)) = []).
Proof.
  split; [apply remove_index_spec|split; [reflexivity|]].
  intros Hr Hl. destruct (files st) as [|f [|g l]] eqn:F; try discriminate.
  split; [|split; reflexivity].
  simpl. rewrite F. simpl. unfold validateFiles. rewrite Hr. reflexivity.
Qed.

(** [getFileExtension] returns the lower-cased text after the last
    dot when a non-empty name precedes that dot, and the empty string for
    a name without a dot or whose only dot is its first character: the
    unsigned shift [>>> 0] turns the offset of a missing or leading dot
    into a start beyond the end of the string. *)
Theorem getFileExtension_spec base ext :
  str_has "." ext = false ->
  Z.of_nat (String.length (base ++ String "." ext)) < 2 ^ 32 ->
  getFileExtension (base ++ String "." ext) = if truthy_str base then js_toLowerCase ext else "".
Proof.
  intros Hext Hlen. unfold getFileExtension, js_lastIndexOf.
  rewrite last_index_app_sep by exact Hext.
  destruct base as [|b r] eqn:B; simpl truthy_str.
  - rewrite js_ushr0_neg by (cbn [String.length]; lia). rewrite js_slice_from_past; [reflexivity|simpl in Hlen |- *; lia].
  - rewrite js_ushr0_small by (simpl in Hlen; rewrite length_app_str in Hlen; simpl in *; lia).
    replace (Z.of_nat (String.length (String b r)) - 1 + 2)
      with (Z.of_nat (String.length (String b r ++ "."))) by (rewrite length_app_str; simpl; lia).
    assert (String b r ++ String "." ext = (String b r ++ ".") ++ ext) as ->
      by (rewrite str_app_assoc; reflexivity).
    rewrite js_slice_from_app. reflexivity.
Qed.

(** ** The rendered picker against its handlers *)

Lemma remove_index_neg {A} (l : list A) i : i < 0 -> remove_index l i = l.
Proof.
  revert i. induction l as [|x l IH]; intros i Hi; simpl; [reflexivity|].
  destruct (Z.eqb_spec i 0); [lia|]. rewrite IH by lia. reflexivity.
Qed.

(** [files.filter((_, i) => i !== index)] is deleting the index. *)
Lemma remove_index_delete {A} (l : list A) (i : nat) : remove_index l (Z.of_nat i) = delete i l.
Proof.
  revert i. induction l as [|x l IH]; intros [|i]; [reflexivity|reflexivity| |].
  - cbn [remove_index Z.of_nat Z.eqb]. apply remove_index_neg. lia.
  - cbn [remove_index]. destruct (Z.eqb_spec (Z.of_nat (S i)) 0); [lia|].
    replace (Z.of_nat (S i) - 1) with (Z.of_nat i) by lia. rewrite IH. reflexivity.
Qed.

Lemma map_delete {A B} (f : A -> B) (l : list A) i : map f (delete i l) = delete i (map f l).
Proof. revert i. induction l as [|x l IH]; intros [|i]; cbn; [reflexivity..|f_equal; apply IH]. Qed.

Lemma rows_render d p st : rows (render_picker d p st) = map (file_row d) (files st).
Proof. unfold rows, render_picker. cbn [file_list]. destruct (files st); reflexivity. Qed.

(** C25. The rendered picker drives its handlers consistently: when the
    pick button is enabled, pressing it always opens the document picker
    (the limit alert of [handlePickFiles] cannot be reached from the
    button); the list shows one row per file, in order; and pressing the
    remove button of row [i] leaves the list without that row and reports
    that list to [onChange]. *)
Theorem picker_view_actions d p st i :
  let v := render_picker d p st in
  (pick_disabled v = false -> exists req, snd (pick_request p st) = Some req)
  /\ rows v = map (file_row d) (files st)
  /\ rows (render_picker d p (out_state (handleRemoveFile p st (Z.of_nat i)))) = delete i (rows v)
  /\ out_calls (handleRemoveFile p st (Z.of_nat i)) = call_onChange p (delete i (files st)).
Proof.
  intros v. subst v. split; [|split; [apply rows_render|]].
  - cbn [render_picker pick_disabled]. intros H. apply orb_false_iff in H as [_ H].
    unfold pick_request. cbn [files set_touched]. rewrite H. eexists. reflexivity.
  - rewrite !rows_render. unfold handleRemoveFile. cbn [out_state out_calls files set_error set_files].
    rewrite remove_index_delete, map_delete. split; reflexivity.
Qed.

End Picker.

(** ** [formatFileSize] (lines 50-56) *)

Definition sizes : list string := ["Bytes"; "KB"; "MB"; "GB"].

(** [Math.floor(Math.log(bytes) / Math.log(k))] with [k = 1024], for a
    positive integer: the exact [floor(log_1024 bytes)]. *)
Definition size_exponent (bytes : Z) : Z := Z.log2 bytes / 10.

(** [Math.round(bytes / Math.pow(k, i) * 100)]: [floor(x + 1/2)]. *)
Definition hundredths (bytes i : Z) : Z := (200 * bytes + 1024 ^ i) / (2 * 1024 ^ i).

(** [String(r / 100)] for an integer [r >= 0]: no trailing zeros in the
    fraction, no point for a whole number. *)
Definition hundredths_to_string (r : Z) : string :=
  let q := r / 100 in
  let f := r mod 100 in
  js_int_to_string q
  ++ (if f =? 0 then ""
      else if f mod 10 =? 0 then "." ++ js_int_to_string (f / 10)
      else "." ++ js_padStart 2 "0" (js_int_to_string f)).

(** [formatFileSize] of an integer byte count.  For a negative count
    [Math.log] is [NaN] and so is everything after it; [sizes[i]] past
    ["GB"] is [undefined]. *)
Definition formatFileSize (bytes : Z) : string :=
  if bytes =? 0 then "0 Bytes"
  else if bytes <? 0 then "NaN undefined"
  else let i := size_exponent bytes in
       hundredths_to_string (hundredths bytes i) ++ " " ++ nth (Z.to_nat i) sizes "undefined".

Lemma size_exponent_spec bytes :
  0 < bytes -> 0 <= size_exponent bytes
  /\ 1024 ^ size_exponent bytes <= bytes < 1024 ^ (size_exponent bytes + 1).
Proof.
  intros Hb. unfold size_exponent. pose proof (Z.log2_spec bytes Hb) as [Hlo Hhi].
  pose proof (Z.log2_nonneg bytes). set (l := Z.log2 bytes) in *.
  assert (Hd : 0 <= l / 10) by (apply Z.div_pos; lia).
  pose proof (Z.mul_div_le l 10 ltac:(lia)). pose proof (Z.mod_pos_bound l 10 ltac:(lia)).
  pose proof (Z.div_mod l 10 ltac:(lia)).
  replace 1024 with (2 ^ 10) by reflexivity. rewrite <- !Z.pow_mul_r by lia.
  split; [exact Hd|split].
  - eapply Z.le_trans; [|exact Hlo]. apply Z.pow_le_mono_r; lia.
  - eapply Z.lt_le_trans; [exact Hhi|]. apply Z.pow_le_mono_r; lia.
Qed.

Lemma hundredths_range bytes i :
  0 <= i -> 1024 ^ i <= bytes < 1024 ^ (i + 1) -> 100 <= hundredths bytes i <= 102400.
Proof.
  intros Hi [Hlo Hhi]. unfold hundredths. rewrite Z.pow_add_r in Hhi by lia.
  assert (Hp : 0 < 1024 ^ i) by (apply Z.pow_pos_nonneg; lia). set (P := 1024 ^ i) in *.
  split.
  - apply Z.div_le_lower_bound; lia.
  - apply Z.lt_succ_r, Z.div_lt_upper_bound; lia.
Qed.

(** C24. Bounds of [formatFileSize]: a size of at least one byte and
    below 1024^4 bytes is printed as a number of hundredths [r] followed
    by the unit of its power of 1024, with the unit among Bytes, KB, MB
    and GB and the number between 1 and 1024 inclusive: rounding can
    print a size just under 1 MB as "1024 KB". *)
Theorem formatFileSize_bounds bytes :
  0 < bytes < 1024 ^ 4 ->
  let i := size_exponent bytes in
  formatFileSize bytes = hundredths_to_string (hundredths bytes i) ++ " " ++ nth (Z.to_nat i) sizes ""
  /\ 0 <= i < 4 /\ 1024 ^ i <= bytes < 1024 ^ (i + 1)
  /\ 100 <= hundredths bytes i <= 102400.
Proof.
  intros Hb i. destruct (size_exponent_spec bytes ltac:(lia)) as [Hi Hr]. fold i in Hi, Hr.
  assert (i < 4).
  { destruct (Z.lt_ge_cases i 4) as [|Hge]; [assumption|].
    pose proof (Z.pow_le_mono_r 1024 4 i ltac:(lia) Hge). lia. }
  split; [|split; [lia|split; [exact Hr|apply hundredths_range; assumption]]].
  unfold formatFileSize. destruct (Z.eqb_spec bytes 0); [lia|]. destruct (Z.ltb_spec bytes 0); [lia|].
  fold i. f_equal. f_equal. destruct (Z.to_nat i) as [|[|[|[|k]]]] eqn:E; try reflexivity. lia.
Qed.

(** ** Witnesses and the specification's examples *)

(** A size formatter for the examples (the component's own formats with
    floating-point logarithms). *)
Definition bytes_fmt (n : Z) : string := js_int_to_string n ++ " Bytes".

Definition pdf (nm : string) (sz : Z) : Asset :=
  {| asset_uri := "file:///" ++ nm; asset_name := nm; asset_size := Some sz;
     asset_mimeType := Some "application/pdf" |}.

Definition four_pdfs : list Asset := [pdf "a.pdf" 1024; pdf "b.pdf" 1024; pdf "c.pdf" 1024; pdf "d.pdf" 1024].

Definition empty_file_state : FileState := {| files := []; error := ""; isTouched := true |}.

Lemma pick_resume_truncates_witness :
  files (out_state (pick_resume bytes_fmt default_props [] empty_file_state (Picked (Some four_pdfs))))
    = take (Z.to_nat (maxFiles default_props)) ([] ++ fst (filter_assets bytes_fmt default_props four_pdfs))%list
  /\ error (out_state (pick_resume bytes_fmt default_props [] empty_file_state (Picked (Some four_pdfs)))) = "".
Proof.
  apply (pick_resume_truncates bytes_fmt default_props [] empty_file_state four_pdfs).
  - vm_compute. reflexivity.
  - vm_compute. discriminate.
  - constructor.
  - vm_compute. discriminate.
  - vm_compute. discriminate.
Defined.

Definition spec_file_props : FileProps :=
  {| value := []; has_onChange := true; maxFiles := 3;
     maxSizePerFile := 5 * 1024 * 1024; maxTotalSize := 15 * 1024 * 1024;
     allowedTypes := ["*/*"]; required := false |}.

(** The specification's examples on [FilePicker]: with [maxFiles] 3,
    four individually valid files leave three committed files, no error
    and an [onChange] with those three (the specification expects a
    capacity error and no change); of two candidates one of which is over
    the per-file limit, the large one is dropped with an alert and the
    other is committed. *)
Theorem file_picker_spec_examples :
  let o := pick_resume bytes_fmt spec_file_props [] empty_file_state (Picked (Some four_pdfs)) in
  let o2 := pick_resume bytes_fmt spec_file_props [] empty_file_state
              (Picked (Some [pdf "big.pdf" (6 * 1024 * 1024); pdf "small.pdf" 1024])) in
  files (out_state o) = map to_selected (take 3 four_pdfs)
  /\ error (out_state o) = ""
  /\ out_calls o = [OnChangeFiles (map to_selected (take 3 four_pdfs))]
  /\ files (out_state o2) = [to_selected (pdf "small.pdf" 1024)]
  /\ error (out_state o2) = ""
  /\ out_calls o2 = [ShowAlert "File Too Large"
                       "big.pdf (6291456 Bytes) exceeds maximum size of 5242880 Bytes";
                     OnChangeFiles [to_selected (pdf "small.pdf" 1024)]].
Proof. vm_compute. repeat split. Qed.

(** Two steps of the picker from the initial state: a press, then the
    picker returning one file. *)
Definition press_then_pick : FileMachine :=
  {| fm_state := {| files := [to_selected (pdf "a.pdf" 1024)]; error := ""; isTouched := true |};
     fm_pending := None |}.

Lemma file_set_invariant_witness : machine_inv spec_file_props press_then_pick.
Proof.
  apply (file_set_invariant bytes_fmt spec_file_props press_then_pick).
  - split; [simpl; lia|split; [constructor|vm_compute; discriminate]].
  - eapply (file_reach_step bytes_fmt spec_file_props
              {| fm_state := {| files := []; error := ""; isTouched := true |}; fm_pending := Some [] |}
              (Resolve (Picked (Some [pdf "a.pdf" 1024])))).
    + eapply (file_reach_step bytes_fmt spec_file_props _ Press); [apply file_reach_init|exact I|].
      vm_compute. reflexivity.
    + constructor; [|constructor]. intros n Hn. injection Hn as <-. lia.
    + vm_compute. reflexivity.
Defined.

Lemma getFileExtension_witness :
  getFileExtension ("Report" ++ String "." "PDF") = "pdf"
  /\ getFileExtension ("" ++ String "." "env") = "".
Proof.
  split.
  - apply (getFileExtension_spec "Report" "PDF"); [reflexivity|vm_compute; reflexivity].
  - apply (getFileExtension_spec "" "env"); [reflexivity|vm_compute; reflexivity].
Defined.


(** [formatFileSize] on sizes the picker meets, as the app prints them. *)
Lemma formatFileSize_examples :
  formatFileSize 0 = "0 Bytes" /\ formatFileSize 1023 = "1023 Bytes" /\ formatFileSize 1100 = "1.07 KB"
  /\ formatFileSize 1536 = "1.5 KB" /\ formatFileSize (5 * 1024 * 1024) = "5 MB"
  /\ formatFileSize 1048575 = "1024 KB" /\ formatFileSize (-1) = "NaN undefined".
Proof. vm_compute. repeat split. Qed.

Lemma formatFileSize_bounds_witness :
  formatFileSize 1048575
  = hundredths_to_string (hundredths 1048575 (size_exponent 1048575)) ++ " "
    ++ nth (Z.to_nat (size_exponent 1048575)) sizes ""
  /\ 0 <= size_exponent 1048575 < 4
  /\ 1024 ^ size_exponent 1048575 <= 1048575 < 1024 ^ (size_exponent 1048575 + 1)
  /\ 100 <= hundredths 1048575 (size_exponent 1048575) <= 102400.
Proof. apply (formatFileSize_bounds 1048575). vm_compute. split; reflexivity. Defined.

Definition sel_pdf (nm : string) (sz : Z) : SelectedFile :=
  {| uri := "file:///" ++ nm; name := nm; size := sz; mimeType := Some "application/pdf" |}.

Definition screen_display : DisplayProps :=
  {| label := "Documents"; disabled := false;
     helperText := Some "Upload your ID, photo, or other documents (e.g., avatar + ID)" |}.

Lemma picker_view_actions_witness :
  let st := {| files := [sel_pdf "a.pdf" 10; sel_pdf "b.pdf" 20]; error := ""; isTouched := true |} in
  let v := render_picker formatFileSize screen_display spec_file_props st in
  (pick_disabled v = false -> exists req, snd (pick_request spec_file_props st) = Some req)
  /\ rows v = map (file_row formatFileSize screen_display) (files st)
  /\ rows (render_picker formatFileSize screen_display spec_file_props
             (out_state (handleRemoveFile formatFileSize spec_file_props st (Z.of_nat 0)))) = delete 0%nat (rows v)
  /\ out_calls (handleRemoveFile formatFileSize spec_file_props st (Z.of_nat 0)) = call_onChange spec_file_props (delete 0%nat (files st)).
Proof. exact (picker_view_actions formatFileSize screen_display spec_file_props _ 0%nat). Defined.

End FilePicker.
