(* ===== verification/CounterTimer.v ===== *)
(** * CounterTimer: the animated counter

    Models src/unnamed/part_002 ([CounterTimer]).  The component keeps a
    React state [state] (idle, running, paused, completed), a reanimated
    shared value [progress] animated by [withTiming], and a display string
    refreshed every 16 ms from [progress].  Three threads of control meet:

    - the JavaScript thread runs the handlers [handleStart], [handleStop],
      [handleReset], [handleRestart], the 16 ms sampler, and the messages
      that [runOnJS] posts to it, in order;
    - the UI thread advances the animation with time and, when a timing
      animation reaches its end, calls its callback with [finished = true],
      which posts [setState('completed')] and [onComplete()] to the
      JavaScript thread;
    - the clock.

    [Timer] holds all of it: [progress] and [anim] (the running timing
    animation, if any) are the shared value; [queue] is the JavaScript
    thread's pending [runOnJS] messages.  [counter_step] is one event of
    any of the threads; [counter_reachable] is the closure from the mounted
    component.  Progress is a rational number; the easing functions are an
    interface ([Easing]) with the laws every reanimated easing satisfies,
    of which the linear one is an instance; the bezier easings are section
    variables.  [render] is what the component shows (lines 138-221): the
    state colour and name, the display, the progress bar and the buttons
    with their [disabled] props.  [display_frame] is one period of the
    16 ms interval in that order (the UI thread for 16 ms, the JavaScript
    thread's turn, the sampler), and [frames_until_completed] watches it,
    on fuel, until the timer reads completed. *)

From S2P Require Import Prelude JsString.
From Stdlib Require Import QArith Qminmax Qround Lqa.

Local Open Scope Q_scope.

Module AnimatedCounter.

(** An easing curve: a map of [0,1] onto itself, monotone, fixing both
    ends. *)
Class Easing (E : Q -> Q) : Prop := {
  ease_proper :: Proper (Qeq ==> Qeq) E;
  ease_0 : E 0 == 0;
  ease_1 : E 1 == 1;
  ease_mono : forall x y, 0 <= x -> x <= y -> y <= 1 -> E x <= E y
}.

#[export] Instance linear_easing : Easing (fun x => x).
Proof. split; [intros x y H; exact H|reflexivity|reflexivity|intros; assumption]. Qed.

Lemma ease_range E `{Easing E} x : 0 <= x <= 1 -> 0 <= E x <= 1.
Proof.
  intros [H0 H1]. split.
  - rewrite <- ease_0. apply ease_mono; lra.
  - rewrite <- ease_1. apply ease_mono; lra.
Qed.

Lemma Qmult_le_compat_l x y z : x <= y -> 0 <= z -> z * x <= z * y.
Proof. intros. rewrite !(Qmult_comm z). apply Qmult_le_compat_r; assumption. Qed.

(** [TimerState] (line 20). *)
Inductive TimerState : Type := Idle | Running | Paused | Completed.

(** The [easing] prop (line 17). *)
Inductive EasingName : Type := ELinear | EEaseInOut | EEaseOut.

(** The props (lines 12-18, defaults at lines 29-30). *)
Record CounterProps : Type := {
  targetNumber : Q;
  durationSec : Q;
  has_onComplete : bool;
  format : Q -> string;
  easing : EasingName
}.

(** The default [format]: [Math.round(val).toString()]. *)
Definition js_round (q : Q) : Z := Qfloor (q + (1 # 2)).
Definition default_format (q : Q) : string := js_int_to_string (js_round q).

(** A timing animation towards 1: its start value, start time and
    duration in milliseconds. *)
Record Anim : Type := {
  a_from : Q;
  a_start : Q;
  a_duration : Q
}.

(** Messages posted to the JavaScript thread by [runOnJS]. *)
Inductive JsMsg : Type := MsgSetCompleted | MsgOnComplete.

Inductive CounterCallback : Type := OnComplete.

Record Timer : Type := {
  state : TimerState;
  progress : Q;
  anim : option Anim;
  now : Q;
  queue : list JsMsg;
  displayValue : string
}.

(** The mounted component (lines 32-34). *)
Definition initial_timer : Timer :=
  {| state := Idle; progress := 0; anim := None; now := 0; queue := []; displayValue := "0" |}.

(** [validTarget] and [validDuration] (lines 37-38): [x || d] replaces
    only 0 (NaN is not a rational). *)
Definition validTarget (p : CounterProps) : Q := Qmax 0 (targetNumber p).
Definition validDuration (p : CounterProps) : Q :=
  Qmax (1 # 10) (Qmin 3600 (if Qeq_bool (durationSec p) 0 then 1 else durationSec p)).

Section Counter.
Context (ease_in_out ease_out : Q -> Q).

(** [easingFunctions[easing]] (lines 40-44). *)
Definition easing_fn (e : EasingName) : Q -> Q :=
  match e with ELinear => fun x => x | EEaseInOut => ease_in_out | EEaseOut => ease_out end.

(** The fraction of an animation's time elapsed at [t], clamped to 1. *)
Definition frac (a : Anim) (t : Q) : Q :=
  if Qle_bool (a_duration a) 0 then 1 else Qmin 1 ((t - a_start a) / a_duration a).

(** The value of a [withTiming(1, ...)] animation at time [t]. *)
Definition anim_value (E : Q -> Q) (a : Anim) (t : Q) : Q :=
  a_from a + (1 - a_from a) * E (frac a t).

(** [progress.value] as the JavaScript thread reads it. *)
Definition cur_progress (p : CounterProps) (tm : Timer) : Q :=
  match anim tm with
  | Some a => anim_value (easing_fn (easing p)) a (now tm)
  | None => progress tm
  end.

Definition set_state (tm : Timer) (s : TimerState) : Timer :=
  {| state := s; progress := progress tm; anim := anim tm; now := now tm;
     queue := queue tm; displayValue := displayValue tm |}.

(** [cancelAnimation(progress)]: freeze the value where it is. *)
Definition cancel (p : CounterProps) (tm : Timer) : Timer :=
  {| state := state tm; progress := cur_progress p tm; anim := None; now := now tm;
     queue := queue tm; displayValue := displayValue tm |}.

(** [progress.value = 0]: an assignment replaces any running animation. *)
Definition set_zero (tm : Timer) : Timer :=
  {| state := state tm; progress := 0; anim := None; now := now tm;
     queue := queue tm; displayValue := displayValue tm |}.

(** [progress.value = withTiming(1, {duration}, callback)]. *)
Definition start_anim (tm : Timer) (from duration : Q) : Timer :=
  {| state := state tm; progress := from;
     anim := Some {| a_from := from; a_start := now tm; a_duration := duration |};
     now := now tm; queue := queue tm; displayValue := displayValue tm |}.

(** [handleStart] (lines 56-99). *)
Definition handleStart (p : CounterProps) (tm : Timer) : Timer :=
  match state tm with
  | Idle | Completed =>
      start_anim (set_zero (set_state tm Running)) 0 (validDuration p * 1000)
  | Paused =>
      let remainingProgress := 1 - cur_progress p tm in
      start_anim (set_state tm Running) (cur_progress p tm)
        (validDuration p * 1000 * remainingProgress)
  | Running => tm
  end.

(** [handleStop] (lines 101-106). *)
Definition handleStop (p : CounterProps) (tm : Timer) : Timer :=
  match state tm with
  | Running => cancel p (set_state tm Paused)
  | _ => tm
  end.

(** [handleReset] (lines 108-113). *)
Definition handleReset (p : CounterProps) (tm : Timer) : Timer :=
  let tm1 := set_zero (cancel p (set_state tm Idle)) in
  {| state := state tm1; progress := progress tm1; anim := anim tm1; now := now tm1;
     queue := queue tm1; displayValue := "0" |}.

(** [handleRestart] (lines 115-136). *)
Definition handleRestart (p : CounterProps) (tm : Timer) : Timer :=
  start_anim (set_zero (set_state (cancel p tm) Running)) 0 (validDuration p * 1000).

(** The completion callback (lines 67-75): [finished] is true, so it
    posts [setState('completed')] and, when given, [onComplete()]. *)
Definition completion_msgs (p : CounterProps) : list JsMsg :=
  MsgSetCompleted :: (if has_onComplete p then [MsgOnComplete] else []).

(** The UI thread after [dt] milliseconds: an animation whose time is up
    ends at 1 and runs its callback. *)
Definition tick (p : CounterProps) (tm : Timer) (dt : Q) : Timer :=
  let t := now tm + dt in
  match anim tm with
  | Some a =>
      if Qle_bool (a_start a + a_duration a) t then
        {| state := state tm; progress := 1; anim := None; now := t;
           queue := (queue tm ++ completion_msgs p)%list; displayValue := displayValue tm |}
      else
        {| state := state tm; progress := progress tm; anim := anim tm; now := t;
           queue := queue tm; displayValue := displayValue tm |}
  | None =>
      {| state := state tm; progress := progress tm; anim := None; now := t;
         queue := queue tm; displayValue := displayValue tm |}
  end.

(** The JavaScript thread runs the oldest posted message. *)
Definition deliver (tm : Timer) : Timer * list CounterCallback :=
  match queue tm with
  | [] => (tm, [])
  | MsgSetCompleted :: r =>
      ({| state := Completed; progress := progress tm; anim := anim tm; now := now tm;
          queue := r; displayValue := displayValue tm |}, [])
  | MsgOnComplete :: r =>
      ({| state := state tm; progress := progress tm; anim := anim tm; now := now tm;
          queue := r; displayValue := displayValue tm |}, [OnComplete])
  end.

(** The 16 ms sampler (lines 46-54). *)
Definition sample (p : CounterProps) (tm : Timer) : Timer :=
  {| state := state tm; progress := progress tm; anim := anim tm; now := now tm;
     queue := queue tm; displayValue := format p (cur_progress p tm * validTarget p) |}.

(** ** What the component renders *)

(** [getStateColor] (lines 138-149). *)
Definition getStateColor (s : TimerState) : string :=
  match s with
  | Running => "#4CAF50"
  | Paused => "#FF9800"
  | Completed => "#2196F3"
  | Idle => "#9E9E9E"
  end.

Definition state_name (s : TimerState) : string :=
  match s with Idle => "idle" | Running => "running" | Paused => "paused" | Completed => "completed" end.

Definition easing_name (e : EasingName) : string :=
  match e with ELinear => "linear" | EEaseInOut => "easeInOut" | EEaseOut => "easeOut" end.

Definition is_running (s : TimerState) : bool := match s with Running => true | _ => false end.

(** The observable part of the rendered tree (lines 151-221): texts, the
    progress bar's width in percent and colour, and the two buttons whose
    [disabled] prop depends on the state (Reset and Restart are always
    enabled). *)
Record CounterView : Type := {
  header_color : string;
  state_text : string;
  display_text : string;
  target_text : string;
  bar_width : Q;
  bar_color : string;
  start_label : string;
  start_disabled : bool;
  stop_disabled : bool;
  info_text : string
}.

(** The render; [num] is [String(x)] on a JavaScript number. *)
Definition render (num : Q -> string) (p : CounterProps) (tm : Timer) : CounterView :=
  {| header_color := getStateColor (state tm);
     state_text := js_toUpperCase (state_name (state tm));
     display_text := displayValue tm;
     target_text := "of " ++ format p (validTarget p);
     bar_width := cur_progress p tm * 100;
     bar_color := getStateColor (state tm);
     start_label := match state tm with Paused => "Resume" | _ => "Start" end;
     start_disabled := is_running (state tm);
     stop_disabled := negb (is_running (state tm));
     info_text := "Target: " ++ num (validTarget p) ++ " | Duration: " ++ num (validDuration p)
                  ++ "s | Easing: " ++ easing_name (easing p) |}.

Inductive CounterEvent : Type :=
| Start | Stop | Reset | Restart
| Tick (dt : Q)
| Deliver
| Sample.

Definition counter_step (p : CounterProps) (tm : Timer) (ev : CounterEvent)
  : Timer * list CounterCallback :=
  match ev with
  | Start => (handleStart p tm, [])
  | Stop => (handleStop p tm, [])
  | Reset => (handleReset p tm, [])
  | Restart => (handleRestart p tm, [])
  | Tick dt => (tick p tm dt, [])
  | Deliver => deliver tm
  | Sample => (sample p tm, [])
  end.

(** A run of events, with the callbacks it makes in order. *)
Fixpoint counter_run (p : CounterProps) (tm : Timer) (evs : list CounterEvent)
  : Timer * list CounterCallback :=
  match evs with
  | [] => (tm, [])
  | ev :: r =>
      let '(tm1, c1) := counter_step p tm ev in
      let '(tm2, c2) := counter_run p tm1 r in
      (tm2, (c1 ++ c2)%list)
  end.

(** [drain] is the JavaScript thread's turn: it runs every message
    [runOnJS] posted (lines 70-73), oldest first.  [display_frame] is not
    code of the component but the schedule the theorems on the display
    loop assume: in each 16 ms period of the interval of lines 46-54 the
    UI thread advances the animation by 16 ms, the JavaScript thread then
    runs all it was posted, and the interval callback ([sample]) runs
    last.  Reanimated and React Native give no such guarantee; a schedule
    that delays the posted messages delays [completed] by as many
    periods. *)
Definition drain (p : CounterProps) (tm : Timer) : Timer :=
  fst (counter_run p tm (repeat Deliver (List.length (queue tm)))).

Definition display_frame (p : CounterProps) (tm : Timer) : Timer :=
  sample p (drain p (tick p tm 16)).

Definition is_completed (s : TimerState) : bool :=
  match s with Completed => true | _ => false end.

(** The display loop watched until the timer reads [completed], for at
    most [fuel] periods: the number of periods it took and the timer
    then, or [None] when the fuel runs out first. *)
Fixpoint frames_until_completed (fuel : nat) (p : CounterProps) (tm : Timer) : option (nat * Timer) :=
  if is_completed (state tm) then Some (0%nat, tm)
  else match fuel with
       | O => None
       | S fuel' => option_map (fun '(n, r) => (S n, r)) (frames_until_completed fuel' p (display_frame p tm))
       end.

(** Time does not run backwards. *)
Definition event_ok (ev : CounterEvent) : Prop :=
  match ev with Tick dt => 0 <= dt | _ => True end.

Inductive counter_reachable (p : CounterProps) : Timer -> Prop :=
| counter_reach_init : counter_reachable p initial_timer
| counter_reach_step tm ev :
    counter_reachable p tm -> event_ok ev -> counter_reachable p (fst (counter_step p tm ev)).

(** ** Progress stays in [0,1] and grows with time *)

Context `{Easing ease_in_out} `{Easing ease_out}.

#[local] Instance easing_fn_easing e : Easing (easing_fn e).
Proof. destruct e; simpl; [apply linear_easing|assumption|assumption]. Qed.

Lemma frac_range a t : a_start a <= t -> 0 <= frac a t <= 1.
Proof.
  intros Ht. unfold frac. destruct (Qle_bool (a_duration a) 0) eqn:E; [lra|].
  apply not_true_iff_false in E. rewrite Qle_bool_iff in E. split; [|apply Q.le_min_l].
  apply Q.min_glb; [lra|]. apply Qle_shift_div_l; lra.
Qed.

Lemma frac_mono a t1 t2 : a_start a <= t1 -> t1 <= t2 -> frac a t1 <= frac a t2.
Proof.
  intros H1 H2. unfold frac. destruct (Qle_bool (a_duration a) 0) eqn:E; [lra|].
  apply not_true_iff_false in E. rewrite Qle_bool_iff in E.
  apply Q.min_le_compat_l. unfold Qdiv. apply Qmult_le_compat_r; [lra|].
  apply Qinv_le_0_compat. lra.
Qed.

Lemma anim_value_range E `{Easing E} a t :
  0 <= a_from a <= 1 -> a_start a <= t -> a_from a <= anim_value E a t <= 1.
Proof.
  intros Hf Ht. pose proof (ease_range E _ (frac_range a t Ht)) as [He0 He1].
  unfold anim_value. split.
  - assert (0 <= (1 - a_from a) * E (frac a t)) by (apply Qmult_le_0_compat; lra). lra.
  - assert ((1 - a_from a) * E (frac a t) <= (1 - a_from a) * 1)
      by (apply Qmult_le_compat_l; lra). lra.
Qed.

Lemma anim_value_mono E `{Easing E} a t1 t2 :
  0 <= a_from a <= 1 -> a_start a <= t1 -> t1 <= t2 -> anim_value E a t1 <= anim_value E a t2.
Proof.
  intros Hf Ht1 Ht2. unfold anim_value.
  assert (E (frac a t1) <= E (frac a t2)).
  { pose proof (frac_range a t1 Ht1). pose proof (frac_range a t2 ltac:(lra)).
    apply ease_mono; try lra. apply frac_mono; assumption. }
  assert ((1 - a_from a) * E (frac a t1) <= (1 - a_from a) * E (frac a t2))
    by (apply Qmult_le_compat_l; lra). lra.
Qed.

(** The invariant of the timer: the stored value and every animation's
    start value are in [0,1], an animation started in the past with a
    non-negative duration; an idle timer is at 0 with nothing animating; a
    paused one has nothing animating; a running one is animating or has a
    completion message pending. *)
Definition counter_inv (tm : Timer) : Prop :=
  0 <= progress tm <= 1
  /\ (forall a, anim tm = Some a -> 0 <= a_from a <= 1 /\ 0 <= a_duration a /\ a_start a <= now tm)
  /\ (state tm = Idle -> progress tm == 0 /\ anim tm = None)
  /\ (state tm = Paused -> anim tm = None)
  /\ (state tm = Running -> anim tm <> None \/ In MsgSetCompleted (queue tm)).

Lemma cur_progress_range p tm : counter_inv tm -> 0 <= cur_progress p tm <= 1.
Proof.
  intros (Hp & Ha & _). unfold cur_progress. destruct (anim tm) as [a|]; [|exact Hp].
  destruct (Ha a eq_refl) as (Hf & _ & Hs).
  pose proof (anim_value_range (easing_fn (easing p)) a (now tm) Hf Hs). lra.
Qed.

Lemma validDuration_pos p : 1 # 10 <= validDuration p.
Proof. apply Q.le_max_l. Qed.

Lemma inv_start_anim tm from dur :
  state tm = Running -> 0 <= from <= 1 -> 0 <= dur -> counter_inv (start_anim tm from dur).
Proof.
  intros S Hf Hd. unfold counter_inv, start_anim; simpl. rewrite S.
  split; [lra|split; [|split; [discriminate|split; [discriminate|left; discriminate]]]].
  intros a Ha. injection Ha as <-. simpl. lra.
Qed.

Lemma inv_handleStart p tm : counter_inv tm -> counter_inv (handleStart p tm).
Proof.
  intros Hi. pose proof (validDuration_pos p). pose proof (cur_progress_range p tm Hi).
  unfold handleStart. destruct (state tm) eqn:S.
  - apply inv_start_anim; [reflexivity|lra|lra].
  - exact Hi.
  - apply inv_start_anim; [reflexivity|lra|]. apply Qmult_le_0_compat; [lra|lra].
  - apply inv_start_anim; [reflexivity|lra|lra].
Qed.

Lemma inv_handleStop p tm : counter_inv tm -> counter_inv (handleStop p tm).
Proof.
  intros Hi. pose proof (cur_progress_range p tm Hi) as Hc.
  unfold handleStop. destruct (state tm) eqn:S; try exact Hi.
  unfold counter_inv, cancel; simpl.
  split; [exact Hc|]. split; [discriminate|]. split; [discriminate|]. split; [reflexivity|discriminate].
Qed.

Lemma inv_handleReset p tm : counter_inv tm -> counter_inv (handleReset p tm).
Proof.
  intros _. unfold counter_inv, handleReset; simpl.
  split; [lra|]. split; [discriminate|]. split; [split; [reflexivity|reflexivity]|].
  split; discriminate.
Qed.

Lemma inv_handleRestart p tm : counter_inv tm -> counter_inv (handleRestart p tm).
Proof. intros _. pose proof (validDuration_pos p). apply inv_start_anim; [reflexivity|lra|lra]. Qed.

Lemma inv_tick p tm dt : 0 <= dt -> counter_inv tm -> counter_inv (tick p tm dt).
Proof.
  intros Hdt (H1 & H2 & H3 & H4 & H5). unfold tick.
  destruct (anim tm) as [a|] eqn:A.
  - destruct (H2 a eq_refl) as (Hf & Hd & Hs).
    destruct (Qle_bool _ _); unfold counter_inv; simpl.
    + split; [lra|]. split; [discriminate|].
      split; [intros S; specialize (H3 S) as [_ ?]; discriminate|].
      split; [intros S; specialize (H4 S); discriminate|].
      intros _. right. apply in_or_app. right. left. reflexivity.
    + split; [exact H1|]. split; [intros a' Ha'; injection Ha' as <-; lra|].
      split; [intros S; specialize (H3 S) as [_ ?]; discriminate|].
      split; [intros S; specialize (H4 S); discriminate|].
      intros _. left. discriminate.
  - unfold counter_inv; simpl. split; [exact H1|]. split; [discriminate|].
    split; [intros S; split; [apply H3, S|reflexivity]|]. split; [reflexivity|].
    intros S. destruct (H5 S) as [?|?]; [contradiction|right; assumption].
Qed.

Lemma inv_deliver tm : counter_inv tm -> counter_inv (fst (deliver tm)).
Proof.
  intros Hi. pose proof Hi as (H1 & H2 & H3 & H4 & H5). unfold deliver.
  destruct (queue tm) as [|[] r] eqn:Q.
  - exact Hi.
  - unfold counter_inv; simpl. split; [exact H1|]. split; [exact H2|].
    split; [discriminate|]. split; discriminate.
  - unfold counter_inv; simpl. split; [exact H1|]. split; [exact H2|].
    split; [exact H3|]. split; [exact H4|].
    intros S. destruct (H5 S) as [?|Hin]; [left; assumption|right].
    destruct Hin as [?|?]; [discriminate|assumption].
Qed.

Lemma inv_sample p tm : counter_inv tm -> counter_inv (sample p tm).
Proof. intros Hi. exact Hi. Qed.

#[local] Hint Resolve inv_handleStart inv_handleStop inv_handleReset inv_handleRestart
  inv_tick inv_deliver inv_sample : onboarding.

Lemma inv_initial : counter_inv initial_timer.
Proof.
  unfold counter_inv; simpl. split; [lra|]. split; [discriminate|].
  split; [split; reflexivity|]. split; discriminate.
Qed.

Lemma reachable_counter_inv p tm : counter_reachable p tm -> counter_inv tm.
Proof.
  induction 1 as [|tm ev _ IH Hok].
  - exact inv_initial.
  - destruct ev; simpl; auto with onboarding.
Qed.

(** C5. Every reachable state of the timer keeps [counter_inv]: in
    particular an idle timer is at 0 with nothing animating, a paused one
    has no animation, a running one is animating or has its completion
    pending on the JavaScript thread, and [progress.value] is always in
    [0,1]. *)
Theorem counter_invariant p tm :
  counter_reachable p tm -> counter_inv tm /\ 0 <= cur_progress p tm <= 1.
Proof.
  intros Hr. pose proof (reachable_counter_inv p tm Hr) as Hi.
  split; [exact Hi|apply cur_progress_range, Hi].
Qed.

(** [progress.value] never decreases as time passes, in every state:
    a running animation is monotone in time and ends at 1. *)
Theorem tick_monotone p tm dt :
  counter_inv tm -> 0 <= dt -> cur_progress p tm <= cur_progress p (tick p tm dt).
Proof.
  intros (_ & H2 & _) Hdt. unfold tick, cur_progress.
  destruct (anim tm) as [a|]; [|simpl; lra].
  destruct (H2 a eq_refl) as (Hf & _ & Hs).
  destruct (Qle_bool _ _); simpl.
  - apply (anim_value_range _ a (now tm) Hf Hs).
  - apply anim_value_mono; [exact _|exact Hf|exact Hs|lra].
Qed.

Lemma frac_before a t :
  0 < a_duration a -> a_start a <= t <= a_start a + a_duration a ->
  frac a t == (t - a_start a) / a_duration a.
Proof.
  intros Hd Ht. unfold frac.
  replace (Qle_bool (a_duration a) 0) with false
    by (symmetry; apply not_true_iff_false; rewrite Qle_bool_iff; lra).
  apply Q.min_r. apply Qle_shift_div_r; lra.
Qed.

Lemma Qle_bool_false x y : y < x -> Qle_bool x y = false.
Proof. intros Hlt. apply not_true_iff_false. rewrite Qle_bool_iff. lra. Qed.

Lemma tick_before p tm a dt :
  anim tm = Some a -> now tm + dt < a_start a + a_duration a ->
  tick p tm dt = {| state := state tm; progress := progress tm; anim := Some a;
                    now := now tm + dt; queue := queue tm; displayValue := displayValue tm |}.
Proof. intros A Hlt. unfold tick. rewrite A, Qle_bool_false by exact Hlt. reflexivity. Qed.

Lemma validDuration_ms_pos p : 0 < validDuration p * 1000.
Proof. pose proof (validDuration_pos p). lra. Qed.

(** A timing animation just started is at its start value 0. *)
Lemma cur_progress_fresh p tm T :
  0 < T -> cur_progress p (start_anim tm 0 T) == 0.
Proof.
  intros Hd. unfold cur_progress, anim_value; simpl.
  rewrite frac_before by (simpl; lra). simpl.
  assert (Hz : (now tm - now tm) / T == 0) by (field; lra).
  rewrite Hz, ease_0. ring.
Qed.

Lemma cur_progress_at_start p tm T :
  0 < T -> anim tm = Some {| a_from := 0; a_start := now tm; a_duration := T |} ->
  cur_progress p tm == 0.
Proof.
  intros Hd A. unfold cur_progress. rewrite A. unfold anim_value.
  rewrite frac_before by (simpl; lra). simpl.
  assert (Hz : (now tm - now tm) / T == 0) by (field; lra).
  rewrite Hz, ease_0. ring.
Qed.

(** [restart] from any state, mid-animation included, gives a
    running timer at progress 0 with a fresh full-duration animation; two
    consecutive [reset]s leave the same idle timer at progress 0. *)
Theorem restart_and_reset p tm :
  state (handleRestart p tm) = Running
  /\ cur_progress p (handleRestart p tm) == 0
  /\ anim (handleRestart p tm)
     = Some {| a_from := 0; a_start := now tm; a_duration := validDuration p * 1000 |}
  /\ handleReset p (handleReset p tm) = handleReset p tm
  /\ state (handleReset p tm) = Idle /\ cur_progress p (handleReset p tm) == 0.
Proof.
  split; [reflexivity|]. split; [|split; [reflexivity|split; [reflexivity|split; reflexivity]]].
  apply cur_progress_fresh, validDuration_ms_pos.
Qed.

Lemma handleStart_fresh p tm :
  state tm = Idle \/ state tm = Completed ->
  handleStart p tm = start_anim (set_zero (set_state tm Running)) 0 (validDuration p * 1000).
Proof. unfold handleStart. intros [-> | ->]; reflexivity. Qed.

Lemma stop_then_start p tm :
  state tm = Running ->
  handleStart p (handleStop p tm)
  = start_anim (set_state (cancel p (set_state tm Paused)) Running) (cur_progress p tm)
      (validDuration p * 1000 * (1 - cur_progress p tm)).
Proof. intros S. unfold handleStop. rewrite S. reflexivity. Qed.

Lemma linear_value_before p a t :
  easing p = ELinear -> 0 < a_duration a -> a_start a <= t <= a_start a + a_duration a ->
  anim_value (easing_fn (easing p)) a t == a_from a + (1 - a_from a) * ((t - a_start a) / a_duration a).
Proof. intros Hlin Hd Ht. rewrite Hlin. unfold anim_value. simpl. rewrite frac_before by assumption. reflexivity. Qed.

(** C15. With linear easing, stopping and starting again resumes over the
    remaining duration: after running [e1] ms, pausing, and running [e2] ms
    more, the progress is the one of an uninterrupted run of [e1 + e2] ms,
    namely [(e1 + e2) / duration]. *)
Theorem pause_resume_linear p tm e1 e2 :
  easing p = ELinear -> state tm = Idle \/ state tm = Completed ->
  0 <= e1 -> 0 <= e2 -> e1 + e2 < validDuration p * 1000 ->
  cur_progress p (fst (counter_run p tm [Start; Tick e1; Stop; Start; Tick e2]))
    == cur_progress p (fst (counter_run p tm [Start; Tick (e1 + e2)]))
  /\ cur_progress p (fst (counter_run p tm [Start; Tick (e1 + e2)]))
    == (e1 + e2) / (validDuration p * 1000)
  /\ state (fst (counter_run p tm [Start; Tick e1; Stop; Start; Tick e2])) = Running.
Proof.
  intros Hlin Hs H1 H2 Hlt. pose proof (validDuration_ms_pos p) as Hd.
  set (T := validDuration p * 1000) in *.
  set (A1 := {| a_from := 0; a_start := now tm; a_duration := T |}).
  cbn [counter_run counter_step fst snd]. rewrite (handleStart_fresh p tm Hs).
  rewrite (tick_before _ _ A1 (e1 + e2)) by (reflexivity || (simpl; lra)).
  rewrite (tick_before _ _ A1 e1) by (reflexivity || (simpl; lra)).
  rewrite stop_then_start by reflexivity.
  cbn [start_anim set_zero set_state state progress anim now queue displayValue].
  set (X1 := {| state := Running; progress := 0; anim := Some A1; now := now tm + e1;
                queue := queue tm; displayValue := displayValue tm |}).
  assert (Hc : cur_progress p X1 == e1 / T).
  { unfold X1, A1. cbn [cur_progress anim now].
    rewrite (linear_value_before p _ _ Hlin) by (cbn [a_start a_duration]; lra). cbn [a_from a_start a_duration].
    field. lra. }
  assert (Hr : T * (1 - cur_progress p X1) == T - e1) by (rewrite Hc; field; lra).
  set (A2 := {| a_from := cur_progress p X1; a_start := now tm + e1;
                a_duration := T * (1 - cur_progress p X1) |}).
  rewrite (tick_before _ _ A2 e2) by (reflexivity || (simpl; rewrite Hr; lra)).
  assert (Hfull : cur_progress p {| state := Running; progress := 0; anim := Some A1;
            now := now tm + (e1 + e2); queue := queue tm; displayValue := displayValue tm |}
          == (e1 + e2) / T).
  { unfold A1. cbn [cur_progress anim now].
    rewrite (linear_value_before p _ _ Hlin) by (cbn [a_start a_duration]; lra). cbn [a_from a_start a_duration].
    field. lra. }
  split; [|split; [exact Hfull|reflexivity]].
  rewrite Hfull. unfold A2. cbn [cur_progress anim now start_anim set_state cancel].
  change (now X1) with (now tm + e1). rewrite (linear_value_before p _ _ Hlin) by (cbn [a_start a_duration]; rewrite ?Hr; lra).
  cbn [a_from a_start a_duration]. rewrite Hr, Hc.
  field. lra.
Qed.

Lemma tick_after p tm a dt :
  anim tm = Some a -> a_start a + a_duration a <= now tm + dt ->
  tick p tm dt = {| state := state tm; progress := 1; anim := None; now := now tm + dt;
                    queue := (queue tm ++ completion_msgs p)%list; displayValue := displayValue tm |}.
Proof. intros A Hle. unfold tick. rewrite A. apply Qle_bool_iff in Hle. rewrite Hle. reflexivity. Qed.

(** C28. The stale completion race: a run that has reached its end has
    posted [setState('completed')] (and [onComplete()]) to the JavaScript
    thread; if [restart] runs before those messages, they are delivered
    after it, so the fresh run is marked completed at progress 0 while it
    animates, and [onComplete] fires after the restart. *)
Theorem stale_completion_after_restart p :
  let evs := [Start; Tick (validDuration p * 1000); Restart; Deliver] in
  let tm := fst (counter_run p initial_timer evs) in
  state tm = Completed /\ cur_progress p tm == 0 /\ anim tm <> None
  /\ snd (counter_run p initial_timer (evs ++ [Deliver]))
     = (if has_onComplete p then [OnComplete] else []).
Proof.
  pose proof (validDuration_ms_pos p) as Hd.
  cbn [counter_run counter_step fst snd app]. rewrite (handleStart_fresh p initial_timer) by (left; reflexivity).
  rewrite (tick_after p _ {| a_from := 0; a_start := 0; a_duration := validDuration p * 1000 |})
    by (reflexivity || (simpl; lra)).
  unfold completion_msgs. destruct (has_onComplete p);
    cbn -[Qmult Qplus validDuration cur_progress Qeq];
    (split; [reflexivity|split; [apply (cur_progress_at_start p _ _ Hd); reflexivity|]];
     split; [discriminate|reflexivity]).
Qed.

Definition is_set_completed (m : JsMsg) : bool :=
  match m with MsgSetCompleted => true | MsgOnComplete => false end.

(** Running every pending message empties the queue, leaves the shared
    value alone, and completes the timer if one of them was
    [setState('completed')]. *)
Lemma drain_queue p tm :
  let r := fst (counter_run p tm (repeat Deliver (List.length (queue tm)))) in
  queue r = [] /\ progress r = progress tm /\ anim r = anim tm
  /\ state r = (if existsb is_set_completed (queue tm) then Completed else state tm).
Proof.
  remember (queue tm) as q eqn:Hq. revert tm Hq.
  induction q as [|m q IH]; intros tm Hq; simpl.
  - auto.
  - unfold deliver. rewrite <- Hq.
    destruct m; cbn [counter_run counter_step repeat List.length fst snd];
      match goal with
      | |- context [counter_run p ?t1 _] =>
          destruct (IH t1 eq_refl) as (Q1 & P1 & A1 & S1);
          destruct (counter_run p t1 _) as [r c]; simpl in *
      end; repeat split; auto; rewrite S1; destruct (existsb _ q); reflexivity.
Qed.

(** C37. A running animation always ends: once its remaining time has
    passed and the JavaScript thread has run the posted messages, the
    timer is completed at progress 1 with nothing pending. *)
Theorem animation_completes p tm a :
  anim tm = Some a ->
  let evs := Tick (Qmax 0 (a_start a + a_duration a - now tm))
             :: repeat Deliver (List.length (queue tm ++ completion_msgs p)) in
  let r := fst (counter_run p tm evs) in
  state r = Completed /\ cur_progress p r == 1 /\ queue r = [].
Proof.
  intros A. cbn [counter_run counter_step].
  rewrite (tick_after p tm a) by (exact A || (pose proof (Q.le_max_r 0 (a_start a + a_duration a - now tm)); lra)).
  match goal with |- context [counter_run p ?t1 _] => pose proof (drain_queue p t1) as D end.
  cbv zeta in D. destruct D as (Q1 & P1 & A1 & S1).
  cbn [queue anim progress state] in Q1, P1, A1, S1.
  destruct (counter_run p _ _) as [r c]. cbn [fst] in *.
  unfold cur_progress. rewrite A1, P1, S1, existsb_app. simpl existsb.
  rewrite orb_true_r. split; [reflexivity|split; [reflexivity|exact Q1]].
Qed.

Lemma counter_run_now p tm n : now (fst (counter_run p tm (repeat Deliver n))) = now tm.
Proof.
  revert tm. induction n as [|n IH]; intros tm; [reflexivity|].
  cbn [repeat counter_run counter_step]. destruct (deliver tm) as [t1 c1] eqn:D.
  destruct (counter_run p t1 _) as [t2 c2] eqn:R. cbn [fst].
  replace t2 with (fst (counter_run p t1 (repeat Deliver n))) by (rewrite R; reflexivity).
  rewrite IH. unfold deliver in D. destruct (queue tm) as [|[] q]; injection D as <- _; reflexivity.
Qed.

(** A period in which the animation reaches its end completes the timer
    and leaves nothing pending. *)
Lemma display_frame_after p tm a :
  anim tm = Some a -> a_start a + a_duration a <= now tm + 16 ->
  state (display_frame p tm) = Completed /\ queue (display_frame p tm) = [].
Proof.
  intros A Hle. unfold display_frame, drain. rewrite (tick_after p tm a) by assumption.
  match goal with |- context [counter_run p ?t1 _] => destruct (drain_queue p t1) as (Q1 & _ & _ & S1) end.
  cbn [sample state queue] in *. rewrite S1, Q1, existsb_app. cbn. rewrite orb_true_r. auto.
Qed.

(** A period that ends before the animation does keeps it, advances the
    clock by 16 ms, and leaves the timer running or completed by an
    earlier message. *)
Lemma display_frame_before p tm a :
  anim tm = Some a -> now tm + 16 < a_start a + a_duration a ->
  anim (display_frame p tm) = Some a /\ now (display_frame p tm) = now tm + 16
  /\ queue (display_frame p tm) = []
  /\ (state (display_frame p tm) = Completed \/ state (display_frame p tm) = state tm).
Proof.
  intros A Hlt. unfold display_frame, drain. rewrite (tick_before p tm a) by assumption.
  match goal with |- context [counter_run p ?t1 _] =>
    destruct (drain_queue p t1) as (Q1 & _ & A1 & S1); pose proof (counter_run_now p t1 (List.length (queue t1))) as N1
  end.
  cbn [sample state queue anim now] in *. rewrite A1, Q1, N1, S1.
  split; [reflexivity|]. split; [reflexivity|]. split; [reflexivity|].
  destruct (existsb _ _); auto.
Qed.

Lemma frames_completed_now fuel p tm :
  state tm = Completed -> frames_until_completed fuel p tm = Some (0%nat, tm).
Proof. intros Hc. destruct fuel; cbn; rewrite Hc; reflexivity. Qed.

Lemma frames_running_step fuel p tm :
  state tm = Running ->
  frames_until_completed (S fuel) p tm
  = option_map (fun '(n, r) => (S n, r)) (frames_until_completed fuel p (display_frame p tm)).
Proof. intros Hr. cbn [frames_until_completed]. rewrite Hr. reflexivity. Qed.

(** Within [m + 1] periods a running animation with at most [16 m] ms to
    go is seen completed. *)
Lemma frames_complete p a m : forall tm,
  anim tm = Some a -> state tm = Running ->
  a_start a + a_duration a - now tm <= 16 * inject_Z (Z.of_nat m) ->
  exists n r, frames_until_completed (S m) p tm = Some (n, r) /\ (1 <= n <= S m)%nat
    /\ state r = Completed /\ queue r = [].
Proof.
  induction m as [|m IH]; intros tm A R Hrem.
  - destruct (display_frame_after p tm a A) as [S1 Q1];
      [change (inject_Z (Z.of_nat 0)) with 0 in Hrem; lra|].
    rewrite frames_running_step, frames_completed_now by assumption. cbn.
    exists 1%nat, (display_frame p tm). auto.
  - rewrite frames_running_step by exact R.
    destruct (Qlt_le_dec (now tm + 16) (a_start a + a_duration a)) as [Hlt|Hle].
    + destruct (display_frame_before p tm a A Hlt) as (A1 & N1 & Q1 & [S1|S1]).
      * rewrite frames_completed_now by exact S1. cbn. exists 1%nat, (display_frame p tm). split; [reflexivity|lia||auto].
        split; [lia|auto].
      * rewrite R in S1.
        destruct (IH (display_frame p tm) A1 S1) as (n & r & E & Hn & Sr & Qr).
        { rewrite N1. rewrite Nat2Z.inj_succ in Hrem. unfold Z.succ in Hrem. rewrite inject_Z_plus in Hrem.
          change (inject_Z 1) with 1 in Hrem. lra. }
        rewrite E. cbn. exists (S n), r. split; [reflexivity|]. split; [lia|auto].
    + destruct (display_frame_after p tm a A Hle) as [S1 Q1].
      rewrite frames_completed_now by exact S1. cbn. exists 1%nat, (display_frame p tm).
      split; [reflexivity|]. split; [lia|auto].
Qed.

Lemma ceiling_periods x : x <= 16 * inject_Z (Z.of_nat (Z.to_nat (Qceiling (x / 16)))).
Proof.
  pose proof (Qle_ceiling (x / 16)) as Hx.
  assert (Hc : (Qceiling (x / 16) <= Z.of_nat (Z.to_nat (Qceiling (x / 16))))%Z) by lia.
  rewrite Zle_Qle in Hc. assert (E : x == 16 * (x / 16)) by (field; discriminate).
  set (y := x / 16) in *. lra.
Qed.

(** C16. The display interval sees every running animation finish: a
    timer running an animation with [d] ms left reads [completed], with
    nothing left for the JavaScript thread to run, within
    [ceil(d / 16) + 1] periods of the 16 ms interval, so the loop that
    waits for it ends with that fuel. *)
Theorem display_loop_terminates p tm a :
  anim tm = Some a -> state tm = Running ->
  let k := S (Z.to_nat (Qceiling ((a_start a + a_duration a - now tm) / 16))) in
  exists n r, frames_until_completed k p tm = Some (n, r) /\ (1 <= n <= k)%nat
    /\ state r = Completed /\ queue r = [].
Proof. intros A R k. apply (frames_complete p a); [exact A|exact R|apply ceiling_periods]. Qed.

(** C38. What the timer shows stays in range and matches its handlers:
    in every reachable state the progress bar is between 0% and 100%
    wide, exactly one of Start and Stop is enabled, and the disabled one
    would do nothing if its handler ran. *)
Theorem counter_view_bounds num p tm :
  counter_reachable p tm ->
  let v := render num p tm in
  0 <= bar_width v <= 100
  /\ start_disabled v = negb (stop_disabled v)
  /\ (start_disabled v = true -> handleStart p tm = tm)
  /\ (stop_disabled v = true -> handleStop p tm = tm).
Proof.
  intros Hr v. pose proof (cur_progress_range p tm (reachable_counter_inv p tm Hr)) as Hc.
  subst v. cbn [render bar_width start_disabled stop_disabled].
  split; [lra|]. unfold handleStart, handleStop.
  destruct (state tm); cbn; repeat split; congruence.
Qed.

End Counter.

(** ** The specification's example and witnesses *)

Definition lin : Q -> Q := fun x => x.
#[local] Instance lin_easing : Easing lin := linear_easing.

(** Target 100 over 10 s, linear, with an [onComplete]. *)
Definition p10 : CounterProps :=
  {| targetNumber := 100; durationSec := 10; has_onComplete := true;
     format := default_format; easing := ELinear |}.

(** The specification's example: at 5 s of a 10 s linear run to
    100 the display shows "50"; after stopping there and starting again
    the run is still going 4999 ms later and ends 1 ms after that, with
    one [onComplete]; the resumed run takes the remaining 5 s, not 10 s. *)
Theorem counter_spec_example :
  displayValue (fst (counter_run lin lin p10 initial_timer [Start; Tick 5000; Sample])) = "50"
  /\ state (fst (counter_run lin lin p10 initial_timer [Start; Tick 5000; Stop; Start; Tick 4999]))
     = Running
  /\ counter_run lin lin p10 initial_timer
       [Start; Tick 5000; Stop; Start; Tick 4999; Tick 1; Deliver; Deliver]
     = ({| state := Completed; progress := 1; anim := None; now := 10000; queue := [];
           displayValue := "0" |}, [OnComplete]).
Proof. vm_compute. repeat split. Qed.

Lemma counter_invariant_witness :
  let tm := fst (counter_run lin lin p10 initial_timer [Start; Tick 2500]) in
  counter_inv tm /\ 0 <= cur_progress lin lin p10 tm <= 1.
Proof.
  apply (counter_invariant lin lin p10).
  apply (counter_reach_step lin lin p10 _ (Tick 2500)); [|simpl; lra].
  apply (counter_reach_step lin lin p10 _ Start); [apply counter_reach_init|exact I].
Defined.

Lemma tick_monotone_witness :
  cur_progress lin lin p10 (handleStart lin lin p10 initial_timer)
  <= cur_progress lin lin p10 (tick p10 (handleStart lin lin p10 initial_timer) 2500).
Proof.
  apply (tick_monotone lin lin p10).
  - exact (inv_handleStart lin lin p10 initial_timer inv_initial).
  - lra.
Defined.

Lemma pause_resume_linear_witness :
  cur_progress lin lin p10 (fst (counter_run lin lin p10 initial_timer [Start; Tick 3000; Stop; Start; Tick 2000]))
    == cur_progress lin lin p10 (fst (counter_run lin lin p10 initial_timer [Start; Tick (3000 + 2000)]))
  /\ cur_progress lin lin p10 (fst (counter_run lin lin p10 initial_timer [Start; Tick (3000 + 2000)]))
    == (3000 + 2000) / (validDuration p10 * 1000)
  /\ state (fst (counter_run lin lin p10 initial_timer [Start; Tick 3000; Stop; Start; Tick 2000])) = Running.
Proof.
  apply (pause_resume_linear lin lin p10 initial_timer 3000 2000).
  - reflexivity.
  - left. reflexivity.
  - lra.
  - lra.
  - vm_compute. reflexivity.
Defined.

Lemma counter_view_bounds_witness :
  let v := render lin lin default_format p10 (fst (counter_run lin lin p10 initial_timer [Start; Tick 2500])) in
  0 <= bar_width v <= 100
  /\ start_disabled v = negb (stop_disabled v)
  /\ (start_disabled v = true ->
      handleStart lin lin p10 (fst (counter_run lin lin p10 initial_timer [Start; Tick 2500]))
      = fst (counter_run lin lin p10 initial_timer [Start; Tick 2500]))
  /\ (stop_disabled v = true ->
      handleStop lin lin p10 (fst (counter_run lin lin p10 initial_timer [Start; Tick 2500]))
      = fst (counter_run lin lin p10 initial_timer [Start; Tick 2500])).
Proof.
  apply (counter_view_bounds lin lin default_format p10).
  apply (counter_reach_step lin lin p10 _ (Tick 2500)); [|simpl; lra].
  apply (counter_reach_step lin lin p10 _ Start); [apply counter_reach_init|exact I].
Defined.

Definition started : Timer := handleStart lin lin p10 initial_timer.

Lemma display_loop_terminates_witness :
  exists a, anim started = Some a /\ state started = Running /\
  let k := S (Z.to_nat (Qceiling ((a_start a + a_duration a - now started) / 16))) in
  exists n r, frames_until_completed lin lin k p10 started = Some (n, r) /\ (1 <= n <= k)%nat
    /\ state r = Completed /\ queue r = [].
Proof.
  eexists. split; [vm_compute; reflexivity|]. split; [reflexivity|].
  apply (display_loop_terminates lin lin p10 started); [vm_compute; reflexivity|reflexivity].
Defined.

Lemma animation_completes_witness :
  let a := {| a_from := 0; a_start := 0; a_duration := validDuration p10 * 1000 |} in
  let evs := Tick (Qmax 0 (a_start a + a_duration a - now started))
             :: repeat Deliver (List.length (queue started ++ completion_msgs p10)) in
  let r := fst (counter_run lin lin p10 started evs) in
  state r = Completed /\ cur_progress lin lin p10 r == 1 /\ queue r = [].
Proof. apply (animation_completes lin lin p10 started). reflexivity. Defined.

Lemma stale_completion_after_restart_witness :
  let evs := [Start; Tick (validDuration p10 * 1000); Restart; Deliver] in
  let tm := fst (counter_run lin lin p10 initial_timer evs) in
  state tm = Completed /\ cur_progress lin lin p10 tm == 0 /\ anim tm <> None
  /\ snd (counter_run lin lin p10 initial_timer (evs ++ [Deliver]))
     = (if has_onComplete p10 then [OnComplete] else []).
Proof. exact (stale_completion_after_restart lin lin p10). Defined.

Lemma restart_and_reset_witness :
  state (handleRestart lin lin p10 started) = Running
  /\ cur_progress lin lin p10 (handleRestart lin lin p10 started) == 0
  /\ anim (handleRestart lin lin p10 started)
     = Some {| a_from := 0; a_start := now started; a_duration := validDuration p10 * 1000 |}
  /\ handleReset lin lin p10 (handleReset lin lin p10 started) = handleReset lin lin p10 started
  /\ state (handleReset lin lin p10 started) = Idle
  /\ cur_progress lin lin p10 (handleReset lin lin p10 started) == 0.
Proof. exact (restart_and_reset lin lin p10 started). Defined.

End AnimatedCounter.
