(* ===== verification/Backend.v ===== *)
(** * Backend: the Cloudflare worker

    Models src/backend/worker.js: the server-side [validateOnboardingData]
    on the parsed JSON body, [handleSubmitOnboarding] (validate, build the
    stored record, write it and an e-mail index entry to the KV namespace
    [ONBOARDING_DATA]), [handleGetOnboarding], and the router [fetch].

    A request body is the value [request.json()] returns, a [Json] tree, or
    [None] when the body is not JSON.  Property access follows JavaScript:
    reading a property of [null] throws, of any other non-object gives
    [undefined].  The KV namespace is a [gmap] from keys to the values the
    worker writes: the record ([JSON.stringify] of it, kept as the record
    itself) or an index entry (the bare id).  [Date.now()], the ISO
    timestamp and [Math.random] are the request's [Env], so [generateId]
    is a function of it.  The CORS headers, the preflight answer and the
    JSON bodies the worker sends are written out; logging is not
    modelled, the KV writes are assumed to succeed, and the 30-day expiry
    of index entries is not modelled (it only removes index entries). *)

From S2P Require Import Prelude JsString Validation.
From stdpp Require Import gmap.

Local Open Scope string_scope.
Local Open Scope js_scope.

Inductive Json : Type :=
| JNull
| JBool (b : bool)
| JNum (z : Z)
| JStr (s : string)
| JArr (l : list Json)
| JObj (fields : list (string * Json)).

(** The value of a property of a parsed object: the last occurrence of the
    key wins, as in [JSON.parse]. *)
Definition json_lookup (k : string) (fs : list (string * Json)) : option Json :=
  option_map snd (List.find (fun kv => String.eqb (fst kv) k) (rev fs)).

(** [v.k] for a property name [k]. *)
Definition get_prop (v : Json) (k : string) : js_result (option Json) :=
  match v with
  | JNull => Throws (TypeError ("Cannot read properties of null (reading '" ++ k ++ "')"))
  | JObj fs => Ok (json_lookup k fs)
  | _ => Ok None
  end.

(** Truthiness of a value that may be [undefined]. *)
Definition jtruthy (o : option Json) : bool :=
  match o with
  | None | Some JNull => false
  | Some (JBool b) => b
  | Some (JNum z) => negb (z =? 0)%Z
  | Some (JStr s) => truthy_str s
  | Some (JArr _) | Some (JObj _) => true
  end.

Definition json_string (o : option Json) : option string :=
  match o with Some (JStr s) => Some s | _ => None end.

Definition json_array (o : option Json) : option (list Json) :=
  match o with Some (JArr l) => Some l | _ => None end.

(** The name check (lines 40-42). *)
Definition name_errors (name : option Json) : list string :=
  match json_string name with
  | Some s => if jtruthy name && negb (js_blank s) then [] else ["Name is required"]
  | None => ["Name is required"]
  end.

(** The e-mail check (lines 44-51). *)
Definition email_errors (email : option Json) : list string :=
  match json_string email with
  | Some s =>
      if negb (jtruthy email) then ["Email is required"]
      else if ValidationEngine.emailRegex_test s then [] else ["Invalid email format"]
  | None => ["Email is required"]
  end.

(** The start-date check (lines 53-55). *)
Definition startDate_errors (startDate : option Json) : list string :=
  match json_string startDate with
  | Some _ => if jtruthy startDate then [] else ["Start date is required"]
  | None => ["Start date is required"]
  end.

(** The documents check (lines 57-59). *)
Definition documents_errors (documents : option Json) : list string :=
  match json_array documents with
  | Some (_ :: _) => []
  | _ => ["At least one document is required"]
  end.

(** [validateOnboardingData] (lines 37-65). *)
Definition worker_validate (data : Json) : js_result (list string) :=
  name <- get_prop data "name" ;;
  email <- get_prop data "email" ;;
  startDate <- get_prop data "startDate" ;;
  documents <- get_prop data "documents" ;;
  Ok (name_errors name ++ email_errors email ++ startDate_errors startDate
      ++ documents_errors documents)%list.

(** The per-request environment: [Date.now()], [new Date().toISOString()]
    and the base-36 digits of [Math.random()] that [generateId] uses. *)
Record Env : Type := {
  now_ms : Z;
  now_iso : string;
  rnd : string
}.

(** [generateId] (lines 32-34). *)
Definition generateId (e : Env) : string :=
  "onboard_" ++ js_int_to_string (now_ms e) ++ "_" ++ rnd e.

(** A stored document descriptor (lines 103-109). *)
Record StoredDoc : Type := {
  doc_name : option Json;
  doc_size : option Json;
  doc_mimeType : option Json;
  doc_base64 : option string
}.

Definition stored_doc (doc : Json) : js_result StoredDoc :=
  n <- get_prop doc "name" ;;
  sz <- get_prop doc "size" ;;
  mt <- get_prop doc "mimeType" ;;
  b <- get_prop doc "base64" ;;
  b64 <- (if jtruthy b then
            match b with
            | Some (JStr s) => Ok (Some (String.substring 0 100 s ++ "...[truncated]"))
            | _ => Throws (TypeError "doc.base64.substring is not a function")
            end
          else Ok None) ;;
  Ok {| doc_name := n; doc_size := sz; doc_mimeType := mt; doc_base64 := b64 |}%js.

Fixpoint js_mapM {A B} (f : A -> js_result B) (l : list A) : js_result (list B) :=
  match l with
  | [] => Ok []
  | x :: r => (y <- f x ;; ys <- js_mapM f r ;; Ok (y :: ys))%js
  end.

(** The stored record (lines 98-113). *)
Record OnboardingRecord : Type := {
  rec_id : string;
  rec_name : option Json;
  rec_email : option Json;
  rec_startDate : option Json;
  rec_documents : list StoredDoc;
  rec_createdAt : string;
  rec_updatedAt : string;
  rec_submittedAt : Json
}.

(** What a key of [ONBOARDING_DATA] holds. *)
Inductive KVValue : Type :=
| KVRecord (r : OnboardingRecord)
| KVIndex (id : string).

Abbreviation KV := (gmap string KVValue).

Inductive RespBody : Type :=
| BodyNull
| BodySubmitted (r : OnboardingRecord)
| BodyFound (r : OnboardingRecord)
| BodyError (msg : string)
| BodyHealth (timestamp : string).

Record Response : Type := {
  status : Z;
  body : RespBody
}.

Definition internal_error : Response := {| status := 500; body := BodyError "Internal server error" |}.

(** [corsHeaders] (lines 17-22). *)
Definition corsHeaders : list (string * string) :=
  [("Access-Control-Allow-Origin", "*");
   ("Access-Control-Allow-Methods", "GET, POST, PUT, DELETE, OPTIONS");
   ("Access-Control-Allow-Headers", "Content-Type, X-Session-ID");
   ("Access-Control-Max-Age", "86400")].

(** [handleOptions] (lines 25-29): a 200 answer with no body. *)
Definition handleOptions : Response := {| status := 200; body := BodyNull |}.

(** The headers of every JSON answer of the worker, as each [new Response]
    writes them (lines 85-88 and the like). *)
Definition json_headers : list (string * string) :=
  ("Content-Type", "application/json") :: corsHeaders.

(** The headers the worker answers a request with: [handleOptions] sends
    [corsHeaders], every other route the JSON headers. *)
Definition response_headers (method : string) : list (string * string) :=
  if method =? "OPTIONS" then corsHeaders else json_headers.

(** ** The bodies as [JSON.stringify] writes them *)

(** A property whose value is [undefined] is left out. *)
Definition opt_field (k : string) (o : option Json) : list (string * Json) :=
  match o with Some v => [(k, v)] | None => [] end.

(** One stored document (lines 103-109). *)
Definition stored_doc_json (d : StoredDoc) : Json :=
  JObj (opt_field "name" (doc_name d) ++ opt_field "size" (doc_size d)
        ++ opt_field "mimeType" (doc_mimeType d) ++ opt_field "base64" (option_map JStr (doc_base64 d)))%list.

(** [onboardingData] (lines 98-113), as stored in KV and sent back. *)
Definition record_json (r : OnboardingRecord) : Json :=
  JObj ([("id", JStr (rec_id r))] ++ opt_field "name" (rec_name r) ++ opt_field "email" (rec_email r)
        ++ opt_field "startDate" (rec_startDate r)
        ++ [("documents", JArr (map stored_doc_json (rec_documents r)));
            ("createdAt", JStr (rec_createdAt r)); ("updatedAt", JStr (rec_updatedAt r));
            ("submittedAt", rec_submittedAt r)])%list.

(** The 201 body (lines 137-141). *)
Definition submitted_json (r : OnboardingRecord) : Json :=
  JObj [("success", JBool true); ("data", record_json r);
        ("message", JStr "Onboarding submitted successfully")].

(** The 200 body of [handleGetOnboarding] (lines 193-196): [JSON.parse] of
    the stored text gives back the record's JSON. *)
Definition found_json (r : OnboardingRecord) : Json :=
  JObj [("success", JBool true); ("data", record_json r)].

(** Every error body (lines 79-82 and the like). *)
Definition error_json (msg : string) : Json :=
  JObj [("success", JBool false); ("error", JStr msg)].

(** The health check body (lines 248-253). *)
Definition health_json (timestamp : string) : Json :=
  JObj [("status", JStr "ok"); ("service", JStr "Onboarding Platform API");
        ("version", JStr "1.0.0"); ("timestamp", JStr timestamp)].

(** The body of an answer; [None] is the empty body of [handleOptions]. *)
Definition body_json (rb : RespBody) : option Json :=
  match rb with
  | BodyNull => None
  | BodySubmitted r => Some (submitted_json r)
  | BodyFound r => Some (found_json r)
  | BodyError m => Some (error_json m)
  | BodyHealth t => Some (health_json t)
  end.

(** [handleSubmitOnboarding] (lines 68-166).  Line 72 reads [data.name],
    [data.email] and [data.documents] for the log before validating. *)
Definition handleSubmitOnboarding (req_body : option Json) (e : Env) (kv : KV) : Response * KV :=
  match req_body with
  | None => (internal_error, kv)
  | Some data =>
      match (_ <- get_prop data "name" ;; worker_validate data)%js with
      | Throws _ => (internal_error, kv)
      | Ok ((_ :: _) as errs) =>
          ({| status := 400; body := BodyError (js_join ", " errs) |}, kv)
      | Ok [] =>
          let id := generateId e in
          match (name <- get_prop data "name" ;; email <- get_prop data "email" ;;
                 sd <- get_prop data "startDate" ;; docs <- get_prop data "documents" ;;
                 stored <- js_mapM stored_doc (default [] (json_array docs)) ;;
                 sub <- get_prop data "submittedAt" ;;
                 Ok ({| rec_id := id; rec_name := name; rec_email := email; rec_startDate := sd;
                        rec_documents := stored; rec_createdAt := now_iso e;
                        rec_updatedAt := now_iso e;
                        rec_submittedAt := if jtruthy sub then default JNull sub else JStr (now_iso e) |},
                     default "" (json_string email)))%js with
          | Throws _ => (internal_error, kv)
          | Ok (r, email) =>
              ({| status := 201; body := BodySubmitted r |},
               <["email:" ++ email := KVIndex id]> (<[id := KVRecord r]> kv))
          end
      end
  end.

(** [handleGetOnboarding] (lines 169-221): an index entry holds a bare id,
    which [JSON.parse] rejects. *)
Definition handleGetOnboarding (id : string) (kv : KV) : Response :=
  match kv !! id with
  | None => {| status := 404; body := BodyError "Onboarding data not found" |}
  | Some (KVRecord r) => {| status := 200; body := BodyFound r |}
  | Some (KVIndex _) => internal_error
  end.

(** The router [fetch] (lines 224-278) on the request's method and path. *)
Definition fetch (method path : string) (req_body : option Json) (e : Env) (kv : KV) : Response * KV :=
  if method =? "OPTIONS" then (handleOptions, kv)
  else if (path =? "/api/onboard") && (method =? "POST") then handleSubmitOnboarding req_body e kv
  else if js_startsWith path "/api/onboard/" && (method =? "GET") then
    (handleGetOnboarding (List.last (js_split "/" path) "") kv, kv)
  else if (path =? "/health") || (path =? "/") then
    ({| status := 200; body := BodyHealth (now_iso e) |}, kv)
  else ({| status := 404; body := BodyError "Not found" |}, kv).

(** ** Validation *)

Lemma js_blank_truthy s : js_blank s = false -> truthy_str s = true.
Proof. destruct s; [discriminate|reflexivity]. Qed.

Lemma name_errors_nil o : name_errors o = [] <-> exists s, o = Some (JStr s) /\ js_blank s = false.
Proof.
  unfold name_errors. split.
  - destruct o as [[]|]; simpl; try discriminate.
    destruct (truthy_str s && negb (js_blank s)) eqn:E; [|discriminate]. intros _.
    exists s. js_bool. auto.
  - intros (s & -> & Hb). simpl. rewrite (js_blank_truthy s Hb), Hb. reflexivity.
Qed.

Lemma email_errors_nil o : email_errors o = [] <-> exists s, o = Some (JStr s) /\ ValidationEngine.email_shape s.
Proof.
  unfold email_errors. split.
  - destruct o as [[]|]; simpl; try discriminate.
    destruct (truthy_str s); simpl; [|discriminate].
    destruct (ValidationEngine.emailRegex_test s) eqn:E; [|discriminate]. intros _.
    exists s. split; [reflexivity|]. apply ValidationEngine.emailRegex_test_spec, E.
  - intros (s & -> & Hs). simpl. apply ValidationEngine.emailRegex_test_spec in Hs as E.
    destruct s; [discriminate|]. simpl. rewrite E. reflexivity.
Qed.

Lemma startDate_errors_nil o : startDate_errors o = [] <-> exists s, o = Some (JStr s) /\ s <> "".
Proof.
  unfold startDate_errors. split.
  - destruct o as [[]|]; simpl; try discriminate.
    destruct s; simpl; [discriminate|]. intros _. eexists. split; [reflexivity|discriminate].
  - intros (s & -> & Hs). destruct s; [contradiction|reflexivity].
Qed.

Lemma documents_errors_nil o : documents_errors o = [] <-> exists d ds, o = Some (JArr (d :: ds)).
Proof.
  unfold documents_errors. split.
  - destruct o as [[]|]; simpl; try discriminate. destruct l; [discriminate|]. eauto.
  - intros (d & ds & ->). reflexivity.
Qed.

(** The worker accepts a body object exactly when its [name] is a
    string that is not blank, its [email] a string of the shape of
    [/^[^\s@]+@[^\s@]+\.[^\s@]+$/], its [startDate] a non-empty string
    (not trimmed, unlike the client) and its [documents] a non-empty
    array. *)
Theorem worker_validate_ok_iff fs :
  worker_validate (JObj fs) = Ok [] <->
  (exists s, json_lookup "name" fs = Some (JStr s) /\ js_blank s = false)
  /\ (exists s, json_lookup "email" fs = Some (JStr s) /\ ValidationEngine.email_shape s)
  /\ (exists s, json_lookup "startDate" fs = Some (JStr s) /\ s <> "")
  /\ (exists d ds, json_lookup "documents" fs = Some (JArr (d :: ds))).
Proof.
  unfold worker_validate. simpl. split.
  - intros H. injection H as H.
    apply app_eq_nil in H as [H1 H]. apply app_eq_nil in H as [H2 H]. apply app_eq_nil in H as [H3 H4].
    rewrite name_errors_nil in H1. rewrite email_errors_nil in H2.
    rewrite startDate_errors_nil in H3. rewrite documents_errors_nil in H4. auto.
  - intros (H1 & H2 & H3 & H4).
    rewrite <- name_errors_nil in H1. rewrite <- email_errors_nil in H2.
    rewrite <- startDate_errors_nil in H3. rewrite <- documents_errors_nil in H4.
    rewrite H1, H2, H3, H4. reflexivity.
Qed.

(** ** Submission and retrieval *)

Definition email_key (r : OnboardingRecord) : string :=
  "email:" ++ default "" (json_string (rec_email r)).

(** What a successful submission did: it answered 201 with the record it
    built under a fresh [generateId], and wrote the record under its id
    and then the id under the e-mail key. *)
Lemma submit_created data e kv resp kv' :
  handleSubmitOnboarding (Some data) e kv = (resp, kv') -> status resp = 201%Z ->
  exists r, resp = {| status := 201; body := BodySubmitted r |}
    /\ rec_id r = generateId e
    /\ kv' = <[email_key r := KVIndex (rec_id r)]> (<[rec_id r := KVRecord r]> kv).
Proof.
  unfold handleSubmitOnboarding. intros H Hs.
  destruct data as [| | | | |fs]; cbn [get_prop js_bind worker_validate] in H;
    try (injection H as <- _; discriminate).
  destruct (name_errors _ ++ _)%list as [|e1 es]; [|injection H as <- _; discriminate].
  cbn [js_bind] in H.
  destruct (js_mapM stored_doc _) as [stored|]; [|injection H as <- _; discriminate].
  cbn [js_bind] in H. injection H as <- <-. eexists. split; [reflexivity|]. split; reflexivity.
Qed.

Lemma submit_kv b e kv resp kv' :
  handleSubmitOnboarding b e kv = (resp, kv') ->
  kv' = kv \/ exists r, rec_id r = generateId e
                  /\ kv' = <[email_key r := KVIndex (rec_id r)]> (<[rec_id r := KVRecord r]> kv).
Proof.
  unfold handleSubmitOnboarding. intros H.
  destruct b as [data|]; [|injection H as _ <-; left; reflexivity].
  destruct data as [| | | | |fs]; cbn [get_prop js_bind worker_validate] in H;
    try (injection H as _ <-; left; reflexivity).
  destruct (name_errors _ ++ _)%list as [|e1 es]; [|injection H as _ <-; left; reflexivity].
  cbn [js_bind] in H.
  destruct (js_mapM stored_doc _) as [stored|]; [|injection H as _ <-; left; reflexivity].
  cbn [js_bind] in H. injection H as _ <-. right.
  match goal with |- context [KVRecord ?r] => exists r end. split; reflexivity.
Qed.

Lemma str_prefix_app (a b : string) : String.prefix a (a ++ b) = true.
Proof.
  induction a as [|c r IH]; [destruct b; reflexivity|].
  rewrite str_app_cons. simpl. destruct (Ascii.ascii_dec c c); [exact IH|contradiction].
Qed.

Lemma eqb_app_sep (a b : string) c : String.eqb (a ++ String c b) a = false.
Proof.
  apply String.eqb_neq. intros H. apply (f_equal String.length) in H.
  rewrite length_app_str in H. simpl in H. lia.
Qed.

(** The router sends [GET /api/onboard/<id>] to [handleGetOnboarding id]
    when [id] has no slash. *)
Lemma route_get id b e kv :
  str_has "/" id = false -> fetch "GET" ("/api/onboard/" ++ id) b e kv = (handleGetOnboarding id kv, kv).
Proof.
  intros Hid. unfold fetch.
  change ("/api/onboard/" ++ id) with ("/api/onboard" ++ String "/" id) at 1.
  rewrite eqb_app_sep. cbn [andb orb].
  change ("/api/onboard" ++ String "/" id) with ("/api/onboard/" ++ id).
  unfold js_startsWith. rewrite str_prefix_app. cbn [andb].
  change ("/api/onboard/" ++ id) with ("" ++ String "/" ("api" ++ String "/" ("onboard" ++ String "/" id))).
  rewrite !js_split_app by reflexivity. rewrite js_split_no_sep by exact Hid. reflexivity.
Qed.

Lemma generateId_no_slash e : str_has "/" (rnd e) = false -> str_has "/" (generateId e) = false.
Proof.
  intros H. unfold generateId. rewrite !str_has_app, H, str_has_int_to_string by (reflexivity || discriminate).
  reflexivity.
Qed.

Lemma email_key_not_record r rest : email_key r <> "onboard_" ++ rest.
Proof. unfold email_key. intros H. discriminate H. Qed.

(** Round trip: after the worker answers 201 with a record, a
    [GET /api/onboard/<id>] of the record's id answers 200 with that
    record, and the e-mail key names that id. *)
Theorem submit_then_get data e kv r kv' :
  handleSubmitOnboarding (Some data) e kv = ({| status := 201; body := BodySubmitted r |}, kv') ->
  str_has "/" (rnd e) = false ->
  fst (fetch "GET" ("/api/onboard/" ++ rec_id r) None e kv') = {| status := 200; body := BodyFound r |}
  /\ kv' !! email_key r = Some (KVIndex (rec_id r)).
Proof.
  intros H Hr. destruct (submit_created _ _ _ _ _ H eq_refl) as (r' & Hr' & Hid & ->).
  injection Hr' as <-. split; [|apply lookup_insert_eq].
  rewrite route_get by (rewrite Hid; apply generateId_no_slash, Hr). unfold handleGetOnboarding.
  rewrite lookup_insert_ne, lookup_insert_eq; [reflexivity|].
  rewrite Hid. unfold generateId. apply email_key_not_record.
Qed.

(** C34. The e-mail index is readable through the public route and breaks
    it: after a submission with an e-mail [s] (without a slash), a
    [GET /api/onboard/email:<s>] finds the bare id stored there, which
    [JSON.parse] rejects, and the worker answers 500. *)
Theorem email_index_get_fails data e kv r kv' s :
  handleSubmitOnboarding (Some data) e kv = ({| status := 201; body := BodySubmitted r |}, kv') ->
  rec_email r = Some (JStr s) -> str_has "/" s = false ->
  fst (fetch "GET" ("/api/onboard/" ++ email_key r) None e kv') = internal_error.
Proof.
  intros H Hs Hsl. destruct (submit_created _ _ _ _ _ H eq_refl) as (r' & Hr' & _ & ->).
  injection Hr' as <-.
  rewrite route_get; [unfold handleGetOnboarding; rewrite lookup_insert_eq; reflexivity|].
  unfold email_key. rewrite Hs. simpl. rewrite str_has_app, Hsl. reflexivity.
Qed.

(** A body that fails validation is answered 400 with the messages
    joined by ", ", and the store is left unchanged. *)
Theorem submit_rejects data e kv errs :
  worker_validate data = Ok errs -> errs <> [] ->
  handleSubmitOnboarding (Some data) e kv
  = ({| status := 400; body := BodyError (js_join ", " errs) |}, kv).
Proof.
  intros Hv Hne. unfold handleSubmitOnboarding.
  destruct data; try discriminate Hv; cbn [get_prop js_bind]; rewrite Hv;
    (destruct errs; [contradiction|reflexivity]).
Qed.

(** ** The store *)

(** The invariant of [ONBOARDING_DATA]: a record is stored under its own
    id, which starts with [onboard_]; an index entry under [email:<e>]
    names a stored record whose e-mail is [e]. *)
Definition kv_inv (kv : KV) : Prop :=
  forall k v, kv !! k = Some v ->
  match v with
  | KVRecord r => rec_id r = k /\ exists rest, k = "onboard_" ++ rest
  | KVIndex id => exists r, kv !! id = Some (KVRecord r) /\ k = email_key r
  end.

(** The stores the worker reaches from an empty namespace; each request's
    [generateId] is not a key already in use. *)
Inductive worker_reachable : KV -> Prop :=
| worker_reach_init : worker_reachable ∅
| worker_reach_step kv method path b e :
    worker_reachable kv -> kv !! generateId e = None ->
    worker_reachable (snd (fetch method path b e kv)).

Lemma fetch_kv method path b e kv :
  snd (fetch method path b e kv) = kv
  \/ exists r, rec_id r = generateId e
         /\ snd (fetch method path b e kv)
            = <[email_key r := KVIndex (rec_id r)]> (<[rec_id r := KVRecord r]> kv).
Proof.
  unfold fetch. case_ifs; try (left; reflexivity).
  destruct (handleSubmitOnboarding b e kv) as [resp kv'] eqn:H. exact (submit_kv _ _ _ _ _ H).
Qed.

(** What every answer of the worker looks like: an error body carries a
    non-empty message under a status outside 2xx, every other body comes
    with a 2xx status. *)
Definition answer_shape (resp : Response) : Prop :=
  match body resp with
  | BodyError msg => truthy_str msg = true /\ ~ (200 <= status resp < 300)%Z
  | _ => (200 <= status resp < 300)%Z
  end.

Lemma name_errors_msgs o : Forall (fun m => m <> "") (name_errors o).
Proof. unfold name_errors. destruct (json_string o); [case_match|]; repeat constructor; discriminate. Qed.

Lemma email_errors_msgs o : Forall (fun m => m <> "") (email_errors o).
Proof. unfold email_errors. destruct (json_string o); [repeat case_match|]; repeat constructor; discriminate. Qed.

Lemma startDate_errors_msgs o : Forall (fun m => m <> "") (startDate_errors o).
Proof. unfold startDate_errors. destruct (json_string o); [case_match|]; repeat constructor; discriminate. Qed.

Lemma documents_errors_msgs o : Forall (fun m => m <> "") (documents_errors o).
Proof. unfold documents_errors. repeat case_match; repeat constructor; discriminate. Qed.

Lemma worker_validate_msgs d errs :
  worker_validate d = Ok errs -> Forall (fun m => m <> "") errs.
Proof.
  unfold worker_validate.
  destruct (get_prop d "name"), (get_prop d "email"), (get_prop d "startDate"), (get_prop d "documents");
    cbn [js_bind]; intros H; inversion H; subst.
  repeat apply Forall_app_2; auto using name_errors_msgs, email_errors_msgs,
    startDate_errors_msgs, documents_errors_msgs.
Qed.

Lemma js_join_truthy sep x r : x <> "" -> truthy_str (js_join sep (x :: r)) = true.
Proof.
  intros Hx. destruct x as [|c x]; [congruence|]. destruct r; [reflexivity|].
  cbn [js_join]. rewrite str_app_cons. reflexivity.
Qed.

Ltac shape := unfold answer_shape; cbn; first [lia | split; [reflexivity|lia]].

Lemma submit_answer_shape b e kv : answer_shape (fst (handleSubmitOnboarding b e kv)).
Proof.
  unfold handleSubmitOnboarding.
  destruct b as [data|]; [|shape].
  destruct (_ <- get_prop data "name" ;; worker_validate data)%js as [[|m errs]|] eqn:Hv; [| |shape].
  - repeat case_match; shape.
  - unfold answer_shape; cbn. split; [|lia]. apply js_join_truthy.
    destruct (get_prop data "name"); [|discriminate]. cbn [js_bind] in Hv.
    apply worker_validate_msgs in Hv. inversion Hv. assumption.
Qed.

Lemma fetch_answer_shape method path b e kv : answer_shape (fst (fetch method path b e kv)).
Proof.
  unfold fetch. case_ifs; try apply submit_answer_shape; try shape.
  unfold handleGetOnboarding. repeat case_match; shape.
Qed.

Lemma kv_inv_insert kv r :
  kv_inv kv -> kv !! rec_id r = None -> (exists rest, rec_id r = "onboard_" ++ rest) ->
  kv_inv (<[email_key r := KVIndex (rec_id r)]> (<[rec_id r := KVRecord r]> kv)).
Proof.
  intros Hi Hfresh [rest Hrest] k v Hk.
  assert (Hne : email_key r <> rec_id r) by (rewrite Hrest; apply email_key_not_record).
  apply lookup_insert_Some in Hk as [[<- <-]|[Hk1 Hk]].
  { exists r. rewrite lookup_insert_ne by exact Hne. split; [apply lookup_insert_eq|reflexivity]. }
  apply lookup_insert_Some in Hk as [[<- <-]|[Hk2 Hk]]; [split; eauto|].
  pose proof (Hi k v Hk) as Hkv. destruct v as [r'|id]; [exact Hkv|].
  destruct Hkv as (r' & Hr' & ->). exists r'. split; [|reflexivity].
  destruct (Hi id _ Hr') as [_ [rest' ->]].
  rewrite lookup_insert_ne by apply email_key_not_record.
  rewrite lookup_insert_ne by congruence. exact Hr'.
Qed.

(** C6. Every store the worker reaches keeps [kv_inv]: records sit under
    their own ids and every index entry names a stored record with that
    e-mail, so [GET] of an id the worker returned always finds it. *)
Theorem kv_invariant kv : worker_reachable kv -> kv_inv kv.
Proof.
  induction 1 as [|kv method path b e _ IH Hfresh].
  - intros k v Hk. rewrite lookup_empty in Hk. discriminate.
  - destruct (fetch_kv method path b e kv) as [->|(r & Hid & ->)]; [exact IH|].
    apply kv_inv_insert; [exact IH|rewrite Hid; exact Hfresh|].
    rewrite Hid. unfold generateId. eexists. reflexivity.
Qed.

(** ** Witnesses *)

Definition sample_doc : Json :=
  JObj [("name", JStr "id.pdf"); ("size", JNum 1024); ("mimeType", JStr "application/pdf")].

Definition sample_body : Json :=
  JObj [("name", JStr "Ada Lovelace"); ("email", JStr "ada@example.org");
        ("startDate", JStr "15/06/2025"); ("documents", JArr [sample_doc])].

Definition sample_env : Env :=
  {| now_ms := 1700000000000; now_iso := "2023-11-14T22:13:20.000Z"; rnd := "k3j5h2q" |}.

Definition sample_record : OnboardingRecord :=
  {| rec_id := generateId sample_env; rec_name := Some (JStr "Ada Lovelace");
     rec_email := Some (JStr "ada@example.org"); rec_startDate := Some (JStr "15/06/2025");
     rec_documents := [{| doc_name := Some (JStr "id.pdf"); doc_size := Some (JNum 1024);
                          doc_mimeType := Some (JStr "application/pdf"); doc_base64 := None |}];
     rec_createdAt := now_iso sample_env; rec_updatedAt := now_iso sample_env;
     rec_submittedAt := JStr (now_iso sample_env) |}.

Definition sample_store : KV := snd (handleSubmitOnboarding (Some sample_body) sample_env ∅).

Lemma sample_submitted :
  handleSubmitOnboarding (Some sample_body) sample_env ∅
  = ({| status := 201; body := BodySubmitted sample_record |}, sample_store).
Proof. vm_compute. reflexivity. Qed.

Lemma submit_then_get_witness :
  fst (fetch "GET" ("/api/onboard/" ++ rec_id sample_record) None sample_env sample_store)
    = {| status := 200; body := BodyFound sample_record |}
  /\ sample_store !! email_key sample_record = Some (KVIndex (rec_id sample_record)).
Proof. apply (submit_then_get sample_body sample_env ∅); [exact sample_submitted|reflexivity]. Defined.

Lemma email_index_get_fails_witness :
  fst (fetch "GET" ("/api/onboard/" ++ email_key sample_record) None sample_env sample_store)
  = internal_error.
Proof.
  apply (email_index_get_fails sample_body sample_env ∅ sample_record sample_store "ada@example.org");
    [exact sample_submitted|reflexivity|reflexivity].
Defined.

Definition body_without_documents : Json :=
  JObj [("name", JStr "Ada Lovelace"); ("email", JStr "ada@example.org");
        ("startDate", JStr "15/06/2025")].

Lemma submit_rejects_witness :
  handleSubmitOnboarding (Some body_without_documents) sample_env ∅
  = ({| status := 400; body := BodyError (js_join ", " ["At least one document is required"]) |}, ∅).
Proof.
  apply (submit_rejects body_without_documents sample_env ∅); [vm_compute; reflexivity|discriminate].
Defined.

Lemma kv_invariant_witness : kv_inv (snd (fetch "POST" "/api/onboard" (Some sample_body) sample_env ∅)).
Proof.
  apply kv_invariant. apply worker_reach_step; [apply worker_reach_init|apply lookup_empty].
Defined.
