(* ===== verification/ApiClient.v ===== *)
(** * The HTTP client of src/utils/api.ts

    [ApiClient] wraps an axios instance (lines 7-104): the constructor
    fixes the base URL, the 30 s timeout and the JSON content type, draws
    the session id, and installs a request interceptor that adds the
    [X-Session-ID] header and logs the call, and a response interceptor
    that logs the answer or turns the axios error into an [ApiError] with
    [handleError].  [get], [post], [put] and [delete] resolve to the
    answer's [data].

    The network is a [Transport]: a function from the client's state of
    the world and the request the interceptor let through to what came
    back, as an axios outcome.  Its instance for the worker of
    src/backend/worker.js routes the request through [Backend.fetch] and
    [Backend.body_json].  axios resolves a 2xx answer and rejects any
    other one with the message ["Request failed with status code " ++ s]
    (its default [validateStatus] and [settle]).  [Date.now()] and the
    text of [Math.random().toString(36)] are arguments of the
    constructor.  The console output is an explicit list of log entries.
    The URL is handed to the transport as the request's path: joining it
    to the base URL is left to axios and the worker only reads the
    pathname. *)

From S2P Require Import Prelude JsString Backend.
From stdpp Require Import gmap.

Local Open Scope string_scope.
Local Open Scope js_scope.

Module Api.

(** [API_BASE_URL] (line 5): [process.env.EXPO_PUBLIC_API_URL] when it is
    a non-empty string, the placeholder otherwise. *)
Definition API_BASE_URL (env_url : option string) : string :=
  match env_url with
  | Some u => if truthy_str u then u else "https://your-backend-url.workers.dev"
  | None => "https://your-backend-url.workers.dev"
  end.

(** The part of the axios configuration the client sets (lines 12-18). *)
Record AxiosConfig : Type := {
  baseURL : string;
  timeout : Z;
  headers : list (string * string)
}.

(** The private fields of [ApiClient] (lines 8-9). *)
Record ApiClient : Type := {
  client : AxiosConfig;
  sessionId : string
}.

(** [generateSessionId] (lines 51-53); [random36] is the text of
    [Math.random().toString(36)], ["0."] followed by base-36 digits. *)
Definition generateSessionId (now : Z) (random36 : string) : string :=
  "session_" ++ js_int_to_string now ++ "_" ++ js_substring random36 2 15.

(** The constructor (lines 11-48) without its interceptors, which are the
    functions below. *)
Definition create (env_url : option string) (now : Z) (random36 : string) : ApiClient :=
  {| client := {| baseURL := API_BASE_URL env_url; timeout := 30000;
                  headers := [("Content-Type", "application/json")] |};
     sessionId := generateSessionId now random36 |}.

(** [getSessionId] (lines 101-103). *)
Definition getSessionId (c : ApiClient) : string := sessionId c.

Inductive Method : Type := MGet | MPost | MPut | MDelete.

#[global] Instance Method_eq_dec : EqDecision Method.
Proof. solve_decision. Defined.

(** axios keeps the method lower-case in [config.method]. *)
Definition method_name (m : Method) : string :=
  match m with MGet => "get" | MPost => "post" | MPut => "put" | MDelete => "delete" end.

Record AxiosRequest : Type := {
  req_method : Method;
  req_url : string;
  req_data : option Json;
  req_headers : list (string * string)
}.

(** [obj[k] = v] on a header object: an existing key keeps its place. *)
Fixpoint set_header (k v : string) (hs : list (string * string)) : list (string * string) :=
  match hs with
  | [] => [(k, v)]
  | (k', v') :: r => if String.eqb k' k then (k, v) :: r else (k', v') :: set_header k v r
  end.

Definition header_lookup (k : string) (hs : list (string * string)) : option string :=
  option_map snd (List.find (fun kv => String.eqb (fst kv) k) hs).

Inductive LogEntry : Type :=
| LogRequest (line : string)
| LogResponse (status : Z) (data : Json)
| LogResponseError (message : string).

(** The request interceptor (lines 24-30). *)
Definition request_interceptor (c : ApiClient) (r : AxiosRequest) : AxiosRequest * LogEntry :=
  ({| req_method := req_method r; req_url := req_url r; req_data := req_data r;
      req_headers := set_header "X-Session-ID" (sessionId c) (req_headers r) |},
   LogRequest ("[API] " ++ js_toUpperCase (method_name (req_method r)) ++ " " ++ req_url r)).

(** What the network gives back for a request that was sent. *)
Inductive AxiosOutcome : Type :=
| Answered (status : Z) (data : Json)
| NoAnswer (message : string).

(** The [AxiosError] the response interceptor receives. *)
Inductive AxiosError : Type :=
| ErrResponse (status : Z) (data : Json) (message : string)
| ErrRequest (message : string)
| ErrOther (message : string).

Inductive ErrorDetails : Type :=
| DetailsData (data : Json)
| DetailsMessage (message : string)
| DetailsError (e : AxiosError).

(** [ApiError] (src/types/onboarding.ts lines 33-37); [message] holds
    whatever value the server sent under [message] or [error]. *)
Record ApiError : Type := {
  api_message : Json;
  api_code : string;
  api_details : ErrorDetails
}.

(** [data?.k]: [undefined] on anything but an object. *)
Definition opt_prop (v : Json) (k : string) : option Json :=
  match v with JObj fs => json_lookup k fs | _ => None end.

(** [a || b] with [a] possibly [undefined]. *)
Definition js_or (a : option Json) (b : Json) : Json :=
  match a with Some v => if jtruthy a then v else b | None => b end.

(** [handleError] (lines 55-79). *)
Definition handleError (e : AxiosError) : ApiError :=
  match e with
  | ErrResponse st data _ =>
      {| api_message := js_or (opt_prop data "message")
                          (js_or (opt_prop data "error") (JStr "Server error occurred"));
         api_code := "HTTP_" ++ js_int_to_string st;
         api_details := DetailsData data |}
  | ErrRequest m =>
      {| api_message := JStr "No response from server. Please check your internet connection.";
         api_code := "NETWORK_ERROR"; api_details := DetailsMessage m |}
  | ErrOther m =>
      {| api_message := JStr (if truthy_str m then m else "An unexpected error occurred");
         api_code := "UNKNOWN_ERROR"; api_details := DetailsError e |}
  end.

(** The network seen from the client: the world's state before and after. *)
Class Transport (S : Type) := transport_send : S -> AxiosRequest -> AxiosOutcome * S.

(** The request axios builds from the instance's defaults. *)
Definition base_request (c : ApiClient) (m : Method) (url : string) (data : option Json) : AxiosRequest :=
  {| req_method := m; req_url := url; req_data := data; req_headers := headers (client c) |}.

(** The header names a CORS preflight answer allows, as the browser reads
    the comma-separated list. *)
Definition allowed_list (v : option string) : list string :=
  map js_trim (js_split "," (default "" v)).

Section Calls.
Context {S : Type} `{T : Transport S}.

(** One call through the instance: the request interceptor, the network,
    axios's status check and the response interceptor (lines 38-47).  The
    result is the [data] the call resolves to or the [ApiError] it
    rejects with. *)
Definition request (c : ApiClient) (m : Method) (url : string) (data : option Json) (s : S)
  : (ApiError + Json) * list LogEntry * S :=
  let '(r', l) := request_interceptor c (base_request c m url data) in
  let '(o, s') := transport_send s r' in
  match o with
  | Answered st d =>
      if (200 <=? st)%Z && (st <? 300)%Z then (inr d, [l; LogResponse st d], s')
      else let msg := "Request failed with status code " ++ js_int_to_string st in
           (inl (handleError (ErrResponse st d msg)), [l; LogResponseError msg], s')
  | NoAnswer msg => (inl (handleError (ErrRequest msg)), [l; LogResponseError msg], s')
  end.

(** [get], [post], [put], [delete] (lines 82-99). *)
Definition get (c : ApiClient) (url : string) (s : S) := request c MGet url None s.
Definition post (c : ApiClient) (url : string) (data : Json) (s : S) := request c MPost url (Some data) s.
Definition put (c : ApiClient) (url : string) (data : Json) (s : S) := request c MPut url (Some data) s.
Definition delete (c : ApiClient) (url : string) (s : S) := request c MDelete url None s.

End Calls.

(** The worker as the other end: the request goes to [fetch] with the
    method upper-cased as the Fetch API gives it, and the answer's JSON
    body (the empty body reads as [""]) comes back.  The worker always
    answers. *)
#[global] Instance worker_transport (e : Env) : Transport KV :=
  fun kv r =>
    let '(resp, kv') := fetch (js_toUpperCase (method_name (req_method r))) (req_url r) (req_data r) e kv in
    (Answered (status resp) (default (JStr "") (body_json (body resp))), kv').


(** ** Headers *)

Lemma header_lookup_cons k k' v' r :
  header_lookup k ((k', v') :: r) = if String.eqb k' k then Some v' else header_lookup k r.
Proof. unfold header_lookup. cbn. destruct (String.eqb k' k); reflexivity. Qed.

Lemma set_header_lookup k v hs : header_lookup k (set_header k v hs) = Some v.
Proof.
  induction hs as [|[k' v'] r IH]; cbn [set_header].
  - rewrite header_lookup_cons, String.eqb_refl. reflexivity.
  - destruct (String.eqb_spec k' k); rewrite !header_lookup_cons.
    + rewrite String.eqb_refl. reflexivity.
    + apply String.eqb_neq in n. rewrite n. exact IH.
Qed.

Lemma set_header_lookup_ne k k2 v hs :
  k2 <> k -> header_lookup k2 (set_header k v hs) = header_lookup k2 hs.
Proof.
  intros Hne. induction hs as [|[k' v'] r IH]; cbn [set_header].
  - rewrite header_lookup_cons. destruct (String.eqb_spec k k2); [congruence|reflexivity].
  - destruct (String.eqb_spec k' k) as [->|]; rewrite !header_lookup_cons.
    + destruct (String.eqb_spec k k2); [congruence|reflexivity].
    + destruct (String.eqb k' k2); [reflexivity|exact IH].
Qed.

Lemma set_header_names k v hs x :
  In x (map fst (set_header k v hs)) -> x = k \/ In x (map fst hs).
Proof.
  induction hs as [|[k' v'] r IH]; cbn [set_header map fst In]; [intuition|].
  destruct (String.eqb k' k); cbn [map fst In]; intuition.
Qed.

#[export] Hint Rewrite set_header_lookup : onboarding_rw.

(** ** Errors *)

Lemma js_or_undefined b : js_or None b = b.
Proof. reflexivity. Qed.

Lemma js_or_truthy v b : jtruthy (Some v) = true -> js_or (Some v) b = v.
Proof. intros H. unfold js_or. rewrite H. reflexivity. Qed.

(** The worker's error bodies have no [message], so the client reads
    [error]. *)
Lemma handleError_worker_body st msg m :
  truthy_str msg = true ->
  handleError (ErrResponse st (error_json msg) m)
  = {| api_message := JStr msg; api_code := "HTTP_" ++ js_int_to_string st;
       api_details := DetailsData (error_json msg) |}.
Proof. intros H. cbn. rewrite H. reflexivity. Qed.

Lemma request_worker e kv c m url data :
  request (T := worker_transport e) c m url data kv
  = let '(resp, kv') := fetch (js_toUpperCase (method_name m)) url data e kv in
    let d := default (JStr "") (body_json (body resp)) in
    if (200 <=? status resp)%Z && (status resp <? 300)%Z
    then (inr d, [snd (request_interceptor c (base_request c m url data)); LogResponse (status resp) d], kv')
    else let msg := "Request failed with status code " ++ js_int_to_string (status resp) in
         (inl (handleError (ErrResponse (status resp) d msg)),
          [snd (request_interceptor c (base_request c m url data)); LogResponseError msg], kv').
Proof.
  unfold request, transport_send, worker_transport. cbn [request_interceptor base_request req_method req_url req_data].
  destruct (fetch _ url data e kv) as [resp kv']. reflexivity.
Qed.

Lemma status_2xx st : (200 <= st < 300)%Z -> ((200 <=? st) && (st <? 300))%Z = true.
Proof. intros H. apply andb_true_intro. split; [apply Z.leb_le|apply Z.ltb_lt]; lia. Qed.

Lemma status_not_2xx st : ~ (200 <= st < 300)%Z -> ((200 <=? st) && (st <? 300))%Z = false.
Proof. intros H. apply andb_false_iff. destruct (Z.leb_spec 200 st); [right; apply Z.ltb_ge|left]; lia || reflexivity. Qed.

(** ** What the client sees of the worker *)

(** C22. Every request the client built by the constructor hands to the
    network carries its session id under [X-Session-ID] and the JSON
    content type, and the worker's CORS preflight answer allows it: each
    header it sends is listed in [Access-Control-Allow-Headers] and its
    method in [Access-Control-Allow-Methods].  (The [Accept] header axios
    adds is CORS-safelisted and needs no listing; [application/json] as a
    content type is not, hence its place in the list.) *)
Theorem client_request_allowed env_url now rnd m url data :
  let c := create env_url now rnd in
  let r := fst (request_interceptor c (base_request c m url data)) in
  header_lookup "X-Session-ID" (req_headers r) = Some (getSessionId c)
  /\ header_lookup "Content-Type" (req_headers r) = Some "application/json"
  /\ Forall (fun h => In (fst h) (allowed_list
       (header_lookup "Access-Control-Allow-Headers" (response_headers "OPTIONS")))) (req_headers r)
  /\ In (js_toUpperCase (method_name m))
       (allowed_list (header_lookup "Access-Control-Allow-Methods" (response_headers "OPTIONS"))).
Proof.
  intros c r. subst r. cbn [fst request_interceptor req_headers].
  split; [apply set_header_lookup|].
  split; [rewrite set_header_lookup_ne by discriminate; reflexivity|].
  split; [|destruct m; vm_compute; tauto].
  apply List.Forall_forall. intros [k v] Hin.
  apply (in_map fst), set_header_names in Hin as [->|Hin]; [vm_compute; tauto|].
  destruct Hin as [<-|[]]. vm_compute. tauto.
Qed.

(** C21. A worker answer reaches the caller as the worker sent it: a 2xx
    answer resolves the call with its JSON body (the empty body of the
    preflight as [""]), and every error answer rejects it with an
    [ApiError] whose message is the worker's error text and whose code is
    [HTTP_] followed by the status; the store is the one the worker left. *)
Theorem worker_answer_reaches_client e kv c m url data :
  let '(resp, kv') := fetch (js_toUpperCase (method_name m)) url data e kv in
  let '(res, _, kv'') := request (T := worker_transport e) c m url data kv in
  kv'' = kv' /\
  match body resp with
  | BodyError msg =>
      res = inl {| api_message := JStr msg; api_code := "HTTP_" ++ js_int_to_string (status resp);
                   api_details := DetailsData (error_json msg) |}
  | rb => res = inr (default (JStr "") (body_json rb))
  end.
Proof.
  rewrite request_worker.
  pose proof (fetch_answer_shape (js_toUpperCase (method_name m)) url data e kv) as Hs.
  destruct (fetch _ url data e kv) as [[st rb] kv']. unfold answer_shape in Hs. cbn [fst status body] in *.
  destruct rb; try (rewrite status_2xx by exact Hs; split; reflexivity).
  destruct Hs as [Hm Hs]. rewrite status_not_2xx by exact Hs. cbn [body_json default id].
  rewrite handleError_worker_body by exact Hm. split; reflexivity.
Qed.

End Api.
