(* ===== verification/Interfaces.v ===== *)
(** * The TypeScript interfaces of src/types/onboarding.ts

    Lines 1-37 declare the shapes the client expects of the data it sends
    and receives: [OnboardingData], [DocumentFile],
    [OnboardingSubmitRequest], [OnboardingResponse] and [ApiError].
    TypeScript erases them, so the client never checks a value against
    them; they are written here as values of a small type language with
    TypeScript's structural reading of an object type (the listed
    properties must be present with their types unless marked optional,
    other properties may be there too), and [conforms] decides whether a
    JSON value has the type. *)

From S2P Require Import Prelude JsString Backend.

Local Open Scope string_scope.

Module Interfaces.

Inductive TsType : Type :=
| TsString
| TsNumber
| TsBoolean
| TsAny
| TsArray (t : TsType)
| TsObject (props : list (string * bool * TsType)).
(** A property [(k, optional, t)]. *)

Fixpoint conforms (t : TsType) (v : Json) : bool :=
  match t, v with
  | TsString, JStr _ => true
  | TsNumber, JNum _ => true
  | TsBoolean, JBool _ => true
  | TsAny, _ => true
  | TsArray t', JArr l => forallb (conforms t') l
  | TsObject ps, JObj fs =>
      forallb (fun p => match json_lookup (fst (fst p)) fs with
                        | None => snd (fst p)
                        | Some x => conforms (snd p) x
                        end) ps
  | _, _ => false
  end.

(** [DocumentFile] (lines 11-17). *)
Definition DocumentFile_t : TsType :=
  TsObject [("name", false, TsString); ("size", false, TsNumber); ("mimeType", true, TsString);
            ("uri", false, TsString); ("base64", true, TsString)].

(** [OnboardingData] (lines 1-9), over the type of its documents. *)
Definition OnboardingData_with (document : TsType) : TsType :=
  TsObject [("id", true, TsString); ("name", false, TsString); ("email", false, TsString);
            ("startDate", false, TsString); ("documents", false, TsArray document);
            ("createdAt", true, TsString); ("updatedAt", true, TsString)].

Definition OnboardingData_t : TsType := OnboardingData_with DocumentFile_t.

(** [OnboardingSubmitRequest] (lines 19-24). *)
Definition OnboardingSubmitRequest_t : TsType :=
  TsObject [("name", false, TsString); ("email", false, TsString); ("startDate", false, TsString);
            ("documents", false, TsArray DocumentFile_t)].

(** [OnboardingResponse] (lines 26-31), over the type its [data] has. *)
Definition OnboardingResponse_of (data : TsType) : TsType :=
  TsObject [("success", false, TsBoolean); ("data", true, data); ("message", true, TsString);
            ("error", true, TsString)].

Definition OnboardingResponse_t : TsType := OnboardingResponse_of OnboardingData_t.

(** [ApiError] (lines 33-37). *)
Definition ApiError_t : TsType :=
  TsObject [("message", false, TsString); ("code", true, TsString); ("details", true, TsAny)].

(** [DocumentFile] with [uri] optional. *)
Definition DocumentFile_without_uri : TsType :=
  TsObject [("name", false, TsString); ("size", false, TsNumber); ("mimeType", true, TsString);
            ("uri", true, TsString); ("base64", true, TsString)].

End Interfaces.
