(* ===== verification/ApiContract.v ===== *)
(** * The API contract the README documents

    src/unnamed/part_000 is the project's README.  Its "API Contract"
    sections (lines 267-320 and 558-610) give example requests and
    answers for [POST /api/onboard], [GET /api/onboard/:id] and
    [GET /health], and its "Data Model" (lines 727-764) restates the
    request interfaces with the constraints each field must meet.  The
    examples are written here as [Json] values; an answer whose example
    elides parts ([[...]], [...]) is written as the [TsType] of the
    properties it shows, each with the type of its example value; the
    constraints of the data model are a decidable predicate on request
    bodies.  The theorems compare them with the worker of [Backend]: it
    keeps the documented answers for every body meeting the constraints,
    and what it accepts is neither implied by them nor implies them. *)

From S2P Require Import Prelude JsString Validation Backend Interfaces.
From stdpp Require Import gmap.

Local Open Scope string_scope.

Module ApiContract.
Import Interfaces.

(** ** The examples *)

(** The request of "POST /api/onboard" (lines 273-289); the elided
    [uri] and [base64] are the strings the README prints. *)
Definition readme_post_request : Json :=
  JObj [("name", JStr "John Doe"); ("email", JStr "john@example.com"); ("startDate", JStr "25/12/2024");
        ("documents", JArr [JObj [("name", JStr "avatar.jpg"); ("size", JNum 125000);
                                  ("mimeType", JStr "image/jpeg"); ("uri", JStr "file://...");
                                  ("base64", JStr "...")]]);
        ("submittedAt", JStr "2024-12-18T10:30:00.000Z")].

(** "Response (Success)" (lines 292-306). *)
Definition readme_post_response_t : TsType :=
  TsObject [("success", false, TsBoolean);
            ("data", false, TsObject [("id", false, TsString); ("name", false, TsString);
                                      ("email", false, TsString); ("startDate", false, TsString);
                                      ("documents", false, TsArray TsAny);
                                      ("createdAt", false, TsString); ("updatedAt", false, TsString)]);
            ("message", false, TsString)].

(** The answer of "GET /api/onboard/:id" (lines 312-320). *)
Definition readme_get_response_t : TsType :=
  TsObject [("success", false, TsBoolean); ("data", false, TsObject [("id", false, TsString)])].

(** "Health Check" (lines 563-566). *)
Definition readme_health_body : Json :=
  JObj [("status", JStr "ok"); ("service", JStr "Onboarding Platform API")].

(** The second request example (lines 575-589). *)
Definition readme_post_request2 : Json :=
  JObj [("name", JStr "John Doe"); ("email", JStr "john@example.com"); ("startDate", JStr "25/12/2025");
        ("documents", JArr [JObj [("name", JStr "resume.pdf"); ("size", JNum 125000);
                                  ("mimeType", JStr "application/pdf"); ("uri", JStr "file://...")]])].

(** "Response (201)" (lines 592-605): no [updatedAt]. *)
Definition readme_201_response_t : TsType :=
  TsObject [("success", false, TsBoolean);
            ("data", false, TsObject [("id", false, TsString); ("name", false, TsString);
                                      ("email", false, TsString); ("startDate", false, TsString);
                                      ("documents", false, TsArray TsAny); ("createdAt", false, TsString)]);
            ("message", false, TsString)].

(** ** The data model (lines 731-764) *)

Definition readme_DocumentFile_t : TsType :=
  TsObject [("name", false, TsString); ("size", false, TsNumber); ("mimeType", true, TsString);
            ("uri", false, TsString); ("base64", true, TsString)].

Definition readme_OnboardingSubmitRequest_t : TsType :=
  TsObject [("name", false, TsString); ("email", false, TsString); ("startDate", false, TsString);
            ("documents", false, TsArray readme_DocumentFile_t)].

(** "DD/MM/YYYY format". *)
Definition is_digit (c : ascii) : bool :=
  match digit_of c with Some _ => true | None => false end.

Definition dd_mm_yyyy (s : string) : bool :=
  match s with
  | String d1 (String d2 (String "/" (String m1 (String m2 (String "/"
      (String y1 (String y2 (String y3 (String y4 EmptyString))))))))) =>
      forallb is_digit [d1; d2; m1; m2; y1; y2; y3; y4]
  | _ => false
  end.

(** "max 5MB each", in the unit of the picker's [maxSizePerFile]. *)
Definition readme_document_ok (d : Json) : bool :=
  conforms readme_DocumentFile_t d &&
  match d with
  | JObj fs => match json_lookup "size" fs with Some (JNum n) => (n <=? 5 * 1024 * 1024)%Z | _ => false end
  | _ => false
  end.

(** The constraints of the comments: a name of 2-100 characters, a valid
    e-mail (the shape the code's [emailRegex] accepts), a [DD/MM/YYYY]
    start date, and 1-3 documents of at most 5 MB. *)
Definition readme_payload_ok (v : Json) : bool :=
  conforms readme_OnboardingSubmitRequest_t v &&
  match v with
  | JObj fs =>
      match json_lookup "name" fs with
      | Some (JStr s) => (2 <=? String.length s)%nat && (String.length s <=? 100)%nat
      | _ => false
      end
      && match json_lookup "email" fs with Some (JStr s) => ValidationEngine.emailRegex_test s | _ => false end
      && match json_lookup "startDate" fs with Some (JStr s) => dd_mm_yyyy s | _ => false end
      && match json_lookup "documents" fs with
         | Some (JArr ds) => (1 <=? List.length ds)%nat && (List.length ds <=? 3)%nat
                             && forallb readme_document_ok ds
         | _ => false
         end
  | _ => false
  end.

(** The data model's example (lines 749-764). *)
Definition readme_example_payload : Json :=
  JObj [("name", JStr "John Doe"); ("email", JStr "john@example.com"); ("startDate", JStr "25/12/2025");
        ("documents", JArr [JObj [("name", JStr "photo.jpg"); ("size", JNum 125000);
                                  ("mimeType", JStr "image/jpeg"); ("uri", JStr "file:///path/to/photo.jpg");
                                  ("base64", JStr "iVBORw0KGg...")]])].

(** ** The worker against the contract *)

(** The README's interfaces are those of src/types/onboarding.ts. *)
Lemma readme_types_agree :
  readme_OnboardingSubmitRequest_t = OnboardingSubmitRequest_t /\ readme_DocumentFile_t = DocumentFile_t.
Proof. split; reflexivity. Qed.

(** A property an object type lists is there with its type, or absent and
    optional. *)
Lemma conforms_prop ps fs k opt t :
  conforms (TsObject ps) (JObj fs) = true -> In (k, opt, t) ps ->
  match json_lookup k fs with None => opt = true | Some x => conforms t x = true end.
Proof.
  cbn [conforms]. rewrite forallb_forall. intros H Hin. specialize (H _ Hin). cbn in H.
  destruct (json_lookup k fs); exact H.
Qed.

Lemma readme_doc_stored d : readme_document_ok d = true -> exists sd, stored_doc d = Ok sd.
Proof.
  destruct d as [| | | | |fs]; try discriminate. unfold readme_document_ok.
  intros H. apply andb_true_iff in H as [Hc _].
  pose proof (conforms_prop _ fs "base64" true TsString Hc) as Hb.
  unfold stored_doc. cbn [get_prop js_bind].
  specialize (Hb ltac:(simpl; tauto)).
  destruct (json_lookup "base64" fs) as [[| | |[|c b]| |]|]; cbn in Hb |- *; try discriminate;
    eexists; reflexivity.
Qed.

Lemma readme_docs_stored ds :
  forallb readme_document_ok ds = true -> exists sds, js_mapM stored_doc ds = Ok sds.
Proof.
  induction ds as [|d ds IH]; intros H; [eexists; reflexivity|].
  apply andb_true_iff in H as [Hd Hds].
  destruct (readme_doc_stored d Hd) as [sd E], (IH Hds) as [sds E'].
  cbn [js_mapM]. rewrite E, E'. eexists. reflexivity.
Qed.

(** What a body meeting the data model's constraints holds. *)
Lemma readme_payload_fields fs :
  readme_payload_ok (JObj fs) = true ->
  exists n em sd ds, json_lookup "name" fs = Some (JStr n) /\ (2 <= String.length n <= 100)%nat
    /\ json_lookup "email" fs = Some (JStr em) /\ ValidationEngine.emailRegex_test em = true
    /\ json_lookup "startDate" fs = Some (JStr sd) /\ dd_mm_yyyy sd = true
    /\ json_lookup "documents" fs = Some (JArr ds) /\ (1 <= List.length ds <= 3)%nat
    /\ forallb readme_document_ok ds = true.
Proof.
  unfold readme_payload_ok. intros H. apply andb_true_iff in H as [_ H].
  destruct (json_lookup "name" fs) as [[| | |n| |]|]; try (rewrite ?andb_false_l in H; discriminate).
  destruct (json_lookup "email" fs) as [[| | |em| |]|]; try (rewrite ?andb_false_r, ?andb_false_l in H; discriminate).
  destruct (json_lookup "startDate" fs) as [[| | |sd| |]|];
    try (rewrite ?andb_false_r, ?andb_false_l in H; discriminate).
  destruct (json_lookup "documents" fs) as [[| | | |ds|]|]; try (rewrite ?andb_false_r in H; discriminate).
  rewrite !andb_true_iff, !Nat.leb_le in H.
  destruct H as ((((Hn1 & Hn2) & He) & Hs) & ((Hd1 & Hd2) & Hds)).
  exists n, em, sd, ds. repeat split; assumption || lia.
Qed.

Lemma dd_mm_yyyy_nonempty s : dd_mm_yyyy s = true -> s <> "".
Proof. intros H ->. discriminate. Qed.

Lemma readme_worker_accepts fs :
  readme_payload_ok (JObj fs) = true ->
  (forall n, json_lookup "name" fs = Some (JStr n) -> js_blank n = false) ->
  worker_validate (JObj fs) = Ok [].
Proof.
  intros H Hb. destruct (readme_payload_fields fs H) as (n & em & sd & ds & Hn & _ & He & Her & Hs & Hsd & Hd & Hdl & _).
  unfold worker_validate. cbn [get_prop js_bind].
  rewrite (proj2 (name_errors_nil _)) by (exists n; split; [exact Hn|exact (Hb n Hn)]).
  rewrite (proj2 (email_errors_nil _))
    by (exists em; split; [exact He|apply ValidationEngine.emailRegex_test_spec; exact Her]).
  rewrite (proj2 (startDate_errors_nil _)) by (exists sd; split; [exact Hs|apply dd_mm_yyyy_nonempty; exact Hsd]).
  rewrite (proj2 (documents_errors_nil _))
    by (destruct ds as [|d ds]; [cbn in Hdl; lia|exists d, ds; exact Hd]).
  reflexivity.
Qed.

Lemma conforms_any_array l : forallb (conforms TsAny) l = true.
Proof. induction l; [reflexivity|exact IHl]. Qed.

Lemma submitted_readme_types r n em sd :
  rec_name r = Some (JStr n) -> rec_email r = Some (JStr em) -> rec_startDate r = Some (JStr sd) ->
  conforms readme_post_response_t (submitted_json r) = true
  /\ conforms readme_201_response_t (submitted_json r) = true
  /\ conforms readme_get_response_t (found_json r) = true.
Proof.
  intros Hn He Hs. unfold submitted_json, found_json, record_json. rewrite Hn, He, Hs.
  cbn -[stored_doc_json]. rewrite conforms_any_array. repeat split.
Qed.

(** A body the worker's check accepts, whose documents it can copy, is
    stored: 201 with the record of its fields. *)
Lemma accepted_body_stored fs ds sds e kv :
  worker_validate (JObj fs) = Ok [] -> json_lookup "documents" fs = Some (JArr ds) ->
  js_mapM stored_doc ds = Ok sds ->
  exists r kv', fetch "POST" "/api/onboard" (Some (JObj fs)) e kv
                = ({| status := 201; body := BodySubmitted r |}, kv')
    /\ rec_name r = json_lookup "name" fs /\ rec_email r = json_lookup "email" fs
    /\ rec_startDate r = json_lookup "startDate" fs /\ rec_documents r = sds
    /\ handleSubmitOnboarding (Some (JObj fs)) e kv = ({| status := 201; body := BodySubmitted r |}, kv').
Proof.
  intros Hv Hd Hsds.
  change (fetch "POST" "/api/onboard" (Some (JObj fs)) e kv) with (handleSubmitOnboarding (Some (JObj fs)) e kv).
  unfold handleSubmitOnboarding. cbn [get_prop js_bind]. rewrite Hv. cbn [js_bind].
  rewrite Hd. change (default [] (json_array (Some (JArr ds)))) with ds. rewrite Hsds. cbn.
  eexists _, _. split; [reflexivity|]. repeat split; reflexivity.
Qed.

(** C20. The worker keeps the README's contract for every request the
    data model describes: a body meeting its constraints (with a name
    that is not blank) is answered 201 with a body of the documented
    success shape, in both versions of the README, that carries the
    request's name, e-mail and start date; [GET /api/onboard/<id>] then
    answers 200 with a body of the documented shape. *)
Theorem worker_meets_readme_contract fs e kv :
  readme_payload_ok (JObj fs) = true ->
  (forall n, json_lookup "name" fs = Some (JStr n) -> js_blank n = false) ->
  str_has "/" (rnd e) = false ->
  exists r kv', fetch "POST" "/api/onboard" (Some (JObj fs)) e kv
                = ({| status := 201; body := BodySubmitted r |}, kv')
    /\ conforms readme_post_response_t (submitted_json r) = true
    /\ conforms readme_201_response_t (submitted_json r) = true
    /\ rec_name r = json_lookup "name" fs /\ rec_email r = json_lookup "email" fs
    /\ rec_startDate r = json_lookup "startDate" fs
    /\ fst (fetch "GET" ("/api/onboard/" ++ rec_id r) None e kv') = {| status := 200; body := BodyFound r |}
    /\ conforms readme_get_response_t (found_json r) = true.
Proof.
  intros H Hb Hr. pose proof (readme_worker_accepts fs H Hb) as Hv.
  destruct (readme_payload_fields fs H) as (n & em & sd & ds & Hn & _ & He & _ & Hs & _ & Hd & _ & Hds).
  destruct (readme_docs_stored ds Hds) as [sds Hsds].
  destruct (accepted_body_stored fs ds sds e kv Hv Hd Hsds) as (r & kv' & Hf & Rn & Re & Rs & _ & Hh).
  destruct (submitted_readme_types r n em sd) as (T1 & T2 & T3); [congruence..|].
  exists r, kv'. repeat split; try assumption.
  exact (proj1 (submit_then_get _ _ _ _ _ Hh Hr)).
Qed.

(** Under the data model's constraints the e-mail, start date and
    documents checks of the worker pass. *)
Lemma readme_other_checks fs :
  readme_payload_ok (JObj fs) = true ->
  email_errors (json_lookup "email" fs) = [] /\ startDate_errors (json_lookup "startDate" fs) = []
  /\ documents_errors (json_lookup "documents" fs) = [].
Proof.
  intros H. destruct (readme_payload_fields fs H) as (n & em & sd & ds & Hn & _ & He & Her & Hs & Hsd & Hd & Hdl & _).
  split; [apply email_errors_nil; exists em; split; [exact He|apply ValidationEngine.emailRegex_test_spec; exact Her]|].
  split; [apply startDate_errors_nil; exists sd; split; [exact Hs|apply dd_mm_yyyy_nonempty; exact Hsd]|].
  apply documents_errors_nil. destruct ds as [|d ds]; [cbn in Hdl; lia|exists d, ds; exact Hd].
Qed.

(** C27. The worker does not enforce the data model's constraints, and
    the constraints do not describe what it accepts: every body whose
    name is a string that is not blank, whose e-mail has the regular
    expression's shape, whose start date is any non-empty string and
    whose documents are any non-empty array it can copy is stored (201)
    with those fields, whatever the name's length, the date's format and
    the documents' number and sizes; and every body meeting all the
    constraints whose name is blank (a name of spaces has the 2-100
    characters asked for) is refused with 400 "Name is required", the
    store unchanged. *)
Theorem readme_constraints_not_enforced e kv :
  (forall fs ds sds,
     (exists n, json_lookup "name" fs = Some (JStr n) /\ js_blank n = false) ->
     (exists em, json_lookup "email" fs = Some (JStr em) /\ ValidationEngine.email_shape em) ->
     (exists sd, json_lookup "startDate" fs = Some (JStr sd) /\ sd <> "") ->
     json_lookup "documents" fs = Some (JArr ds) -> ds <> [] -> js_mapM stored_doc ds = Ok sds ->
     exists r kv', fetch "POST" "/api/onboard" (Some (JObj fs)) e kv
                   = ({| status := 201; body := BodySubmitted r |}, kv')
       /\ rec_name r = json_lookup "name" fs /\ rec_startDate r = json_lookup "startDate" fs
       /\ rec_documents r = sds)
  /\ (forall fs n,
        readme_payload_ok (JObj fs) = true -> json_lookup "name" fs = Some (JStr n) -> js_blank n = true ->
        fetch "POST" "/api/onboard" (Some (JObj fs)) e kv
        = ({| status := 400; body := BodyError "Name is required" |}, kv)).
Proof.
  split.
  - intros fs ds sds Hn He Hs Hd Hne Hsds.
    assert (Hv : worker_validate (JObj fs) = Ok []).
    { apply worker_validate_ok_iff. split; [exact Hn|]. split; [exact He|]. split; [exact Hs|].
      destruct ds as [|d ds]; [contradiction|exists d, ds; exact Hd]. }
    destruct (accepted_body_stored fs ds sds e kv Hv Hd Hsds) as (r & kv' & Hf & Rn & _ & Rs & Rd & _).
    exists r, kv'. auto.
  - intros fs n H Hn Hb. destruct (readme_other_checks fs H) as (He & Hs & Hd).
    change (fetch "POST" "/api/onboard" (Some (JObj fs)) e kv) with (handleSubmitOnboarding (Some (JObj fs)) e kv).
    unfold handleSubmitOnboarding, worker_validate. cbn [get_prop js_bind].
    rewrite He, Hs, Hd, Hn. unfold name_errors. cbn [json_string]. rewrite Hb, andb_false_r. reflexivity.
Qed.

(** The health check answers the README's two properties, with the same
    values, followed by a version and a timestamp it does not list. *)
Lemma health_extends_readme e kv :
  fetch "GET" "/health" None e kv = ({| status := 200; body := BodyHealth (now_iso e) |}, kv)
  /\ body_json (BodyHealth (now_iso e))
     = Some (match readme_health_body with
             | JObj fs => JObj (fs ++ [("version", JStr "1.0.0"); ("timestamp", JStr (now_iso e))])
             | v => v
             end).
Proof. split; reflexivity. Qed.

(** The README's own examples meet its constraints and conform to its
    request interface. *)
Lemma readme_examples_ok :
  forallb readme_payload_ok [readme_post_request; readme_post_request2; readme_example_payload] = true.
Proof. vm_compute. reflexivity. Qed.

Definition readme_post_fields : list (string * Json) :=
  match readme_post_request with JObj fs => fs | _ => [] end.

Lemma worker_meets_readme_contract_witness :
  exists r kv', fetch "POST" "/api/onboard" (Some (JObj readme_post_fields)) sample_env ∅
                = ({| status := 201; body := BodySubmitted r |}, kv')
    /\ conforms readme_post_response_t (submitted_json r) = true
    /\ conforms readme_201_response_t (submitted_json r) = true
    /\ rec_name r = json_lookup "name" readme_post_fields /\ rec_email r = json_lookup "email" readme_post_fields
    /\ rec_startDate r = json_lookup "startDate" readme_post_fields
    /\ fst (fetch "GET" ("/api/onboard/" ++ rec_id r) None sample_env kv') = {| status := 200; body := BodyFound r |}
    /\ conforms readme_get_response_t (found_json r) = true.
Proof.
  apply (worker_meets_readme_contract readme_post_fields sample_env ∅).
  - vm_compute. reflexivity.
  - intros n Hn. vm_compute in Hn. injection Hn as <-. reflexivity.
  - vm_compute. reflexivity.
Defined.


(** The request of the second example with a one-letter name, a start
    date in words and four documents of 6 MB, which breaks every
    constraint of the data model; and the same example with a name of
    two spaces, which meets them all. *)
Definition six_mb_doc (nm : string) : Json :=
  JObj [("name", JStr nm); ("size", JNum (6 * 1024 * 1024)); ("mimeType", JStr "application/pdf");
        ("uri", JStr "file://...")].

Definition off_contract_docs : list Json :=
  [six_mb_doc "a.pdf"; six_mb_doc "b.pdf"; six_mb_doc "c.pdf"; six_mb_doc "d.pdf"].

Definition off_contract_fields : list (string * Json) :=
  [("name", JStr "J"); ("email", JStr "john@example.com"); ("startDate", JStr "next monday");
   ("documents", JArr off_contract_docs)].

Definition off_contract_stored : list StoredDoc :=
  match js_mapM stored_doc off_contract_docs with Ok l => l | Throws _ => [] end.

Definition blank_name_fields : list (string * Json) :=
  [("name", JStr "  "); ("email", JStr "john@example.com"); ("startDate", JStr "25/12/2025");
   ("documents", JArr [JObj [("name", JStr "resume.pdf"); ("size", JNum 125000);
                             ("mimeType", JStr "application/pdf"); ("uri", JStr "file://...")]])].

Lemma readme_constraints_not_enforced_witness :
  readme_payload_ok (JObj off_contract_fields) = false
  /\ (exists r kv', fetch "POST" "/api/onboard" (Some (JObj off_contract_fields)) sample_env ∅
                    = ({| status := 201; body := BodySubmitted r |}, kv')
        /\ rec_name r = json_lookup "name" off_contract_fields
        /\ rec_startDate r = json_lookup "startDate" off_contract_fields
        /\ rec_documents r = off_contract_stored)
  /\ readme_payload_ok (JObj blank_name_fields) = true
  /\ fetch "POST" "/api/onboard" (Some (JObj blank_name_fields)) sample_env ∅
     = ({| status := 400; body := BodyError "Name is required" |}, ∅).
Proof.
  split; [vm_compute; reflexivity|]. split.
  - apply (proj1 (readme_constraints_not_enforced sample_env ∅) off_contract_fields off_contract_docs).
    + exists "J". split; reflexivity.
    + exists "john@example.com". split; [reflexivity|]. apply ValidationEngine.emailRegex_test_spec. reflexivity.
    + exists "next monday". split; [reflexivity|discriminate].
    + reflexivity.
    + discriminate.
    + vm_compute. reflexivity.
  - split; [vm_compute; reflexivity|].
    apply (proj2 (readme_constraints_not_enforced sample_env ∅) blank_name_fields "  ");
      vm_compute; reflexivity.
Defined.

End ApiContract.
