(* ===== verification/BuildScript.v ===== *)
(** * The APK build scripts

    Two scripts drive the Expo build: src/unnamed/part_003 for PowerShell
    and src/scripts/build-apk.sh for bash.  Both print a banner, install
    the EAS command line when it is missing, log in when [eas whoami]
    fails, ask for the build type, run [eas build] with the chosen profile
    or exit with status 1, and print the closing instructions.

    A run is the list of [Step]s a script performs on a [Machine]: what
    the probes find ([Get-Command eas] or [command -v eas], the outcome
    of [eas whoami]) and what the user types.  [Say] is a line of output
    with its colour (bash prints no colour), [Probe] a command run to
    test the machine, [Run] a command run for its effect, [Prompt] the
    question, [ExitWith] the status the script ends with.  bash's [read]
    strips surrounding blanks from the answer; its backslash escapes are
    not modelled (the theorems assume an answer without backslashes).
    What the external commands print, and whether [eas build] succeeds,
    is not observed by either script and is not modelled. *)

From S2P Require Import Prelude JsString.

Local Open Scope string_scope.

Module BuildScript.

Record Machine : Type := {
  eas_on_path : bool;
  whoami : option string;
  typed_choice : string
}.

Inductive Step : Type :=
| Say (text color : string)
| Probe (command : string)
| Run (command : string)
| Prompt (text : string)
| ExitWith (code : Z).

(** ** The PowerShell script (src/unnamed/part_003) *)

Definition ps_banner : list Step :=
  [Say "=========================================" "Cyan";
   Say "Onboarding Platform - APK Build Script" "Cyan";
   Say "=========================================" "Cyan";
   Say "" ""].

(** Lines 10-17: [Get-Command eas -ErrorAction Stop] throws when [eas] is
    not on the path. *)
Definition ps_check_eas (m : Machine) : list Step :=
  Probe "Get-Command eas"
  :: if eas_on_path m then [Say "✅ EAS CLI is installed" "Green"]
     else [Say "❌ EAS CLI not found!" "Red"; Say "Installing EAS CLI..." "Yellow";
           Run "npm install -g eas-cli"].

(** Lines 22-36: a failing [eas whoami] and a missing [eas] (the [catch])
    both lead to the login. *)
Definition ps_check_login (m : Machine) : list Step :=
  [Say "Checking Expo authentication..." "Yellow"; Probe "eas whoami"]
  ++ match whoami m with
     | Some user => [Say ("✅ Logged in as: " ++ user) "Green"]
     | None => [Say "❌ Not logged in to Expo" "Red"; Say "Please login:" "Yellow"; Run "eas login"]
     end.

(** Lines 38-42; [Read-Host] appends [": "] to its prompt. *)
Definition ps_menu : list Step :=
  [Say "" ""; Say "Select build type:" "Cyan"; Say "1) Preview (for testing/demo)" "White";
   Say "2) Production (for release)" "White"; Prompt "Enter choice (1 or 2): "].

(** One branch of the [switch] (lines 45-56). *)
Definition ps_build (profile : string) : list Step :=
  [Say "" ""; Say ("Building " ++ profile ++ " APK...") "Yellow";
   Say "This will take ~10-15 minutes" "Gray";
   Run ("eas build --platform android --profile " ++ profile)].

(** Lines 63-79. *)
Definition ps_footer : list Step :=
  [Say "" ""; Say "=========================================" "Cyan"; Say "Build started!" "Green";
   Say "=========================================" "Cyan"; Say "" "";
   Say "Monitor progress:" "Yellow"; Say "  - Watch terminal output above" "Gray";
   Say "  - Or run: eas build:list" "Gray"; Say "  - Or check: https://expo.dev" "Gray"; Say "" "";
   Say "When complete:" "Yellow"; Say "  1. Download APK from provided link" "White";
   Say "  2. Upload to Google Drive" "White"; Say "  3. Update README.md with Drive link" "White";
   Say "  4. Submit assignment!" "White"; Say "" ""; Say "Good luck! 🚀" "Green"].

(** The whole script; [switch] compares the answer with ["1"] and ["2"]
    as it was typed. *)
Definition ps_script (m : Machine) : list Step :=
  ps_banner ++ ps_check_eas m ++ [Say "" ""] ++ ps_check_login m ++ ps_menu
  ++ (if typed_choice m =? "1" then ps_build "preview" ++ ps_footer ++ [ExitWith 0]
      else if typed_choice m =? "2" then ps_build "production" ++ ps_footer ++ [ExitWith 0]
      else [Say "Invalid choice. Exiting." "Red"; ExitWith 1]).

(** ** The bash script (src/scripts/build-apk.sh) *)

Definition sh_banner : list Step :=
  [Say "=========================================" ""; Say "Onboarding Platform - APK Build Script" "";
   Say "=========================================" ""; Say "" ""].

(** Lines 12-19: the success line is printed after an install too. *)
Definition sh_check_eas (m : Machine) : list Step :=
  Probe "command -v eas"
  :: (if eas_on_path m then []
      else [Say "❌ EAS CLI not found!" ""; Say "Installing EAS CLI..." ""; Run "npm install -g eas-cli"])
  ++ [Say "✅ EAS CLI is installed" ""; Say "" ""].

(** Lines 22-29: [eas whoami] runs a second time to print the user. *)
Definition sh_check_login (m : Machine) : list Step :=
  [Say "Checking Expo authentication..." ""; Probe "eas whoami"]
  ++ match whoami m with
     | Some user => [Probe "eas whoami"; Say ("✅ Logged in as: " ++ user) ""]
     | None => [Say "❌ Not logged in to Expo" ""; Say "Please login:" ""; Run "eas login"]
     end.

Definition sh_menu : list Step :=
  [Say "" ""; Say "Select build type:" ""; Say "1) Preview (for testing/demo)" "";
   Say "2) Production (for release)" ""; Prompt "Enter choice (1 or 2): "].

Definition sh_build (profile : string) : list Step :=
  [Say "" ""; Say ("Building " ++ profile ++ " APK...") "";
   Say "This will take ~10-15 minutes" "";
   Run ("eas build --platform android --profile " ++ profile)].

(** Lines 56-72. *)
Definition sh_footer : list Step :=
  [Say "" ""; Say "=========================================" ""; Say "Build started!" "";
   Say "=========================================" ""; Say "" "";
   Say "Monitor progress:" ""; Say "  - Watch terminal output above" "";
   Say "  - Or run: eas build:list" ""; Say "  - Or check: https://expo.dev/accounts/[username]/builds" "";
   Say "" ""; Say "When complete:" ""; Say "  1. Download APK from provided link" "";
   Say "  2. Upload to Google Drive" ""; Say "  3. Update README.md with Drive link" "";
   Say "  4. Submit assignment!" ""; Say "" ""; Say "Good luck! 🚀" ""].

(** [read] splits on [IFS]: the blanks around the answer are dropped. *)
Definition is_blank_char (c : ascii) : bool := Ascii.eqb c " " || Ascii.eqb c (ascii_of_nat 9).

Fixpoint drop_blanks (s : string) : string :=
  match s with
  | String c r => if is_blank_char c then drop_blanks r else s
  | EmptyString => EmptyString
  end.

Definition string_rev (s : string) : string := string_of_list_ascii (rev (list_ascii_of_string s)).

Definition read_answer (s : string) : string := string_rev (drop_blanks (string_rev (drop_blanks s))).

(** The whole script; [case] matches the answer [read] stored. *)
Definition sh_script (m : Machine) : list Step :=
  sh_banner ++ sh_check_eas m ++ sh_check_login m ++ sh_menu
  ++ (let choice := read_answer (typed_choice m) in
      if choice =? "1" then sh_build "preview" ++ sh_footer ++ [ExitWith 0]
      else if choice =? "2" then sh_build "production" ++ sh_footer ++ [ExitWith 0]
      else [Say "Invalid choice. Exiting." ""; ExitWith 1]).

(** ** What a run does to the machine *)

(** The commands run for their effect, in order, and the exit status. *)
Definition effects (steps : list Step) : list string :=
  flat_map (fun s => match s with Run c => [c] | _ => [] end) steps.

(** The status of the first [exit]: the script stops there. *)
Fixpoint exit_code (steps : list Step) : option Z :=
  match steps with
  | [] => None
  | ExitWith c :: _ => Some c
  | _ :: r => exit_code r
  end.

(** What both scripts promise to do on a machine. *)
Definition expected_effects (m : Machine) (choice : string) : list string :=
  (if eas_on_path m then [] else ["npm install -g eas-cli"])
  ++ (match whoami m with Some _ => [] | None => ["eas login"] end)
  ++ (if choice =? "1" then ["eas build --platform android --profile preview"]
      else if choice =? "2" then ["eas build --platform android --profile production"] else []).

Definition expected_exit (choice : string) : Z :=
  if (choice =? "1") || (choice =? "2") then 0 else 1.

(** ** The scripts against each other *)

Lemma effects_app a b : effects (a ++ b)%list = (effects a ++ effects b)%list.
Proof. apply flat_map_app. Qed.

Lemma exit_code_app a b :
  exit_code (a ++ b)%list = match exit_code a with Some c => Some c | None => exit_code b end.
Proof. induction a as [|[] a IH]; cbn; auto. Qed.

#[local] Hint Rewrite effects_app exit_code_app : onboarding_rw.

Ltac run_script :=
  autorewrite with onboarding_rw; cbn [effects flat_map exit_code app ps_banner sh_banner ps_menu sh_menu
    ps_footer sh_footer ps_build sh_build ps_check_eas sh_check_eas ps_check_login sh_check_login].

Lemma ps_script_effects m :
  effects (ps_script m) = expected_effects m (typed_choice m)
  /\ exit_code (ps_script m) = Some (expected_exit (typed_choice m)).
Proof.
  unfold ps_script, expected_effects, expected_exit. run_script.
  destruct (eas_on_path m), (whoami m); cbn;
    destruct (typed_choice m =? "1"), (typed_choice m =? "2"); run_script; split; reflexivity.
Qed.

Lemma sh_script_effects m :
  effects (sh_script m) = expected_effects m (read_answer (typed_choice m))
  /\ exit_code (sh_script m) = Some (expected_exit (read_answer (typed_choice m))).
Proof.
  unfold sh_script, expected_effects, expected_exit. run_script.
  destruct (eas_on_path m), (whoami m); cbn;
    destruct (read_answer (typed_choice m) =? "1"), (read_answer (typed_choice m) =? "2");
    run_script; split; reflexivity.
Qed.

(** C26. The two build scripts do the same to the machine when the
    answer has no surrounding blanks: each runs [npm install -g eas-cli]
    exactly when [eas] is missing, [eas login] exactly when [eas whoami]
    fails, then one [eas build] with the profile of the answer "1" or "2"
    and exits with 0, or no build and exits with 1, whatever the build
    did.  The bash script reads the answer without its surrounding
    blanks, the PowerShell one as typed. *)
Theorem build_scripts_agree m :
  effects (ps_script m) = expected_effects m (typed_choice m)
  /\ exit_code (ps_script m) = Some (expected_exit (typed_choice m))
  /\ effects (sh_script m) = expected_effects m (read_answer (typed_choice m))
  /\ exit_code (sh_script m) = Some (expected_exit (read_answer (typed_choice m)))
  /\ (read_answer (typed_choice m) = typed_choice m ->
      effects (sh_script m) = effects (ps_script m) /\ exit_code (sh_script m) = exit_code (ps_script m)).
Proof.
  destruct (ps_script_effects m) as [H1 H2], (sh_script_effects m) as [H3 H4].
  split; [exact H1|]. split; [exact H2|]. split; [exact H3|]. split; [exact H4|].
  intros Hr. rewrite H1, H2, H3, H4, Hr. split; reflexivity.
Qed.

(** A logged-in machine with [eas] installed, where the user answers "1". *)
Definition ready_machine : Machine := {| eas_on_path := true; whoami := Some "ada"; typed_choice := "1" |}.

Lemma build_scripts_agree_witness :
  effects (ps_script ready_machine) = expected_effects ready_machine (typed_choice ready_machine)
  /\ exit_code (ps_script ready_machine) = Some (expected_exit (typed_choice ready_machine))
  /\ effects (sh_script ready_machine) = expected_effects ready_machine (read_answer (typed_choice ready_machine))
  /\ exit_code (sh_script ready_machine) = Some (expected_exit (read_answer (typed_choice ready_machine)))
  /\ (read_answer (typed_choice ready_machine) = typed_choice ready_machine ->
      effects (sh_script ready_machine) = effects (ps_script ready_machine)
      /\ exit_code (sh_script ready_machine) = exit_code (ps_script ready_machine)).
Proof. exact (build_scripts_agree ready_machine). Defined.

(** The answer " 1" builds with bash and exits with 1 with PowerShell. *)
Lemma padded_answer_diverges :
  let m := {| eas_on_path := true; whoami := Some "ada"; typed_choice := " 1" |} in
  effects (sh_script m) = ["eas build --platform android --profile preview"] /\ exit_code (sh_script m) = Some 0%Z
  /\ effects (ps_script m) = [] /\ exit_code (ps_script m) = Some 1%Z.
Proof. vm_compute. repeat split. Qed.

End BuildScript.
