(* ===== verification/Onboarding.v ===== *)
(** * Onboarding: the client service and the form screen

    Models the client side of a submission, from the form to the worker:

    - [OnboardingService] (src/services/onboarding.service.ts, lines
      10-152): [ENDPOINTS], [fileToBase64], the client-side
      [validateOnboardingData], the payload that [submitOnboarding] posts
      (each document with the base64 text that [fileToBase64] read, when it
      could), [submitOnboarding] and [getOnboardingById] through the HTTP
      client of [ApiClient], and [mockSubmitOnboarding].  [submitOnboarding]
      also has a summary form over [Backend.fetch] with an
      [OnboardingResponse] record (the worker's answer mapped as axios and
      [handleError] map it), which the screen uses; [submit_http_refines]
      proves the call through the client implements it;
    - [OnboardingScreen] (the same file, lines 174-419): the form state,
      [isFormValid] (which enables the submit button), [handleSubmit]
      (its two halves around the [await], and their composition) and
      [handleReset], the render with the props it gives its four children,
      the success card and the action buttons, and the form composed with
      the [FilePicker] state it hands its [documents] to.

    The payload is the [Json] value the worker's [request.json()] returns
    for the text [JSON.stringify] produced (the round trip of JSON is not
    modelled; [undefined] fields are left out as [JSON.stringify] does).
    [fileToBase64] reads the device's files through a read function, a
    partial map from [uri] to base64 text.  In the summary form, whether
    the request reaches the worker is the [Transport] argument.  The
    [Alert] dialogs are outputs.  The two clock readings of the date
    picker's bounds are taken as one instant. *)

From S2P Require Import Prelude JsString Validation TextField DateField FileSelection CounterTimer Backend ApiClient Interfaces.
From stdpp Require Import gmap.
From Stdlib Require Import QArith.
Import FilePicker.

Local Open Scope string_scope.
Local Open Scope js_scope.

(** [OnboardingSubmitRequest] (src/types/onboarding.ts lines 19-24); the
    screen passes the picker's [SelectedFile]s as its documents. *)
Record OnboardingSubmitRequest : Type := {
  req_name : string;
  req_email : string;
  req_startDate : string;
  req_documents : list SelectedFile
}.

(** [OnboardingResponse] (src/types/onboarding.ts lines 26-31). *)
Record OnboardingResponse : Type := {
  success : bool;
  resp_data : option OnboardingRecord;
  resp_message : option string;
  resp_error : option string
}.

Inductive Transport : Type := Delivered | NoResponse.

Module OnboardingService.

(** [validateOnboardingData] (lines 120-151): [!s || s.trim().length === 0]
    on a string is [js_blank s]. *)
Definition validateOnboardingData (data : OnboardingSubmitRequest) : bool * list string :=
  let errors :=
    ((if js_blank (req_name data) then ["Name is required"] else [])
     ++ (if js_blank (req_email data) then ["Email is required"]
         else if ValidationEngine.emailRegex_test (req_email data) then []
         else ["Invalid email format"])
     ++ (if js_blank (req_startDate data) then ["Start date is required"] else [])
     ++ (match req_documents data with [] => ["At least one document is required"] | _ => [] end))%list in
  (match errors with [] => true | _ => false end, errors).

(** [ENDPOINTS] (lines 11-14). *)
Definition ENDPOINTS_SUBMIT : string := "/api/onboard".
Definition ENDPOINTS_GET_BY_ID (id : string) : string := "/api/onboard/" ++ id.

(** [fileToBase64] (lines 19-29): [read] is what
    [FileSystem.readAsStringAsync] gives for a URI, [None] when it fails. *)
Definition fileToBase64 (read : string -> option string) (uri : string) : js_result string :=
  match read uri with
  | Some b => Ok b
  | None => Throws (PlainError "Failed to process file")
  end.

(** The picker's descriptor as [JSON.stringify] writes it ([mimeType] is
    left out when [undefined]). *)
Definition selected_json (doc : SelectedFile) : list (string * Json) :=
  ([("uri", JStr (FilePicker.uri doc)); ("name", JStr (FilePicker.name doc)); ("size", JNum (FilePicker.size doc))]
   ++ match FilePicker.mimeType doc with Some m => [("mimeType", JStr m)] | None => [] end)%list.

(** One document of [documentsWithBase64] (lines 40-51): [{...doc, base64}]
    when [fileToBase64] succeeded, the descriptor alone when it threw. *)
Definition doc_json (b64 : string -> option string) (doc : SelectedFile) : Json :=
  match fileToBase64 b64 (FilePicker.uri doc) with
  | Ok b => JObj (selected_json doc ++ [("base64", JStr b)])%list
  | Throws _ => JObj (selected_json doc)
  end.

(** The payload of lines 54-58. *)
Definition payload (b64 : string -> option string) (submittedAt : string) (data : OnboardingSubmitRequest) : Json :=
  JObj [("name", JStr (req_name data)); ("email", JStr (req_email data));
        ("startDate", JStr (req_startDate data));
        ("documents", JArr (map (doc_json b64) (req_documents data)));
        ("submittedAt", JStr submittedAt)].

(** [handleError] of src/utils/api.ts (lines 55-79) on the worker's error
    body: [data.message || data.error || 'Server error occurred']. *)
Definition api_error_message (rb : RespBody) : string :=
  match rb with
  | BodyError m => if truthy_str m then m else "Server error occurred"
  | _ => "Server error occurred"
  end.

(** The 2xx answer's JSON as an [OnboardingResponse]. *)
Definition response_of_body (rb : RespBody) : OnboardingResponse :=
  match rb with
  | BodySubmitted r => {| success := true; resp_data := Some r;
                          resp_message := Some "Onboarding submitted successfully"; resp_error := None |}
  | BodyFound r => {| success := true; resp_data := Some r; resp_message := None; resp_error := None |}
  | BodyError m => {| success := false; resp_data := None; resp_message := None; resp_error := Some m |}
  | _ => {| success := false; resp_data := None; resp_message := None; resp_error := None |}
  end.

Definition failed (msg : string) : OnboardingResponse :=
  {| success := false; resp_data := None; resp_message := None; resp_error := Some msg |}.

(** [submitOnboarding] (lines 34-73) posting to the worker: axios rejects
    a non-2xx answer, and the [catch] turns the [ApiError] into a failed
    response. *)
Definition submitOnboarding (b64 : string -> option string) (submittedAt : string)
    (t : Transport) (e : Env) (kv : KV) (data : OnboardingSubmitRequest)
  : OnboardingResponse * KV :=
  match t with
  | NoResponse => (failed "No response from server. Please check your internet connection.", kv)
  | Delivered =>
      let '(resp, kv') := fetch "POST" "/api/onboard" (Some (payload b64 submittedAt data)) e kv in
      if (200 <=? status resp)%Z && (status resp <? 300)%Z then (response_of_body (body resp), kv')
      else (failed (api_error_message (body resp)), kv')
  end.

(** The [OnboardingResponse] a call returns: the [data] axios resolved
    with, or the [catch]'s [{ success: false, error: apiError.message }]. *)
Definition api_response (r : Api.ApiError + Json) : Json :=
  match r with
  | inr d => d
  | inl err => JObj [("success", JBool false); ("error", Api.api_message err)]
  end.

Section Http.
Context {S : Type} `{T : Api.Transport S}.

(** [submitOnboarding] (lines 34-73) through the HTTP client. *)
Definition submitOnboarding_http (c : Api.ApiClient) (b64 : string -> option string)
    (submittedAt : string) (data : OnboardingSubmitRequest) (s : S) : Json * S :=
  let '(r, _, s') := Api.post c ENDPOINTS_SUBMIT (payload b64 submittedAt data) s in
  (api_response r, s').

(** [getOnboardingById] (lines 78-91). *)
Definition getOnboardingById (c : Api.ApiClient) (id : string) (s : S) : Json * S :=
  let '(r, _, s') := Api.get c (ENDPOINTS_GET_BY_ID id) s in
  (api_response r, s').

End Http.

(** [mockSubmitOnboarding] (lines 96-115) once its 1.5 s timer fired:
    [Date.now()] and the two [new Date().toISOString()] readings are
    arguments. *)
Definition mockSubmitOnboarding (now_ms : Z) (createdAt updatedAt : string)
    (data : OnboardingSubmitRequest) : Json :=
  JObj [("success", JBool true);
        ("data", JObj [("id", JStr ("onboard_" ++ js_int_to_string now_ms));
                       ("name", JStr (req_name data)); ("email", JStr (req_email data));
                       ("startDate", JStr (req_startDate data));
                       ("documents", JArr (map (fun d => JObj (selected_json d)) (req_documents data)));
                       ("createdAt", JStr createdAt); ("updatedAt", JStr updatedAt)]);
        ("message", JStr "Onboarding submitted successfully (MOCK)")].

(** The abstract response as the JSON object it stands for. *)
Definition response_json (r : OnboardingResponse) : Json :=
  JObj ([("success", JBool (success r))]
        ++ opt_field "data" (option_map record_json (resp_data r))
        ++ opt_field "message" (option_map JStr (resp_message r))
        ++ opt_field "error" (option_map JStr (resp_error r)))%list.

End OnboardingService.

Module OnboardingScreen.
Import OnboardingService.

(** The form state (lines 176-188). *)
Record Screen : Type := {
  name : string;
  email : string;
  startDate : string;
  documents : list SelectedFile;
  isNameValid : bool;
  isEmailValid : bool;
  isSubmitting : bool;
  showSuccess : bool;
  submittedData : option OnboardingRecord
}.

Definition initial_screen : Screen :=
  {| name := ""; email := ""; startDate := ""; documents := []; isNameValid := false;
     isEmailValid := false; isSubmitting := false; showSuccess := false; submittedData := None |}.

(** [isFormValid] (lines 191-199). *)
Definition isFormValid (s : Screen) : bool :=
  negb (js_blank (name s)) && negb (js_blank (email s)) && isEmailValid s
  && negb (js_blank (startDate s)) && (0 <? List.length (documents s))%nat.

Inductive ScreenAlert : Type := ScreenAlertMsg (title message : string).

Definition request_of (s : Screen) : OnboardingSubmitRequest :=
  {| req_name := name s; req_email := email s; req_startDate := startDate s;
     req_documents := documents s |}.

(** [handleSubmit] split at its [await] (line 227).  Up to the [await]
    (lines 202-226): the check, [setIsSubmitting(true)], and the payload
    the closure builds from the values of the render that ran it. *)
Definition handleSubmit_begin (s : Screen) : Screen * list ScreenAlert * option OnboardingSubmitRequest :=
  let '(valid, errors) := validateOnboardingData (request_of s) in
  if negb valid then (s, [ScreenAlertMsg "Validation Error" (js_join newline errors)], None)
  else
    ({| name := name s; email := email s; startDate := startDate s; documents := documents s;
        isNameValid := isNameValid s; isEmailValid := isEmailValid s; isSubmitting := true;
        showSuccess := showSuccess s; submittedData := submittedData s |},
     [], Some (request_of s)).

(** After the [await] (lines 227-242), on the state of the moment the
    answer arrives: the setters of the success branch, the alert, and the
    [finally]. *)
Definition handleSubmit_settle (response : OnboardingResponse) (s : Screen) : Screen * list ScreenAlert :=
  if success response then
    ({| name := name s; email := email s; startDate := startDate s; documents := documents s;
        isNameValid := isNameValid s; isEmailValid := isEmailValid s; isSubmitting := false;
        showSuccess := true; submittedData := resp_data response |},
     [ScreenAlertMsg "Success" (default "Onboarding submitted successfully!" (resp_message response))])
  else
    ({| name := name s; email := email s; startDate := startDate s; documents := documents s;
        isNameValid := isNameValid s; isEmailValid := isEmailValid s; isSubmitting := false;
        showSuccess := showSuccess s; submittedData := submittedData s |},
     [ScreenAlertMsg "Error" (default "Failed to submit onboarding" (resp_error response))]).

(** [handleSubmit] (lines 202-242) run to its end with no event during
    its [await]: the part before the [await], the service call on the
    payload built there, and the part after it, alerts in order. *)
Definition handleSubmit (b64 : string -> option string) (submittedAt : string) (t : Transport)
    (e : Env) (kv : KV) (s : Screen) : Screen * list ScreenAlert * KV :=
  let '(s1, al1, req) := handleSubmit_begin s in
  match req with
  | None => (s1, al1, kv)
  | Some r =>
      let '(response, kv') := submitOnboarding b64 submittedAt t e kv r in
      let '(s2, al2) := handleSubmit_settle response s1 in (s2, (al1 ++ al2)%list, kv')
  end.

(** The submit button (lines 378-393): disabled unless the form is valid
    and no submission is running. *)
Definition press_submit b64 submittedAt t e kv (s : Screen) : Screen * list ScreenAlert * KV :=
  if isFormValid s && negb (isSubmitting s) then handleSubmit b64 submittedAt t e kv s
  else (s, [], kv).

(** The submit button running the first half. *)
Definition press_submit_begin (s : Screen) : Screen * list ScreenAlert * option OnboardingSubmitRequest :=
  if isFormValid s && negb (isSubmitting s) then handleSubmit_begin s else (s, [], None).

(** [handleReset] (lines 245-254). *)
Definition handleReset (s : Screen) : Screen :=
  {| name := ""; email := ""; startDate := ""; documents := []; isNameValid := false;
     isEmailValid := false; isSubmitting := isSubmitting s; showSuccess := false;
     submittedData := None |}.

(** The screen with the [FilePicker] it renders (lines 331-341): the
    picker keeps its own [files], initialised from [value] at mount, and
    reports to [setDocuments] through [onChange]. *)
Record WithPicker : Type := {
  screen : Screen;
  picker : FileState
}.

(** The picker's props as the screen passes them. *)
Definition documents_props (s : Screen) : FileProps :=
  {| value := documents s; has_onChange := true; maxFiles := 3;
     maxSizePerFile := 5 * 1024 * 1024; maxTotalSize := 15 * 1024 * 1024;
     allowedTypes := ["*/*"]; required := true |}.

(** Applying the picker's [onChange] calls to the screen. *)
Definition apply_file_effects (s : Screen) (effs : list FileEffect) : Screen :=
  fold_left (fun s eff =>
    match eff with
    | OnChangeFiles fs =>
        {| name := name s; email := email s; startDate := startDate s; documents := fs;
           isNameValid := isNameValid s; isEmailValid := isEmailValid s;
           isSubmitting := isSubmitting s; showSuccess := showSuccess s;
           submittedData := submittedData s |}
    | ShowAlert _ _ => s
    end) effs s.

(** A pick completing with the given assets, in the composed state. *)
Definition pick_files (fmt : Z -> string) (w : WithPicker) (assets : list Asset) : WithPicker :=
  let p := documents_props (screen w) in
  let o := pick_resume fmt p (files (picker w)) (picker w) (Picked (Some assets)) in
  {| screen := apply_file_effects (screen w) (out_calls o); picker := out_state o |}.

(** The reset button acts on the screen's state only. *)
Definition reset_form (w : WithPicker) : WithPicker :=
  {| screen := handleReset (screen w); picker := picker w |}.

(** ** What the screen renders (lines 256-416) *)

(** The counter demo (lines 276-282). *)
Definition counter_demo_props : AnimatedCounter.CounterProps :=
  {| AnimatedCounter.targetNumber := 100%Q; AnimatedCounter.durationSec := 10%Q;
     AnimatedCounter.has_onComplete := true; AnimatedCounter.format := AnimatedCounter.default_format;
     AnimatedCounter.easing := AnimatedCounter.EEaseInOut |}.

(** The name input (lines 289-302), controlled by [name] and reporting to
    [setName] and [setIsNameValid]. *)
Definition name_input_props (s : Screen) : TextInput.Props ValidationEngine.ValidationRule :=
  {| TextInput.validators := ValidationEngine.name_validators; TextInput.externalValue := Some (name s);
     TextInput.has_onChangeText := true; TextInput.has_onValidate := true |}.

(** The e-mail input (lines 304-316). *)
Definition email_input_props (s : Screen) : TextInput.Props ValidationEngine.ValidationRule :=
  {| TextInput.validators := ValidationEngine.email_validators; TextInput.externalValue := Some (email s);
     TextInput.has_onChangeText := true; TextInput.has_onValidate := true |}.

(** The start-date picker (lines 318-327): [minDate] is the time of the
    render, [maxDate] 365 days later. *)
Definition startDate_props (now : Z) : DateField.DateProps :=
  {| DateField.format := DateField.DD_MM_YYYY; DateField.minDate := Some now;
     DateField.maxDate := Some (now + 365 * 24 * 60 * 60 * 1000)%Z;
     DateField.required := true; DateField.has_onChange := true |}.

(** [(doc.size / 1024).toFixed(2)] for a number of bytes: the nearest
    hundredth, ties upwards, printed with two decimals.  The stored size
    is the number the picker reported; anything else reads as [NaN]. *)
Definition toFixed2_kb (size : option Json) : string :=
  match size with
  | Some (JNum z) =>
      let n := ((200 * Z.abs z + 1024) / 2048)%Z in
      (if (z <? 0)%Z then "-" else "") ++ js_int_to_string (n / 100)%Z ++ "."
      ++ js_padStart 2 "0" (js_int_to_string (n mod 100)%Z)
  | _ => "NaN"
  end.

(** The success card (lines 344-375); the submission time is shown with
    [toLocaleString], which depends on the device's locale, so the card
    keeps the ISO text it formats. *)
Record SuccessCard : Type := {
  card_id : string;
  card_name : option Json;
  card_email : option Json;
  card_startDate : option Json;
  card_documents : list (option Json * string);
  card_createdAt : string
}.

Definition success_card (s : Screen) : option SuccessCard :=
  if showSuccess s then
    option_map (fun r => {| card_id := rec_id r; card_name := rec_name r; card_email := rec_email r;
                           card_startDate := rec_startDate r;
                           card_documents := map (fun d => (doc_name d, toFixed2_kb (doc_size d))) (rec_documents r);
                           card_createdAt := rec_createdAt r |}) (submittedData s)
  else None.

(** The observable part of the screen: the props of its children, the
    success card, and the action buttons (lines 378-404): the submit
    button's [disabled] prop and spinner, and the reset button shown after
    a success.  The footer's year is not modelled. *)
Record ScreenView : Type := {
  counter_view_props : AnimatedCounter.CounterProps;
  name_view_props : TextInput.Props ValidationEngine.ValidationRule;
  email_view_props : TextInput.Props ValidationEngine.ValidationRule;
  date_view_props : DateField.DateProps;
  picker_view_props : FileProps;
  card : option SuccessCard;
  submit_disabled : bool;
  submit_spinner : bool;
  reset_shown : bool
}.

Definition render_screen (now : Z) (s : Screen) : ScreenView :=
  {| counter_view_props := counter_demo_props;
     name_view_props := name_input_props s;
     email_view_props := email_input_props s;
     date_view_props := startDate_props now;
     picker_view_props := documents_props s;
     card := success_card s;
     submit_disabled := negb (isFormValid s) || isSubmitting s;
     submit_spinner := isSubmitting s;
     reset_shown := showSuccess s |}.

End OnboardingScreen.

(** ** The client's check against the worker's *)

Import OnboardingService.

Lemma client_valid_iff d :
  fst (validateOnboardingData d) = true <->
  js_blank (req_name d) = false /\ js_blank (req_email d) = false
  /\ ValidationEngine.emailRegex_test (req_email d) = true
  /\ js_blank (req_startDate d) = false /\ req_documents d <> [].
Proof.
  unfold validateOnboardingData. cbn [fst].
  destruct (js_blank (req_name d)), (js_blank (req_email d)),
    (ValidationEngine.emailRegex_test (req_email d)), (js_blank (req_startDate d)),
    (req_documents d); simpl; intuition congruence.
Qed.

Lemma worker_validate_payload b64 subAt d :
  worker_validate (payload b64 subAt d)
  = Ok (name_errors (Some (JStr (req_name d))) ++ email_errors (Some (JStr (req_email d)))
        ++ startDate_errors (Some (JStr (req_startDate d)))
        ++ documents_errors (Some (JArr (map (doc_json b64) (req_documents d)))))%list.
Proof. reflexivity. Qed.

Lemma blank_nonempty s : js_blank s = false -> s <> "".
Proof. intros H ->. discriminate. Qed.

Lemma payload_accepted b64 subAt d :
  fst (validateOnboardingData d) = true -> worker_validate (payload b64 subAt d) = Ok [] .
Proof.
  intros H. apply client_valid_iff in H as (Hn & He & Hr & Hs & Hd).
  rewrite worker_validate_payload.
  assert (name_errors (Some (JStr (req_name d))) = []) as -> by (apply name_errors_nil; eauto).
  assert (email_errors (Some (JStr (req_email d))) = []) as ->
    by (apply email_errors_nil; exists (req_email d); split; [reflexivity|];
        apply ValidationEngine.emailRegex_test_spec, Hr).
  assert (startDate_errors (Some (JStr (req_startDate d))) = []) as ->
    by (apply startDate_errors_nil; exists (req_startDate d); split; [reflexivity|]; apply blank_nonempty, Hs).
  destruct (req_documents d) as [|doc docs]; [contradiction|reflexivity].
Qed.

(** The worker accepts a blank start date that the client rejects. *)
Definition blank_date_request : OnboardingSubmitRequest :=
  {| req_name := "Ada Lovelace"; req_email := "ada@example.org"; req_startDate := "   ";
     req_documents := [{| FilePicker.uri := "file:///id.pdf"; FilePicker.name := "id.pdf"; FilePicker.size := 1024;
                          FilePicker.mimeType := Some "application/pdf" |}] |}.

(** C13. The client's check is at least as strict as the worker's: every
    request that [OnboardingService.validateOnboardingData] accepts gives
    a payload the worker's [validateOnboardingData] accepts.  The converse
    fails: a start date of spaces is rejected by the client ("Start date
    is required") and accepted by the worker, which does not trim it. *)
Theorem client_check_refines_worker b64 subAt d :
  (fst (validateOnboardingData d) = true -> worker_validate (payload b64 subAt d) = Ok [])
  /\ validateOnboardingData blank_date_request = (false, ["Start date is required"])
  /\ worker_validate (payload b64 subAt blank_date_request) = Ok [].
Proof.
  split; [apply payload_accepted|]. split; [vm_compute; reflexivity|].
  rewrite worker_validate_payload. reflexivity.
Qed.


(** ** Submitting from the screen *)

Lemma stored_docs_ok b64 docs : exists ys, js_mapM stored_doc (map (doc_json b64) docs) = Ok ys.
Proof.
  induction docs as [|doc docs [ys IH]]; [eexists; reflexivity|].
  cbn [map js_mapM]. rewrite IH. unfold doc_json, fileToBase64, selected_json.
  destruct (FilePicker.mimeType doc), (b64 (FilePicker.uri doc)) as [b|];
    unfold stored_doc; simpl; try (destruct b); eexists; reflexivity.
Qed.

Lemma route_post b e kv : fetch "POST" "/api/onboard" b e kv = handleSubmitOnboarding b e kv.
Proof. reflexivity. Qed.

Lemma submit_payload b64 subAt d e kv :
  fst (validateOnboardingData d) = true ->
  exists r, handleSubmitOnboarding (Some (payload b64 subAt d)) e kv
            = ({| status := 201; body := BodySubmitted r |},
               <[email_key r := KVIndex (rec_id r)]> (<[rec_id r := KVRecord r]> kv))
    /\ rec_id r = generateId e /\ rec_name r = Some (JStr (req_name d))
    /\ rec_email r = Some (JStr (req_email d))
    /\ rec_startDate r = Some (JStr (req_startDate d))
    /\ js_mapM stored_doc (map (doc_json b64) (req_documents d)) = Ok (rec_documents r).
Proof.
  intros Hv. unfold handleSubmitOnboarding.
  change (get_prop (payload b64 subAt d) "name") with (Ok (Some (JStr (req_name d)))).
  cbn [js_bind]. rewrite (payload_accepted b64 subAt d Hv).
  destruct (stored_docs_ok b64 (req_documents d)) as [ys Hys].
  change (get_prop (payload b64 subAt d) "email") with (Ok (Some (JStr (req_email d)))).
  change (get_prop (payload b64 subAt d) "startDate") with (Ok (Some (JStr (req_startDate d)))).
  change (get_prop (payload b64 subAt d) "documents")
    with (Ok (Some (JArr (map (doc_json b64) (req_documents d))))).
  cbn [js_bind json_array default id]. rewrite Hys.
  change (get_prop (payload b64 subAt d) "submittedAt") with (Ok (Some (JStr subAt))).
  cbn [js_bind json_string default id].
  match goal with |- context [BodySubmitted ?r] => exists r end.
  split; [reflexivity|]. repeat split; auto.
Qed.

Import OnboardingScreen.

(** The answer to a request the client's check accepts, delivered to the
    worker: the success setters and alert, on whatever state the screen
    has by then, and the record is served back by id. *)
Lemma settle_delivered b64 subAt e kv req s resp kv' :
  fst (validateOnboardingData req) = true -> str_has "/" (rnd e) = false ->
  submitOnboarding b64 subAt Delivered e kv req = (resp, kv') ->
  let st := handleSubmit_settle resp s in
  showSuccess (fst st) = true /\ isSubmitting (fst st) = false
  /\ snd st = [ScreenAlertMsg "Success" "Onboarding submitted successfully"]
  /\ exists r, submittedData (fst st) = Some r
      /\ rec_name r = Some (JStr (req_name req)) /\ rec_email r = Some (JStr (req_email req))
      /\ fst (fetch "GET" ("/api/onboard/" ++ rec_id r) None e kv') = {| status := 200; body := BodyFound r |}.
Proof.
  intros Hv Hrnd E. destruct (submit_payload b64 subAt req e kv Hv) as (r & Hr & Hid & Hn & He & _).
  unfold submitOnboarding in E. rewrite route_post, Hr in E. cbn -[fetch] in E. injection E as <- <-.
  cbn -[fetch]. split; [reflexivity|]. split; [reflexivity|]. split; [reflexivity|].
  exists r. split; [reflexivity|]. split; [exact Hn|]. split; [exact He|].
  rewrite route_get by (rewrite Hid; apply generateId_no_slash, Hrnd). unfold handleGetOnboarding.
  rewrite lookup_insert_ne, lookup_insert_eq; [reflexivity|].
  rewrite Hid. unfold generateId. apply email_key_not_record.
Qed.

Lemma press_submit_delivered b64 subAt e kv s :
  isFormValid s = true -> isSubmitting s = false ->
  fst (validateOnboardingData (request_of s)) = true -> str_has "/" (rnd e) = false ->
  let res := press_submit b64 subAt Delivered e kv s in
  showSuccess (fst (fst res)) = true /\ isSubmitting (fst (fst res)) = false
  /\ snd (fst res) = [ScreenAlertMsg "Success" "Onboarding submitted successfully"]
  /\ exists r, submittedData (fst (fst res)) = Some r
      /\ rec_name r = Some (JStr (name s)) /\ rec_email r = Some (JStr (email s))
      /\ fst (fetch "GET" ("/api/onboard/" ++ rec_id r) None e (snd res))
         = {| status := 200; body := BodyFound r |}.
Proof.
  intros Hf Hs Hv Hrnd. unfold press_submit. rewrite Hf, Hs. cbn [andb negb].
  unfold handleSubmit, handleSubmit_begin.
  destruct (validateOnboardingData (request_of s)) as [valid errs] eqn:V. cbn [fst] in Hv. subst valid.
  cbn [negb]. destruct (submitOnboarding b64 subAt Delivered e kv (request_of s)) as [resp kv'] eqn:R.
  match goal with |- context [handleSubmit_settle resp ?s1] =>
    destruct (settle_delivered b64 subAt e kv (request_of s) s1 resp kv' ltac:(rewrite V; reflexivity) Hrnd R)
      as (H1 & H2 & H3 & H4);
    destruct (handleSubmit_settle resp s1) as [s2 al2]
  end.
  cbn [fst snd] in *. rewrite H3. auto.
Qed.

(** End to end: pressing the enabled submit button on a form that
    passes the client's check, with the request delivered, shows the
    success card with the record the worker stored, which holds the
    form's name and e-mail and is then served by [GET /api/onboard/<id>]. *)
Theorem submit_end_to_end b64 subAt e kv s :
  isFormValid s = true -> isSubmitting s = false ->
  fst (validateOnboardingData (request_of s)) = true -> str_has "/" (rnd e) = false ->
  let res := press_submit b64 subAt Delivered e kv s in
  showSuccess (fst (fst res)) = true /\ isSubmitting (fst (fst res)) = false
  /\ snd (fst res) = [ScreenAlertMsg "Success" "Onboarding submitted successfully"]
  /\ exists r, submittedData (fst (fst res)) = Some r
      /\ rec_name r = Some (JStr (name s)) /\ rec_email r = Some (JStr (email s))
      /\ fst (fetch "GET" ("/api/onboard/" ++ rec_id r) None e (snd res))
         = {| status := 200; body := BodyFound r |}.
Proof. exact (press_submit_delivered b64 subAt e kv s). Qed.

(** ** The service over the HTTP client *)

Lemma submit_body_cases b e kv :
  match body (fst (handleSubmitOnboarding b e kv)) with
  | BodySubmitted _ | BodyError _ => True
  | _ => False
  end.
Proof. unfold handleSubmitOnboarding. repeat case_match; cbn in *; congruence || exact I. Qed.

Lemma post_method : js_toUpperCase (Api.method_name Api.MPost) = "POST".
Proof. reflexivity. Qed.

Lemma get_method : js_toUpperCase (Api.method_name Api.MGet) = "GET".
Proof. reflexivity. Qed.

(** The service's call through the client, against the worker. *)
Lemma submit_http_worker c b64 subAt e kv data :
  submitOnboarding_http (T := Api.worker_transport e) c b64 subAt data kv
  = let '(resp, kv') := submitOnboarding b64 subAt Delivered e kv data in (response_json resp, kv').
Proof.
  unfold submitOnboarding_http, Api.post. rewrite Api.request_worker, post_method.
  unfold submitOnboarding, ENDPOINTS_SUBMIT. rewrite route_post.
  pose proof (submit_answer_shape (Some (payload b64 subAt data)) e kv) as Hs.
  pose proof (submit_body_cases (Some (payload b64 subAt data)) e kv) as Hb.
  destruct (handleSubmitOnboarding _ e kv) as [[st rb] kv']. unfold answer_shape in Hs.
  cbn [fst status body] in *. destruct rb; try contradiction.
  - rewrite Api.status_2xx by exact Hs. reflexivity.
  - destruct Hs as [Hm Hs]. rewrite Api.status_not_2xx by exact Hs. cbn [body_json default id].
    rewrite Api.handleError_worker_body by exact Hm. cbn. rewrite Hm. reflexivity.
Qed.

(** C19. The summary model of [submitOnboarding] used by the screen is
    implemented by the service's call through the HTTP client: posting
    the payload with [apiClient.post], against the worker, returns the
    JSON of the summary's [OnboardingResponse] and leaves the same store,
    on success and on every error the worker answers. *)
Theorem submit_http_refines c b64 subAt e kv data :
  submitOnboarding_http (T := Api.worker_transport e) c b64 subAt data kv
  = (response_json (fst (submitOnboarding b64 subAt Delivered e kv data)),
     snd (submitOnboarding b64 subAt Delivered e kv data)).
Proof.
  rewrite submit_http_worker. destruct (submitOnboarding b64 subAt Delivered e kv data). reflexivity.
Qed.

Lemma getById_worker c id e kv :
  str_has "/" id = false ->
  getOnboardingById (T := Api.worker_transport e) c id kv
  = (match kv !! id with
     | None => error_json "Onboarding data not found"
     | Some (KVRecord r) => found_json r
     | Some (KVIndex _) => error_json "Internal server error"
     end, kv).
Proof.
  intros Hid. unfold getOnboardingById, Api.get. rewrite Api.request_worker, get_method.
  unfold ENDPOINTS_GET_BY_ID. rewrite route_get by exact Hid. unfold handleGetOnboarding.
  destruct (kv !! id) as [[r|i]|]; cbn; reflexivity.
Qed.

(** C18. Round trip through the client: a request that passes the
    client's check, posted with [submitOnboarding], answers with the
    record the worker stored, and [getOnboardingById] of its id then
    returns that record, whatever the later request's clock. *)
Theorem submit_then_getOnboardingById c b64 subAt e e' kv data :
  fst (validateOnboardingData data) = true -> str_has "/" (rnd e) = false ->
  exists r, fst (submitOnboarding_http (T := Api.worker_transport e) c b64 subAt data kv) = submitted_json r
    /\ rec_name r = Some (JStr (req_name data)) /\ rec_email r = Some (JStr (req_email data))
    /\ fst (getOnboardingById (T := Api.worker_transport e') c (rec_id r)
              (snd (submitOnboarding_http (T := Api.worker_transport e) c b64 subAt data kv)))
       = found_json r.
Proof.
  intros Hv Hrnd. rewrite submit_http_worker. unfold submitOnboarding. rewrite route_post.
  destruct (submit_payload b64 subAt data e kv Hv) as (r & Hr & Hid & Hn & He & _). rewrite Hr.
  cbn [status body]. rewrite (Api.status_2xx 201) by lia.
  exists r. cbn [fst snd]. split; [reflexivity|]. split; [exact Hn|]. split; [exact He|].
  rewrite getById_worker by (rewrite Hid; apply generateId_no_slash, Hrnd).
  rewrite lookup_insert_ne, lookup_insert_eq; [reflexivity|].
  rewrite Hid. unfold generateId. apply email_key_not_record.
Qed.

(** ** The data against its declared types *)

Import Interfaces.

Lemma doc_json_type b64 doc : conforms DocumentFile_t (doc_json b64 doc) = true.
Proof.
  unfold doc_json, fileToBase64, selected_json.
  destruct (b64 _), (FilePicker.mimeType doc); reflexivity.
Qed.

Lemma payload_type b64 subAt d : conforms OnboardingSubmitRequest_t (payload b64 subAt d) = true.
Proof.
  unfold payload. cbn -[doc_json DocumentFile_t]. induction (req_documents d) as [|doc ds IH]; [reflexivity|].
  cbn [map forallb]. rewrite doc_json_type. exact IH.
Qed.

(** A stored document has every property of [DocumentFile] but [uri]. *)
Lemma stored_doc_type b64 doc sd :
  stored_doc (doc_json b64 doc) = Ok sd ->
  conforms DocumentFile_without_uri (stored_doc_json sd) = true
  /\ conforms DocumentFile_t (stored_doc_json sd) = false.
Proof.
  unfold doc_json, fileToBase64, selected_json.
  destruct (b64 _) as [[|c b]|], (FilePicker.mimeType doc); cbn; intros H; inversion H; subst; split; reflexivity.
Qed.

Lemma stored_docs_type b64 docs sds :
  js_mapM stored_doc (map (doc_json b64) docs) = Ok sds ->
  forallb (conforms DocumentFile_without_uri) (map stored_doc_json sds) = true
  /\ (docs <> [] -> forallb (conforms DocumentFile_t) (map stored_doc_json sds) = false).
Proof.
  revert sds. induction docs as [|doc ds IH]; intros sds H.
  - inversion H. split; [reflexivity|congruence].
  - cbn [map js_mapM] in H.
    destruct (stored_doc (doc_json b64 doc)) as [sd|] eqn:E1; [|discriminate]. cbn [js_bind] in H.
    destruct (js_mapM stored_doc (map (doc_json b64) ds)) as [sds'|] eqn:E2; [|discriminate].
    cbn [js_bind] in H. inversion H; subst.
    destruct (stored_doc_type b64 doc sd E1) as [H1 H2]. destruct (IH sds' eq_refl) as [H3 _].
    cbn [map forallb]. rewrite H1, H2, H3. split; reflexivity.
Qed.

Lemma submitted_json_type dt r n em sd :
  rec_name r = Some (JStr n) -> rec_email r = Some (JStr em) -> rec_startDate r = Some (JStr sd) ->
  conforms (OnboardingResponse_of (OnboardingData_with dt)) (submitted_json r)
  = forallb (conforms dt) (map stored_doc_json (rec_documents r)).
Proof.
  intros Hn He Hs. unfold submitted_json, record_json. rewrite Hn, He, Hs. cbn -[stored_doc_json].
  destruct (forallb (conforms dt) (map stored_doc_json (rec_documents r))); reflexivity.
Qed.

(** C23. Against the interfaces of src/types/onboarding.ts: every payload
    the service posts is a well-typed [OnboardingSubmitRequest], but the
    answer the worker gives to one the client accepted is not a
    well-typed [OnboardingResponse]: its stored documents have no [uri],
    which [DocumentFile] requires; with [uri] optional it is well typed. *)
Theorem payload_and_answer_types b64 subAt d e kv :
  conforms OnboardingSubmitRequest_t (payload b64 subAt d) = true
  /\ (fst (validateOnboardingData d) = true ->
      exists r, fst (handleSubmitOnboarding (Some (payload b64 subAt d)) e kv)
                = {| status := 201; body := BodySubmitted r |}
        /\ conforms OnboardingResponse_t (submitted_json r) = false
        /\ conforms (OnboardingResponse_of (OnboardingData_with DocumentFile_without_uri))
             (submitted_json r) = true).
Proof.
  split; [apply payload_type|]. intros Hv.
  destruct (submit_payload b64 subAt d e kv Hv) as (r & Hr & _ & Hn & He & Hs & Hd).
  pose proof Hv as Hne. apply client_valid_iff in Hne as (_ & _ & _ & _ & Hne).
  destruct (stored_docs_type b64 _ _ Hd) as [Hok Hbad].
  exists r. rewrite Hr. split; [reflexivity|].
  unfold OnboardingResponse_t, OnboardingData_t.
  rewrite !(submitted_json_type _ r _ _ _ Hn He Hs). split; [exact (Hbad Hne)|exact Hok].
Qed.

(** ** What the screen lets through *)

Definition id_pdf : SelectedFile :=
  {| FilePicker.uri := "file:///id.pdf"; FilePicker.name := "id.pdf"; FilePicker.size := 1024;
     FilePicker.mimeType := Some "application/pdf" |}.

Lemma apply_alerts s effs :
  Forall (fun e => is_alert e = true) effs -> apply_file_effects s effs = s.
Proof.
  intros H. unfold apply_file_effects. revert s.
  induction H as [|[] effs Ha _ IH]; intros s; [reflexivity|discriminate|exact (IH s)].
Qed.

(** [handleReset] does not reach the file picker: the picker keeps
    the files it had, so after a reset the next pick sends the old files
    followed by the new ones to [setDocuments], and the documents of the
    previous submission come back. *)
Theorem reset_then_pick fmt w assets :
  let p := documents_props (handleReset (screen w)) in
  fst (filter_assets fmt p assets) <> [] ->
  validateFiles fmt p (js_slice0 (files (picker w) ++ fst (filter_assets fmt p assets))%list 3) = "" ->
  documents (screen (reset_form w)) = []
  /\ documents (screen (pick_files fmt (reset_form w) assets))
     = js_slice0 (files (picker w) ++ fst (filter_assets fmt p assets))%list 3.
Proof.
  intros p Hne Hv. split; [reflexivity|].
  unfold pick_files, reset_form. cbn [screen picker]. fold p.
  pose proof (filter_assets_alerts fmt p assets) as Ha.
  unfold pick_resume. cbn [default id].
  destruct (filter_assets fmt p assets) as [nf al]. cbn [fst snd] in *.
  unfold commit. destruct nf as [|f nf]; [contradiction|]. cbn [List.length Nat.eqb].
  change (maxFiles p) with 3%Z. rewrite Hv. cbn [out_state out_calls negb truthy_str].
  unfold apply_file_effects. rewrite fold_left_app. fold (apply_file_effects (handleReset (screen w)) al).
  rewrite apply_alerts by exact Ha. reflexivity.
Qed.

(** ** Witnesses *)

Definition ada_form : Screen :=
  {| name := "Ada Lovelace"; email := "ada@example.org"; startDate := "15/06/2025";
     documents := [id_pdf]; isNameValid := true; isEmailValid := true; isSubmitting := false;
     showSuccess := false; submittedData := None |}.

Lemma submit_end_to_end_witness :
  let res := press_submit (fun _ => None) "2025-06-01T00:00:00.000Z" Delivered sample_env ∅ ada_form in
  showSuccess (fst (fst res)) = true /\ isSubmitting (fst (fst res)) = false
  /\ snd (fst res) = [ScreenAlertMsg "Success" "Onboarding submitted successfully"]
  /\ exists r, submittedData (fst (fst res)) = Some r
      /\ rec_name r = Some (JStr (name ada_form)) /\ rec_email r = Some (JStr (email ada_form))
      /\ fst (fetch "GET" ("/api/onboard/" ++ rec_id r) None sample_env (snd res))
         = {| status := 200; body := BodyFound r |}.
Proof.
  apply (submit_end_to_end (fun _ => None) "2025-06-01T00:00:00.000Z" sample_env ∅ ada_form);
    vm_compute; reflexivity.
Defined.

(** After a successful submission the picker still holds [id.pdf]. *)
Definition submitted_with_picker : WithPicker :=
  {| screen := {| name := "Ada Lovelace"; email := "ada@example.org"; startDate := "15/06/2025";
                  documents := [id_pdf]; isNameValid := true; isEmailValid := true;
                  isSubmitting := false; showSuccess := true; submittedData := None |};
     picker := {| files := [id_pdf]; error := ""; isTouched := true |} |}.

Lemma reset_then_pick_witness :
  let p := documents_props (handleReset (screen submitted_with_picker)) in
  documents (screen (reset_form submitted_with_picker)) = []
  /\ documents (screen (pick_files bytes_fmt (reset_form submitted_with_picker) [pdf "photo.pdf" 2048]))
     = js_slice0 (files (picker submitted_with_picker)
                  ++ fst (filter_assets bytes_fmt p [pdf "photo.pdf" 2048]))%list 3.
Proof.
  apply (reset_then_pick bytes_fmt submitted_with_picker [pdf "photo.pdf" 2048]).
  - vm_compute. discriminate.
  - vm_compute. reflexivity.
Defined.

(** The client the app creates at start-up, with no configured URL. *)
Definition sample_client : Api.ApiClient := Api.create None 1735689600000 "0.4fzyo82mvyr".

Lemma submit_then_getOnboardingById_witness :
  exists r, fst (submitOnboarding_http (T := Api.worker_transport sample_env) sample_client (fun _ => None)
                   "2025-06-01T00:00:00.000Z" (request_of ada_form) ∅) = submitted_json r
    /\ rec_name r = Some (JStr (req_name (request_of ada_form)))
    /\ rec_email r = Some (JStr (req_email (request_of ada_form)))
    /\ fst (getOnboardingById (T := Api.worker_transport sample_env) sample_client (rec_id r)
              (snd (submitOnboarding_http (T := Api.worker_transport sample_env) sample_client (fun _ => None)
                      "2025-06-01T00:00:00.000Z" (request_of ada_form) ∅)))
       = found_json r.
Proof.
  apply (submit_then_getOnboardingById sample_client (fun _ => None) "2025-06-01T00:00:00.000Z"
           sample_env sample_env ∅ (request_of ada_form)); vm_compute; reflexivity.
Defined.

Lemma payload_and_answer_types_witness :
  conforms OnboardingSubmitRequest_t (payload (fun _ => None) "2025-06-01T00:00:00.000Z" (request_of ada_form)) = true
  /\ exists r, fst (handleSubmitOnboarding (Some (payload (fun _ => None) "2025-06-01T00:00:00.000Z"
                                                 (request_of ada_form))) sample_env ∅)
               = {| status := 201; body := BodySubmitted r |}
      /\ conforms OnboardingResponse_t (submitted_json r) = false
      /\ conforms (OnboardingResponse_of (OnboardingData_with DocumentFile_without_uri)) (submitted_json r) = true.
Proof.
  destruct (payload_and_answer_types (fun _ => None) "2025-06-01T00:00:00.000Z" (request_of ada_form)
              sample_env ∅) as [H1 H2].
  split; [exact H1|]. apply H2. vm_compute. reflexivity.
Defined.

(** The screen's inputs meet the hypotheses of the text input's theorems:
    their rules are well formed and the screen echoes what they report. *)
Lemma screen_inputs_ok s :
  Forall ValidationEngine.rule_wf (TextInput.validators (name_input_props s))
  /\ TextInput.parent_echoes (name_input_props s)
  /\ Forall ValidationEngine.rule_wf (TextInput.validators (email_input_props s))
  /\ TextInput.parent_echoes (email_input_props s).
Proof.
  destruct ValidationEngine.screen_rules_wf as [Hn He].
  split; [exact Hn|]. split; [intros _; reflexivity|]. split; [exact He|intros _; reflexivity].
Qed.

(** The card's sizes as the screen prints them. *)
Lemma toFixed2_kb_examples :
  toFixed2_kb (Some (JNum 1024)) = "1.00" /\ toFixed2_kb (Some (JNum 1536)) = "1.50"
  /\ toFixed2_kb (Some (JNum 5)) = "0.00" /\ toFixed2_kb (Some (JNum 10)) = "0.01"
  /\ toFixed2_kb None = "NaN".
Proof. vm_compute. repeat split. Qed.
