(* ===== verification/Form.v ===== *)
(** * The onboarding form as one machine

    [OnboardingScreen] (src/services/onboarding.service.ts, lines 172-419)
    renders four stateful children and wires their callbacks to its own
    [useState] cells: the two [CustomTextInput]s report to [setName] /
    [setIsNameValid] and [setEmail] / [setIsEmailValid], the
    [CalendarPicker] to [setStartDate], the [FilePicker] to
    [setDocuments]; its two buttons run [handleSubmit] and [handleReset].
    A [Form] holds the screen's state, each child's own state and the
    worker's store, and [form_step] runs one user event through the child
    that receives it and then applies the child's callbacks to the
    screen, with the props of the current render.  The modal calendar
    and the system document picker cover the screen while they are open,
    so only their own events arrive then.  The submit button runs
    [handleSubmit] up to its [await] and the form keeps the suspended
    request in [submission]; the answer is the event [SubmitSettle],
    which may come after any other events.  The invariants are proved by
    induction on [form_reachable]; the inputs' errors follow the screen's
    cells only until the first reset, which [reset_free_reachable]
    (the closure over the other events) captures, and the reset then
    leaves them stale. *)

From S2P Require Import Prelude JsString Validation TextField DateField FileSelection Backend Onboarding.

Local Open Scope string_scope.

Module Form.
Import ValidationEngine OnboardingService OnboardingScreen.

(** ** State *)

Record Form : Type := {
  scr : Screen;
  name_field : TextInput.TextInputState;
  email_field : TextInput.TextInputState;
  date_field : DateState;
  files_field : FilePicker.FileMachine;
  store : KV;
  submission : option OnboardingSubmitRequest
}.
(** [submission] is the request of a [handleSubmit] suspended at its
    [await]: the payload its closure built when the button was pressed. *)

(** The mounted screen: every [useState] at its initial value, each child
    mounted with the props of the first render. *)
Definition initial_date_state : DateState :=
  {| isModalVisible := false; textValue := ""; error := ""; isTouched_d := false |}.

Definition initial_form (kv : KV) : Form :=
  {| scr := initial_screen; name_field := TextInput.initial_state;
     email_field := TextInput.initial_state; date_field := initial_date_state;
     files_field := {| FilePicker.fm_state := FilePicker.initial_file_state (documents_props initial_screen);
                       FilePicker.fm_pending := None |};
     store := kv; submission := None |}.

(** ** The callbacks the screen passes (lines 289-341) *)

(** A text input's two callbacks each set one of a pair of cells: the
    value ([setName], [setEmail]) and its validity flag ([setIsNameValid],
    [setIsEmailValid]). *)
Definition text_cells (cells : string * bool) (c : TextInput.Callback) : string * bool :=
  match c with
  | TextInput.OnChangeText t => (t, snd cells)
  | TextInput.OnValidate b => (fst cells, b)
  end.

Definition set_name_cells (s : Screen) (cells : string * bool) : Screen :=
  {| name := fst cells; email := email s; startDate := startDate s; documents := documents s;
     isNameValid := snd cells; isEmailValid := isEmailValid s; isSubmitting := isSubmitting s;
     showSuccess := showSuccess s; submittedData := submittedData s |}.

Definition set_email_cells (s : Screen) (cells : string * bool) : Screen :=
  {| name := name s; email := fst cells; startDate := startDate s; documents := documents s;
     isNameValid := isNameValid s; isEmailValid := snd cells; isSubmitting := isSubmitting s;
     showSuccess := showSuccess s; submittedData := submittedData s |}.

(** [onChangeText={setName}], [onValidate={setIsNameValid}] (lines 293-294). *)
Definition apply_name_calls (s : Screen) (cs : list TextInput.Callback) : Screen :=
  set_name_cells s (fold_left text_cells cs (name s, isNameValid s)).

(** [onChangeText={setEmail}], [onValidate={setIsEmailValid}] (lines 308-309). *)
Definition apply_email_calls (s : Screen) (cs : list TextInput.Callback) : Screen :=
  set_email_cells s (fold_left text_cells cs (email s, isEmailValid s)).

(** [onChange={setStartDate}] (line 323). *)
Definition apply_date_calls (s : Screen) (cs : list DateCallback) : Screen :=
  let d := fold_left (fun _ c => match c with OnChange x => x end) cs (startDate s) in
  {| name := name s; email := email s; startDate := d; documents := documents s;
     isNameValid := isNameValid s; isEmailValid := isEmailValid s; isSubmitting := isSubmitting s;
     showSuccess := showSuccess s; submittedData := submittedData s |}.

(** ** Events *)

Inductive FormEvent : Type :=
| NameEvent (ev : TextInput.Event)
| EmailEvent (ev : TextInput.Event)
| DateText (text : string)
| DateBlur
| DateOpen
| DateSelect (dateString : string)
| DateClose
| DateClear
| FilesEvent (ev : FilePicker.FileEvent)
| SubmitPress
| SubmitSettle (b64 : string -> option string) (submittedAt : string) (t : Transport) (e : Env)
| ResetPress.
(** [SubmitSettle]: the [await] of a suspended [handleSubmit] resumes; the
    service call runs with the device's file reader [b64], the submission
    time, the network and the worker's environment of that moment. *)

(** What an event makes visible besides the state: the screen's alerts,
    the picker's alerts, and an exception escaping a handler. *)
Inductive FormOutput : Type :=
| ScreenOut (a : ScreenAlert)
| PickerAlert (title message : string)
| HandlerError (e : js_error).

Definition exn_outputs (e : option js_error) : list FormOutput :=
  match e with Some x => [HandlerError x] | None => [] end.

Definition picker_outputs (effs : list FilePicker.FileEffect) : list FormOutput :=
  flat_map (fun eff => match eff with
                       | FilePicker.ShowAlert t m => [PickerAlert t m]
                       | FilePicker.OnChangeFiles _ => []
                       end) effs.

(** The calendar's modal or the system document picker is open. *)
Definition covered (f : Form) : bool :=
  isModalVisible (date_field f) ||
  match FilePicker.fm_pending (files_field f) with Some _ => true | None => false end.

Definition with_screen (f : Form) (s : Screen) : Form :=
  {| scr := s; name_field := name_field f; email_field := email_field f; date_field := date_field f;
     files_field := files_field f; store := store f; submission := submission f |}.

(** One event at a render made at time [now] (the calendar's [minDate]
    and [maxDate] are read from the clock at each render), in time zone
    [tz].  [None]: the event cannot happen in this state (its control is
    covered or not rendered, or the picker refuses it). *)
Definition form_step (tz now : Z) (f : Form) (ev : FormEvent) : option (Form * list FormOutput) :=
  let s := scr f in
  let dp := startDate_props now in
  match ev with
  | NameEvent e =>
      if covered f then None else
      let o := TextInput.dispatch (name_input_props s) (name_field f) e in
      Some ({| scr := apply_name_calls s (out_calls o); name_field := out_state o;
               email_field := email_field f; date_field := date_field f;
               files_field := files_field f; store := store f; submission := submission f |}, exn_outputs (out_exn o))
  | EmailEvent e =>
      if covered f then None else
      let o := TextInput.dispatch (email_input_props s) (email_field f) e in
      Some ({| scr := apply_email_calls s (out_calls o); name_field := name_field f;
               email_field := out_state o; date_field := date_field f;
               files_field := files_field f; store := store f; submission := submission f |}, exn_outputs (out_exn o))
  | DateText text =>
      if covered f then None else
      let o := handleTextChange tz dp (date_field f) text in
      Some ({| scr := apply_date_calls s (out_calls o); name_field := name_field f;
               email_field := email_field f; date_field := out_state o;
               files_field := files_field f; store := store f; submission := submission f |}, exn_outputs (out_exn o))
  | DateBlur =>
      if covered f then None else
      Some ({| scr := s; name_field := name_field f; email_field := email_field f;
               date_field := handleBlur_d tz dp (date_field f);
               files_field := files_field f; store := store f; submission := submission f |}, [])
  | DateOpen =>
      if covered f then None else
      Some ({| scr := s; name_field := name_field f; email_field := email_field f;
               date_field := openCalendar false (date_field f);
               files_field := files_field f; store := store f; submission := submission f |}, [])
  | DateSelect ds =>
      if isModalVisible (date_field f) then
        let o := handleDateSelect tz dp (date_field f) ds in
        Some ({| scr := apply_date_calls s (out_calls o); name_field := name_field f;
                 email_field := email_field f; date_field := out_state o;
                 files_field := files_field f; store := store f; submission := submission f |}, [])
      else None
  | DateClose =>
      if isModalVisible (date_field f) then
        Some ({| scr := s; name_field := name_field f; email_field := email_field f;
                 date_field := closeCalendar (date_field f);
                 files_field := files_field f; store := store f; submission := submission f |}, [])
      else None
  | DateClear =>
      if covered f || negb (truthy_str (textValue (date_field f))) then None else
      let o := handleClear dp (date_field f) in
      Some ({| scr := apply_date_calls s (out_calls o); name_field := name_field f;
               email_field := email_field f; date_field := out_state o;
               files_field := files_field f; store := store f; submission := submission f |}, [])
  | FilesEvent e =>
      if isModalVisible (date_field f) then None else
      match FilePicker.file_dispatch FilePicker.formatFileSize (documents_props s) (files_field f) e with
      | Some (m', effs) =>
          Some ({| scr := apply_file_effects s effs; name_field := name_field f;
                   email_field := email_field f; date_field := date_field f;
                   files_field := m'; store := store f; submission := submission f |}, picker_outputs effs)
      | None => None
      end
  | SubmitPress =>
      if covered f then None else
      let '(s', alerts, req) := press_submit_begin s in
      Some ({| scr := s'; name_field := name_field f; email_field := email_field f;
               date_field := date_field f; files_field := files_field f; store := store f;
               submission := match req with Some r => Some r | None => submission f end |},
            map ScreenOut alerts)
  | SubmitSettle b64 subAt t e =>
      match submission f with
      | None => None
      | Some req =>
          let '(response, kv') := submitOnboarding b64 subAt t e (store f) req in
          let '(s', alerts) := handleSubmit_settle response s in
          Some ({| scr := s'; name_field := name_field f; email_field := email_field f;
                   date_field := date_field f; files_field := files_field f; store := kv';
                   submission := None |}, map ScreenOut alerts)
      end
  | ResetPress =>
      if covered f || negb (showSuccess s) then None
      else Some (with_screen f (handleReset s), [])
  end.

(** The document picker reports sizes that are not negative. *)
Definition form_event_wf (ev : FormEvent) : Prop :=
  match ev with FilesEvent e => FilePicker.event_wf e | _ => True end.

(** Forms reachable from the mounted screen over a store [kv0], each event
    at a render of its own time. *)
Inductive form_reachable (tz : Z) (kv0 : KV) : Form -> Prop :=
| form_init : form_reachable tz kv0 (initial_form kv0)
| form_next f now ev f' outs :
    form_reachable tz kv0 f -> form_event_wf ev -> form_step tz now f ev = Some (f', outs) ->
    form_reachable tz kv0 f'.

(** A run of events, each with the time of its render; it stops at the
    first event that cannot happen. *)
Fixpoint form_run (tz : Z) (f : Form) (evs : list (Z * FormEvent)) : Form * list FormOutput :=
  match evs with
  | [] => (f, [])
  | (now, ev) :: rest =>
      match form_step tz now f ev with
      | Some (f', outs) => let '(f'', outs') := form_run tz f' rest in (f'', (outs ++ outs')%list)
      | None => (f, [])
      end
  end.

(** ** What the screen's cells hold *)

(** A validity cell: [true] exactly when its input has been touched and
    the value passes every rule. *)
Definition flag_ok (touched flag : bool) (v : string) (rules : list ValidationRule) : Prop :=
  flag = touched && TextInput.is_empty_list (TextInput.failing_messages v rules).

(** A start date the calendar can report: cleared, or a day printed in
    the screen's [DD/MM/YYYY] format. *)
Definition date_text_ok (tz : Z) (d : string) : Prop :=
  d = "" \/ d = formatDate_nan DD_MM_YYYY \/ exists t, d = formatDate tz DD_MM_YYYY t.

Definition form_inv (tz : Z) (f : Form) : Prop :=
  flag_ok (TextInput.isTouched (name_field f)) (isNameValid (scr f)) (name (scr f)) name_validators /\
  flag_ok (TextInput.isTouched (email_field f)) (isEmailValid (scr f)) (email (scr f)) email_validators /\
  date_text_ok tz (startDate (scr f)).

(** The errors an input shows track the screen's value: none before its
    first blur, and afterwards the messages of the rules that value
    fails. *)
Definition errors_track (touched : bool) (errs : list string) (v : string) (rules : list ValidationRule) : Prop :=
  (touched = false -> errs = []) /\ (touched = true -> errs = TextInput.failing_messages v rules).

Definition fields_track (f : Form) : Prop :=
  errors_track (TextInput.isTouched (name_field f)) (TextInput.errors (name_field f)) (name (scr f)) name_validators
  /\ errors_track (TextInput.isTouched (email_field f)) (TextInput.errors (email_field f)) (email (scr f))
                  email_validators.

(** Forms reached from the mount without pressing "Start New
    Submission". *)
Inductive reset_free_reachable (tz : Z) (kv0 : KV) : Form -> Prop :=
| rf_init : reset_free_reachable tz kv0 (initial_form kv0)
| rf_next f now ev f' outs :
    reset_free_reachable tz kv0 f -> form_event_wf ev -> ev <> ResetPress ->
    form_step tz now f ev = Some (f', outs) -> reset_free_reachable tz kv0 f'.

(** A text input's event keeps its pair of cells right. *)
Lemma text_dispatch_cells rules v ok st ev :
  Forall rule_wf rules ->
  flag_ok (TextInput.isTouched st) ok v rules ->
  let o := TextInput.dispatch {| TextInput.validators := rules; TextInput.externalValue := Some v;
                                     TextInput.has_onChangeText := true; TextInput.has_onValidate := true |} st ev in
  flag_ok (TextInput.isTouched (out_state o)) (snd (fold_left text_cells (out_calls o) (v, ok)))
          (fst (fold_left text_cells (out_calls o) (v, ok))) rules.
Proof.
  intros Hwf Hok. destruct ev as [t| |]; cbn [TextInput.dispatch].
  - unfold TextInput.handleChangeText. destruct (TextInput.isTouched st) eqn:T.
    + cbn [TextInput.validators]. rewrite (@engine_validate_spec _ validation_engine t rules Hwf). cbn. unfold flag_ok. rewrite T. reflexivity.
    + cbn. unfold flag_ok in *. rewrite T in *. exact Hok.
  - exact Hok.
  - unfold TextInput.handleBlur. cbn [TextInput.validators TextInput.value TextInput.externalValue].
    rewrite (@engine_validate_spec _ validation_engine _ rules Hwf).
    cbn. unfold flag_ok. reflexivity.
Qed.

Lemma fold_date_calls tz cs d :
  date_text_ok tz d -> Forall (fun c => match c with OnChange x => date_text_ok tz x end) cs ->
  date_text_ok tz (fold_left (fun _ c => match c with OnChange x => x end) cs d).
Proof.
  revert d. induction cs as [|[x] cs IH]; intros d Hd Hall; [exact Hd|].
  inversion Hall; subst. apply IH; assumption.
Qed.

(** The cells [form_inv] reads. *)
Definition cells (s : Screen) : string * bool * string * bool * string :=
  (name s, isNameValid s, email s, isEmailValid s, startDate s).

(** Both halves of [handleSubmit] leave the cells and the documents. *)
Lemma press_submit_begin_keeps s :
  cells (fst (fst (press_submit_begin s))) = cells s
  /\ documents (fst (fst (press_submit_begin s))) = documents s.
Proof.
  unfold press_submit_begin, handleSubmit_begin. destruct (_ && _); [|split; reflexivity].
  destruct (validateOnboardingData _) as [[|] errs]; split; reflexivity.
Qed.

Lemma settle_keeps resp s :
  cells (fst (handleSubmit_settle resp s)) = cells s /\ documents (fst (handleSubmit_settle resp s)) = documents s.
Proof. unfold handleSubmit_settle. destruct (success resp); split; reflexivity. Qed.

Lemma apply_file_effects_cells s effs : cells (apply_file_effects s effs) = cells s.
Proof.
  unfold apply_file_effects. revert s. induction effs as [|[fs|t m] effs IH]; intros s; [reflexivity| |];
    cbn [fold_left]; rewrite IH; reflexivity.
Qed.

Lemma form_inv_cells tz f f' :
  cells (scr f') = cells (scr f) ->
  TextInput.isTouched (name_field f') = TextInput.isTouched (name_field f) ->
  TextInput.isTouched (email_field f') = TextInput.isTouched (email_field f) ->
  form_inv tz f -> form_inv tz f'.
Proof.
  unfold cells, form_inv. intros E Hn He. injection E as E1 E2 E3 E4 E5.
  rewrite Hn, He, E1, E2, E3, E4, E5. exact id.
Qed.

Lemma empty_fails_name : TextInput.is_empty_list (TextInput.failing_messages "" name_validators) = false.
Proof. reflexivity. Qed.

Lemma empty_fails_email : TextInput.is_empty_list (TextInput.failing_messages "" email_validators) = false.
Proof. reflexivity. Qed.

(** One event keeps [form_inv]. *)
Lemma form_step_inv tz now f ev f' outs :
  form_inv tz f -> form_step tz now f ev = Some (f', outs) -> form_inv tz f'.
Proof.
  intros Hinv Hstep. destruct screen_rules_wf as [Hn He].
  destruct Hinv as (Iname & Iemail & Idate).
  destruct ev as [e|e|text| | |ds| | |e| |b64 subAt t e|]; cbn [form_step] in Hstep;
    repeat match type of Hstep with
    | (if ?b then _ else _) = _ => destruct b; [try discriminate Hstep|try discriminate Hstep]
    end.
  - injection Hstep as <- _. split; [apply (text_dispatch_cells _ _ _ _ e Hn Iname)|].
    split; assumption.
  - injection Hstep as <- _. split; [assumption|]. split; [apply (text_dispatch_cells _ _ _ _ e He Iemail)|].
    assumption.
  - injection Hstep as <- _. repeat split; assumption.
  - injection Hstep as <- _. repeat split; assumption.
  - injection Hstep as <- _. repeat split; assumption.
  - injection Hstep as <- _. repeat split; try assumption. cbn.
    destruct (parse_iso_date ds); [right; right; eexists; reflexivity|right; left; reflexivity].
  - injection Hstep as <- _. repeat split; assumption.
  - injection Hstep as <- _. repeat split; try assumption. left. reflexivity.
  - destruct (FilePicker.file_dispatch _ _ _ _) as [[m' effs]|]; [|discriminate].
    injection Hstep as <- _. apply (form_inv_cells tz f); [apply apply_file_effects_cells|reflexivity..|].
    repeat split; assumption.
  - destruct (press_submit_begin (scr f)) as [[s' alerts] req] eqn:E.
    injection Hstep as <- _. apply (form_inv_cells tz f); [|reflexivity..|repeat split; assumption].
    cbn [scr]. pose proof (proj1 (press_submit_begin_keeps (scr f))) as K. rewrite E in K. exact K.
  - destruct (submission f) as [req|]; [|discriminate].
    destruct (submitOnboarding _ _ _ _ _ _) as [resp kv'].
    destruct (handleSubmit_settle resp (scr f)) as [s' alerts] eqn:E.
    injection Hstep as <- _. apply (form_inv_cells tz f); [|reflexivity..|repeat split; assumption].
    cbn [scr]. pose proof (proj1 (settle_keeps resp (scr f))) as K. rewrite E in K. exact K.
  - injection Hstep as <- _. unfold form_inv, flag_ok, with_screen, handleReset.
    cbn [scr name email isNameValid isEmailValid startDate name_field email_field].
    rewrite empty_fails_name, empty_fails_email, !andb_false_r. repeat split. left. reflexivity.
Qed.

Lemma reachable_form_inv tz kv0 f : form_reachable tz kv0 f -> form_inv tz f.
Proof.
  induction 1 as [|f now ev f' outs _ IH _ Hstep]; [|exact (form_step_inv tz now f ev f' outs IH Hstep)].
  repeat split. left. reflexivity.
Qed.

Lemma form_run_reachable tz kv0 f evs :
  Forall (fun e => form_event_wf (snd e)) evs ->
  form_reachable tz kv0 f -> form_reachable tz kv0 (fst (form_run tz f evs)).
Proof.
  revert f. induction evs as [|[now ev] evs IH]; intros f Hwf Hr; [exact Hr|]. cbn [form_run].
  inversion Hwf as [|? ? Hev Hwf']; subst.
  destruct (form_step tz now f ev) as [[f' outs]|] eqn:E; [|exact Hr].
  specialize (IH f' Hwf' (form_next tz kv0 f now ev f' outs Hr Hev E)).
  destruct (form_run tz f' evs). exact IH.
Qed.

(** A text input's event keeps its errors in step with its cell. *)
Lemma text_dispatch_errors rules v ok st ev :
  Forall rule_wf rules ->
  errors_track (TextInput.isTouched st) (TextInput.errors st) v rules ->
  let o := TextInput.dispatch {| TextInput.validators := rules; TextInput.externalValue := Some v;
                                     TextInput.has_onChangeText := true; TextInput.has_onValidate := true |} st ev in
  errors_track (TextInput.isTouched (out_state o)) (TextInput.errors (out_state o))
               (fst (fold_left text_cells (out_calls o) (v, ok))) rules.
Proof.
  intros Hwf [Hu Ht]. destruct ev as [t| |]; cbn [TextInput.dispatch].
  - unfold TextInput.handleChangeText. destruct (TextInput.isTouched st) eqn:T.
    + cbn [TextInput.validators]. rewrite (@engine_validate_spec _ validation_engine t rules Hwf).
      cbn. rewrite T. split; [discriminate|reflexivity].
    + cbn. rewrite T. split; [intros _; exact (Hu eq_refl)|discriminate].
  - cbn. split; assumption.
  - unfold TextInput.handleBlur. cbn [TextInput.validators TextInput.value TextInput.externalValue].
    rewrite (@engine_validate_spec _ validation_engine _ rules Hwf).
    cbn. split; [discriminate|reflexivity].
Qed.

Lemma fields_track_frame f f' :
  name (scr f') = name (scr f) -> email (scr f') = email (scr f) ->
  name_field f' = name_field f -> email_field f' = email_field f ->
  fields_track f -> fields_track f'.
Proof. unfold fields_track. intros -> -> -> ->. exact id. Qed.

Lemma fields_track_cells f f' :
  cells (scr f') = cells (scr f) -> name_field f' = name_field f -> email_field f' = email_field f ->
  fields_track f -> fields_track f'.
Proof.
  unfold cells. intros E. injection E as E1 _ E3 _ _. apply fields_track_frame; assumption.
Qed.

(** Every event but a reset keeps the inputs' errors in step with the
    screen's cells. *)
Lemma fields_track_step tz now f ev f' outs :
  ev <> ResetPress -> fields_track f -> form_step tz now f ev = Some (f', outs) -> fields_track f'.
Proof.
  intros Hev Htr Hstep. destruct screen_rules_wf as [Hn He].
  destruct ev as [e|e|text| | |ds| | |e| |b64 subAt t e|]; cbn [form_step] in Hstep;
    repeat match type of Hstep with
    | (if ?b then _ else _) = _ => destruct b; [try discriminate Hstep|try discriminate Hstep]
    end;
    try (injection Hstep as <- _; apply (fields_track_frame f); [reflexivity..|exact Htr]).
  - injection Hstep as <- _. destruct Htr as [Tn Te].
    split; [apply (text_dispatch_errors _ _ _ _ e Hn Tn)|exact Te].
  - injection Hstep as <- _. destruct Htr as [Tn Te].
    split; [exact Tn|apply (text_dispatch_errors _ _ _ _ e He Te)].
  - destruct (FilePicker.file_dispatch _ _ _ _) as [[m' effs]|]; [|discriminate].
    injection Hstep as <- _. apply (fields_track_cells f); [apply apply_file_effects_cells|reflexivity..|exact Htr].
  - destruct (press_submit_begin (scr f)) as [[s' alerts] req] eqn:E.
    injection Hstep as <- _. apply (fields_track_cells f); [|reflexivity..|exact Htr].
    cbn [scr]. pose proof (proj1 (press_submit_begin_keeps (scr f))) as K. rewrite E in K. exact K.
  - destruct (submission f) as [req|]; [|discriminate].
    destruct (submitOnboarding _ _ _ _ _ _) as [resp kv'].
    destruct (handleSubmit_settle resp (scr f)) as [s' alerts] eqn:E.
    injection Hstep as <- _. apply (fields_track_cells f); [|reflexivity..|exact Htr].
    cbn [scr]. pose proof (proj1 (settle_keeps resp (scr f))) as K. rewrite E in K. exact K.
  - contradiction.
Qed.

Lemma reset_free_track tz kv0 f : reset_free_reachable tz kv0 f -> fields_track f /\ form_reachable tz kv0 f.
Proof.
  induction 1 as [|f now ev f' outs _ [IHt IHr] Hwf Hev Hstep].
  - split; [split; split; intros H; (reflexivity || discriminate H)|apply form_init].
  - split; [exact (fields_track_step tz now f ev f' outs Hev IHt Hstep)|exact (form_next tz kv0 f now ev f' outs IHr Hwf Hstep)].
Qed.

Lemma form_run_reset_free tz kv0 f evs :
  Forall (fun e => form_event_wf (snd e) /\ snd e <> ResetPress) evs ->
  reset_free_reachable tz kv0 f -> reset_free_reachable tz kv0 (fst (form_run tz f evs)).
Proof.
  revert f. induction evs as [|[now ev] evs IH]; intros f Hwf Hr; [exact Hr|]. cbn [form_run].
  inversion Hwf as [|? ? [Hev Hne] Hwf']; subst.
  destruct (form_step tz now f ev) as [[f' outs]|] eqn:E; [|exact Hr].
  specialize (IH f' Hwf' (rf_next tz kv0 f now ev f' outs Hr Hev Hne E)).
  destruct (form_run tz f' evs). exact IH.
Qed.

(** A value no rule rejects. *)
Lemma failing_empty_holds v rules :
  TextInput.is_empty_list (TextInput.failing_messages v rules) = true -> Forall (satisfies v) rules.
Proof.
  unfold TextInput.failing_messages. induction rules as [|r rules IH]; intros H; [constructor|].
  rewrite filter_cons in H. destruct (decide _) as [Hn|Hh]; [discriminate|].
  constructor; [exact (dec_stable Hh)|exact (IH H)].
Qed.

Lemma email_cell_regex v :
  TextInput.is_empty_list (TextInput.failing_messages v email_validators) = true -> js_blank v = false ->
  emailRegex_test v = true.
Proof.
  intros H Hb. apply failing_empty_holds in H.
  inversion H as [|? ? _ H2]; subst. inversion H2 as [|? ? Hs _]; subst.
  unfold satisfies in Hs. cbn in Hs. destruct Hs as [->|He]; [discriminate|].
  apply emailRegex_test_spec. exact He.
Qed.

Lemma submit_enabled_iff now s :
  submit_disabled (render_screen now s) = false <-> isFormValid s = true /\ isSubmitting s = false.
Proof.
  cbn [render_screen submit_disabled]. rewrite orb_false_iff, negb_false_iff. reflexivity.
Qed.

(** With the submit button enabled, the client's check passes. *)
Lemma enabled_submit_valid tz kv0 f now :
  form_reachable tz kv0 f -> submit_disabled (render_screen now (scr f)) = false ->
  validateOnboardingData (request_of (scr f)) = (true, []).
Proof.
  intros Hr Hd. destruct (reachable_form_inv _ _ _ Hr) as (_ & Hemail & _).
  apply submit_enabled_iff in Hd as [Hv _]. unfold isFormValid in Hv.
  rewrite !andb_true_iff, !negb_true_iff, Nat.ltb_lt in Hv.
  destruct Hv as ((((Hn & He) & Hiv) & Hs) & Hdocs).
  unfold flag_ok in Hemail. rewrite Hiv in Hemail. symmetry in Hemail. apply andb_true_iff in Hemail as [_ Hemail].
  unfold validateOnboardingData, request_of. cbn [req_name req_email req_startDate req_documents].
  rewrite Hn, He, (email_cell_regex _ Hemail He), Hs.
  destruct (documents (scr f)); [cbn in Hdocs; lia|reflexivity].
Qed.

(** ** The documents the screen holds *)

(** The list the picker's last [onChange] carried, if any. *)
Definition last_files (effs : list FilePicker.FileEffect) : option (list FilePicker.SelectedFile) :=
  fold_left (fun acc e => match e with FilePicker.OnChangeFiles fs => Some fs | _ => acc end) effs None.

Lemma last_files_snoc effs e :
  last_files (effs ++ [e]) = match e with FilePicker.OnChangeFiles fs => Some fs | _ => last_files effs end.
Proof. unfold last_files. rewrite fold_left_app. destruct e; reflexivity. Qed.

Lemma apply_file_effects_documents s effs :
  documents (apply_file_effects s effs)
  = match last_files effs with Some fs => fs | None => documents s end.
Proof.
  induction effs as [|e effs IH] using rev_ind; [reflexivity|].
  unfold apply_file_effects in *. rewrite fold_left_app, last_files_snoc. cbn [fold_left].
  destruct e; [reflexivity|exact IH].
Qed.

Lemma alerts_last_files effs :
  Forall (fun e => FilePicker.is_alert e = true) effs -> last_files effs = None.
Proof.
  induction effs as [|e effs IH] using rev_ind; intros H; [reflexivity|].
  apply Forall_app in H as [H1 H2]. inversion H2 as [|? ? He _]; subst.
  rewrite last_files_snoc. destruct e; [discriminate|exact (IH H1)].
Qed.

(** A picker event either leaves its list alone without calling
    [onChange], or reports the new list last. *)
Lemma dispatch_reports fmt s m ev m' effs :
  FilePicker.file_dispatch fmt (documents_props s) m ev = Some (m', effs) ->
  (last_files effs = None /\ FilePicker.files (FilePicker.fm_state m') = FilePicker.files (FilePicker.fm_state m))
  \/ last_files effs = Some (FilePicker.files (FilePicker.fm_state m')).
Proof.
  unfold FilePicker.file_dispatch.
  destruct (FilePicker.fm_pending m) as [c|], ev as [|r|i|]; try discriminate; intros Hd.
  - injection Hd as <- <-. cbn [FilePicker.fm_state].
    destruct (FilePicker.pick_resume_cases fmt (documents_props s) c (FilePicker.fm_state m) r)
      as [[Hf Ha]|(assets & nf & al & -> & F & Hf & _ & _ & Hc)].
    + left. split; [apply alerts_last_files; exact Ha|exact Hf].
    + right. rewrite Hc. cbn [FilePicker.call_onChange documents_props FilePicker.has_onChange].
      rewrite last_files_snoc. reflexivity.
  - pose proof (FilePicker.pick_request_files (documents_props s) (FilePicker.fm_state m)) as Hf.
    unfold FilePicker.pick_request in Hd, Hf. left.
    destruct (_ <=? _)%Z; injection Hd as <- <-; split; try reflexivity; exact Hf.
  - injection Hd as <- <-. right. reflexivity.
  - injection Hd as <- <-. right. reflexivity.
Qed.


(** The screen's documents are empty (as after a reset) or the picker's
    list, which keeps the picker's limits. *)
Definition docs_inv (f : Form) : Prop :=
  (documents (scr f) = [] \/ documents (scr f) = FilePicker.files (FilePicker.fm_state (files_field f)))
  /\ FilePicker.machine_inv (documents_props initial_screen) (files_field f).

Lemma docs_inv_step tz now f ev f' outs :
  docs_inv f -> form_event_wf ev -> form_step tz now f ev = Some (f', outs) -> docs_inv f'.
Proof.
  intros [Hd Hm] Hwf Hstep.
  destruct ev as [e|e|text| | |ds| | |e| |b64 subAt t e|]; cbn [form_step] in Hstep;
    repeat match type of Hstep with
    | (if ?b then _ else _) = _ => destruct b; [try discriminate Hstep|try discriminate Hstep]
    end;
    try (injection Hstep as <- _; split; [exact Hd|exact Hm]).
  - destruct (FilePicker.file_dispatch _ _ _ _) as [[m' effs]|] eqn:E; [|discriminate].
    injection Hstep as <- _. split; cbn [scr files_field].
    + rewrite apply_file_effects_documents.
      destruct (dispatch_reports _ _ _ _ _ _ E) as [[-> Hf]| ->]; [rewrite Hf; exact Hd|right; reflexivity].
    + exact (FilePicker.machine_inv_step _ (documents_props (scr f)) _ _ _ _ Hm Hwf E).
  - destruct (press_submit_begin (scr f)) as [[s' alerts] req] eqn:E.
    injection Hstep as <- _. split; [|exact Hm]. cbn [scr files_field].
    pose proof (proj2 (press_submit_begin_keeps (scr f))) as D. rewrite E in D. cbn [fst] in D.
    rewrite D. exact Hd.
  - destruct (submission f) as [req|]; [|discriminate].
    destruct (submitOnboarding _ _ _ _ _ _) as [resp kv'].
    destruct (handleSubmit_settle resp (scr f)) as [s' alerts] eqn:E.
    injection Hstep as <- _. split; [|exact Hm]. cbn [scr files_field].
    pose proof (proj2 (settle_keeps resp (scr f))) as D. rewrite E in D. cbn [fst] in D.
    rewrite D. exact Hd.
  - injection Hstep as <- _. split; [left; reflexivity|exact Hm].
Qed.

Lemma reachable_docs_inv tz kv0 f : form_reachable tz kv0 f -> docs_inv f.
Proof.
  induction 1 as [|f now ev f' outs _ IH Hwf Hstep]; [|exact (docs_inv_step tz now f ev f' outs IH Hwf Hstep)].
  split; [left; reflexivity|]. split; [|discriminate]. split; [cbn; lia|split; [constructor|cbn; lia]].
Qed.

(** C7. In every form reachable from the mounted screen, whatever the
    order of typing, blurs, calendar, picker, submit and reset events:
    [isNameValid] and [isEmailValid] hold exactly when their input has
    been blurred at least once and the screen's current value passes
    every rule of that input, and [startDate] is empty or a day printed
    as [DD/MM/YYYY] (or the [NaN/NaN/NaN] of an unparsable calendar
    key); typed text never reaches it. *)
Theorem form_invariant tz kv0 f : form_reachable tz kv0 f -> form_inv tz f.
Proof. exact (reachable_form_inv tz kv0 f). Qed.

(** C8. In a reachable form, pressing the submit button never raises the
    "Validation Error" alert: the button is enabled only when the
    screen's cells make [validateOnboardingData] accept the request,
    whatever the transport does afterwards. *)
Theorem submit_never_fails_validation tz kv0 f now f' outs :
  form_reachable tz kv0 f -> form_step tz now f SubmitPress = Some (f', outs) ->
  forall msg, ~ In (ScreenOut (ScreenAlertMsg "Validation Error" msg)) outs.
Proof.
  intros Hr Hstep msg Hin. cbn [form_step] in Hstep. destruct (covered f); [discriminate|].
  destruct (press_submit_begin (scr f)) as [[s' alerts] req] eqn:E.
  injection Hstep as <- <-. unfold press_submit_begin in E.
  destruct (isFormValid (scr f) && negb (isSubmitting (scr f))) eqn:Hen.
  - assert (Hd : submit_disabled (render_screen now (scr f)) = false)
      by (apply submit_enabled_iff; rewrite andb_true_iff, negb_true_iff in Hen; exact Hen).
    unfold handleSubmit_begin in E. rewrite (enabled_submit_valid tz kv0 f now Hr Hd) in E.
    injection E as _ <- _. exact Hin.
  - injection E as _ <- _. exact Hin.
Qed.

(** C9. Every request the screen can submit respects the picker's
    limits: in every reachable form the screen's documents are either
    empty (as after a reset) or exactly the list the picker holds, and
    there are at most 3 of them, each of 0 to 5 MB, 15 MB in total. *)
Theorem form_documents_within_limits tz kv0 f :
  form_reachable tz kv0 f ->
  (documents (scr f) = [] \/ documents (scr f) = FilePicker.files (FilePicker.fm_state (files_field f)))
  /\ (Z.of_nat (List.length (documents (scr f))) <= 3)%Z
  /\ Forall (fun d => 0 <= FilePicker.size d <= 5 * 1024 * 1024)%Z (documents (scr f))
  /\ (sumZ FilePicker.size (documents (scr f)) <= 15 * 1024 * 1024)%Z.
Proof.
  intros Hr. destruct (reachable_docs_inv tz kv0 f Hr) as [Hd [Hinv _]]. split; [exact Hd|].
  destruct Hd as [-> | ->]; [cbn; repeat split; [lia|constructor|lia]|exact Hinv].
Qed.

(** ** A session at concrete inputs *)

(** Typing a name and an e-mail and leaving each field, picking 15 June
    2025 in the calendar and one 1 KB PDF in the picker, all at renders
    on 1 January 2025 (UTC). *)
Definition ada_session : list (Z * FormEvent) :=
  map (pair jan1_2025)
    [NameEvent (TextInput.ChangeText "Ada Lovelace"); NameEvent TextInput.Blur;
     EmailEvent (TextInput.ChangeText "ada@example.org"); EmailEvent TextInput.Blur;
     DateOpen; DateSelect "2025-06-15";
     FilesEvent FilePicker.Press;
     FilesEvent (FilePicker.Resolve (FilePicker.Picked (Some [FilePicker.pdf "id.pdf" 1024])))].

Definition ada_filled : Form := fst (form_run 0 (initial_form ∅) ada_session).

(** Pressing submit, and the answer of the worker arriving. *)
Definition ada_submit : list (Z * FormEvent) :=
  [(jan1_2025, SubmitPress);
   (jan1_2025, SubmitSettle (fun _ => None) "2025-06-01T00:00:00.000Z" Delivered sample_env)].

Lemma ada_session_wf : Forall (fun e => form_event_wf (snd e)) ada_session.
Proof. repeat constructor. intros n Hn. injection Hn as <-. lia. Qed.

Lemma ada_filled_reachable : form_reachable 0 ∅ ada_filled.
Proof. apply form_run_reachable; [exact ada_session_wf|apply form_init]. Qed.

Lemma ada_filled_cells :
  cells (scr ada_filled) = ("Ada Lovelace", true, "ada@example.org", true, "15/06/2025").
Proof. vm_compute. reflexivity. Qed.

Lemma form_invariant_witness : form_inv 0 ada_filled.
Proof. apply (form_invariant 0 ∅ ada_filled). apply form_run_reachable; [exact ada_session_wf|apply form_init]. Defined.

Lemma submit_never_fails_validation_witness :
  exists f' outs, form_step 0 jan1_2025 ada_filled SubmitPress = Some (f', outs)
    /\ forall msg, ~ In (ScreenOut (ScreenAlertMsg "Validation Error" msg)) outs.
Proof.
  eexists _, _. split; [vm_compute; reflexivity|].
  eapply (submit_never_fails_validation 0 ∅ ada_filled jan1_2025).
  - apply form_run_reachable; [exact ada_session_wf|apply form_init].
  - vm_compute. reflexivity.
Defined.

Lemma form_documents_within_limits_witness :
  let f := ada_filled in
  (documents (scr f) = [] \/ documents (scr f) = FilePicker.files (FilePicker.fm_state (files_field f)))
  /\ (Z.of_nat (List.length (documents (scr f))) <= 3)%Z
  /\ Forall (fun d => 0 <= FilePicker.size d <= 5 * 1024 * 1024)%Z (documents (scr f))
  /\ (sumZ FilePicker.size (documents (scr f)) <= 15 * 1024 * 1024)%Z.
Proof.
  apply (form_documents_within_limits 0 ∅ ada_filled).
  apply form_run_reachable; [exact ada_session_wf|apply form_init].
Defined.

(** C12. Away from a reset, each text input shows errors that belong to
    the screen's value: in every form reached from the mount without
    "Start New Submission", the name and e-mail inputs show no error
    before their first blur and afterwards exactly the messages of the
    rules the screen's current name and e-mail fail, in rule order,
    whatever the interleaving of typing, blurs, calendar, picker and
    submission events. *)
Theorem fields_track_invariant tz kv0 f :
  reset_free_reachable tz kv0 f ->
  errors_track (TextInput.isTouched (name_field f)) (TextInput.errors (name_field f)) (name (scr f)) name_validators
  /\ errors_track (TextInput.isTouched (email_field f)) (TextInput.errors (email_field f)) (email (scr f))
                  email_validators.
Proof. intros Hr. exact (proj1 (reset_free_track tz kv0 f Hr)). Qed.

(** C35. "Start New Submission" clears the screen's cells but none of its
    children.  From any form reached without an earlier reset in which
    the name input has accepted its value, the reset leads to a reachable
    form whose name, e-mail, start date and documents are empty and whose
    validity flags are false, while the name input stays touched and
    shows no error although its value, now empty, fails "Name is
    required": its errors no longer track its value.  The calendar and
    the picker keep their state (the day and the files shown). *)
Theorem reset_leaves_children_stale tz kv0 f now f' outs :
  reset_free_reachable tz kv0 f -> form_step tz now f ResetPress = Some (f', outs) ->
  isNameValid (scr f) = true ->
  form_reachable tz kv0 f'
  /\ cells (scr f') = ("", false, "", false, "") /\ documents (scr f') = []
  /\ TextInput.isTouched (name_field f') = true /\ TextInput.hasError (name_field f') = false
  /\ TextInput.errors (name_field f') <> TextInput.failing_messages (name (scr f')) name_validators
  /\ date_field f' = date_field f /\ files_field f' = files_field f.
Proof.
  intros Hr Hstep Hvalid. destruct (reset_free_track tz kv0 f Hr) as [[[_ Tn] _] Hreach].
  destruct (reachable_form_inv tz kv0 f Hreach) as (In & _ & _).
  unfold flag_ok in In. rewrite Hvalid in In. symmetry in In.
  apply andb_true_iff in In as [Ht He].
  pose proof (form_next tz kv0 f now ResetPress f' outs Hreach I Hstep) as Hreach'.
  cbn [form_step] in Hstep. destruct (covered f || negb (showSuccess (scr f))); [discriminate|].
  injection Hstep as <- _. cbn [with_screen scr name_field date_field files_field].
  assert (Herr : TextInput.errors (name_field f) = []).
  { rewrite (Tn Ht). destruct (TextInput.failing_messages _ _); [reflexivity|discriminate]. }
  split; [exact Hreach'|]. split; [reflexivity|]. split; [reflexivity|]. split; [exact Ht|].
  unfold TextInput.hasError. rewrite Herr, Ht.
  split; [reflexivity|]. split; [|split; reflexivity].
  cbn [handleReset name]. intros E. pose proof empty_fails_name as F. rewrite <- E in F. discriminate F.
Qed.

(** The session submitted to the worker: no reset so far. *)
Definition ada_submitted_session : list (Z * FormEvent) := (ada_session ++ ada_submit)%list.

Definition ada_submitted : Form := fst (form_run 0 (initial_form ∅) ada_submitted_session).

Lemma ada_submitted_reset_free : reset_free_reachable 0 ∅ ada_submitted.
Proof.
  apply form_run_reset_free; [|apply rf_init].
  repeat constructor; try discriminate. intros n Hn. injection Hn as <-. lia.
Qed.

Lemma fields_track_invariant_witness :
  errors_track (TextInput.isTouched (name_field ada_submitted)) (TextInput.errors (name_field ada_submitted))
               (name (scr ada_submitted)) name_validators
  /\ errors_track (TextInput.isTouched (email_field ada_submitted)) (TextInput.errors (email_field ada_submitted))
                  (email (scr ada_submitted)) email_validators.
Proof. exact (fields_track_invariant 0 ∅ ada_submitted ada_submitted_reset_free). Defined.

Lemma reset_leaves_children_stale_witness :
  exists f' outs, form_step 0 jan1_2025 ada_submitted ResetPress = Some (f', outs)
    /\ form_reachable 0 ∅ f'
    /\ cells (scr f') = ("", false, "", false, "") /\ documents (scr f') = []
    /\ TextInput.isTouched (name_field f') = true /\ TextInput.hasError (name_field f') = false
    /\ TextInput.errors (name_field f') <> TextInput.failing_messages (name (scr f')) name_validators
    /\ date_field f' = date_field ada_submitted /\ files_field f' = files_field ada_submitted.
Proof.
  destruct (form_step 0 jan1_2025 ada_submitted ResetPress) as [[f' outs]|] eqn:E;
    [|vm_compute in E; discriminate E].
  exists f', outs. split; [reflexivity|].
  apply (reset_leaves_children_stale 0 ∅ ada_submitted jan1_2025 f' outs ada_submitted_reset_free E).
  vm_compute. reflexivity.
Defined.

End Form.
