(* ===== verification/FormSubmit.v ===== *)
(** * Submissions in flight

    [handleSubmit] (src/services/onboarding.service.ts, lines 202-242) is
    asynchronous: it sets [isSubmitting], builds the payload from the
    values of the render that ran it, and waits for the service; the
    screen stays live meanwhile, so any event of [Form.form_step] may
    come between the press ([SubmitPress]) and the answer
    ([SubmitSettle]).  This file proves what holds of the suspended
    submission over every reachable form: [isSubmitting] is set exactly
    while one is suspended, its request passed the client's check, the
    button is disabled and shows its spinner meanwhile, and the answer
    lands on the state of its own moment with the record of the request
    of the press.  A one-character name, which the name input reports as
    too short, goes through the whole path from any reachable form. *)

From S2P Require Import Prelude JsString Validation TextField DateField FileSelection Backend Onboarding Form.
From stdpp Require Import gmap.

Local Open Scope string_scope.

Module Submission.
Import ValidationEngine OnboardingService OnboardingScreen Form.

(** ** The invariant of the suspended submission *)

Definition submit_inv (f : Form) : Prop :=
  (isSubmitting (scr f) = true <-> submission f <> None)
  /\ forall req, submission f = Some req -> fst (validateOnboardingData req) = true.

Lemma submit_inv_frame f f' :
  isSubmitting (scr f') = isSubmitting (scr f) -> submission f' = submission f ->
  submit_inv f -> submit_inv f'.
Proof. unfold submit_inv. intros -> ->. exact id. Qed.

Lemma apply_file_effects_submitting s effs : isSubmitting (apply_file_effects s effs) = isSubmitting s.
Proof.
  unfold apply_file_effects. revert s. induction effs as [|[fs|t m] effs IH]; intros s; [reflexivity| |];
    cbn [fold_left]; rewrite IH; reflexivity.
Qed.

(** What the first half of the button does to the flag and the request. *)
Lemma press_submit_begin_cases s :
  let '(s', alerts, req) := press_submit_begin s in
  (isSubmitting s' = isSubmitting s /\ req = None)
  \/ (isSubmitting s = false /\ isSubmitting s' = true /\ req = Some (request_of s)
      /\ fst (validateOnboardingData (request_of s)) = true /\ alerts = []).
Proof.
  unfold press_submit_begin, handleSubmit_begin.
  destruct (isFormValid s && negb (isSubmitting s)) eqn:En; [|left; split; reflexivity].
  apply andb_true_iff in En as [_ Hs]. apply negb_true_iff in Hs.
  destruct (validateOnboardingData (request_of s)) as [[|] errs] eqn:V; [right|left; split; reflexivity].
  repeat split. exact Hs.
Qed.

Lemma settle_submitting resp s : isSubmitting (fst (handleSubmit_settle resp s)) = false.
Proof. unfold handleSubmit_settle. destruct (success resp); reflexivity. Qed.

Lemma submit_inv_step tz now f ev f' outs :
  submit_inv f -> form_step tz now f ev = Some (f', outs) -> submit_inv f'.
Proof.
  intros Hinv Hstep.
  destruct ev as [e|e|text| | |ds| | |e| |b64 subAt t e|]; cbn [form_step] in Hstep;
    repeat match type of Hstep with
    | (if ?b then _ else _) = _ => destruct b; [try discriminate Hstep|try discriminate Hstep]
    end;
    try (injection Hstep as <- _; exact Hinv).
  - destruct (FilePicker.file_dispatch _ _ _ _) as [[m' effs]|]; [|discriminate].
    injection Hstep as <- _. apply (submit_inv_frame f); [apply apply_file_effects_submitting|reflexivity|exact Hinv].
  - pose proof (press_submit_begin_cases (scr f)) as C.
    destruct (press_submit_begin (scr f)) as [[s' alerts] req].
    injection Hstep as <- _. destruct C as [[Hs ->]|(Hs & Hs' & -> & Hv & _)].
    + apply (submit_inv_frame f); [exact Hs|reflexivity|exact Hinv].
    + split; cbn [scr submission]; [split; [discriminate|intros _; exact Hs']|].
      intros req E. injection E as <-. exact Hv.
  - destruct (submission f) as [req|]; [|discriminate].
    destruct (submitOnboarding _ _ _ _ _ _) as [resp kv'].
    pose proof (settle_submitting resp (scr f)) as Hs.
    destruct (handleSubmit_settle resp (scr f)) as [s' alerts].
    injection Hstep as <- _. cbn [fst] in Hs. split; cbn [scr submission]; [|discriminate].
    rewrite Hs. split; [discriminate|intros H; contradiction].
Qed.

Lemma reachable_submit_inv tz kv0 f : form_reachable tz kv0 f -> submit_inv f.
Proof.
  induction 1 as [|f now ev f' outs _ IH _ Hstep]; [|exact (submit_inv_step tz now f ev f' outs IH Hstep)].
  split; [split; [discriminate|intros H; contradiction H; reflexivity]|discriminate].
Qed.

(** ** The answer arriving *)

Lemma form_eta f :
  {| scr := scr f; name_field := name_field f; email_field := email_field f; date_field := date_field f;
     files_field := files_field f; store := store f; submission := submission f |} = f.
Proof. destruct f; reflexivity. Qed.

(** A delivered answer to a request the client's check accepted. *)
Lemma settle_step_delivered tz now f req b64 subAt e :
  submission f = Some req -> fst (validateOnboardingData req) = true -> str_has "/" (rnd e) = false ->
  exists f', form_step tz now f (SubmitSettle b64 subAt Delivered e)
             = Some (f', [ScreenOut (ScreenAlertMsg "Success" "Onboarding submitted successfully")])
    /\ showSuccess (scr f') = true /\ isSubmitting (scr f') = false /\ submission f' = None
    /\ cells (scr f') = cells (scr f)
    /\ exists r, submittedData (scr f') = Some r
        /\ rec_name r = Some (JStr (req_name req)) /\ rec_email r = Some (JStr (req_email req))
        /\ fst (fetch "GET" ("/api/onboard/" ++ rec_id r) None e (store f'))
           = {| status := 200; body := BodyFound r |}.
Proof.
  intros Hp Hv Hrnd. cbn [form_step]. rewrite Hp.
  destruct (submitOnboarding b64 subAt Delivered e (store f) req) as [resp kv'] eqn:R.
  destruct (settle_delivered b64 subAt e (store f) req (scr f) resp kv' Hv Hrnd R) as (H1 & H2 & H3 & H4).
  pose proof (proj1 (settle_keeps resp (scr f))) as K.
  destruct (handleSubmit_settle resp (scr f)) as [s' alerts]. cbn [fst snd] in *. subst alerts.
  eexists. split; [reflexivity|]. cbn [scr store submission]. auto.
Qed.

(** No answer: the service's [catch] reports the network error. *)
Lemma settle_step_offline tz now f req b64 subAt e :
  submission f = Some req ->
  exists f', form_step tz now f (SubmitSettle b64 subAt NoResponse e)
             = Some (f', [ScreenOut (ScreenAlertMsg "Error"
                                       "No response from server. Please check your internet connection.")])
    /\ store f' = store f /\ showSuccess (scr f') = showSuccess (scr f)
    /\ submittedData (scr f') = submittedData (scr f)
    /\ isSubmitting (scr f') = false /\ submission f' = None.
Proof.
  intros Hp. cbn [form_step]. rewrite Hp. cbn. eexists. split; [reflexivity|]. cbn. auto.
Qed.

(** The press of an enabled button suspends a submission of the screen's
    request. *)
Lemma press_step_enabled tz kv0 f now :
  form_reachable tz kv0 f -> covered f = false -> submit_disabled (render_screen now (scr f)) = false ->
  exists f1, form_step tz now f SubmitPress = Some (f1, []) /\ submission f1 = Some (request_of (scr f))
    /\ isSubmitting (scr f1) = true /\ cells (scr f1) = cells (scr f) /\ store f1 = store f.
Proof.
  intros Hr Hc Hd. pose proof (enabled_submit_valid tz kv0 f now Hr Hd) as Hv.
  apply submit_enabled_iff in Hd as [Hf Hs].
  cbn [form_step]. rewrite Hc. unfold press_submit_begin, handleSubmit_begin.
  rewrite Hf, Hs, Hv. cbn. eexists. split; [reflexivity|]. auto.
Qed.

(** A one-character name that is not a space fails only the length rule. *)
Lemma one_char_name_fails c :
  js_is_space c = false -> validate (String c "") name_validators = Ok ["Name must be at least 2 characters"].
Proof. intros Hc. cbn. rewrite Hc. cbn. rewrite Hc. reflexivity. Qed.

(** ** Claims *)

(** C10. At most one submission is in flight, and the screen shows it: in
    every reachable form [isSubmitting] is set exactly while a
    [handleSubmit] is suspended at its [await], the request it holds
    passed the client's check, and meanwhile the button is disabled and
    shows its spinner, so pressing it does nothing. *)
Theorem submission_in_flight tz kv0 f :
  form_reachable tz kv0 f ->
  (isSubmitting (scr f) = true <-> submission f <> None)
  /\ (forall req, submission f = Some req -> fst (validateOnboardingData req) = true)
  /\ (submission f <> None -> forall now,
        submit_spinner (render_screen now (scr f)) = true
        /\ submit_disabled (render_screen now (scr f)) = true
        /\ (covered f = false -> form_step tz now f SubmitPress = Some (f, []))).
Proof.
  intros Hr. destruct (reachable_submit_inv tz kv0 f Hr) as [Hiff Hv].
  split; [exact Hiff|]. split; [exact Hv|]. intros Hp now. apply Hiff in Hp.
  cbn [render_screen submit_spinner submit_disabled]. rewrite Hp, orb_true_r.
  split; [reflexivity|]. split; [reflexivity|]. intros Hc. cbn [form_step]. rewrite Hc.
  unfold press_submit_begin. rewrite Hp, andb_false_r. cbn. rewrite form_eta. reflexivity.
Qed.

(** C11. The answer lands on the state of its own moment: whatever events
    came between the press and the answer, a delivered answer shows the
    success alert and card with the record of the request taken at the
    press (not the values the fields hold now, which stay on screen),
    clears [isSubmitting], and the record is served back by id; with no
    answer from the server the screen alerts the network error and keeps
    its success card and the store as they were. *)
Theorem settle_outcomes tz kv0 f now req b64 subAt e :
  form_reachable tz kv0 f -> submission f = Some req -> str_has "/" (rnd e) = false ->
  (exists f', form_step tz now f (SubmitSettle b64 subAt Delivered e)
              = Some (f', [ScreenOut (ScreenAlertMsg "Success" "Onboarding submitted successfully")])
     /\ showSuccess (scr f') = true /\ isSubmitting (scr f') = false /\ submission f' = None
     /\ cells (scr f') = cells (scr f)
     /\ exists r, submittedData (scr f') = Some r
         /\ rec_name r = Some (JStr (req_name req)) /\ rec_email r = Some (JStr (req_email req))
         /\ fst (fetch "GET" ("/api/onboard/" ++ rec_id r) None e (store f'))
            = {| status := 200; body := BodyFound r |})
  /\ (exists f', form_step tz now f (SubmitSettle b64 subAt NoResponse e)
              = Some (f', [ScreenOut (ScreenAlertMsg "Error"
                                        "No response from server. Please check your internet connection.")])
     /\ store f' = store f /\ showSuccess (scr f') = showSuccess (scr f)
     /\ submittedData (scr f') = submittedData (scr f)
     /\ isSubmitting (scr f') = false /\ submission f' = None).
Proof.
  intros Hr Hp Hrnd. pose proof (proj2 (reachable_submit_inv tz kv0 f Hr) req Hp) as Hv.
  split; [exact (settle_step_delivered tz now f req b64 subAt e Hp Hv Hrnd)|].
  exact (settle_step_offline tz now f req b64 subAt e Hp).
Qed.

(** C17. End to end through the composed form: in a reachable form with
    nothing covering the screen and the submit button enabled, the press
    suspends a submission of the screen's request and shows the spinner;
    when the worker's answer arrives the success alert and card show the
    record it stored, which holds the screen's name and e-mail and is
    served by [GET /api/onboard/<id>] from the new store. *)
Theorem form_submit_end_to_end tz kv0 f now now' b64 subAt e :
  form_reachable tz kv0 f -> covered f = false ->
  submit_disabled (render_screen now (scr f)) = false -> str_has "/" (rnd e) = false ->
  exists f1 f2, form_step tz now f SubmitPress = Some (f1, [])
    /\ submit_spinner (render_screen now' (scr f1)) = true
    /\ form_step tz now' f1 (SubmitSettle b64 subAt Delivered e)
       = Some (f2, [ScreenOut (ScreenAlertMsg "Success" "Onboarding submitted successfully")])
    /\ showSuccess (scr f2) = true /\ isSubmitting (scr f2) = false
    /\ exists r, submittedData (scr f2) = Some r
        /\ rec_name r = Some (JStr (name (scr f))) /\ rec_email r = Some (JStr (email (scr f)))
        /\ fst (fetch "GET" ("/api/onboard/" ++ rec_id r) None e (store f2))
           = {| status := 200; body := BodyFound r |}.
Proof.
  intros Hr Hc Hd Hrnd. pose proof (enabled_submit_valid tz kv0 f now Hr Hd) as Hv.
  destruct (press_step_enabled tz kv0 f now Hr Hc Hd) as (f1 & E1 & Hp & Hs & _ & _).
  assert (Hv' : fst (validateOnboardingData (request_of (scr f))) = true) by (rewrite Hv; reflexivity).
  destruct (settle_step_delivered tz now' f1 _ b64 subAt e Hp Hv' Hrnd)
    as (f2 & E2 & Hss & Hsub & _ & _ & r & Hrec & Hn & He & Hget).
  exists f1, f2. split; [exact E1|]. split; [cbn; rewrite Hs; reflexivity|].
  split; [exact E2|]. split; [exact Hss|]. split; [exact Hsub|].
  exists r. auto.
Qed.

(** C31. The name's length rule is not enforced on submission: in every
    reachable form whose name is one character and whose submit button is
    enabled, the name input's rules report "Name must be at least 2
    characters" for it, yet [isFormValid] (which never reads
    [isNameValid]) lets the press through, the client's check passes,
    and the worker's answer shows the success card with the one-letter
    name stored. *)
Theorem one_letter_name_submitted tz kv0 f now c b64 subAt e :
  form_reachable tz kv0 f -> covered f = false -> submit_disabled (render_screen now (scr f)) = false ->
  name (scr f) = String c "" -> str_has "/" (rnd e) = false ->
  validate (name (scr f)) name_validators = Ok ["Name must be at least 2 characters"]
  /\ exists f1 f2, form_step tz now f SubmitPress = Some (f1, [])
    /\ form_step tz now f1 (SubmitSettle b64 subAt Delivered e)
       = Some (f2, [ScreenOut (ScreenAlertMsg "Success" "Onboarding submitted successfully")])
    /\ showSuccess (scr f2) = true
    /\ exists r, submittedData (scr f2) = Some r /\ rec_name r = Some (JStr (String c "")).
Proof.
  intros Hr Hc Hd Hn Hrnd. pose proof (enabled_submit_valid tz kv0 f now Hr Hd) as Hv.
  pose proof Hd as Hd'. apply submit_enabled_iff in Hd' as [Hf _].
  assert (Hsp : js_is_space c = false).
  { unfold isFormValid in Hf. rewrite Hn in Hf. cbn [js_blank] in Hf.
    destruct (js_is_space c); [discriminate|reflexivity]. }
  split; [rewrite Hn; exact (one_char_name_fails c Hsp)|].
  destruct (press_step_enabled tz kv0 f now Hr Hc Hd) as (f1 & E1 & Hp & _ & _ & _).
  assert (Hv' : fst (validateOnboardingData (request_of (scr f))) = true) by (rewrite Hv; reflexivity).
  destruct (settle_step_delivered tz now f1 _ b64 subAt e Hp Hv' Hrnd)
    as (f2 & E2 & Hss & _ & _ & _ & r & Hrec & Hrn & _).
  exists f1, f2. split; [exact E1|]. split; [exact E2|]. split; [exact Hss|].
  exists r. split; [exact Hrec|]. rewrite Hrn. cbn [request_of req_name]. rewrite Hn. reflexivity.
Qed.

(** ** At concrete inputs *)

(** The session of [Form], the press, and the name retyped while the
    request is out. *)
Definition ada_pressed_session : list (Z * FormEvent) := (ada_session ++ [(jan1_2025, SubmitPress)])%list.

Definition ada_edited_session : list (Z * FormEvent) :=
  (ada_pressed_session ++ [(jan1_2025, NameEvent (TextInput.ChangeText "Grace Hopper"))])%list.

Definition ada_edited : Form := fst (form_run 0 (initial_form ∅) ada_edited_session).

Lemma ada_edited_wf : Forall (fun e => form_event_wf (snd e)) ada_edited_session.
Proof. apply Forall_app. split; [apply Forall_app; split; [exact ada_session_wf|repeat constructor]|repeat constructor]. Qed.

Lemma ada_edited_reachable : form_reachable 0 ∅ ada_edited.
Proof. apply form_run_reachable; [exact ada_edited_wf|apply form_init]. Qed.

Definition ada_request : OnboardingSubmitRequest := request_of (scr ada_filled).

Lemma submission_in_flight_witness :
  let f := ada_edited in
  (isSubmitting (scr f) = true <-> submission f <> None)
  /\ (forall req, submission f = Some req -> fst (validateOnboardingData req) = true)
  /\ (submission f <> None -> forall now,
        submit_spinner (render_screen now (scr f)) = true
        /\ submit_disabled (render_screen now (scr f)) = true
        /\ (covered f = false -> form_step 0 now f SubmitPress = Some (f, []))).
Proof.
  apply (submission_in_flight 0 ∅ ada_edited).
  apply form_run_reachable; [exact ada_edited_wf|apply form_init].
Defined.

(** The answer arrives after the edit: the card holds "Ada Lovelace"
    while the name field holds "Grace Hopper". *)
Lemma settle_outcomes_witness :
  submission ada_edited = Some ada_request
  /\ name (scr ada_edited) = "Grace Hopper" /\ req_name ada_request = "Ada Lovelace"
  /\ ((exists f', form_step 0 jan1_2025 ada_edited (SubmitSettle (fun _ => None) "2025-06-01T00:00:00.000Z" Delivered sample_env)
              = Some (f', [ScreenOut (ScreenAlertMsg "Success" "Onboarding submitted successfully")])
     /\ showSuccess (scr f') = true /\ isSubmitting (scr f') = false /\ submission f' = None
     /\ cells (scr f') = cells (scr ada_edited)
     /\ exists r, submittedData (scr f') = Some r
         /\ rec_name r = Some (JStr (req_name ada_request)) /\ rec_email r = Some (JStr (req_email ada_request))
         /\ fst (fetch "GET" ("/api/onboard/" ++ rec_id r) None sample_env (store f'))
            = {| status := 200; body := BodyFound r |})
  /\ (exists f', form_step 0 jan1_2025 ada_edited (SubmitSettle (fun _ => None) "2025-06-01T00:00:00.000Z" NoResponse sample_env)
              = Some (f', [ScreenOut (ScreenAlertMsg "Error"
                                        "No response from server. Please check your internet connection.")])
     /\ store f' = store ada_edited /\ showSuccess (scr f') = showSuccess (scr ada_edited)
     /\ submittedData (scr f') = submittedData (scr ada_edited)
     /\ isSubmitting (scr f') = false /\ submission f' = None)).
Proof.
  split; [vm_compute; reflexivity|]. split; [vm_compute; reflexivity|]. split; [vm_compute; reflexivity|].
  apply (settle_outcomes 0 ∅ ada_edited jan1_2025 ada_request).
  - apply form_run_reachable; [exact ada_edited_wf|apply form_init].
  - vm_compute. reflexivity.
  - vm_compute. reflexivity.
Defined.

Lemma form_submit_end_to_end_witness :
  exists f1 f2, form_step 0 jan1_2025 ada_filled SubmitPress = Some (f1, [])
    /\ submit_spinner (render_screen jan1_2025 (scr f1)) = true
    /\ form_step 0 jan1_2025 f1 (SubmitSettle (fun _ => None) "2025-06-01T00:00:00.000Z" Delivered sample_env)
       = Some (f2, [ScreenOut (ScreenAlertMsg "Success" "Onboarding submitted successfully")])
    /\ showSuccess (scr f2) = true /\ isSubmitting (scr f2) = false
    /\ exists r, submittedData (scr f2) = Some r
        /\ rec_name r = Some (JStr (name (scr ada_filled))) /\ rec_email r = Some (JStr (email (scr ada_filled)))
        /\ fst (fetch "GET" ("/api/onboard/" ++ rec_id r) None sample_env (store f2))
           = {| status := 200; body := BodyFound r |}.
Proof.
  apply (form_submit_end_to_end 0 ∅ ada_filled jan1_2025 jan1_2025).
  - apply form_run_reachable; [exact ada_session_wf|apply form_init].
  - vm_compute. reflexivity.
  - vm_compute. reflexivity.
  - vm_compute. reflexivity.
Defined.

(** The session of [Form] with the name then shortened to "A". *)
Definition one_letter_session : list (Z * FormEvent) :=
  (ada_session ++ [(jan1_2025, NameEvent (TextInput.ChangeText "A"))])%list.

Definition one_letter_form : Form := fst (form_run 0 (initial_form ∅) one_letter_session).

Lemma one_letter_name_submitted_witness :
  validate (name (scr one_letter_form)) name_validators = Ok ["Name must be at least 2 characters"]
  /\ exists f1 f2, form_step 0 jan1_2025 one_letter_form SubmitPress = Some (f1, [])
    /\ form_step 0 jan1_2025 f1 (SubmitSettle (fun _ => None) "2025-06-01T00:00:00.000Z" Delivered sample_env)
       = Some (f2, [ScreenOut (ScreenAlertMsg "Success" "Onboarding submitted successfully")])
    /\ showSuccess (scr f2) = true
    /\ exists r, submittedData (scr f2) = Some r /\ rec_name r = Some (JStr "A").
Proof.
  apply (one_letter_name_submitted 0 ∅ one_letter_form jan1_2025 "A"%char).
  - apply form_run_reachable; [|apply form_init].
    apply Forall_app. split; [exact ada_session_wf|repeat constructor].
  - vm_compute. reflexivity.
  - vm_compute. reflexivity.
  - vm_compute. reflexivity.
  - vm_compute. reflexivity.
Defined.

End Submission.
